(** * AGP Strategy Suite: the setup analysis core, embedded and verified

    A shallow embedding of the Python modules

    - [agp_core/analysis/setup_analyzer.py]   (modules [setup_analyzer]
      and [setup_analyzer_feed]),
    - [agp_core/setup/telemetry_analyzer.py]  (modules [telemetry_analyzer]
      and [telemetry_corners]),
    - [agp_core/setup/entities/*.py]          (module [entities]),
    - [agp_core/setup/rules/*.py]             (module [rules]),
    - [agp_core/setup/setup_correlator.py]    (modules [setup_correlator],
      [binary64] and [binary64_reports]),

    followed by the theorems about them.

    Numbers.  Python [int]s are [Z] (counters are [nat]).  Python [float]s
    are idealised as exact numbers: rationals [Q] in the two analyzers, whose
    code only adds, multiplies, divides and compares, so that the embedding
    still runs; real numbers [R] in the entities, the rules and the
    correlator, which takes square roots and logarithms.  Rounding, NaN and
    infinities are outside these models.  The correlator compares a computed
    square root with zero, which rounding can change, so that it is embedded
    a second time on IEEE 754 binary64 numbers (modules [binary64] and
    [binary64_reports], on Rocq's primitive floats), where it runs as
    CPython runs it; what is said of the lists the correlator returns is
    said there.

    Containers.  A Python [dict] keeps its insertion order and the code
    depends on it (ties of a stable sort are resolved by it), so a dict is an
    association list with unique keys, [dict_set] updating in place or
    appending at the end. *)

From Stdlib Require Import String Ascii List Bool ZArith QArith Qabs Qround.
From Stdlib Require Import Qpower.
From Stdlib Require Import Reals Psatz Permutation Sorted.
From Stdlib Require PrimFloat Uint63 Floats.
Import ListNotations.

(* ================================================================== *)
(** * Python built-ins used by the code *)
(* ================================================================== *)

Module py.

Section Dict.
Context {K V : Type} (eqb : K -> K -> bool).

Definition dict := list (K * V).

(** [d.get(k)] *)
Fixpoint dict_get (d : list (K * V)) (k : K) : option V :=
  match d with
  | [] => None
  | (k', v) :: t => if eqb k k' then Some v else dict_get t k
  end.

(** [d.get(k, default)] *)
Definition dict_get_default (d : list (K * V)) (k : K) (default : V) : V :=
  match dict_get d k with Some v => v | None => default end.

(** [k in d] *)
Definition dict_mem (d : list (K * V)) (k : K) : bool :=
  match dict_get d k with Some _ => true | None => false end.

(** [d[k] = v]: an existing key keeps its place, a new key goes last. *)
Fixpoint dict_set (d : list (K * V)) (k : K) (v : V) : list (K * V) :=
  match d with
  | [] => [(k, v)]
  | (k', v') :: t =>
      if eqb k k' then (k', v) :: t else (k', v') :: dict_set t k v
  end.

Definition keys (d : list (K * V)) : list K := map fst d.
End Dict.

Section Sorted.
Context {A : Type} (before : A -> A -> bool).

(** [insert x l] puts [x] in front of the first element that need not
    come strictly before it: [x] precedes the elements it ties with. *)
Fixpoint insert (x : A) (l : list A) : list A :=
  match l with
  | [] => [x]
  | y :: t => if before y x then y :: insert x t else x :: y :: t
  end.

(** The stable sort of [sorted] and [list.sort]: elements with equal keys
    keep the order they had in [l].  [before y x] says that [y] sorts
    strictly before [x]: [key(y) < key(x)], or [key(y) > key(x)] under
    [reverse=True]. *)
Definition sorted (l : list A) : list A := fold_right insert [] l.
End Sorted.

Section Strings.
(** [c.lower()] on an ASCII character. *)
Definition lower_ascii (c : ascii) : ascii :=
  let n := nat_of_ascii c in
  if ((65 <=? n) && (n <=? 90))%nat then ascii_of_nat (n + 32) else c.

(** [s.lower()]; the text is ASCII. *)
Fixpoint lower (s : string) : string :=
  match s with
  | EmptyString => EmptyString
  | String c t => String (lower_ascii c) (lower t)
  end.

(** [kw in s]: [kw] occurs in [s] as a substring. *)
Fixpoint contains (kw s : string) : bool :=
  String.prefix kw s
  || match s with
     | EmptyString => false
     | String _ t => contains kw t
     end.
End Strings.

(** [[f(x) for x in l if ...]]: the elements for which the loop body
    does not [continue]. *)
Fixpoint filter_map {A B : Type} (f : A -> option B) (l : list A) : list B :=
  match l with
  | [] => []
  | x :: t =>
      match f x with
      | Some y => y :: filter_map f t
      | None => filter_map f t
      end
  end.

(** [l[-1]] on a non-empty list. *)
Definition last_opt {A : Type} (l : list A) : option A :=
  match l with
  | [] => None
  | x :: t => Some (last t x)
  end.

Section Rationals.
Local Open Scope Q_scope.

Definition Qltb (x y : Q) : bool := negb (Qle_bool y x).

(** [min(a, b)]: the first argument unless the second is smaller. *)
Definition min (a b : Q) : Q := if Qltb b a then b else a.

(** [max(a, b)]: the first argument unless the second is larger. *)
Definition max (a b : Q) : Q := if Qltb a b then b else a.

(** [max(l)] for a non-empty [l]; Python raises on an empty one, which no
    caller below passes (the value 0 stands for that case). *)
Definition max_list (l : list Q) : Q :=
  match l with
  | [] => 0
  | x :: t => fold_left max t x
  end.

(** [sum(l)] *)
Definition sum (l : list Q) : Q := fold_left Qplus l 0.

(** [len(l)] as a number *)
Definition len {A : Type} (l : list A) : Q := inject_Z (Z.of_nat (length l)).

Definition of_nat (n : nat) : Q := inject_Z (Z.of_nat n).

(** [int(x)]: truncation towards zero. *)
Definition int (x : Q) : Z := Z.quot (Qnum x) (Zpos (Qden x)).

(** [round(x)]: the nearest integer, a tie going to the even one. *)
Definition round (x : Q) : Z :=
  let f := Qfloor x in
  let d := x - inject_Z f in
  if Qltb d (1 # 2) then f
  else if Qltb (1 # 2) d then (f + 1)%Z
  else if Z.even f then f else (f + 1)%Z.
End Rationals.

Section RealNumbers.
Local Open Scope R_scope.

(** [min(a, b)] and [max(a, b)] on floats idealised as reals. *)
Definition min_r (a b : R) : R := if Rlt_dec b a then b else a.
Definition max_r (a b : R) : R := if Rlt_dec a b then b else a.

(** [min(l)] and [max(l)]; [None] is the [ValueError] of an empty
    sequence. *)
Definition min_list_r (l : list R) : option R :=
  match l with
  | [] => None
  | x :: t => Some (fold_left min_r t x)
  end.

Definition max_list_r (l : list R) : option R :=
  match l with
  | [] => None
  | x :: t => Some (fold_left max_r t x)
  end.

(** [sum(l)] *)
Definition sum_r (l : list R) : R := fold_left Rplus l 0.

(** [l.index(x)]: the first position of [x]; [None] is the [ValueError]
    of an absent element. *)
Fixpoint index_r (l : list R) (x : R) : option nat :=
  match l with
  | [] => None
  | y :: t =>
      if Req_dec_T y x then Some O
      else match index_r t x with
           | Some i => Some (S i)
           | None => None
           end
  end.

(** [math.log2(x)] *)
Definition log2 (x : R) : R := ln x / ln 2.
End RealNumbers.

(** Exceptions: a computation returns a value or raises. *)
Inductive exn : Set := ValueError | IndexError | KeyError | ZeroDivisionError.

Inductive result (A : Type) : Type :=
  | Ok (a : A)
  | Raise (e : exn).
Arguments Ok {A} a.
Arguments Raise {A} e.

Definition bind {A B : Type} (m : result A) (k : A -> result B) : result B :=
  match m with
  | Ok a => k a
  | Raise e => Raise e
  end.

(** [math.sqrt(x)]: a [ValueError] below zero. *)
Definition sqrt (x : R) : result R :=
  if Rlt_dec x 0 then Raise ValueError else Ok (R_sqrt.sqrt x).

(** An [option] whose [None] stands for the exception [e]. *)
Definition or_raise {A : Type} (e : exn) (o : option A) : result A :=
  match o with
  | Some a => Ok a
  | None => Raise e
  end.

End py.

Notation "x <- m ;; k" := (py.bind m (fun x => k))
  (at level 61, m at next level, right associativity).
Notation "' pat <- m ;; k" := (py.bind m (fun pat => k))
  (at level 61, pat pattern, m at next level, right associativity).

(* ================================================================== *)
(** * agp_core/analysis/setup_analyzer.py *)
(* ================================================================== *)

Module setup_analyzer.

Local Open Scope string_scope.
Local Open Scope list_scope.
Local Open Scope Q_scope.

Inductive CornerPhase : Set :=
  | STRAIGHT | BRAKING | ENTRY | MID | EXIT | ACCELERATION.

Inductive Problem : Set :=
  | UNDERSTEER_ENTRY | UNDERSTEER_MID | UNDERSTEER_EXIT
  | OVERSTEER_ENTRY | OVERSTEER_MID | OVERSTEER_EXIT
  | WHEELSPIN | WHEEL_LOCK | INSTABILITY_HIGH_SPEED
  | TIRE_OVERHEAT_FRONT | TIRE_OVERHEAT_REAR
  | TIRE_COLD_FRONT | TIRE_COLD_REAR
  | BRAKE_OVERHEAT_FRONT | BRAKE_OVERHEAT_REAR
  | EXCESSIVE_ROLL | BOTTOMING | POOR_TRACTION.

Scheme Equality for CornerPhase.
Scheme Equality for Problem.

(** [problem.value] *)
Definition Problem_value (p : Problem) : string :=
  match p with
  | UNDERSTEER_ENTRY => "understeer_entry"
  | UNDERSTEER_MID => "understeer_mid"
  | UNDERSTEER_EXIT => "understeer_exit"
  | OVERSTEER_ENTRY => "oversteer_entry"
  | OVERSTEER_MID => "oversteer_mid"
  | OVERSTEER_EXIT => "oversteer_exit"
  | WHEELSPIN => "wheelspin"
  | WHEEL_LOCK => "wheel_lock"
  | INSTABILITY_HIGH_SPEED => "instability_high_speed"
  | TIRE_OVERHEAT_FRONT => "tire_overheat_front"
  | TIRE_OVERHEAT_REAR => "tire_overheat_rear"
  | TIRE_COLD_FRONT => "tire_cold_front"
  | TIRE_COLD_REAR => "tire_cold_rear"
  | BRAKE_OVERHEAT_FRONT => "brake_overheat_front"
  | BRAKE_OVERHEAT_REAR => "brake_overheat_rear"
  | EXCESSIVE_ROLL => "excessive_roll"
  | BOTTOMING => "bottoming"
  | POOR_TRACTION => "poor_traction"
  end.

(** Definition of a setup parameter with effects.  Effects on problems:
    negative = helps, positive = hurts. *)
Record SetupParameter : Type := mk_param_full {
  name : string;
  display_name : string;
  unit : string;
  category : string;
  effects : list (Problem * Q);
  interactions : list (string * Q)
}.

Definition mk_param (n d u c : string) (e : list (Problem * Q)) :=
  mk_param_full n d u c e [].

(** A list of four floats, one per wheel: FL, FR, RL, RR (indices 0..3). *)
Record Wheels : Type := wheels { w0 : Q; w1 : Q; w2 : Q; w3 : Q }.

Definition wheels_min (w : Wheels) : Q :=
  py.min (py.min (py.min (w0 w) (w1 w)) (w2 w)) (w3 w).

(** Single telemetry sample *)
Record Sample : Type := {
  timestamp : Q;
  phase : CornerPhase;
  speed : Q;
  throttle : Q;
  brake : Q;
  steering : Q;
  g_lat : Q;
  g_long : Q;
  tire_temp : Wheels;
  tire_temp_inner : Wheels;
  tire_temp_outer : Wheels;
  tire_pressure : Wheels;
  tire_wear : Wheels;
  grip : Wheels;
  tire_load : Wheels;
  slip_ratio : Wheels;
  brake_temp : Wheels;
  ride_height : Wheels;
  susp_deflection : Wheels;
  front_downforce : Q;
  rear_downforce : Q;
  rake : Q;
  camber : Wheels;
  toe : Wheels
}.

(** The inner dict of [behavior]: keys "understeer", "oversteer", "neutral". *)
Record Behavior : Type := {
  understeer : Q;
  oversteer : Q;
  neutral : Q
}.

(** Analysis results for one lap *)
Record LapAnalysis : Type := {
  lap_number : Z;
  lap_time : Q;
  sample_count : nat;
  behavior : list (CornerPhase * Behavior);
  problems : list (Problem * Q);
  tire_temps_avg : Wheels;
  tire_temps_max : Wheels;
  tire_pressure_avg : Wheels;
  tire_wear_start : Wheels;
  tire_wear_end : Wheels;
  tire_balance : Wheels;
  brake_temps_max : Wheels;
  avg_rake : Q;
  max_roll_front : Q;
  max_roll_rear : Q;
  bottoming_events : nat;
  wheelspin_pct : Q;
  lockup_pct : Q;
  avg_rear_slip : Q;
  stability_score : Q;
  high_speed_corrections : Q
}.

(** The suggested value is a formatted string: either one of the two fixed
    texts, or [current → new_val], kept here as its two numbers. *)
Inductive Suggestion : Type :=
  | Text (s : string)
  | Arrow (current new_val : Q).

(** The reason is the string [Corrige <label> (<pct>%)], kept as its parts. *)
Record Reason : Type := Corrige { label : string; pct : Q }.

(** Setup recommendation *)
Record Recommendation : Type := {
  parameter : string;
  direction : string;
  value : Suggestion;
  reason : Reason;
  priority : Z;
  addresses : list Problem;
  side_effects : list string;
  confidence : Q
}.

(** One entry of [optimal_ranges]: triples are (min, max, optimal). *)
Record Ranges : Type := {
  r_tire_temp : Q * Q * Q;
  r_tire_pressure : Q * Q * Q;
  r_brake_temp : Q * Q * Q;
  r_brake_temp_max : Q;
  r_engine_temp : Q * Q * Q
}.

(** The analyzer object. *)
Record SetupAnalyzer : Type := {
  samples : list Sample;
  current_lap_samples : list Sample;
  current_lap : Z;
  lap_analyses : list LapAnalysis;
  current_setup : list (string * Q);
  vehicle_name : string;
  vehicle_category : string;
  parameters : list (string * SetupParameter);
  optimal_ranges : list (string * Ranges)
}.

(** [_init_parameters]: parameter definitions with effects. *)
Definition _init_parameters : list (string * SetupParameter) := [
    ("front_spring", mk_param "front_spring" "Ressort Avant" "N/mm" "suspension"
       [(UNDERSTEER_ENTRY, - 0.25); (UNDERSTEER_MID, - 0.15); (OVERSTEER_EXIT, 0.15); (TIRE_OVERHEAT_FRONT, 0.1); (INSTABILITY_HIGH_SPEED, - 0.1)]);
    ("rear_spring", mk_param "rear_spring" "Ressort Arriere" "N/mm" "suspension"
       [(UNDERSTEER_ENTRY, 0.15); (OVERSTEER_EXIT, - 0.3); (POOR_TRACTION, 0.15); (TIRE_OVERHEAT_REAR, 0.1)]);
    ("front_slow_bump", mk_param "front_slow_bump" "Bump Lent AV" "clicks" "dampers"
       [(UNDERSTEER_ENTRY, - 0.2); (UNDERSTEER_MID, - 0.1); (INSTABILITY_HIGH_SPEED, - 0.1)]);
    ("front_fast_bump", mk_param "front_fast_bump" "Bump Rapide AV" "clicks" "dampers"
       [(BOTTOMING, - 0.2)]);
    ("rear_slow_bump", mk_param "rear_slow_bump" "Bump Lent AR" "clicks" "dampers"
       [(OVERSTEER_EXIT, - 0.15); (POOR_TRACTION, 0.12); (WHEELSPIN, 0.1)]);
    ("rear_fast_bump", mk_param "rear_fast_bump" "Bump Rapide AR" "clicks" "dampers"
       [(BOTTOMING, - 0.15); (POOR_TRACTION, 0.08)]);
    ("front_slow_rebound", mk_param "front_slow_rebound" "Detente Lente AV" "clicks" "dampers"
       [(UNDERSTEER_ENTRY, 0.18); (INSTABILITY_HIGH_SPEED, - 0.15)]);
    ("front_fast_rebound", mk_param "front_fast_rebound" "Detente Rapide AV" "clicks" "dampers"
       [(INSTABILITY_HIGH_SPEED, - 0.1)]);
    ("rear_slow_rebound", mk_param "rear_slow_rebound" "Detente Lente AR" "clicks" "dampers"
       [(OVERSTEER_ENTRY, - 0.2); (OVERSTEER_EXIT, 0.12); (POOR_TRACTION, - 0.08)]);
    ("rear_fast_rebound", mk_param "rear_fast_rebound" "Detente Rapide AR" "clicks" "dampers"
       [(INSTABILITY_HIGH_SPEED, - 0.08)]);
    ("front_arb", mk_param "front_arb" "Barre Anti-Roulis AV" "N/mm" "suspension"
       [(UNDERSTEER_ENTRY, - 0.3); (UNDERSTEER_MID, - 0.35); (OVERSTEER_EXIT, 0.2); (EXCESSIVE_ROLL, - 0.3); (TIRE_OVERHEAT_FRONT, 0.08)]);
    ("rear_arb", mk_param "rear_arb" "Barre Anti-Roulis AR" "N/mm" "suspension"
       [(UNDERSTEER_ENTRY, 0.2); (UNDERSTEER_MID, 0.25); (OVERSTEER_EXIT, - 0.35); (OVERSTEER_ENTRY, - 0.15); (EXCESSIVE_ROLL, - 0.25); (POOR_TRACTION, 0.12)]);
    ("front_camber", mk_param "front_camber" "Carrossage AV" "deg" "geometry"
       [(UNDERSTEER_MID, - 0.25); (TIRE_OVERHEAT_FRONT, 0.15)]);
    ("rear_camber", mk_param "rear_camber" "Carrossage AR" "deg" "geometry"
       [(OVERSTEER_MID, - 0.2); (TIRE_OVERHEAT_REAR, 0.15); (POOR_TRACTION, 0.08)]);
    ("front_toe", mk_param "front_toe" "Pincement AV" "deg" "geometry"
       [(UNDERSTEER_ENTRY, 0.15); (INSTABILITY_HIGH_SPEED, - 0.2); (TIRE_OVERHEAT_FRONT, 0.1)]);
    ("rear_toe", mk_param "rear_toe" "Pincement AR" "deg" "geometry"
       [(OVERSTEER_EXIT, - 0.25); (INSTABILITY_HIGH_SPEED, - 0.3); (POOR_TRACTION, - 0.1); (TIRE_OVERHEAT_REAR, 0.1)]);
    ("front_wing", mk_param "front_wing" "Aileron AV" "deg" "aero"
       [(UNDERSTEER_MID, - 0.2); (UNDERSTEER_ENTRY, - 0.15)]);
    ("rear_wing", mk_param "rear_wing" "Aileron AR" "deg" "aero"
       [(OVERSTEER_MID, - 0.3); (OVERSTEER_EXIT, - 0.2); (INSTABILITY_HIGH_SPEED, - 0.35); (POOR_TRACTION, - 0.2)]);
    ("front_ride_height", mk_param "front_ride_height" "Hauteur Caisse AV" "mm" "aero"
       [(UNDERSTEER_MID, 0.1); (BOTTOMING, - 0.3)]);
    ("rear_ride_height", mk_param "rear_ride_height" "Hauteur Caisse AR" "mm" "aero"
       [(OVERSTEER_MID, 0.1); (BOTTOMING, - 0.25); (POOR_TRACTION, 0.08)]);
    ("diff_power", mk_param "diff_power" "Diff Puissance" "%" "differential"
       [(POOR_TRACTION, - 0.25); (WHEELSPIN, - 0.15); (OVERSTEER_EXIT, 0.3)]);
    ("diff_coast", mk_param "diff_coast" "Diff Deceleration" "%" "differential"
       [(OVERSTEER_ENTRY, 0.25); (INSTABILITY_HIGH_SPEED, 0.1)]);
    ("diff_preload", mk_param "diff_preload" "Precharge Diff" "Nm" "differential"
       [(POOR_TRACTION, - 0.1); (OVERSTEER_EXIT, 0.08)]);
    ("brake_bias", mk_param "brake_bias" "Repartition Freinage" "%" "brakes"
       [(OVERSTEER_ENTRY, - 0.35); (UNDERSTEER_ENTRY, 0.25); (WHEEL_LOCK, - 0.2); (BRAKE_OVERHEAT_FRONT, 0.15); (BRAKE_OVERHEAT_REAR, - 0.15)]);
    ("front_pressure", mk_param "front_pressure" "Pression AV" "kPa" "tires"
       [(UNDERSTEER_MID, 0.12); (TIRE_OVERHEAT_FRONT, - 0.15); (TIRE_COLD_FRONT, 0.2)]);
    ("rear_pressure", mk_param "rear_pressure" "Pression AR" "kPa" "tires"
       [(OVERSTEER_MID, 0.08); (POOR_TRACTION, 0.1); (TIRE_OVERHEAT_REAR, - 0.12); (TIRE_COLD_REAR, 0.18)])].

(** [_init_optimal_ranges]: optimal ranges by vehicle category. *)
Definition _init_optimal_ranges : list (string * Ranges) := [
  ("GT3",  Build_Ranges (75, 95, 85) (170, 190, 180) (300, 600, 450) 700 (82, 105, 92));
  ("LMP2", Build_Ranges (80, 95, 87) (165, 180, 172) (350, 650, 500) 750 (88, 105, 95));
  ("LMH",  Build_Ranges (82, 98, 90) (160, 178, 168) (380, 680, 530) 780 (90, 108, 98))
].

(** [__init__] *)
Definition __init__ : SetupAnalyzer := {|
  samples := [];
  current_lap_samples := [];
  current_lap := 0;
  lap_analyses := [];
  current_setup := [];
  vehicle_name := "";
  vehicle_category := "GT3";
  parameters := _init_parameters;
  optimal_ranges := _init_optimal_ranges
|}.

(** The fields of the telemetry object that this module reads outside the
    construction of a [Sample]. *)
Record TelemetryData : Type := {
  td_speed_kmh : Q;
  td_throttle : Q;
  td_brake : Q;
  td_steering : Q;
  td_front_downforce : Q;
  td_rear_downforce : Q
}.

Definition with_vehicle_category (self : SetupAnalyzer) (c : string) :=
  {| samples := samples self;
     current_lap_samples := current_lap_samples self;
     current_lap := current_lap self;
     lap_analyses := lap_analyses self;
     current_setup := current_setup self;
     vehicle_name := vehicle_name self;
     vehicle_category := c;
     parameters := parameters self;
     optimal_ranges := optimal_ranges self |}.

Definition with_lap_analyses (self : SetupAnalyzer) (l : list LapAnalysis) :=
  {| samples := samples self;
     current_lap_samples := current_lap_samples self;
     current_lap := current_lap self;
     lap_analyses := l;
     current_setup := current_setup self;
     vehicle_name := vehicle_name self;
     vehicle_category := vehicle_category self;
     parameters := parameters self;
     optimal_ranges := optimal_ranges self |}.

(** [_classify_phase]: classify current corner phase. *)
Definition _classify_phase (data : TelemetryData) : CornerPhase :=
  let brake := td_brake data in
  let throttle := td_throttle data in
  let steering := Qabs (td_steering data) in
  if py.Qltb 0.8 brake && py.Qltb steering 0.05 then BRAKING
  else if py.Qltb 0.15 brake && py.Qltb 0.03 steering then ENTRY
  else if py.Qltb 0.7 throttle && py.Qltb 0.03 steering then EXIT
  else if py.Qltb 0.9 throttle && py.Qltb steering 0.03 then ACCELERATION
  else if py.Qltb 0.08 steering then MID
  else STRAIGHT.

(** [_detect_vehicle_category]: detect vehicle category from telemetry. *)
Definition _detect_vehicle_category (self : SetupAnalyzer)
    (data : TelemetryData) : SetupAnalyzer :=
  if py.Qltb 0 (td_speed_kmh data) then
    if py.Qltb 15000 (td_front_downforce data + td_rear_downforce data) then
      with_vehicle_category self "LMH"
    else if py.Qltb 8000 (td_front_downforce data + td_rear_downforce data) then
      with_vehicle_category self "LMP2"
    else
      with_vehicle_category self "GT3"
  else self.

(** The body of the inner loop of [_analyze_behavior]: the three counters
    [(under, over, neutral)] after one more sample. *)
Definition count_behavior (acc : nat * nat * nat) (s : Sample)
    : nat * nat * nat :=
  let '(under, over, neutral) := acc in
  let front_grip := (w0 (grip s) + w1 (grip s)) / 2 in
  let rear_grip := (w2 (grip s) + w3 (grip s)) / 2 in
  let front_slip := (Qabs (w0 (slip_ratio s)) + Qabs (w1 (slip_ratio s))) / 2 in
  let rear_slip := (Qabs (w2 (slip_ratio s)) + Qabs (w3 (slip_ratio s))) / 2 in
  if py.Qltb front_grip (rear_grip - 0.03)
     || py.Qltb (rear_slip + 0.015) front_slip then
    (S under, over, neutral)
  else if py.Qltb rear_grip (front_grip - 0.03)
          || py.Qltb (front_slip + 0.015) rear_slip then
    (under, S over, neutral)
  else
    (under, over, S neutral).

(** The body of the outer loop of [_analyze_behavior], for one phase. *)
Definition phase_behavior (samples : list Sample) (ph : CornerPhase)
    : Behavior :=
  let phase_samples :=
    filter (fun s => CornerPhase_beq (phase s) ph) samples in
  if (length phase_samples <? 10)%nat then
    {| understeer := 0; oversteer := 0; neutral := 1 |}
  else
    let '(under, over, neutral) :=
      fold_left count_behavior phase_samples (0, 0, 0)%nat in
    let total := py.len phase_samples in
    {| understeer := py.of_nat under / total;
       oversteer := py.of_nat over / total;
       neutral := py.of_nat neutral / total |}.

(** [_analyze_behavior]: analyze behavior for each corner phase. *)
Definition _analyze_behavior (samples : list Sample)
    : list (CornerPhase * Behavior) :=
  fold_left
    (fun behavior ph =>
       py.dict_set CornerPhase_beq behavior ph (phase_behavior samples ph))
    [ENTRY; MID; EXIT] [].

(** [_calc_wheelspin_pct]: share of exit samples with wheelspin. *)
Definition _calc_wheelspin_pct (samples : list Sample) : Q :=
  let exit_samples :=
    filter (fun s => CornerPhase_beq (phase s) EXIT) samples in
  match exit_samples with
  | [] => 0
  | _ =>
    let spin_count :=
      length (filter
        (fun s => py.Qltb 0.08
           ((Qabs (w2 (slip_ratio s)) + Qabs (w3 (slip_ratio s))) / 2))
        exit_samples) in
    py.of_nat spin_count / py.len exit_samples
  end.

(** [_calc_lockup_pct]: share of braking samples with wheel lock. *)
Definition _calc_lockup_pct (samples : list Sample) : Q :=
  let brake_samples :=
    filter (fun s => CornerPhase_beq (phase s) BRAKING
                     || CornerPhase_beq (phase s) ENTRY) samples in
  match brake_samples with
  | [] => 0
  | _ =>
    let lock_count :=
      length (filter (fun s => py.Qltb (wheels_min (slip_ratio s)) (- 0.1))
                brake_samples) in
    py.of_nat lock_count / py.len brake_samples
  end.

(** [_calc_avg_rear_slip]: average rear slip ratio during acceleration. *)
Definition _calc_avg_rear_slip (samples : list Sample) : Q :=
  let exit_samples :=
    filter (fun s => CornerPhase_beq (phase s) EXIT) samples in
  match exit_samples with
  | [] => 0
  | _ =>
    let slips :=
      map (fun s => (Qabs (w2 (slip_ratio s)) + Qabs (w3 (slip_ratio s))) / 2)
          exit_samples in
    py.sum slips / py.len slips
  end.

Definition high_speed_samples (samples : list Sample) : list Sample :=
  filter (fun s => CornerPhase_beq (phase s) STRAIGHT && py.Qltb 180 (speed s))
         samples.

(** [_calc_stability_score]: high speed stability score. *)
Definition _calc_stability_score (samples : list Sample) : Q :=
  let high_speed := high_speed_samples samples in
  if (length high_speed <? 20)%nat then 1
  else
    let corrections := py.sum (map steering high_speed) / py.len high_speed in
    py.max 0 (1 - corrections * 8).

(** [_calc_high_speed_corrections]: steering corrections at high speed. *)
Definition _calc_high_speed_corrections (samples : list Sample) : Q :=
  let high_speed := high_speed_samples samples in
  match high_speed with
  | [] => 0
  | _ => py.sum (map steering high_speed) / py.len high_speed
  end.

Definition wheels_map_list (f : list Q -> Q) (g : Sample -> Wheels)
    (l : list Sample) : Wheels :=
  wheels (f (map (fun s => w0 (g s)) l)) (f (map (fun s => w1 (g s)) l))
         (f (map (fun s => w2 (g s)) l)) (f (map (fun s => w3 (g s)) l)).

(** [_calc_avg]: average for a list of 4-element arrays. *)
Definition _calc_avg (g : Sample -> Wheels) (data_list : list Sample)
    : Wheels :=
  match data_list with
  | [] => wheels 0 0 0 0
  | _ => wheels_map_list (fun l => py.sum l / py.len data_list) g data_list
  end.

(** [_calc_max]: max for a list of 4-element arrays. *)
Definition _calc_max (g : Sample -> Wheels) (data_list : list Sample)
    : Wheels :=
  match data_list with
  | [] => wheels 0 0 0 0
  | _ => wheels_map_list py.max_list g data_list
  end.

(** [_calc_tire_balance]: inner-outer temperature balance. *)
Definition _calc_tire_balance (samples : list Sample) : Wheels :=
  match py.last_opt samples with
  | None => wheels 0 0 0 0
  | Some last =>
    wheels (w0 (tire_temp_inner last) - w0 (tire_temp_outer last))
           (w1 (tire_temp_inner last) - w1 (tire_temp_outer last))
           (w2 (tire_temp_inner last) - w2 (tire_temp_outer last))
           (w3 (tire_temp_inner last) - w3 (tire_temp_outer last))
  end.

(** [max(abs(s.ride_height[i] - s.ride_height[j]) for s in samples)] *)
Definition max_roll (i j : Wheels -> Q) (samples : list Sample) : Q :=
  py.max_list
    (map (fun s => Qabs (i (ride_height s) - j (ride_height s))) samples).

(** [sum(1 for s in samples if min(s.ride_height) < 5)] *)
Definition count_bottoming (samples : list Sample) : nat :=
  length (filter (fun s => py.Qltb (wheels_min (ride_height s)) 5) samples).

(** [behavior.get(ph, {}).get(key, 0)] and [behavior[ph][key]], which agree
    wherever the code evaluates the second. *)
Definition behavior_get (behavior : list (CornerPhase * Behavior))
    (ph : CornerPhase) (key : Behavior -> Q) : Q :=
  match py.dict_get CornerPhase_beq behavior ph with
  | Some b => key b
  | None => 0
  end.

(** [if c: problems[k] = v] *)
Definition assign_if (c : bool) (problems : list (Problem * Q))
    (k : Problem) (v : Q) : list (Problem * Q) :=
  if c then py.dict_set Problem_beq problems k v else problems.

Definition triple_min (t : Q * Q * Q) : Q := fst (fst t).
Definition triple_max (t : Q * Q * Q) : Q := snd (fst t).

(** [self.optimal_ranges.get(self.vehicle_category, self.optimal_ranges["GT3"])];
    [None] is the [KeyError] of a table without "GT3". *)
Definition lookup_ranges (self : SetupAnalyzer) : option Ranges :=
  match py.dict_get String.eqb (optimal_ranges self) "GT3" with
  | None => None
  | Some gt3 =>
      Some (py.dict_get_default String.eqb (optimal_ranges self)
              (vehicle_category self) gt3)
  end.

(** The body of [_detect_problems] once [ranges] is known.  The lap has at
    least 100 samples here, so no [max] is taken of an empty sequence. *)
Definition detect_problems_in (ranges : Ranges) (samples : list Sample)
    (behavior : list (CornerPhase * Behavior)) : list (Problem * Q) :=
  let problems := [] in
  (* Behavior problems *)
  let problems :=
    assign_if (py.Qltb 0.35 (behavior_get behavior ENTRY understeer))
      problems UNDERSTEER_ENTRY (behavior_get behavior ENTRY understeer) in
  let problems :=
    assign_if (py.Qltb 0.4 (behavior_get behavior MID understeer))
      problems UNDERSTEER_MID (behavior_get behavior MID understeer) in
  let problems :=
    assign_if (py.Qltb 0.35 (behavior_get behavior EXIT understeer))
      problems UNDERSTEER_EXIT (behavior_get behavior EXIT understeer) in
  let problems :=
    assign_if (py.Qltb 0.3 (behavior_get behavior ENTRY oversteer))
      problems OVERSTEER_ENTRY (behavior_get behavior ENTRY oversteer) in
  let problems :=
    assign_if (py.Qltb 0.35 (behavior_get behavior MID oversteer))
      problems OVERSTEER_MID (behavior_get behavior MID oversteer) in
  let problems :=
    assign_if (py.Qltb 0.3 (behavior_get behavior EXIT oversteer))
      problems OVERSTEER_EXIT (behavior_get behavior EXIT oversteer) in
  (* Tire temps *)
  let front_temp :=
    py.sum (map (fun s => w0 (tire_temp s) + w1 (tire_temp s)) samples)
    / (py.len samples * 2) in
  let rear_temp :=
    py.sum (map (fun s => w2 (tire_temp s) + w3 (tire_temp s)) samples)
    / (py.len samples * 2) in
  let problems :=
    assign_if (py.Qltb (triple_max (r_tire_temp ranges)) front_temp)
      problems TIRE_OVERHEAT_FRONT
      (py.min 1 ((front_temp - triple_max (r_tire_temp ranges)) / 10)) in
  let problems :=
    assign_if (py.Qltb front_temp (triple_min (r_tire_temp ranges)))
      problems TIRE_COLD_FRONT
      (py.min 1 ((triple_min (r_tire_temp ranges) - front_temp) / 10)) in
  let problems :=
    assign_if (py.Qltb (triple_max (r_tire_temp ranges)) rear_temp)
      problems TIRE_OVERHEAT_REAR
      (py.min 1 ((rear_temp - triple_max (r_tire_temp ranges)) / 10)) in
  let problems :=
    assign_if (py.Qltb rear_temp (triple_min (r_tire_temp ranges)))
      problems TIRE_COLD_REAR
      (py.min 1 ((triple_min (r_tire_temp ranges) - rear_temp) / 10)) in
  (* Brake temps *)
  let front_brake_max :=
    py.max_list
      (map (fun s => py.max (w0 (brake_temp s)) (w1 (brake_temp s))) samples) in
  let rear_brake_max :=
    py.max_list
      (map (fun s => py.max (w2 (brake_temp s)) (w3 (brake_temp s))) samples) in
  let problems :=
    assign_if (py.Qltb (r_brake_temp_max ranges) front_brake_max)
      problems BRAKE_OVERHEAT_FRONT
      (py.min 1 ((front_brake_max - r_brake_temp_max ranges) / 100)) in
  let problems :=
    assign_if (py.Qltb (r_brake_temp_max ranges) rear_brake_max)
      problems BRAKE_OVERHEAT_REAR
      (py.min 1 ((rear_brake_max - r_brake_temp_max ranges) / 100)) in
  (* Traction *)
  let wheelspin := _calc_wheelspin_pct samples in
  let problems :=
    assign_if (py.Qltb 0.1 wheelspin) problems WHEELSPIN
      (py.min 1 (wheelspin * 2)) in
  let problems :=
    assign_if (py.Qltb 0.1 wheelspin) problems POOR_TRACTION
      (py.min 1 (wheelspin * 1.5)) in
  (* Lockup *)
  let lockup := _calc_lockup_pct samples in
  let problems :=
    assign_if (py.Qltb 0.1 lockup) problems WHEEL_LOCK
      (py.min 1 (lockup * 2)) in
  (* Stability *)
  let stability := _calc_stability_score samples in
  let problems :=
    assign_if (py.Qltb stability 0.7) problems INSTABILITY_HIGH_SPEED
      (1 - stability) in
  (* Roll *)
  let max_roll := py.max (max_roll w0 w1 samples) (max_roll w2 w3 samples) in
  let problems :=
    assign_if (py.Qltb 12 max_roll) problems EXCESSIVE_ROLL
      (py.min 1 ((max_roll - 12) / 10)) in
  (* Bottoming *)
  let bottoming := py.of_nat (count_bottoming samples) / py.len samples in
  let problems :=
    assign_if (py.Qltb 0.05 bottoming) problems BOTTOMING
      (py.min 1 (bottoming * 5)) in
  problems.

(** [_detect_problems]: detect problems and their severity. *)
Definition _detect_problems (self : SetupAnalyzer) (samples : list Sample)
    (behavior : list (CornerPhase * Behavior)) : option (list (Problem * Q)) :=
  match lookup_ranges self with
  | None => None
  | Some ranges => Some (detect_problems_in ranges samples behavior)
  end.

Definition zero_wheels : Wheels := wheels 0 0 0 0.

(** [_analyze_lap]: analyze completed lap.  [None] is an exception (the
    [KeyError] of [lookup_ranges]). *)
Definition _analyze_lap (self : SetupAnalyzer) : option SetupAnalyzer :=
  let samples := current_lap_samples self in
  if (length samples <? 100)%nat then Some self
  else
    let behavior := _analyze_behavior samples in
    match _detect_problems self samples behavior with
    | None => None
    | Some problems =>
      let analysis := {|
        lap_number := current_lap self;
        lap_time := 0;
        sample_count := length samples;
        behavior := behavior;
        problems := problems;
        tire_temps_avg := _calc_avg tire_temp samples;
        tire_temps_max := _calc_max tire_temp samples;
        tire_pressure_avg := _calc_avg tire_pressure samples;
        tire_wear_start :=
          match samples with s :: _ => tire_wear s | [] => zero_wheels end;
        tire_wear_end :=
          match py.last_opt samples with
          | Some s => tire_wear s
          | None => zero_wheels
          end;
        tire_balance := _calc_tire_balance samples;
        brake_temps_max := _calc_max brake_temp samples;
        avg_rake := py.sum (map rake samples) / py.len samples;
        max_roll_front := max_roll w0 w1 samples;
        max_roll_rear := max_roll w2 w3 samples;
        bottoming_events := count_bottoming samples;
        wheelspin_pct := _calc_wheelspin_pct samples;
        lockup_pct := _calc_lockup_pct samples;
        avg_rear_slip := _calc_avg_rear_slip samples;
        stability_score := _calc_stability_score samples;
        high_speed_corrections := _calc_high_speed_corrections samples
      |} in
      let analyses := lap_analyses self ++ [analysis] in
      let analyses :=
        if (20 <? length analyses)%nat then tl analyses else analyses in
      Some (with_lap_analyses self analyses)
    end.

(** The test of the penalty loop of [_find_solutions] for one effect
    [(eff_problem, eff_value)] of the parameter: the problem is in
    [applied_effects] and the two values have strictly opposite signs. *)
Definition conflicts (applied_effects : list (Problem * Q))
    (e : Problem * Q) : bool :=
  let '(eff_problem, eff_value) := e in
  match py.dict_get Problem_beq applied_effects eff_problem with
  | None => false
  | Some applied =>
      (py.Qltb 0 eff_value && py.Qltb applied 0)
      || (py.Qltb eff_value 0 && py.Qltb 0 applied)
  end.

(** The penalty loop of [_find_solutions]: [score *= 0.5] once per
    conflicting effect of the parameter. *)
Definition conflict_penalty (applied_effects : list (Problem * Q))
    (param : SetupParameter) (score : Q) : Q :=
  fold_left
    (fun score e => if conflicts applied_effects e then score * 0.5 else score)
    (effects param) score.

(** The score of a parameter for a problem before the [score > 0.1] filter;
    [None] when the parameter has no effect on the problem. *)
Definition penalized_score (problem : Problem)
    (applied_effects : list (Problem * Q)) (param : SetupParameter)
    : option Q :=
  let effect := py.dict_get_default Problem_beq (effects param) problem 0 in
  if Qeq_bool effect 0 then None
  else Some (conflict_penalty applied_effects param (Qabs effect)).

(** The body of the loop of [_find_solutions] for one entry of
    [self.parameters]; [None] when nothing is appended. *)
Definition solution_for (problem : Problem)
    (applied_effects : list (Problem * Q)) (entry : string * SetupParameter)
    : option (string * Q * string) :=
  let '(name, param) := entry in
  let effect := py.dict_get_default Problem_beq (effects param) problem 0 in
  match penalized_score problem applied_effects param with
  | None => None
  | Some score =>
      (* Negative effect means the parameter helps when increased *)
      let direction := if py.Qltb effect 0 then "increase" else "decrease" in
      if py.Qltb 0.1 score then Some (name, score, direction) else None
  end.

Definition score_of (sol : string * Q * string) : Q := snd (fst sol).

(** [_find_solutions]: find parameters that help with a problem. *)
Definition _find_solutions (self : SetupAnalyzer) (problem : Problem)
    (applied_effects : list (Problem * Q)) : list (string * Q * string) :=
  py.sorted (fun y x => py.Qltb (score_of x) (score_of y))
    (py.filter_map (solution_for problem applied_effects) (parameters self)).

(** [mult = 1 if direction == "increase" else -1] *)
Definition mult_of (direction : string) : Q :=
  if String.eqb direction "increase" then 1 else - 1.

(** [_check_side_effects]: check for potential side effects. *)
Definition _check_side_effects (param : SetupParameter) (direction : string)
    (analysis : LapAnalysis) : list string :=
  let mult := mult_of direction in
  fold_left
    (fun side_effects (e : Problem * Q) =>
       let '(problem, effect) := e in
       let actual_effect := effect * mult in
       (* Positive effect means it makes the problem worse *)
       if py.Qltb 0.1 actual_effect then
         match py.dict_get Problem_beq (problems analysis) problem with
         | Some severity =>
             if py.Qltb 0.3 severity then
               side_effects
               ++ [("Peut aggraver: " ++ Problem_value problem)%string]
             else side_effects
         | None => side_effects
         end
       else side_effects)
    (effects param) [].

(** [_get_setup_value]: current value from the loaded setup. *)
Definition _get_setup_value (self : SetupAnalyzer) (param_name : string)
    : option Q :=
  py.dict_get String.eqb (current_setup self) param_name.

Definition adjustments : list (string * Q) := [
  ("front_spring", 5000); ("rear_spring", 5000);
  ("front_arb", 5000); ("rear_arb", 5000);
  ("front_pressure", 3); ("rear_pressure", 3);
  ("brake_bias", 1);
  ("front_camber", 0.2); ("rear_camber", 0.2);
  ("front_toe", 0.02); ("rear_toe", 0.02);
  ("front_wing", 1); ("rear_wing", 1);
  ("diff_power", 5); ("diff_coast", 5)
].

(** [_suggest_value]: suggest a new value based on direction. *)
Definition _suggest_value (param_name direction : string)
    (current : option Q) : Suggestion :=
  match current with
  | None =>
      if String.eqb direction "increase" then Text "+1-2 clicks/points"
      else Text "-1-2 clicks/points"
  | Some current =>
      let adj := py.dict_get_default String.eqb adjustments param_name 1 in
      let adj := if String.eqb direction "decrease" then - adj else adj in
      let new_val := current + adj in
      Arrow current new_val
  end.

Definition problem_names (p : Problem) : string :=
  match p with
  | UNDERSTEER_ENTRY => "sous-virage en entree"
  | UNDERSTEER_MID => "sous-virage mi-virage"
  | UNDERSTEER_EXIT => "sous-virage en sortie"
  | OVERSTEER_ENTRY => "survirage en entree"
  | OVERSTEER_MID => "survirage mi-virage"
  | OVERSTEER_EXIT => "survirage en sortie"
  | WHEELSPIN => "patinage"
  | WHEEL_LOCK => "blocage roues"
  | INSTABILITY_HIGH_SPEED => "instabilite haute vitesse"
  | TIRE_OVERHEAT_FRONT => "surchauffe pneus avant"
  | TIRE_OVERHEAT_REAR => "surchauffe pneus arriere"
  | TIRE_COLD_FRONT => "pneus avant froids"
  | TIRE_COLD_REAR => "pneus arriere froids"
  | BRAKE_OVERHEAT_FRONT => "surchauffe freins avant"
  | BRAKE_OVERHEAT_REAR => "surchauffe freins arriere"
  | EXCESSIVE_ROLL => "roulis excessif"
  | BOTTOMING => "talonnage"
  | POOR_TRACTION => "manque de traction"
  end.

(** [_format_reason]: format reason for recommendation. *)
Definition _format_reason (problem : Problem) (severity : Q)
    (param : SetupParameter) : Reason :=
  Corrige (problem_names problem) (severity * 100).

(** The [Recommendation] built in the inner loop of
    [generate_recommendations]. *)
Definition build_recommendation (self : SetupAnalyzer)
    (analysis : LapAnalysis) (problem : Problem) (severity : Q)
    (param_name : string) (param : SetupParameter) (score : Q)
    (direction : string) : Recommendation :=
  (* Check for conflicts *)
  let side_effects := _check_side_effects param direction analysis in
  (* Calculate confidence *)
  let confidence := py.min 1 (score * severity) in
  (* Get current value if available *)
  let current_value := _get_setup_value self param_name in
  let suggested_value := _suggest_value param_name direction current_value in
  {| parameter := display_name param;
     direction := direction;
     value := suggested_value;
     reason := _format_reason problem severity param;
     priority := py.int (severity * 10);
     addresses := [problem];
     side_effects := side_effects;
     confidence := confidence |}.

(** The "Track effects" loop: every effect of the chosen parameter is added,
    signed by the direction, to [applied_effects]. *)
Definition track_effects (param : SetupParameter) (direction : string)
    (applied_effects : list (Problem * Q)) : list (Problem * Q) :=
  fold_left
    (fun applied_effects (e : Problem * Q) =>
       let '(eff_problem, eff_value) := e in
       let mult := mult_of direction in
       py.dict_set Problem_beq applied_effects eff_problem
         (py.dict_get_default Problem_beq applied_effects eff_problem 0
          + eff_value * mult))
    (effects param) applied_effects.

(** The body of the inner loop, [for param_name, score, direction in
    solutions[:2]], on the pair [(recommendations, applied_effects)]. *)
Definition apply_solution (self : SetupAnalyzer) (analysis : LapAnalysis)
    (problem : Problem) (severity : Q)
    (acc : list Recommendation * list (Problem * Q))
    (sol : string * Q * string)
    : list Recommendation * list (Problem * Q) :=
  let '(recommendations, applied_effects) := acc in
  let '(param_name, score, direction) := sol in
  match py.dict_get String.eqb (parameters self) param_name with
  | None => acc
  | Some param =>
      (recommendations
       ++ [build_recommendation self analysis problem severity
             param_name param score direction],
       track_effects param direction applied_effects)
  end.

(** The body of the outer loop, [for problem, severity in
    sorted_problems[:5]]. *)
Definition address_problem (self : SetupAnalyzer) (analysis : LapAnalysis)
    (acc : list Recommendation * list (Problem * Q)) (ps : Problem * Q)
    : list Recommendation * list (Problem * Q) :=
  let '(problem, severity) := ps in
  if py.Qltb severity 0.2 then acc
  else
    (* Find best parameters to address this problem *)
    let solutions := _find_solutions self problem (snd acc) in
    fold_left (apply_solution self analysis problem severity)
      (firstn 2 solutions) acc.

(** [sorted(analysis.problems.items(), key=lambda x: x[1], reverse=True)] *)
Definition sorted_problems (analysis : LapAnalysis) : list (Problem * Q) :=
  py.sorted (fun y x : Problem * Q => py.Qltb (snd x) (snd y))
    (problems analysis).

(** The list [recommendations] when the two loops are over, before it is
    sorted and de-duplicated. *)
Definition collect_recommendations (self : SetupAnalyzer)
    (analysis : LapAnalysis) : list Recommendation :=
  fst (fold_left (address_problem self analysis)
         (firstn 5 (sorted_problems analysis)) ([], [])).

(** The de-duplication loop: [seen] is the set of parameters kept so far. *)
Fixpoint unique_recs (seen : list string) (recs : list Recommendation)
    : list Recommendation :=
  match recs with
  | [] => []
  | rec :: t =>
      if existsb (String.eqb (parameter rec)) seen then unique_recs seen t
      else rec :: unique_recs (parameter rec :: seen) t
  end.

(** [sorted(recommendations, key=lambda x: x.priority, reverse=True)] *)
Definition sorted_by_priority (recs : list Recommendation)
    : list Recommendation :=
  py.sorted (fun y x => (priority x <? priority y)%Z) recs.

(** [generate_recommendations]: generate intelligent setup
    recommendations. *)
Definition generate_recommendations (self : SetupAnalyzer)
    : list Recommendation :=
  match py.last_opt (lap_analyses self) with
  | None => []
  | Some analysis =>
      (* Use most recent lap analysis *)
      let recommendations := collect_recommendations self analysis in
      (* Sort by priority and remove duplicates *)
      let unique_recs := unique_recs [] (sorted_by_priority recommendations) in
      firstn 5 unique_recs  (* Limit to 5 recommendations *)
  end.

End setup_analyzer.

(* ================================================================== *)
(** * agp_core/setup/telemetry_analyzer.py *)
(* ================================================================== *)

Module telemetry_analyzer.

Local Open Scope Q_scope.

(** Single telemetry sample point: the inputs, forces and slip fields. *)
Record TelemetryPoint : Type := {
  timestamp : Q;
  distance : Q;
  speed : Q;
  throttle : Q;
  brake : Q;
  steering : Q;
  g_lat : Q;
  g_long : Q;
  slip_angle_fl : Q;
  slip_angle_fr : Q;
  slip_angle_rl : Q;
  slip_angle_rr : Q;
  slip_ratio_fl : Q;
  slip_ratio_fr : Q;
  slip_ratio_rl : Q;
  slip_ratio_rr : Q
}.

(** Wheel slip ratio for traction loss *)
Definition TRACTION_SLIP_RATIO_THRESHOLD : Q := 0.15.

(** [rear_slip_ratio] of a point *)
Definition rear_slip_ratio (point : TelemetryPoint) : Q :=
  py.max (Qabs (slip_ratio_rl point)) (Qabs (slip_ratio_rr point)).

(** The test under which the loop of [_detect_traction_loss] counts a
    point. *)
Definition qualifies (point : TelemetryPoint) : bool :=
  py.Qltb 50 (throttle point)
  && py.Qltb TRACTION_SLIP_RATIO_THRESHOLD (rear_slip_ratio point).

(** The body of the loop of [_detect_traction_loss] on
    [(traction_loss_count, max_severity)]. *)
Definition traction_step (acc : nat * Q) (point : TelemetryPoint) : nat * Q :=
  let '(traction_loss_count, max_severity) := acc in
  if py.Qltb 50 (throttle point) then
    let rear_slip_ratio := rear_slip_ratio point in
    if py.Qltb TRACTION_SLIP_RATIO_THRESHOLD rear_slip_ratio then
      let severity := py.min 100 (rear_slip_ratio * 200) in
      (S traction_loss_count, py.max max_severity severity)
    else acc
  else acc.

(** [_detect_traction_loss]: detect traction loss (wheelspin) on corner
    exit. *)
Definition _detect_traction_loss (points : list TelemetryPoint) : bool * Q :=
  match points with
  | [] => (false, 0)
  | _ =>
    let '(traction_loss_count, max_severity) :=
      fold_left traction_step points (0%nat, 0) in
    let detected := (3 <? traction_loss_count)%nat in  (* At least 3 samples *)
    (detected, max_severity)
  end.

End telemetry_analyzer.

(* ================================================================== *)
(** * agp_core/setup/entities/setup.py and diagnostic.py *)
(* ================================================================== *)

Module entities.

Local Open Scope string_scope.
Local Open Scope list_scope.
Local Open Scope R_scope.

(** ** setup.py.  The value objects [Angle], [Distance], [Percentage],
    [Pressure] and [Rate] wrap one float; each is the real number its main
    property returns ([degrees], [mm], [value], [kpa], [nm]). *)

Inductive CornerPosition : Set :=
  | FRONT_LEFT | FRONT_RIGHT | REAR_LEFT | REAR_RIGHT.

Definition CornerPosition_value (p : CornerPosition) : string :=
  match p with
  | FRONT_LEFT => "FL"
  | FRONT_RIGHT => "FR"
  | REAR_LEFT => "RL"
  | REAR_RIGHT => "RR"
  end.

(** [Rate.lbs_in] *)
Definition lbs_in (nm : R) : R := nm / 175.127.

(** Setup parameters for a single corner. *)
Record CornerSetup : Type := {
  position : CornerPosition;
  camber : R;
  pressure : R;
  spring_rate : R;
  ride_height : R;
  slow_bump : Z;
  fast_bump : Z;
  slow_rebound : Z;
  fast_rebound : Z
}.

(** Full suspension configuration. *)
Record SuspensionSetup : Type := {
  front_left : CornerSetup;
  front_right : CornerSetup;
  rear_left : CornerSetup;
  rear_right : CornerSetup;
  front_arb : Z;
  rear_arb : Z;
  front_toe : R;
  rear_toe : R
}.

Definition front_ride_height (s : SuspensionSetup) : R :=
  (ride_height (front_left s) + ride_height (front_right s)) / 2.

Definition rear_ride_height (s : SuspensionSetup) : R :=
  (ride_height (rear_left s) + ride_height (rear_right s)) / 2.

Definition rake (s : SuspensionSetup) : R :=
  rear_ride_height s - front_ride_height s.

Definition front_camber_avg (s : SuspensionSetup) : R :=
  (camber (front_left s) + camber (front_right s)) / 2.

Definition rear_camber_avg (s : SuspensionSetup) : R :=
  (camber (rear_left s) + camber (rear_right s)) / 2.

(** Differential configuration. *)
Record DifferentialSetup : Type := {
  power_lock : R;
  coast_lock : R;
  preload : R
}.

(** Aerodynamic configuration. *)
Record AeroSetup : Type := {
  front_wing : Z;
  rear_wing : Z
}.

(** [AeroSetup.estimated_balance]: estimate aero balance (% front). *)
Definition estimated_balance (a : AeroSetup) : R :=
  let total := (front_wing a + rear_wing a)%Z in
  if (total =? 0)%Z then 0.5 else IZR (front_wing a) / IZR total.

(** Brake configuration. *)
Record BrakeSetup : Type := {
  bias : R;
  brake_pressure : R
}.

(** Setup aggregate root: the sections and settings the core reads. *)
Record Setup : Type := {
  name : string;
  suspension : option SuspensionSetup;
  differential : option DifferentialSetup;
  aero : option AeroSetup;
  brakes : option BrakeSetup;
  tire_compound : string;
  fuel_load : R;
  traction_control : Z
}.

(** ** diagnostic.py *)

Inductive Severity : Set := CRITICAL | WARNING | INFO | SUCCESS.

Inductive DiagnosticCategory : Set :=
  | BALANCE | TRACTION | BRAKING_CATEGORY | TIRE | SUSPENSION | AERO
  | DIFFERENTIAL.

Inductive CornerPhase : Set :=
  | BRAKING | ENTRY | MID | EXIT | ACCELERATION | STRAIGHT.

Inductive ProblemType : Set :=
  | UNDERSTEER_ENTRY | UNDERSTEER_MID | UNDERSTEER_EXIT
  | OVERSTEER_ENTRY | OVERSTEER_MID | OVERSTEER_EXIT
  | WHEELSPIN | POWER_OVERSTEER
  | FRONT_LOCKUP | REAR_LOCKUP | INSTABILITY_BRAKING
  | BOTTOMING | BOUNCING | LACK_OF_GRIP | TIRE_OVERHEATING | TIRE_GRAINING.

Scheme Equality for Severity.
Scheme Equality for ProblemType.

(** A value of type [Any] in a recommendation: an int, a float, or the
    f-string [{x:.<digits>f}<suffix>], kept as its parts. *)
Inductive Any : Type :=
  | Int (z : Z)
  | Float (x : R)
  | Fmt (digits : nat) (x : R) (suffix : string).

(** A specific parameter change recommendation. *)
Record ParameterRecommendation : Type := {
  parameter : string;
  current_value : Any;
  recommended_value : Any;
  change_direction : string;
  change_amount : string;
  rec_confidence : R;
  explanation : string
}.

(** A diagnostic result from setup analysis (without its random [id] and
    the unused [telemetry_evidence]). *)
Record Diagnostic : Type := {
  title : string;
  description : string;
  severity : Severity;
  category : DiagnosticCategory;
  problem_type : option ProblemType;
  corner_phase : option CornerPhase;
  recommendations : list ParameterRecommendation;
  confidence : R;
  priority : Z;
  affected_parameters : list string
}.

(** [Diagnostic.add_recommendation] *)
Definition add_recommendation (self : Diagnostic)
    (rec : ParameterRecommendation) : Diagnostic :=
  {| title := title self;
     description := description self;
     severity := severity self;
     category := category self;
     problem_type := problem_type self;
     corner_phase := corner_phase self;
     recommendations := recommendations self ++ [rec];
     confidence := confidence self;
     priority := priority self;
     affected_parameters :=
       if existsb (String.eqb (parameter rec)) (affected_parameters self)
       then affected_parameters self
       else affected_parameters self ++ [parameter rec] |}.

(** [diag.description = text] *)
Definition set_description (self : Diagnostic) (text : string) : Diagnostic :=
  {| title := title self;
     description := text;
     severity := severity self;
     category := category self;
     problem_type := problem_type self;
     corner_phase := corner_phase self;
     recommendations := recommendations self;
     confidence := confidence self;
     priority := priority self;
     affected_parameters := affected_parameters self |}.

(** [diag.severity = s] *)
Definition set_severity (self : Diagnostic) (s : Severity) : Diagnostic :=
  {| title := title self;
     description := description self;
     severity := s;
     category := category self;
     problem_type := problem_type self;
     corner_phase := corner_phase self;
     recommendations := recommendations self;
     confidence := confidence self;
     priority := priority self;
     affected_parameters := affected_parameters self |}.

End entities.

(* ================================================================== *)
(** * agp_core/setup/rules/base.py *)
(* ================================================================== *)

Module rules.

Import entities.
Local Open Scope string_scope.
Local Open Scope list_scope.
Local Open Scope R_scope.

(** Context data for rule evaluation (the [telemetry] dict is not read by
    any rule). *)
Record RuleContext : Type := {
  setup : Setup;
  driver_feedback : string;
  track_id : string;
  conditions : string
}.

(** The class attributes and [get_recommendations] of a [Rule] subclass.
    A recommendation tuple [(parameter, current, recommended, direction,
    amount, confidence, explanation)] is written [tuple ...]. *)
Record RuleClass : Type := {
  id : string;
  rule_name : string;
  rule_category : DiagnosticCategory;
  rule_severity : Severity;
  rule_problem_type : option ProblemType;
  rule_corner_phase : option CornerPhase;
  get_recommendations : RuleContext -> list ParameterRecommendation
}.

Definition tuple := Build_ParameterRecommendation.

(** A rule: its class and its [evaluate] method. *)
Record Rule : Type := {
  class : RuleClass;
  evaluate : RuleContext -> option Diagnostic
}.

(** [Rule.create_diagnostic]: create a diagnostic with recommendations.
    The fields not passed take the defaults of the dataclass. *)
Definition create_diagnostic (self : RuleClass) (context : RuleContext)
    : Diagnostic :=
  let diag := {|
    title := rule_name self;
    description := "";
    severity := rule_severity self;
    category := rule_category self;
    problem_type := rule_problem_type self;
    corner_phase := rule_corner_phase self;
    recommendations := [];
    confidence := 0.8;
    priority := 1;
    affected_parameters := [] |} in
  fold_left add_recommendation (get_recommendations self context) diag.

(** [any(kw in feedback_lower for kw in keywords)] *)
Definition any_in (feedback_lower : string) (keywords : list string) : bool :=
  existsb (fun kw => py.contains kw feedback_lower) keywords.

(** Engine that runs diagnostic rules against a setup. *)
Record RuleEngine : Type := { engine_rules : list Rule }.

Definition register_rule (self : RuleEngine) (rule : Rule) : RuleEngine :=
  {| engine_rules := engine_rules self ++ [rule] |}.

Definition register_rules (self : RuleEngine) (rules : list Rule)
    : RuleEngine :=
  {| engine_rules := engine_rules self ++ rules |}.

Definition severity_order (s : Severity) : Z :=
  match s with
  | CRITICAL => 0
  | WARNING => 1
  | INFO => 2
  | SUCCESS => 3
  end.

(** The order of the tuples [(severity_order[d.severity], d.priority)]. *)
Definition sort_key_ltb (y x : Diagnostic) : bool :=
  (severity_order (severity y) <? severity_order (severity x))%Z
  || ((severity_order (severity y) =? severity_order (severity x))%Z
      && (priority y <? priority x)%Z).

(** [RuleEngine.evaluate]: evaluate all rules against the context; the
    diagnostics sorted by severity (critical first) then by priority. *)
Definition engine_evaluate (self : RuleEngine) (context : RuleContext)
    : list Diagnostic :=
  let diagnostics :=
    py.filter_map (fun rule => evaluate rule context) (engine_rules self) in
  py.sorted sort_key_ltb diagnostics.

(** [RuleEngine.evaluate_for_problem] *)
Definition evaluate_for_problem (self : RuleEngine) (context : RuleContext)
    (pt : ProblemType) : list Diagnostic :=
  py.filter_map
    (fun rule =>
       match rule_problem_type (class rule) with
       | Some p => if ProblemType_beq p pt then evaluate rule context else None
       | None => None
       end)
    (engine_rules self).

(* ------------------------------------------------------------------ *)
(** ** rules/brake_rules.py *)

Definition FrontLockupRule_recommendations (context : RuleContext)
    : list ParameterRecommendation :=
  let setup := setup context in
  let recs := [] in
  let recs :=
    match brakes setup with
    | Some brakes =>
        let new_bias := Rmax 50 (bias brakes - 3) in
        let recs := recs ++ [tuple "Brake Bias"
          (Fmt 1 (bias brakes) "%") (Fmt 1 new_bias "%")
          "decrease" "-2-3%" 0.9
          "Less front brake pressure prevents front lockup"] in
        if Rlt_dec 90 (brake_pressure brakes) then
          let new_pressure := brake_pressure brakes - 5 in
          recs ++ [tuple "Brake Pressure"
            (Fmt 0 (brake_pressure brakes) "%") (Fmt 0 new_pressure "%")
            "decrease" "-5%" 0.7
            "Lower overall pressure if modulation is difficult"]
        else recs
    | None => recs
    end in
  let recs :=
    match suspension setup with
    | Some suspension =>
        let front_rh := front_ride_height suspension in
        recs ++ [tuple "Front Ride Height"
          (Fmt 0 front_rh "mm") (Fmt 0 (Rmin 80 (front_rh + 2)) "mm")
          "increase" "+2mm" 0.5
          "Slightly higher front can reduce dive and lockup tendency"]
    | None => recs
    end in
  recs.

Definition FrontLockupRule_class : RuleClass := {|
  id := "front_lockup";
  rule_name := "Front Wheel Lockup";
  rule_category := BRAKING_CATEGORY;
  rule_severity := WARNING;
  rule_problem_type := Some FRONT_LOCKUP;
  rule_corner_phase := Some BRAKING;
  get_recommendations := FrontLockupRule_recommendations |}.

Definition FrontLockupRule_evaluate (context : RuleContext)
    : option Diagnostic :=
  let feedback_lower := py.lower (driver_feedback context) in
  if any_in feedback_lower
       ["front lock"; "front lockup"; "blocage avant";
        "front wheels lock"; "avant bloque"] then
    let diag := create_diagnostic FrontLockupRule_class context in
    let diag := set_description diag
      ("The front wheels are locking under braking. "
       ++ "This causes flat spots, reduces steering, and extends braking distance.")
    in
    Some diag
  else None.

Definition FrontLockupRule : Rule :=
  {| class := FrontLockupRule_class; evaluate := FrontLockupRule_evaluate |}.

Definition RearLockupRule_keywords : list string :=
  ["rear lock"; "rear lockup"; "blocage arriere";
   "rear wheels lock"; "arriere bloque"; "spin braking"].

Definition RearLockupRule_recommendations (context : RuleContext)
    : list ParameterRecommendation :=
  let setup := setup context in
  let recs := [] in
  let recs :=
    match brakes setup with
    | Some brakes =>
        let new_bias := Rmin 65 (bias brakes + 4) in
        recs ++ [tuple "Brake Bias"
          (Fmt 1 (bias brakes) "%") (Fmt 1 new_bias "%")
          "increase" "+3-4%" 0.95
          "CRITICAL: More front bias prevents dangerous rear lockup"]
    | None => recs
    end in
  let recs :=
    match differential setup with
    | Some differential =>
        let new_coast := Rmin 80 (coast_lock differential + 15) in
        recs ++ [tuple "Diff Coast Lock"
          (Fmt 0 (coast_lock differential) "%") (Fmt 0 new_coast "%")
          "increase" "+10-15%" 0.8
          "Higher coast lock prevents inside rear from locking"]
    | None => recs
    end in
  let recs :=
    match suspension setup with
    | Some suspension =>
        recs ++ [tuple "Rear ARB"
          (Int (rear_arb suspension))
          (Int (Z.max 0 (rear_arb suspension - 2)))
          "decrease" "2-3 clicks" 0.7
          "Softer rear ARB gives more rear grip under braking"]
    | None => recs
    end in
  recs.

Definition RearLockupRule_class : RuleClass := {|
  id := "rear_lockup";
  rule_name := "Rear Wheel Lockup";
  rule_category := BRAKING_CATEGORY;
  rule_severity := CRITICAL;
  rule_problem_type := Some REAR_LOCKUP;
  rule_corner_phase := Some BRAKING;
  get_recommendations := RearLockupRule_recommendations |}.

Definition RearLockupRule_evaluate (context : RuleContext)
    : option Diagnostic :=
  let feedback_lower := py.lower (driver_feedback context) in
  if any_in feedback_lower RearLockupRule_keywords then
    let diag := create_diagnostic RearLockupRule_class context in
    let diag := set_description diag
      ("The rear wheels are locking under braking. "
       ++ "This is DANGEROUS and causes spins. Must be fixed immediately.")
    in
    let diag := set_severity diag CRITICAL in
    Some diag
  else None.

Definition RearLockupRule : Rule :=
  {| class := RearLockupRule_class; evaluate := RearLockupRule_evaluate |}.

Definition BrakingInstabilityRule_recommendations (context : RuleContext)
    : list ParameterRecommendation :=
  let setup := setup context in
  let recs := [] in
  let recs :=
    match suspension setup with
    | Some suspension =>
        let fl := front_left suspension in
        let recs := recs ++ [tuple "Front Slow Rebound"
          (Int (slow_rebound fl)) (Int (Z.min 20 (slow_rebound fl + 2)))
          "increase" "+2 clicks" 0.75
          "Stiffer rebound controls front dive oscillation"] in
        let rl := rear_left suspension in
        recs ++ [tuple "Rear Slow Bump"
          (Int (slow_bump rl)) (Int (Z.min 20 (slow_bump rl + 2)))
          "increase" "+2 clicks" 0.7
          "Stiffer rear bump controls lift under braking"]
    | None => recs
    end in
  let recs :=
    match differential setup with
    | Some differential =>
        let new_coast := Rmin 80 (coast_lock differential + 10) in
        recs ++ [tuple "Diff Coast Lock"
          (Fmt 0 (coast_lock differential) "%") (Fmt 0 new_coast "%")
          "increase" "+5-10%" 0.8
          "Higher coast lock improves straight-line stability"]
    | None => recs
    end in
  recs.

Definition BrakingInstabilityRule_class : RuleClass := {|
  id := "braking_instability";
  rule_name := "Braking Instability";
  rule_category := BRAKING_CATEGORY;
  rule_severity := WARNING;
  rule_problem_type := Some INSTABILITY_BRAKING;
  rule_corner_phase := Some BRAKING;
  get_recommendations := BrakingInstabilityRule_recommendations |}.

Definition BrakingInstabilityRule_evaluate (context : RuleContext)
    : option Diagnostic :=
  let feedback_lower := py.lower (driver_feedback context) in
  if any_in feedback_lower
       ["unstable braking"; "instable freinage"; "dancing";
        "brake instability"; "nervous braking"] then
    let diag := create_diagnostic BrakingInstabilityRule_class context in
    let diag := set_description diag
      ("The car feels unstable and nervous under heavy braking. "
       ++ "This makes it hard to brake late and accurately.")
    in
    Some diag
  else None.

Definition BrakingInstabilityRule : Rule :=
  {| class := BrakingInstabilityRule_class;
     evaluate := BrakingInstabilityRule_evaluate |}.

(* ------------------------------------------------------------------ *)
(** ** rules/traction_rules.py *)

Definition WheelspinRule_recommendations (context : RuleContext)
    : list ParameterRecommendation :=
  let setup := setup context in
  let recs := [] in
  let recs :=
    match differential setup with
    | Some differential =>
        let new_power := Rmax 20 (power_lock differential - 15) in
        let recs := recs ++ [tuple "Diff Power Lock"
          (Fmt 0 (power_lock differential) "%") (Fmt 0 new_power "%")
          "decrease" "-10-15%" 0.9
          "Lower power lock allows inside wheel to spin less, reducing wheelspin"] in
        let new_preload := Rmax 0 (preload differential - 20) in
        recs ++ [tuple "Diff Preload"
          (Fmt 0 (preload differential) " Nm") (Fmt 0 new_preload " Nm")
          "decrease" "-15-20 Nm" 0.75
          "Lower preload reduces initial diff lock effect"]
    | None => recs
    end in
  let recs := recs ++ [tuple "Traction Control"
    (Int (traction_control setup))
    (Int (Z.min 10 (traction_control setup + 2)))
    "increase" "+2" 0.95
    "TC is the most effective way to manage wheelspin"] in
  let recs :=
    match suspension setup with
    | Some suspension =>
        let rear_rh := rear_ride_height suspension in
        let recs := recs ++ [tuple "Rear Ride Height"
          (Fmt 0 rear_rh "mm") (Fmt 0 (Rmin 80 (rear_rh + 3)) "mm")
          "increase" "+2-3mm" 0.65
          "Higher rear can improve mechanical grip"] in
        let rl_spring := spring_rate (rear_left suspension) in
        recs ++ [tuple "Rear Springs"
          (Fmt 0 (lbs_in rl_spring) " lbs/in")
          (Fmt 0 (lbs_in rl_spring * 0.92) " lbs/in")
          "decrease" "-5-8%" 0.7
          "Softer rear springs improve traction"]
    | None => recs
    end in
  recs.

Definition WheelspinRule_class : RuleClass := {|
  id := "wheelspin";
  rule_name := "Excessive Wheelspin";
  rule_category := TRACTION;
  rule_severity := WARNING;
  rule_problem_type := Some WHEELSPIN;
  rule_corner_phase := Some ACCELERATION;
  get_recommendations := WheelspinRule_recommendations |}.

Definition WheelspinRule_evaluate (context : RuleContext)
    : option Diagnostic :=
  let feedback_lower := py.lower (driver_feedback context) in
  if any_in feedback_lower
       ["wheelspin"; "patinage"; "spinning"; "traction";
        "roues qui patinent"; "wheel spin"] then
    let diag := create_diagnostic WheelspinRule_class context in
    let diag := set_description diag
      ("Excessive wheelspin under acceleration, especially exiting slow corners. "
       ++ "This reduces acceleration performance and tire life.")
    in
    Some diag
  else None.

Definition WheelspinRule : Rule :=
  {| class := WheelspinRule_class; evaluate := WheelspinRule_evaluate |}.

Definition PowerOversteerRule_keywords : list string :=
  ["power oversteer"; "snap oversteer"; "survirage acceleration";
   "rear snap"; "arriere part a l'acceleration"].

Definition PowerOversteerRule_recommendations (context : RuleContext)
    : list ParameterRecommendation :=
  let setup := setup context in
  let recs := [] in
  let recs :=
    match differential setup with
    | Some differential =>
        let new_power := Rmax 15 (power_lock differential - 20) in
        recs ++ [tuple "Diff Power Lock"
          (Fmt 0 (power_lock differential) "%") (Fmt 0 new_power "%")
          "decrease" "-15-20%" 0.95
          "CRITICAL: Lower power lock to reduce snap oversteer"]
    | None => recs
    end in
  let recs := recs ++ [tuple "Traction Control"
    (Int (traction_control setup))
    (Int (Z.min 10 (traction_control setup + 3)))
    "increase" "+2-3" 0.9
    "TC helps prevent sudden power application issues"] in
  let recs :=
    match suspension setup with
    | Some suspension =>
        let recs := recs ++ [tuple "Rear ARB"
          (Int (rear_arb suspension))
          (Int (Z.max 0 (rear_arb suspension - 3)))
          "decrease" "3-4 clicks" 0.8
          "Softer rear ARB gives more progressive rear behavior"] in
        let rl := rear_left suspension in
        recs ++ [tuple "Rear Slow Bump"
          (Int (slow_bump rl)) (Int (Z.min 20 (slow_bump rl + 2)))
          "increase" "+2 clicks" 0.7
          "Stiffer bump controls squat under acceleration"]
    | None => recs
    end in
  let recs :=
    match aero setup with
    | Some aero =>
        recs ++ [tuple "Rear Wing"
          (Int (rear_wing aero)) (Int (Z.min 40 (rear_wing aero + 3)))
          "increase" "+2-3" 0.75
          "More rear downforce improves stability"]
    | None => recs
    end in
  recs.

Definition PowerOversteerRule_class : RuleClass := {|
  id := "power_oversteer";
  rule_name := "Power Oversteer";
  rule_category := TRACTION;
  rule_severity := WARNING;
  rule_problem_type := Some POWER_OVERSTEER;
  rule_corner_phase := Some EXIT;
  get_recommendations := PowerOversteerRule_recommendations |}.

Definition PowerOversteerRule_evaluate (context : RuleContext)
    : option Diagnostic :=
  let feedback_lower := py.lower (driver_feedback context) in
  if any_in feedback_lower PowerOversteerRule_keywords then
    let diag := create_diagnostic PowerOversteerRule_class context in
    let diag := set_description diag
      ("The rear snaps out suddenly when applying throttle. "
       ++ "This is dangerous and needs to be addressed for car control.")
    in
    let diag := set_severity diag CRITICAL in
    Some diag
  else None.

Definition PowerOversteerRule : Rule :=
  {| class := PowerOversteerRule_class;
     evaluate := PowerOversteerRule_evaluate |}.

(* ------------------------------------------------------------------ *)
(** ** rules/balance_rules.py *)

Definition UndersterrEntryRule_recommendations (context : RuleContext)
    : list ParameterRecommendation :=
  let setup := setup context in
  let recs := [] in
  let recs :=
    match suspension setup with
    | Some suspension =>
        let recs := recs ++ [tuple "Front ARB"
          (Int (front_arb suspension))
          (Int (Z.max 0 (front_arb suspension - 2)))
          "decrease" "2-3 clicks" 0.85
          "Softer front ARB increases mechanical grip on entry"] in
        recs ++ [tuple "Rear ARB"
          (Int (rear_arb suspension))
          (Int (Z.min 20 (rear_arb suspension + 2)))
          "increase" "2-3 clicks" 0.75
          "Stiffer rear ARB reduces rear grip, rotating the car"]
    | None => recs
    end in
  let recs :=
    match brakes setup with
    | Some brakes =>
        let new_bias := Rmax 50 (bias brakes - 2) in
        recs ++ [tuple "Brake Bias"
          (Fmt 1 (bias brakes) "%") (Fmt 1 new_bias "%")
          "decrease" "-1-2%" 0.8
          "More rear braking rotates the car on entry"]
    | None => recs
    end in
  let recs :=
    match differential setup with
    | Some differential =>
        let new_coast := Rmax 10 (coast_lock differential - 10) in
        recs ++ [tuple "Diff Coast Lock"
          (Fmt 0 (coast_lock differential) "%") (Fmt 0 new_coast "%")
          "decrease" "-5-10%" 0.7
          "Lower coast lock allows more rotation on deceleration"]
    | None => recs
    end in
  recs.

Definition UndersterrEntryRule_class : RuleClass := {|
  id := "understeer_entry";
  rule_name := "Understeer on Entry";
  rule_category := BALANCE;
  rule_severity := WARNING;
  rule_problem_type := Some UNDERSTEER_ENTRY;
  rule_corner_phase := Some ENTRY;
  get_recommendations := UndersterrEntryRule_recommendations |}.

Definition UndersterrEntryRule_evaluate (context : RuleContext)
    : option Diagnostic :=
  let feedback_lower := py.lower (driver_feedback context) in
  if any_in feedback_lower
       ["understeer entry"; "push entry"; "sous-virage entree"] then
    let diag := create_diagnostic UndersterrEntryRule_class context in
    let diag := set_description diag
      ("The car pushes (understeers) when entering corners, especially during "
       ++ "trail braking. The front tires lose grip before the rears.")
    in
    Some diag
  else None.

Definition UndersterrEntryRule : Rule :=
  {| class := UndersterrEntryRule_class;
     evaluate := UndersterrEntryRule_evaluate |}.

Definition UndersterrMidRule_recommendations (context : RuleContext)
    : list ParameterRecommendation :=
  let setup := setup context in
  let recs := [] in
  let recs :=
    match suspension setup with
    | Some suspension =>
        let fl_spring := spring_rate (front_left suspension) in
        let recs := recs ++ [tuple "Front Springs"
          (Fmt 0 (lbs_in fl_spring) " lbs/in")
          (Fmt 0 (lbs_in fl_spring * 0.95) " lbs/in")
          "decrease" "-5%" 0.75
          "Softer front springs increase mechanical grip at apex"] in
        let front_camber := front_camber_avg suspension in
        let recs := recs ++ [tuple "Front Camber"
          (Fmt 1 front_camber "") (Fmt 1 (front_camber - 0.3) "")
          "increase negative" "-0.2 to -0.3" 0.8
          "More negative camber improves cornering grip"] in
        let front_rh := front_ride_height suspension in
        recs ++ [tuple "Front Ride Height"
          (Fmt 0 front_rh "mm") (Fmt 0 (Rmax 20 (front_rh - 3)) "mm")
          "decrease" "-2-3mm" 0.7
          "Lower front increases front downforce effect"]
    | None => recs
    end in
  recs.

Definition UndersterrMidRule_class : RuleClass := {|
  id := "understeer_mid";
  rule_name := "Understeer at Mid-Corner";
  rule_category := BALANCE;
  rule_severity := WARNING;
  rule_problem_type := Some UNDERSTEER_MID;
  rule_corner_phase := Some MID;
  get_recommendations := UndersterrMidRule_recommendations |}.

Definition UndersterrMidRule_evaluate (context : RuleContext)
    : option Diagnostic :=
  let feedback_lower := py.lower (driver_feedback context) in
  if any_in feedback_lower
       ["understeer mid"; "push mid"; "sous-virage milieu"] then
    let diag := create_diagnostic UndersterrMidRule_class context in
    let diag := set_description diag
      ("The car understeers at the apex and through mid-corner. "
       ++ "This is typically a mechanical grip issue at the front.")
    in
    Some diag
  else None.

Definition UndersterrMidRule : Rule :=
  {| class := UndersterrMidRule_class;
     evaluate := UndersterrMidRule_evaluate |}.

Definition OversteerEntryRule_recommendations (context : RuleContext)
    : list ParameterRecommendation :=
  let setup := setup context in
  let recs := [] in
  let recs :=
    match suspension setup with
    | Some suspension =>
        let recs := recs ++ [tuple "Rear ARB"
          (Int (rear_arb suspension))
          (Int (Z.max 0 (rear_arb suspension - 2)))
          "decrease" "2-3 clicks" 0.85
          "Softer rear ARB increases rear grip on entry"] in
        recs ++ [tuple "Front ARB"
          (Int (front_arb suspension))
          (Int (Z.min 20 (front_arb suspension + 2)))
          "increase" "2-3 clicks" 0.75
          "Stiffer front ARB reduces front grip transfer"]
    | None => recs
    end in
  let recs :=
    match brakes setup with
    | Some brakes =>
        let new_bias := Rmin 65 (bias brakes + 2) in
        recs ++ [tuple "Brake Bias"
          (Fmt 1 (bias brakes) "%") (Fmt 1 new_bias "%")
          "increase" "+1-2%" 0.85
          "More front braking stabilizes rear on entry"]
    | None => recs
    end in
  let recs :=
    match differential setup with
    | Some differential =>
        let new_coast := Rmin 80 (coast_lock differential + 10) in
        recs ++ [tuple "Diff Coast Lock"
          (Fmt 0 (coast_lock differential) "%") (Fmt 0 new_coast "%")
          "increase" "+5-10%" 0.75
          "Higher coast lock stabilizes rear under decel"]
    | None => recs
    end in
  recs.

Definition OversteerEntryRule_class : RuleClass := {|
  id := "oversteer_entry";
  rule_name := "Oversteer on Entry";
  rule_category := BALANCE;
  rule_severity := WARNING;
  rule_problem_type := Some OVERSTEER_ENTRY;
  rule_corner_phase := Some ENTRY;
  get_recommendations := OversteerEntryRule_recommendations |}.

Definition OversteerEntryRule_evaluate (context : RuleContext)
    : option Diagnostic :=
  let feedback_lower := py.lower (driver_feedback context) in
  if any_in feedback_lower
       ["oversteer entry"; "loose entry"; "survirage entree"] then
    let diag := create_diagnostic OversteerEntryRule_class context in
    let diag := set_description diag
      ("The rear of the car becomes loose/slides when entering corners, "
       ++ "especially under braking. This can lead to spins.")
    in
    Some diag
  else None.

Definition OversteerEntryRule : Rule :=
  {| class := OversteerEntryRule_class;
     evaluate := OversteerEntryRule_evaluate |}.

Definition OversteerMidRule_recommendations (context : RuleContext)
    : list ParameterRecommendation :=
  let setup := setup context in
  let recs := [] in
  let recs :=
    match suspension setup with
    | Some suspension =>
        let rl_spring := spring_rate (rear_left suspension) in
        let recs := recs ++ [tuple "Rear Springs"
          (Fmt 0 (lbs_in rl_spring) " lbs/in")
          (Fmt 0 (lbs_in rl_spring * 0.95) " lbs/in")
          "decrease" "-5%" 0.75
          "Softer rear springs increase mechanical rear grip"] in
        let rear_camber := rear_camber_avg suspension in
        recs ++ [tuple "Rear Camber"
          (Fmt 1 rear_camber "") (Fmt 1 (rear_camber - 0.2) "")
          "increase negative" "-0.2" 0.8
          "More negative camber improves rear cornering grip"]
    | None => recs
    end in
  let recs :=
    match aero setup with
    | Some aero =>
        recs ++ [tuple "Rear Wing"
          (Int (rear_wing aero)) (Int (Z.min 40 (rear_wing aero + 2)))
          "increase" "+1-2" 0.7
          "More rear downforce increases rear grip"]
    | None => recs
    end in
  recs.

Definition OversteerMidRule_class : RuleClass := {|
  id := "oversteer_mid";
  rule_name := "Oversteer at Mid-Corner";
  rule_category := BALANCE;
  rule_severity := WARNING;
  rule_problem_type := Some OVERSTEER_MID;
  rule_corner_phase := Some MID;
  get_recommendations := OversteerMidRule_recommendations |}.

Definition OversteerMidRule_evaluate (context : RuleContext)
    : option Diagnostic :=
  let feedback_lower := py.lower (driver_feedback context) in
  if any_in feedback_lower
       ["oversteer mid"; "loose mid"; "survirage milieu"] then
    let diag := create_diagnostic OversteerMidRule_class context in
    let diag := set_description diag
      ("The rear slides at mid-corner during steady-state cornering. "
       ++ "This indicates a mechanical grip imbalance.")
    in
    Some diag
  else None.

Definition OversteerMidRule : Rule :=
  {| class := OversteerMidRule_class;
     evaluate := OversteerMidRule_evaluate |}.

Definition OversteerExitRule_recommendations (context : RuleContext)
    : list ParameterRecommendation :=
  let setup := setup context in
  let recs := [] in
  let recs :=
    match differential setup with
    | Some differential =>
        let new_power := Rmax 20 (power_lock differential - 10) in
        let recs := recs ++ [tuple "Diff Power Lock"
          (Fmt 0 (power_lock differential) "%") (Fmt 0 new_power "%")
          "decrease" "-5-10%" 0.85
          "Lower power lock reduces wheelspin tendency"] in
        let new_preload := Rmax 0 (preload differential - 10) in
        recs ++ [tuple "Diff Preload"
          (Fmt 0 (preload differential) " Nm") (Fmt 0 new_preload " Nm")
          "decrease" "-10 Nm" 0.7
          "Lower preload allows more wheel speed difference"]
    | None => recs
    end in
  let recs :=
    match suspension setup with
    | Some suspension =>
        let rear_rh := rear_ride_height suspension in
        recs ++ [tuple "Rear Ride Height"
          (Fmt 0 rear_rh "mm") (Fmt 0 (Rmin 80 (rear_rh + 2)) "mm")
          "increase" "+2mm" 0.6
          "Higher rear can improve traction"]
    | None => recs
    end in
  let recs := recs ++ [tuple "Traction Control"
    (Int (traction_control setup))
    (Int (Z.min 10 (traction_control setup + 1)))
    "increase" "+1" 0.9
    "TC helps manage wheelspin on exit"] in
  recs.

Definition OversteerExitRule_class : RuleClass := {|
  id := "oversteer_exit";
  rule_name := "Oversteer on Exit (Power Oversteer)";
  rule_category := BALANCE;
  rule_severity := WARNING;
  rule_problem_type := Some OVERSTEER_EXIT;
  rule_corner_phase := Some EXIT;
  get_recommendations := OversteerExitRule_recommendations |}.

Definition OversteerExitRule_evaluate (context : RuleContext)
    : option Diagnostic :=
  let feedback_lower := py.lower (driver_feedback context) in
  if any_in feedback_lower
       ["oversteer exit"; "loose exit"; "survirage sortie";
        "power oversteer"; "wheelspin exit"] then
    let diag := create_diagnostic OversteerExitRule_class context in
    let diag := set_description diag
      ("The rear slides when applying power exiting corners. "
       ++ "This is often due to differential settings or traction issues.")
    in
    Some diag
  else None.

Definition OversteerExitRule : Rule :=
  {| class := OversteerExitRule_class;
     evaluate := OversteerExitRule_evaluate |}.

(* ------------------------------------------------------------------ *)
(** ** rules/__init__.py *)

(** [create_default_engine]: a [RuleEngine] with all default rules
    registered. *)
Definition create_default_engine : RuleEngine :=
  let engine := {| engine_rules := [] |} in
  (* Balance rules *)
  let engine := register_rules engine
    [UndersterrEntryRule; UndersterrMidRule; OversteerEntryRule;
     OversteerMidRule; OversteerExitRule] in
  (* Traction rules *)
  let engine := register_rules engine [WheelspinRule; PowerOversteerRule] in
  (* Brake rules *)
  let engine := register_rules engine
    [FrontLockupRule; RearLockupRule; BrakingInstabilityRule] in
  engine.

End rules.

(* ================================================================== *)
(** * agp_core/setup/setup_correlator.py *)
(* ================================================================== *)

(** The correlator in exact arithmetic.  Over the reals the radicand of the
    Pearson denominator is never negative and the test [denominator == 0]
    is exact, so this model cannot show the [ValueError] of [math.sqrt] nor
    a constant series that is not omitted: it serves where rounding plays
    no part (the bookkeeping of the ranges, series whose sums are exact).
    What the program does on binary64 numbers is in the modules [binary64]
    and [binary64_reports]. *)
Module setup_correlator.

Import entities.
Local Open Scope string_scope.
Local Open Scope list_scope.
Local Open Scope R_scope.

(** Observed range of a setup parameter. *)
Record ParameterRange : Type := {
  parameter_name : string;
  min_value : R;
  max_value : R;
  optimal_value : option R;
  values : list R;
  lap_times : list R
}.

(** Correlation between setup parameter and performance metric
    (telemetry_models.py). *)
Record SetupCorrelation : Type := {
  corr_parameter_name : string;
  parameter_value : R;
  lap_time_correlation : R;
  balance_correlation : R;
  tire_wear_correlation : R;
  confidence : R;
  sample_count : nat;
  suggested_direction : string;
  suggested_change : R
}.

(** [_extract_setup_parameters]: extract all numeric parameters from a
    setup. *)
Definition _extract_setup_parameters (setup : Setup) : list (string * R) :=
  let set := py.dict_set String.eqb in
  let params := [] in
  let params :=
    match suspension setup with
    | Some susp =>
        (* Front suspension *)
        let params := set params "front_ride_height" (front_ride_height susp) in
        let params := set params "rear_ride_height" (rear_ride_height susp) in
        let params := set params "rake" (rake susp) in
        let params := set params "front_arb" (IZR (front_arb susp)) in
        let params := set params "rear_arb" (IZR (rear_arb susp)) in
        let params := set params "front_camber" (front_camber_avg susp) in
        let params := set params "rear_camber" (rear_camber_avg susp) in
        let params := set params "front_toe" (front_toe susp) in
        let params := set params "rear_toe" (rear_toe susp) in
        (* Individual corners *)
        fold_left
          (fun params corner =>
             let prefix := py.lower (CornerPosition_value (position corner)) in
             let params :=
               set params (prefix ++ "_spring")%string (spring_rate corner) in
             let params :=
               set params (prefix ++ "_slow_bump")%string
                   (IZR (slow_bump corner)) in
             let params :=
               set params (prefix ++ "_fast_bump")%string
                   (IZR (fast_bump corner)) in
             let params :=
               set params (prefix ++ "_slow_rebound")%string
                   (IZR (slow_rebound corner)) in
             let params :=
               set params (prefix ++ "_fast_rebound")%string
                   (IZR (fast_rebound corner)) in
             set params (prefix ++ "_pressure")%string (pressure corner))
          [front_left susp; front_right susp; rear_left susp; rear_right susp]
          params
    | None => params
    end in
  let params :=
    match differential setup with
    | Some diff =>
        let params := set params "diff_power_lock" (power_lock diff) in
        let params := set params "diff_coast_lock" (coast_lock diff) in
        set params "diff_preload" (preload diff)
    | None => params
    end in
  let params :=
    match brakes setup with
    | Some brakes =>
        let params := set params "brake_bias" (bias brakes) in
        set params "brake_pressure" (brake_pressure brakes)
    | None => params
    end in
  let params :=
    match aero setup with
    | Some aero =>
        let params := set params "front_wing" (IZR (front_wing aero)) in
        let params := set params "rear_wing" (IZR (rear_wing aero)) in
        set params "aero_balance" (estimated_balance aero * 100)
    | None => params
    end in
  params.

(** The body of the loop of [_update_parameter_ranges] for one item
    [(name, value)] of [params]. *)
Definition update_range (best_lap_time : R)
    (parameter_ranges : list (string * ParameterRange)) (item : string * R)
    : list (string * ParameterRange) :=
  let '(name, value) := item in
  let parameter_ranges :=
    if py.dict_mem String.eqb parameter_ranges name then parameter_ranges
    else
      py.dict_set String.eqb parameter_ranges name
        {| parameter_name := name;
           min_value := value;
           max_value := value;
           optimal_value := None;
           values := [];
           lap_times := [] |} in
  match py.dict_get String.eqb parameter_ranges name with
  | None => parameter_ranges
  | Some range_obj =>
      py.dict_set String.eqb parameter_ranges name
        {| parameter_name := parameter_name range_obj;
           min_value := py.min_r (min_value range_obj) value;
           max_value := py.max_r (max_value range_obj) value;
           optimal_value := optimal_value range_obj;
           values := values range_obj ++ [value];
           lap_times := lap_times range_obj ++ [best_lap_time] |}
  end.

(** [_update_parameter_ranges]: update parameter ranges with values from a
    setup. *)
Definition _update_parameter_ranges
    (parameter_ranges : list (string * ParameterRange)) (setup : Setup)
    (best_lap_time : R) : list (string * ParameterRange) :=
  let params := _extract_setup_parameters setup in
  fold_left (update_range best_lap_time) params parameter_ranges.

Definition with_optimal_value (r : ParameterRange) (v : R) : ParameterRange :=
  {| parameter_name := parameter_name r;
     min_value := min_value r;
     max_value := max_value r;
     optimal_value := Some v;
     values := values r;
     lap_times := lap_times r |}.

(** [_calculate_parameter_correlation]: correlation between a parameter
    and performance.  The range comes back with [optimal_value] assigned
    when a correlation is returned. *)
Definition _calculate_parameter_correlation (param_name : string)
    (param_range : ParameterRange)
    : py.result (ParameterRange * option SetupCorrelation) :=
  let values := values param_range in
  let lap_times := lap_times param_range in
  if (length values <? 2)%nat then py.Ok (param_range, None)
  else
    (* Calculate Pearson correlation coefficient *)
    let n := INR (length values) in
    let sum_x := py.sum_r values in
    let sum_y := py.sum_r lap_times in
    let sum_xy :=
      py.sum_r (map (fun xy => fst xy * snd xy) (combine values lap_times)) in
    let sum_x2 := py.sum_r (map (fun x => x ^ 2) values) in
    let sum_y2 := py.sum_r (map (fun y => y ^ 2) lap_times) in
    let numerator := n * sum_xy - sum_x * sum_y in
    denominator <-
      py.sqrt ((n * sum_x2 - sum_x ^ 2)
               * (n * sum_y2 - sum_y ^ 2)) ;;
    if Req_dec_T denominator 0 then py.Ok (param_range, None)
    else
      let correlation := numerator / denominator in
      (* Current value (most recent) *)
      current_value <- py.or_raise py.IndexError (py.last_opt values) ;;
      (* Determine optimal direction *)
      let '(suggested_direction, suggested_change) :=
        if Rlt_dec (Rabs correlation) 0.3 then ("optimal", 0)
        else if Rlt_dec correlation 0 then
          ("increase", (max_value param_range - current_value) * 0.5)
        else
          ("decrease", (current_value - min_value param_range) * 0.5) in
      (* Confidence based on sample size and correlation strength *)
      let confidence :=
        py.min_r 100 (Rabs correlation * 100 * py.log2 (n + 1)) in
      (* Find optimal value (value with best lap time) *)
      fastest <- py.or_raise py.ValueError (py.min_list_r lap_times) ;;
      best_idx <- py.or_raise py.ValueError (py.index_r lap_times fastest) ;;
      best_value <- py.or_raise py.IndexError (nth_error values best_idx) ;;
      py.Ok (with_optimal_value param_range best_value,
             Some {| corr_parameter_name := param_name;
                     parameter_value := current_value;
                     lap_time_correlation := correlation;
                     balance_correlation := 0;
                     tire_wear_correlation := 0;
                     confidence := confidence;
                     sample_count := length values;
                     suggested_direction := suggested_direction;
                     suggested_change := suggested_change |}).

(** The loop of [analyze_correlations] over [parameter_ranges.items()]:
    the ranges as the loop leaves them and the list [correlations]. *)
Fixpoint correlate_items (items : list (string * ParameterRange))
    : py.result (list (string * ParameterRange) * list SetupCorrelation) :=
  match items with
  | [] => py.Ok ([], [])
  | (param_name, param_range) :: rest =>
      if (length (values param_range) <? 2)%nat then
        ' (rest', correlations) <- correlate_items rest ;;
        py.Ok ((param_name, param_range) :: rest', correlations)
      else
        ' (param_range', correlation) <-
          _calculate_parameter_correlation param_name param_range ;;
        ' (rest', correlations) <- correlate_items rest ;;
        py.Ok ((param_name, param_range') :: rest',
               match correlation with
               | Some c => c :: correlations
               | None => correlations
               end)
  end.

(** [correlations.sort(key=lambda c: c.confidence, reverse=True)] *)
Definition sort_by_confidence (l : list SetupCorrelation)
    : list SetupCorrelation :=
  py.sorted
    (fun y x => if Rlt_dec (confidence x) (confidence y) then true else false)
    l.

Section Correlator.
(** The session data, seen through the one field the correlator reads,
    and the telemetry analyzer the correlator owns: [analyze_session]
    takes the analyzer's state and returns the new one with the
    statistics. *)
Variables SessionData BehaviorStatistics TelemetryAnalyzer : Type.
Variable session_best_lap_time : SessionData -> R.
Variable analyze_session :
  TelemetryAnalyzer -> SessionData -> TelemetryAnalyzer * BehaviorStatistics.

(** Pair of session data with corresponding setup. *)
Record SessionSetupPair : Type := {
  session : SessionData;
  pair_setup : Setup;
  behavior : option BehaviorStatistics;
  best_lap_time : R
}.

(** Correlates setup parameters with performance metrics. *)
Record SetupCorrelator : Type := {
  analyzer : TelemetryAnalyzer;
  sessions : list SessionSetupPair;
  parameter_ranges : list (string * ParameterRange)
}.

(** [__init__] *)
Definition __init__ (a : TelemetryAnalyzer) : SetupCorrelator :=
  {| analyzer := a; sessions := []; parameter_ranges := [] |}.

(** [add_session]: add a session with its corresponding setup. *)
Definition add_session (self : SetupCorrelator) (session : SessionData)
    (setup : Setup) : SetupCorrelator :=
  (* Analyze the session *)
  let '(analyzer', behavior) := analyze_session (analyzer self) session in
  let pair := {| session := session;
                 pair_setup := setup;
                 behavior := Some behavior;
                 best_lap_time := session_best_lap_time session |} in
  {| analyzer := analyzer';
     sessions := sessions self ++ [pair];
     (* Update parameter ranges *)
     parameter_ranges :=
       _update_parameter_ranges (parameter_ranges self) setup
         (session_best_lap_time session) |}.

(** [analyze_correlations]: correlations between setup parameters and
    performance, with the correlator as the call leaves it. *)
Definition analyze_correlations (self : SetupCorrelator)
    : py.result (SetupCorrelator * list SetupCorrelation) :=
  if (length (sessions self) <? 2)%nat then py.Ok (self, [])
  else
    ' (ranges, correlations) <- correlate_items (parameter_ranges self) ;;
    py.Ok ({| analyzer := analyzer self;
              sessions := sessions self;
              parameter_ranges := ranges |},
           (* Sort by confidence *)
           sort_by_confidence correlations).

(** The correlator after a sequence of [add_session] calls. *)
Definition after_sessions (a : TelemetryAnalyzer)
    (calls : list (SessionData * Setup)) : SetupCorrelator :=
  fold_left (fun self call => add_session self (fst call) (snd call))
    calls (__init__ a).
End Correlator.

Arguments sessions {SessionData BehaviorStatistics TelemetryAnalyzer} _.
Arguments parameter_ranges {SessionData BehaviorStatistics TelemetryAnalyzer} _.
Arguments analyzer {SessionData BehaviorStatistics TelemetryAnalyzer} _.
Arguments __init__ {SessionData BehaviorStatistics TelemetryAnalyzer} a.
Arguments add_session {SessionData BehaviorStatistics TelemetryAnalyzer}
  session_best_lap_time analyze_session self session setup.
Arguments analyze_correlations {SessionData BehaviorStatistics TelemetryAnalyzer}
  self.
Arguments after_sessions {SessionData BehaviorStatistics TelemetryAnalyzer}
  session_best_lap_time analyze_session a calls.

End setup_correlator.

(* ================================================================== *)
(** * agp_core/setup/setup_correlator.py on binary64 numbers *)
(* ================================================================== *)

(** The same functions of the correlator as CPython runs them: a Python
    [float] is an IEEE 754 binary64 number with round-to-nearest
    operations, which is what Rocq's primitive [float] is.  A setup is taken
    after [_extract_setup_parameters], as the dict of its parameters.
    [x ** 2] is the correctly rounded square, [sum] adds from the left
    (CPython up to 3.11; the compensated sum of 3.12 agrees on the sums
    that decide the results below), and [math.log2], which the primitive
    floats do not have, is a parameter. *)
Module binary64.

Import PrimFloat.
Local Open Scope string_scope.
Local Open Scope list_scope.
Local Open Scope float_scope.
Local Set Warnings "-inexact-float".

(** [float(n)] for the length of a list. *)
Definition of_nat (n : nat) : float :=
  PrimFloat.of_uint63 (Uint63.of_Z (Z.of_nat n)).

(** [sum(l)], [min(a, b)], [max(a, b)], [min(l)], [l.index(x)] *)
Definition sum (l : list float) : float := fold_left PrimFloat.add l 0.

Definition min (a b : float) : float := if PrimFloat.ltb b a then b else a.
Definition max (a b : float) : float := if PrimFloat.ltb a b then b else a.

Definition min_list (l : list float) : option float :=
  match l with
  | [] => None
  | x :: t => Some (fold_left min t x)
  end.

Fixpoint index (l : list float) (x : float) : option nat :=
  match l with
  | [] => None
  | y :: t =>
      if PrimFloat.eqb y x then Some O
      else match index t x with
           | Some i => Some (S i)
           | None => None
           end
  end.

(** [math.sqrt(x)]: a [ValueError] below zero. *)
Definition sqrt (x : float) : py.result float :=
  if PrimFloat.ltb x 0 then py.Raise py.ValueError
  else py.Ok (PrimFloat.sqrt x).

(** Observed range of a setup parameter. *)
Record ParameterRange : Type := {
  parameter_name : string;
  min_value : float;
  max_value : float;
  optimal_value : option float;
  values : list float;
  lap_times : list float
}.

(** Correlation between setup parameter and performance metric. *)
Record SetupCorrelation : Type := {
  corr_parameter_name : string;
  parameter_value : float;
  lap_time_correlation : float;
  balance_correlation : float;
  tire_wear_correlation : float;
  confidence : float;
  sample_count : nat;
  suggested_direction : string;
  suggested_change : float
}.

(** The body of the loop of [_update_parameter_ranges]. *)
Definition update_range (best_lap_time : float)
    (parameter_ranges : list (string * ParameterRange))
    (item : string * float) : list (string * ParameterRange) :=
  let '(name, value) := item in
  let parameter_ranges :=
    if py.dict_mem String.eqb parameter_ranges name then parameter_ranges
    else
      py.dict_set String.eqb parameter_ranges name
        {| parameter_name := name;
           min_value := value;
           max_value := value;
           optimal_value := None;
           values := [];
           lap_times := [] |} in
  match py.dict_get String.eqb parameter_ranges name with
  | None => parameter_ranges
  | Some range_obj =>
      py.dict_set String.eqb parameter_ranges name
        {| parameter_name := parameter_name range_obj;
           min_value := min (min_value range_obj) value;
           max_value := max (max_value range_obj) value;
           optimal_value := optimal_value range_obj;
           values := values range_obj ++ [value];
           lap_times := lap_times range_obj ++ [best_lap_time] |}
  end.

(** [_update_parameter_ranges], from the extracted parameters on. *)
Definition _update_parameter_ranges
    (parameter_ranges : list (string * ParameterRange))
    (params : list (string * float)) (best_lap_time : float)
    : list (string * ParameterRange) :=
  fold_left (update_range best_lap_time) params parameter_ranges.

Definition with_optimal_value (r : ParameterRange) (v : float)
    : ParameterRange :=
  {| parameter_name := parameter_name r;
     min_value := min_value r;
     max_value := max_value r;
     optimal_value := Some v;
     values := values r;
     lap_times := lap_times r |}.

Section Correlator.
Variable log2 : float -> float.

(** [_calculate_parameter_correlation] *)
Definition _calculate_parameter_correlation (param_name : string)
    (param_range : ParameterRange)
    : py.result (ParameterRange * option SetupCorrelation) :=
  let values := values param_range in
  let lap_times := lap_times param_range in
  if (length values <? 2)%nat then py.Ok (param_range, None)
  else
    (* Calculate Pearson correlation coefficient *)
    let n := of_nat (length values) in
    let sum_x := sum values in
    let sum_y := sum lap_times in
    let sum_xy :=
      sum (map (fun xy => fst xy * snd xy) (combine values lap_times)) in
    let sum_x2 := sum (map (fun x => x * x) values) in
    let sum_y2 := sum (map (fun y => y * y) lap_times) in
    let numerator := n * sum_xy - sum_x * sum_y in
    denominator <-
      sqrt ((n * sum_x2 - sum_x * sum_x) * (n * sum_y2 - sum_y * sum_y)) ;;
    if PrimFloat.eqb denominator 0 then py.Ok (param_range, None)
    else
      let correlation := numerator / denominator in
      (* Current value (most recent) *)
      current_value <- py.or_raise py.IndexError (py.last_opt values) ;;
      (* Determine optimal direction *)
      let '(suggested_direction, suggested_change) :=
        if PrimFloat.ltb (PrimFloat.abs correlation) 0.3 then ("optimal", 0)
        else if PrimFloat.ltb correlation 0 then
          ("increase", (max_value param_range - current_value) * 0.5)
        else
          ("decrease", (current_value - min_value param_range) * 0.5) in
      (* Confidence based on sample size and correlation strength *)
      let confidence :=
        min 100 (PrimFloat.abs correlation * 100 * log2 (n + 1)) in
      (* Find optimal value (value with best lap time) *)
      fastest <- py.or_raise py.ValueError (min_list lap_times) ;;
      best_idx <- py.or_raise py.ValueError (index lap_times fastest) ;;
      best_value <- py.or_raise py.IndexError (nth_error values best_idx) ;;
      py.Ok (with_optimal_value param_range best_value,
             Some {| corr_parameter_name := param_name;
                     parameter_value := current_value;
                     lap_time_correlation := correlation;
                     balance_correlation := 0;
                     tire_wear_correlation := 0;
                     confidence := confidence;
                     sample_count := length values;
                     suggested_direction := suggested_direction;
                     suggested_change := suggested_change |}).

(** The loop of [analyze_correlations] over [parameter_ranges.items()]. *)
Fixpoint correlate_items (items : list (string * ParameterRange))
    : py.result (list (string * ParameterRange) * list SetupCorrelation) :=
  match items with
  | [] => py.Ok ([], [])
  | (param_name, param_range) :: rest =>
      if (length (values param_range) <? 2)%nat then
        ' (rest', correlations) <- correlate_items rest ;;
        py.Ok ((param_name, param_range) :: rest', correlations)
      else
        ' (param_range', correlation) <-
          _calculate_parameter_correlation param_name param_range ;;
        ' (rest', correlations) <- correlate_items rest ;;
        py.Ok ((param_name, param_range') :: rest',
               match correlation with
               | Some c => c :: correlations
               | None => correlations
               end)
  end.

(** The correlator: a session is kept as its parameters and best lap
    time. *)
Record SetupCorrelator : Type := {
  sessions : list (list (string * float) * float);
  parameter_ranges : list (string * ParameterRange)
}.

Definition __init__ : SetupCorrelator :=
  {| sessions := []; parameter_ranges := [] |}.

(** [add_session] *)
Definition add_session (self : SetupCorrelator)
    (params : list (string * float)) (best_lap_time : float)
    : SetupCorrelator :=
  {| sessions := sessions self ++ [(params, best_lap_time)];
     parameter_ranges :=
       _update_parameter_ranges (parameter_ranges self) params
         best_lap_time |}.

(** [analyze_correlations] *)
Definition analyze_correlations (self : SetupCorrelator)
    : py.result (SetupCorrelator * list SetupCorrelation) :=
  if (length (sessions self) <? 2)%nat then py.Ok (self, [])
  else
    ' (ranges, correlations) <- correlate_items (parameter_ranges self) ;;
    py.Ok ({| sessions := sessions self; parameter_ranges := ranges |},
           (* Sort by confidence *)
           py.sorted
             (fun y x => PrimFloat.ltb (confidence x) (confidence y))
             correlations).
End Correlator.

End binary64.

(* ================================================================== *)
(** * agp_core/analysis/setup_analyzer.py: the sample feed and the summary *)
(* ================================================================== *)

(** [add_sample], [_calculate_slip_ratios] and [get_summary] of
    [SetupAnalyzer], on the telemetry object of
    [agp_core/telemetry/rf2_shared_memory.py]. *)
Module setup_analyzer_feed.

Import setup_analyzer.
Local Open Scope string_scope.
Local Open Scope list_scope.
Local Open Scope Q_scope.

(** [WheelData]: the fields [add_sample] reads. *)
Record WheelData : Type := {
  suspension_deflection : Q;
  wd_ride_height : Q;
  rotation : Q;
  wd_camber : Q;
  wd_tire_load : Q;
  temp_inner : Q;
  temp_outer : Q;
  wd_toe : Q
}.

(** [TelemetryData]: the fields [add_sample] reads.  [wheels] is the list
    of four [WheelData] that the dataclass and [read_telemetry] build. *)
Record Telemetry : Type := {
  t_vehicle_name : string;
  t_speed : Q;
  t_speed_kmh : Q;
  t_g_long : Q;
  t_g_lat : Q;
  t_throttle : Q;
  t_brake : Q;
  t_steering : Q;
  t_lap_number : Z;
  t_rake : Q;
  t_front_downforce : Q;
  t_rear_downforce : Q;
  wheel_0 : WheelData;
  wheel_1 : WheelData;
  wheel_2 : WheelData;
  wheel_3 : WheelData;
  t_tire_temp : Wheels;
  t_tire_pressure : Wheels;
  t_tire_wear : Wheels;
  t_brake_temp : Wheels;
  t_grip : Wheels
}.

(** The same object as the methods modelled in [setup_analyzer] see it. *)
Definition telemetry_view (t : Telemetry) : TelemetryData :=
  {| td_speed_kmh := t_speed_kmh t;
     td_throttle := t_throttle t;
     td_brake := t_brake t;
     td_steering := t_steering t;
     td_front_downforce := t_front_downforce t;
     td_rear_downforce := t_rear_downforce t |}.

(** [[f(telemetry_data.wheels[i]) for i in range(4)]] *)
Definition per_wheel (f : WheelData -> Q) (t : Telemetry) : Wheels :=
  wheels (f (wheel_0 t)) (f (wheel_1 t)) (f (wheel_2 t)) (f (wheel_3 t)).

(** [_calculate_slip_ratios]: slip ratio for each wheel. *)
Definition _calculate_slip_ratios (data : Telemetry) : Wheels :=
  let speed := t_speed data in
  per_wheel
    (fun wheel =>
       if py.Qltb 1 speed then
         let wheel_speed := Qabs (rotation wheel) * 0.325 in
         wheel_speed / speed - 1
       else 0)
    data.

(** [deque(maxlen=n).append(x)]: a full deque drops its oldest element. *)
Definition deque_append {A : Type} (maxlen : nat) (d : list A) (x : A)
    : list A :=
  if (maxlen <=? length d)%nat then tl d ++ [x] else d ++ [x].

(** The [Sample] that [add_sample] builds; [now] is [time.time()]. *)
Definition sample_of (now : Q) (telemetry_data : Telemetry) : Sample :=
  {| timestamp := now;
     phase := _classify_phase (telemetry_view telemetry_data);
     speed := t_speed_kmh telemetry_data;
     throttle := t_throttle telemetry_data;
     brake := t_brake telemetry_data;
     steering := Qabs (t_steering telemetry_data);
     g_lat := t_g_lat telemetry_data;
     g_long := t_g_long telemetry_data;
     tire_temp := t_tire_temp telemetry_data;
     tire_temp_inner := per_wheel temp_inner telemetry_data;
     tire_temp_outer := per_wheel temp_outer telemetry_data;
     tire_pressure := t_tire_pressure telemetry_data;
     tire_wear := t_tire_wear telemetry_data;
     grip := t_grip telemetry_data;
     tire_load := per_wheel wd_tire_load telemetry_data;
     slip_ratio := _calculate_slip_ratios telemetry_data;
     brake_temp := t_brake_temp telemetry_data;
     ride_height := per_wheel wd_ride_height telemetry_data;
     susp_deflection := per_wheel suspension_deflection telemetry_data;
     front_downforce := t_front_downforce telemetry_data;
     rear_downforce := t_rear_downforce telemetry_data;
     rake := t_rake telemetry_data;
     camber := per_wheel wd_camber telemetry_data;
     toe := per_wheel wd_toe telemetry_data |}.

(** [add_sample]: add a telemetry sample for analysis.  [None] as the
    argument is a falsy [telemetry_data]; [None] as the result is the
    exception of [_analyze_lap]. *)
Definition add_sample (self : SetupAnalyzer) (now : Q)
    (telemetry_data : option Telemetry) : option SetupAnalyzer :=
  match telemetry_data with
  | None => Some self
  | Some telemetry_data =>
      let sample := sample_of now telemetry_data in
      (* Add to buffers *)
      let self :=
        {| samples := deque_append 5000 (samples self) sample;
           current_lap_samples := current_lap_samples self ++ [sample];
           current_lap := current_lap self;
           lap_analyses := lap_analyses self;
           current_setup := current_setup self;
           vehicle_name := vehicle_name self;
           vehicle_category := vehicle_category self;
           parameters := parameters self;
           optimal_ranges := optimal_ranges self |} in
      (* Detect new lap *)
      let self :=
        if negb (t_lap_number telemetry_data =? current_lap self)%Z then
          let self :=
            if (0 <? current_lap self)%Z
               && (100 <? length (current_lap_samples self))%nat
            then _analyze_lap self
            else Some self in
          match self with
          | None => None
          | Some self =>
              Some {| samples := samples self;
                      current_lap_samples := [];
                      current_lap := t_lap_number telemetry_data;
                      lap_analyses := lap_analyses self;
                      current_setup := current_setup self;
                      vehicle_name := vehicle_name self;
                      vehicle_category := vehicle_category self;
                      parameters := parameters self;
                      optimal_ranges := optimal_ranges self |}
          end
        else Some self in
      match self with
      | None => None
      | Some self =>
          (* Update vehicle info *)
          let self :=
            {| samples := samples self;
               current_lap_samples := current_lap_samples self;
               current_lap := current_lap self;
               lap_analyses := lap_analyses self;
               current_setup := current_setup self;
               vehicle_name := t_vehicle_name telemetry_data;
               vehicle_category := vehicle_category self;
               parameters := parameters self;
               optimal_ranges := optimal_ranges self |} in
          Some (_detect_vehicle_category self (telemetry_view telemetry_data))
      end
  end.

(** The analyzer after a stream of samples, each with its clock reading. *)
Fixpoint feed (self : SetupAnalyzer) (stream : list (Q * Telemetry))
    : option SetupAnalyzer :=
  match stream with
  | [] => Some self
  | (now, t) :: rest =>
      match add_sample self now (Some t) with
      | None => None
      | Some self => feed self rest
      end
  end.

(** [phase.value] *)
Definition CornerPhase_value (p : CornerPhase) : string :=
  match p with
  | STRAIGHT => "straight"
  | BRAKING => "braking"
  | ENTRY => "entry"
  | MID => "mid"
  | EXIT => "exit"
  | ACCELERATION => "acceleration"
  end.

(** The dict [get_summary] returns when a lap has been analysed. *)
Record Summary : Type := {
  sm_lap_number : Z;
  sm_samples : nat;
  sm_vehicle : string;
  sm_category : string;
  sm_problems : list (string * Q);
  understeer_pct : Q;
  oversteer_pct : Q;
  traction_loss_pct : Q;
  sm_tire_temps : Wheels;
  sm_tire_temps_max : Wheels;
  sm_brake_temps_max : Wheels;
  sm_tire_pressure_avg : Wheels;
  sm_tire_wear : Wheels;
  sm_stability_score : Q;
  sm_wheelspin_pct : Q;
  sm_lockup_pct : Q;
  sm_avg_rake : Q;
  sm_bottoming_events : nat;
  sm_behavior : list (string * Behavior)
}.

(** The two dicts of [get_summary], by their ["status"]. *)
Inductive SummaryDict : Type :=
  | collecting (message : string) (samples : nat)
  | ready (summary : Summary).

(** The loop of [get_summary] over the three phases, on
    [(understeer_sum, oversteer_sum)]. *)
Definition behavior_sums (behavior : list (CornerPhase * Behavior)) : Q * Q :=
  fold_left
    (fun (acc : Q * Q) phase =>
       let '(understeer_sum, oversteer_sum) := acc in
       match py.dict_get CornerPhase_beq behavior phase with
       | Some b => (understeer_sum + understeer b, oversteer_sum + oversteer b)
       | None => acc
       end)
    [ENTRY; MID; EXIT] (0, 0).

(** [get_summary]: current analysis summary. *)
Definition get_summary (self : SetupAnalyzer) : SummaryDict :=
  match py.last_opt (lap_analyses self) with
  | None => collecting "En attente de donnees..." (length (samples self))
  | Some analysis =>
      (* Calculate understeer/oversteer percentages *)
      let '(understeer_sum, oversteer_sum) :=
        behavior_sums (behavior analysis) in
      let understeer_pct := (understeer_sum / 3) * 100 in
      let oversteer_pct := (oversteer_sum / 3) * 100 in
      ready
        {| sm_lap_number := lap_number analysis;
           sm_samples := sample_count analysis;
           sm_vehicle := vehicle_name self;
           sm_category := vehicle_category self;
           sm_problems :=
             map (fun ps : Problem * Q => (Problem_value (fst ps), snd ps))
                 (problems analysis);
           understeer_pct := understeer_pct;
           oversteer_pct := oversteer_pct;
           traction_loss_pct := wheelspin_pct analysis * 100;
           sm_tire_temps := tire_temps_avg analysis;
           sm_tire_temps_max := tire_temps_max analysis;
           sm_brake_temps_max := brake_temps_max analysis;
           sm_tire_pressure_avg := tire_pressure_avg analysis;
           sm_tire_wear :=
             wheels (w0 (tire_wear_end analysis) * 100)
                    (w1 (tire_wear_end analysis) * 100)
                    (w2 (tire_wear_end analysis) * 100)
                    (w3 (tire_wear_end analysis) * 100);
           sm_stability_score := stability_score analysis;
           sm_wheelspin_pct := wheelspin_pct analysis;
           sm_lockup_pct := lockup_pct analysis;
           sm_avg_rake := avg_rake analysis;
           sm_bottoming_events := bottoming_events analysis;
           sm_behavior :=
             map (fun pb : CornerPhase * Behavior =>
                    (CornerPhase_value (fst pb), snd pb))
                 (behavior analysis) |}
  end.

End setup_analyzer_feed.

(* ================================================================== *)
(** * agp_core/setup/telemetry_analyzer.py: corners, phases and balance *)
(* ================================================================== *)

(** The other methods of [TelemetryAnalyzer], with the classes of
    [agp_core/setup/telemetry_models.py] they work on. *)
Module telemetry_corners.

Import telemetry_analyzer.
Local Open Scope string_scope.
Local Open Scope list_scope.
Local Open Scope Q_scope.

(** Type of corner based on characteristics. *)
Inductive CornerType : Set :=
  | SLOW | MEDIUM | FAST | VERY_FAST | CHICANE | HAIRPIN.

(** Direction of the corner. *)
Inductive CornerDirection : Set := LEFT | RIGHT.

(** Phase within a corner. *)
Inductive CornerPhase : Set :=
  | APPROACH | BRAKE_ZONE | TRAIL_BRAKE | TURN_IN | APEX | MID_CORNER
  | EXIT | ACCELERATION.

Scheme Equality for CornerType.
Scheme Equality for CornerPhase.

(** A [TelemetryPoint] with the further fields these methods read: the
    point of [telemetry_analyzer], its tyre temperatures and the phase that
    [_detect_corner_phases] assigns. *)
Record Point : Type := {
  point :> TelemetryPoint;
  tire_temp_fl : Q;
  tire_temp_fr : Q;
  tire_temp_rl : Q;
  tire_temp_rr : Q;
  corner_phase : option CornerPhase
}.

(** Definition of a corner on the track; the name is [f"Turn {corner_id}"]. *)
Record CornerDefinition : Type := {
  def_corner_id : nat;
  def_name : nat;
  def_start_distance : Q;
  def_apex_distance : Q;
  def_end_distance : Q;
  def_direction : CornerDirection;
  def_corner_type : CornerType
}.

(** Analysis results for a single corner. *)
Record CornerAnalysis : Type := {
  corner_id : nat;
  corner_name : nat;
  corner_type : CornerType;
  direction : CornerDirection;
  start_distance : Q;
  apex_distance : Q;
  end_distance : Q;
  entry_speed : Q;
  min_speed : Q;
  apex_speed : Q;
  exit_speed : Q;
  brake_point_distance : Q;
  brake_pressure_max : Q;
  brake_duration : Q;
  trail_brake_duration : Q;
  understeer_detected : bool;
  understeer_severity : Q;
  understeer_phase : option CornerPhase;
  oversteer_detected : bool;
  oversteer_severity : Q;
  oversteer_phase : option CornerPhase;
  traction_loss_detected : bool;
  traction_loss_severity : Q;
  tire_temp_front_avg : Q;
  tire_temp_rear_avg : Q;
  slip_angle_front_max : Q;
  slip_angle_rear_max : Q;
  time_through_corner : Q;
  theoretical_time : Q;
  time_loss : Q;
  max_lat_g : Q;
  max_brake_g : Q;
  max_accel_g : Q
}.

(** Complete lap telemetry data: the fields the analyzer reads and
    writes. *)
Record LapData : Type := {
  lap_number : Z;
  lap_time : Q;
  is_valid : bool;
  is_outlap : bool;
  is_inlap : bool;
  understeer_percentage : Q;
  oversteer_percentage : Q;
  traction_loss_percentage : Q;
  brake_lock_percentage : Q;
  corners : list CornerAnalysis;
  data_points : list Point
}.

(** Thresholds for detection *)
Definition UNDERSTEER_SLIP_THRESHOLD : Q := 8.
Definition OVERSTEER_SLIP_THRESHOLD : Q := 8.
Definition BRAKE_LOCK_THRESHOLD : Q := - 0.20.

(** Corner detection thresholds *)
Definition CORNER_STEERING_THRESHOLD : Q := 15.
Definition CORNER_LATERAL_G_THRESHOLD : Q := 0.3.
Definition MIN_CORNER_DURATION : Q := 0.5.

(** Speed classifications (km/h) *)
Definition SLOW_CORNER_SPEED : Q := 80.
Definition MEDIUM_CORNER_SPEED : Q := 140.
Definition FAST_CORNER_SPEED : Q := 200.

(** [a <= b] *)
Definition Qleb (a b : Q) : bool := Qle_bool a b.

(** [min(l) if l else 0] *)
Definition min_list (l : list Q) : Q :=
  match l with
  | [] => 0
  | x :: t => fold_left py.min t x
  end.

(** [l.index(x)]: the first position of [x]; [None] is the [ValueError] of
    an absent element. *)
Fixpoint index (l : list Q) (x : Q) : option nat :=
  match l with
  | [] => None
  | y :: t =>
      if Qeq_bool y x then Some O
      else match index t x with
           | Some i => Some (S i)
           | None => None
           end
  end.

(** [_classify_corner_speed]: corner type based on minimum speed. *)
Definition _classify_corner_speed (speed : Q) : CornerType :=
  if py.Qltb speed SLOW_CORNER_SPEED then SLOW
  else if py.Qltb speed MEDIUM_CORNER_SPEED then MEDIUM
  else if py.Qltb speed FAST_CORNER_SPEED then FAST
  else VERY_FAST.

(** [_determine_phase]: the driving phase for a single point. *)
Definition _determine_phase (point : Point) (all_points : list Point)
    (idx : nat) : py.result CornerPhase :=
  (* Simple phase detection based on inputs and G-forces *)
  let throttle := throttle point in
  let brake := brake point in
  let steering := Qabs (steering point) in
  let g_lat := Qabs (g_lat point) in
  let g_long := g_long point in
  (* Heavy braking *)
  if py.Qltb 50 brake && py.Qltb g_long (- 0.5) then py.Ok BRAKE_ZONE
  (* Trail braking (moderate brake with steering) *)
  else if py.Qltb 10 brake && Qleb brake 50 && py.Qltb 10 steering then
    py.Ok TRAIL_BRAKE
  else
    (* Turn-in (high steering rate, transitioning) *)
    turn_in <-
      (if py.Qltb 20 steering && py.Qltb throttle 30 && py.Qltb brake 30
       then
         if (0 <? idx)%nat then
           prev <- py.or_raise py.IndexError
                     (nth_error all_points (idx - 1)) ;;
           let prev_steering := Qabs (telemetry_analyzer.steering prev) in
           py.Ok (py.Qltb 2 (steering - prev_steering))
         else py.Ok false
       else py.Ok false) ;;
    if turn_in : bool then py.Ok TURN_IN
    (* Apex/Mid-corner (high lateral G, low longitudinal input) *)
    else if py.Qltb 0.8 g_lat && py.Qltb throttle 50 && py.Qltb brake 10 then
      py.Ok APEX
    (* Mid-corner (moderate lateral G) *)
    else if py.Qltb 0.5 g_lat && py.Qltb 15 steering then py.Ok MID_CORNER
    (* Corner exit (increasing throttle with steering) *)
    else if py.Qltb 30 throttle && py.Qltb 10 steering && py.Qltb 0 g_long
    then py.Ok EXIT
    (* Full acceleration *)
    else if py.Qltb 80 throttle && py.Qltb steering 10 then py.Ok ACCELERATION
    (* Approach (light braking or coasting before corner) *)
    else if py.Qltb 0 brake && py.Qltb brake 50 && py.Qltb steering 10 then
      py.Ok APPROACH
    else py.Ok APPROACH.

Definition with_corner_phase (p : Point) (ph : CornerPhase) : Point :=
  {| point := point p;
     tire_temp_fl := tire_temp_fl p;
     tire_temp_fr := tire_temp_fr p;
     tire_temp_rl := tire_temp_rl p;
     tire_temp_rr := tire_temp_rr p;
     corner_phase := Some ph |}.

(** The loop of [_detect_corner_phases]: [done] holds the points already
    given their phase, [todo] the others; the list that [_determine_phase]
    looks into is the list being updated. *)
Fixpoint assign_phases (done todo : list Point) : py.result (list Point) :=
  match todo with
  | [] => py.Ok done
  | point :: rest =>
      ph <- _determine_phase point (done ++ todo) (length done) ;;
      assign_phases (done ++ [with_corner_phase point ph]) rest
  end.

(** [_detect_corner_phases]: assign a corner phase to each telemetry point
    of the lap; the result is the list of points of the lap afterwards. *)
Definition _detect_corner_phases (data_points : list Point)
    : py.result (list Point) :=
  assign_phases [] data_points.

(** The averages [front_slip] and [rear_slip] of the slip angles. *)
Definition front_slip (point : Point) : Q :=
  (Qabs (slip_angle_fl point) + Qabs (slip_angle_fr point)) / 2.

Definition rear_slip (point : Point) : Q :=
  (Qabs (slip_angle_rl point) + Qabs (slip_angle_rr point)) / 2.

(** The state of the loops of [_detect_understeer] and
    [_detect_oversteer]: [(count, max_severity, worst_phase)]. *)
Definition Worst : Type := (nat * Q * option CornerPhase)%type.

(** [count += 1; if severity > max_severity: ...] *)
Definition record_severity (acc : Worst) (severity : Q)
    (phase : option CornerPhase) : Worst :=
  let '(count, max_severity, worst_phase) := acc in
  if py.Qltb max_severity severity then (S count, severity, phase)
  else (S count, max_severity, worst_phase).

(** The body of the first loop of [_detect_understeer]. *)
Definition understeer_slip_step (acc : Worst) (point : Point) : Worst :=
  let slip_diff := front_slip point - rear_slip point in
  (* Understeer when front slips more than rear *)
  if py.Qltb UNDERSTEER_SLIP_THRESHOLD slip_diff then
    let severity := py.min 100 ((slip_diff - UNDERSTEER_SLIP_THRESHOLD) * 10) in
    record_severity acc severity (corner_phase point)
  else acc.

(** The body of its second loop: steering saturation. *)
Definition saturation_step (acc : Worst) (point : Point) : Worst :=
  if py.Qltb 60 (Qabs (steering point)) && py.Qltb (Qabs (g_lat point)) 1
  then
    let expected_g := Qabs (steering point) / 60 in
    if py.Qltb (Qabs (g_lat point)) (expected_g * 0.7) then
      let severity := (1 - Qabs (g_lat point) / expected_g) * 50 in
      record_severity acc severity (corner_phase point)
    else acc
  else acc.

(** [_detect_understeer]: detect understeer in corner. *)
Definition _detect_understeer (points : list Point)
    : bool * Q * option CornerPhase :=
  match points with
  | [] => (false, 0, None)
  | _ =>
      let acc := fold_left understeer_slip_step points (0%nat, 0, None) in
      let '(understeer_count, max_severity, worst_phase) :=
        fold_left saturation_step points acc in
      (* >10% of points *)
      let detected := py.Qltb (py.len points * 0.1) (py.of_nat understeer_count) in
      (detected, max_severity, worst_phase)
  end.

(** The body of the first loop of [_detect_oversteer]. *)
Definition oversteer_slip_step (acc : Worst) (point : Point) : Worst :=
  let slip_diff := rear_slip point - front_slip point in
  (* Oversteer when rear slips more than front *)
  if py.Qltb OVERSTEER_SLIP_THRESHOLD slip_diff then
    let severity := py.min 100 ((slip_diff - OVERSTEER_SLIP_THRESHOLD) * 10) in
    record_severity acc severity (corner_phase point)
  else acc.

(** The body of its second loop, on [prev = points[i-1]] and
    [curr = points[i]]: counter-steering. *)
Definition counter_steer_step (acc : Worst) (pair : Point * Point) : Worst :=
  let '(prev, curr) := pair in
  (* Sign change in steering while still cornering *)
  if py.Qltb (steering prev * steering curr) 0
     && py.Qltb 0.5 (Qabs (g_lat curr)) then
    let severity := py.min 100 (Qabs (steering curr - steering prev)) in
    record_severity acc severity (corner_phase curr)
  else acc.

(** [[(points[i-1], points[i]) for i in range(1, len(points))]] *)
Definition consecutive (points : list Point) : list (Point * Point) :=
  combine points (tl points).

(** [_detect_oversteer]: detect oversteer in corner. *)
Definition _detect_oversteer (points : list Point)
    : bool * Q * option CornerPhase :=
  match points with
  | [] => (false, 0, None)
  | _ =>
      let acc := fold_left oversteer_slip_step points (0%nat, 0, None) in
      let '(oversteer_count, max_severity, worst_phase) :=
        fold_left counter_steer_step (consecutive points) acc in
      (* >5% of points *)
      let detected := py.Qltb (py.len points * 0.05) (py.of_nat oversteer_count) in
      (detected, max_severity, worst_phase)
  end.

(** [_analyze_single_corner]: analyze a single corner passage. *)
Definition _analyze_single_corner (corner_def : CornerDefinition)
    (points : list Point) : py.result CornerAnalysis :=
  (* Speed analysis *)
  let speeds := map (fun p : Point => speed p) points in
  let entry_speed := match speeds with x :: _ => x | [] => 0 end in
  let exit_speed :=
    match py.last_opt speeds with Some x => x | None => 0 end in
  let min_speed := min_list speeds in
  apex_idx <-
    match speeds with
    | [] => py.Ok O
    | _ => py.or_raise py.ValueError (index speeds min_speed)
    end ;;
  apex_speed <-
    match points with
    | [] => py.Ok 0
    | _ =>
        py.or_raise py.IndexError
          (option_map (fun p : Point => speed p) (nth_error points apex_idx))
    end ;;
  (* Braking analysis *)
  let brake_points := filter (fun p : Point => py.Qltb 10 (brake p)) points in
  let brake_point_distance :=
    match brake_points with
    | p :: _ => distance p
    | [] => def_start_distance corner_def
    end in
  let brake_pressure_max :=
    py.max_list (map (fun p : Point => brake p) points) in
  let '(brake_duration, trail_brake_duration) :=
    match brake_points, py.last_opt brake_points with
    | first :: _, Some last =>
        let brake_start := timestamp first in
        let brake_end := timestamp last in
        (* Trail brake = braking while steering *)
        let trail_points :=
          filter (fun p : Point => py.Qltb 15 (Qabs (steering p)))
                 brake_points in
        (brake_end - brake_start,
         match trail_points, py.last_opt trail_points with
         | t0 :: _, Some tn => timestamp tn - timestamp t0
         | _, _ => 0
         end)
    | _, _ => (0, 0)
    end in
  (* Behavior detection *)
  let '(understeer_detected, understeer_severity, understeer_phase) :=
    _detect_understeer points in
  let '(oversteer_detected, oversteer_severity, oversteer_phase) :=
    _detect_oversteer points in
  let '(traction_loss, traction_severity) :=
    _detect_traction_loss (map point points) in
  (* Tire temps *)
  let front_temps :=
    map (fun p => (tire_temp_fl p + tire_temp_fr p) / 2)
        (filter (fun p => py.Qltb 0 (tire_temp_fl p)) points) in
  let rear_temps :=
    map (fun p => (tire_temp_rl p + tire_temp_rr p) / 2)
        (filter (fun p => py.Qltb 0 (tire_temp_rl p)) points) in
  (* Slip angles *)
  let front_slip :=
    map (fun p : Point =>
           py.max (Qabs (slip_angle_fl p)) (Qabs (slip_angle_fr p)))
        points in
  let rear_slip :=
    map (fun p : Point =>
           py.max (Qabs (slip_angle_rl p)) (Qabs (slip_angle_rr p)))
        points in
  (* G-forces *)
  let lat_gs := map (fun p : Point => Qabs (g_lat p)) points in
  let long_gs := map (fun p : Point => g_long p) points in
  (* Time through corner *)
  let time_through :=
    match points, py.last_opt points with
    | first :: _, Some last => timestamp last - timestamp first
    | _, _ => 0
    end in
  py.Ok
    {| corner_id := def_corner_id corner_def;
       corner_name := def_name corner_def;
       corner_type := def_corner_type corner_def;
       direction := def_direction corner_def;
       start_distance := def_start_distance corner_def;
       apex_distance := def_apex_distance corner_def;
       end_distance := def_end_distance corner_def;
       entry_speed := entry_speed;
       min_speed := min_speed;
       apex_speed := apex_speed;
       exit_speed := exit_speed;
       brake_point_distance := brake_point_distance;
       brake_pressure_max := brake_pressure_max;
       brake_duration := brake_duration;
       trail_brake_duration := trail_brake_duration;
       understeer_detected := understeer_detected;
       understeer_severity := understeer_severity;
       understeer_phase := understeer_phase;
       oversteer_detected := oversteer_detected;
       oversteer_severity := oversteer_severity;
       oversteer_phase := oversteer_phase;
       traction_loss_detected := traction_loss;
       traction_loss_severity := traction_severity;
       tire_temp_front_avg :=
         match front_temps with
         | [] => 0
         | _ => py.sum front_temps / py.len front_temps
         end;
       tire_temp_rear_avg :=
         match rear_temps with
         | [] => 0
         | _ => py.sum rear_temps / py.len rear_temps
         end;
       slip_angle_front_max := py.max_list front_slip;
       slip_angle_rear_max := py.max_list rear_slip;
       time_through_corner := time_through;
       theoretical_time := 0;
       time_loss := 0;
       max_lat_g := py.max_list lat_gs;
       max_brake_g :=
         match long_gs with [] => 0 | _ => Qabs (min_list long_gs) end;
       max_accel_g := py.max_list long_gs |}.

(** The points of the lap inside a corner:
    [start_distance <= p.distance <= end_distance]. *)
Definition corner_points (corner_def : CornerDefinition)
    (data_points : list Point) : list Point :=
  filter
    (fun p : Point =>
       Qleb (def_start_distance corner_def) (distance p)
       && Qleb (distance p) (def_end_distance corner_def))
    data_points.

(** [_analyze_lap_corners]: analyze all corners in a lap. *)
Fixpoint analyze_corners (track_corners : list CornerDefinition)
    (data_points : list Point) : py.result (list CornerAnalysis) :=
  match track_corners with
  | [] => py.Ok []
  | corner_def :: rest =>
      match corner_points corner_def data_points with
      | [] => analyze_corners rest data_points
      | points =>
          analysis <- _analyze_single_corner corner_def points ;;
          corners <- analyze_corners rest data_points ;;
          py.Ok (analysis :: corners)
      end
  end.

Definition _analyze_lap_corners (track_corners : list CornerDefinition)
    (lap : LapData) : py.result (list CornerAnalysis) :=
  match track_corners, data_points lap with
  | [], _ | _, [] => py.Ok []
  | _, _ => analyze_corners track_corners (data_points lap)
  end.

(** The counters of [_calculate_lap_behavior]:
    [(understeer, oversteer, traction_loss, brake_lock)] points. *)
Definition lap_behavior_step (acc : nat * nat * nat * nat) (point : Point)
    : nat * nat * nat * nat :=
  let '(understeer_points, oversteer_points, traction_loss_points,
        brake_lock_points) := acc in
  let front_slip := front_slip point in
  let rear_slip := rear_slip point in
  (* Understeer *)
  let understeer_points :=
    if py.Qltb UNDERSTEER_SLIP_THRESHOLD (front_slip - rear_slip)
    then S understeer_points else understeer_points in
  (* Oversteer *)
  let oversteer_points :=
    if py.Qltb OVERSTEER_SLIP_THRESHOLD (rear_slip - front_slip)
    then S oversteer_points else oversteer_points in
  (* Traction loss *)
  let traction_loss_points :=
    if py.Qltb 50 (throttle point)
       && py.Qltb TRACTION_SLIP_RATIO_THRESHOLD (rear_slip_ratio point)
    then S traction_loss_points else traction_loss_points in
  (* Brake lock *)
  let brake_lock_points :=
    if py.Qltb 30 (brake point)
       && py.Qltb (py.min (slip_ratio_fl point) (slip_ratio_fr point))
                  BRAKE_LOCK_THRESHOLD
    then S brake_lock_points else brake_lock_points in
  (understeer_points, oversteer_points, traction_loss_points,
   brake_lock_points).

(** [_calculate_lap_behavior]: behavior percentages for a lap. *)
Definition _calculate_lap_behavior (lap : LapData) : LapData :=
  match data_points lap with
  | [] => lap
  | _ =>
      let total_points := py.len (data_points lap) in
      let '(understeer_points, oversteer_points, traction_loss_points,
            brake_lock_points) :=
        fold_left lap_behavior_step (data_points lap) (0, 0, 0, 0)%nat in
      {| lap_number := lap_number lap;
         lap_time := lap_time lap;
         is_valid := is_valid lap;
         is_outlap := is_outlap lap;
         is_inlap := is_inlap lap;
         understeer_percentage :=
           (py.of_nat understeer_points / total_points) * 100;
         oversteer_percentage :=
           (py.of_nat oversteer_points / total_points) * 100;
         traction_loss_percentage :=
           (py.of_nat traction_loss_points / total_points) * 100;
         brake_lock_percentage :=
           (py.of_nat brake_lock_points / total_points) * 100;
         corners := corners lap;
         data_points := data_points lap |}
  end.

(** [_calculate_phase_balance]: balance for a corner phase. *)
Definition _calculate_phase_balance (corners : list CornerAnalysis) : Q :=
  match corners with
  | [] => 50
  | _ =>
      let understeer_sum := py.sum (map understeer_severity corners) in
      let oversteer_sum := py.sum (map oversteer_severity corners) in
      if Qeq_bool (understeer_sum + oversteer_sum) 0 then 50
      else 50 + (oversteer_sum - understeer_sum) / (py.len corners * 2)
  end.

(** [_calculate_type_balance]: balance for a corner type. *)
Definition _calculate_type_balance (corners : list CornerAnalysis) : Q :=
  _calculate_phase_balance corners.

(** Statistical analysis of driving behavior. *)
Record BehaviorStatistics : Type := {
  understeer_tendency : Q;
  oversteer_tendency : Q;
  balance_score : Q;
  entry_balance : Q;
  mid_corner_balance : Q;
  exit_balance : Q;
  slow_corner_balance : Q;
  medium_corner_balance : Q;
  fast_corner_balance : Q;
  traction_on_throttle : Q;
  traction_off_throttle : Q;
  brake_stability : Q;
  brake_efficiency : Q;
  front_tire_stress : Q;
  rear_tire_stress : Q;
  tire_balance : Q;
  sample_size : nat;
  consistency : Q
}.

(** [BehaviorStatistics()]: the defaults of the dataclass. *)
Definition BehaviorStatistics_default : BehaviorStatistics :=
  {| understeer_tendency := 0;
     oversteer_tendency := 0;
     balance_score := 50;
     entry_balance := 50;
     mid_corner_balance := 50;
     exit_balance := 50;
     slow_corner_balance := 50;
     medium_corner_balance := 50;
     fast_corner_balance := 50;
     traction_on_throttle := 0;
     traction_off_throttle := 0;
     brake_stability := 100;
     brake_efficiency := 100;
     front_tire_stress := 0;
     rear_tire_stress := 0;
     tire_balance := 50;
     sample_size := 0;
     consistency := 0 |}.

(** Complete session telemetry data: the fields the analyzer reads. *)
Record SessionData : Type := {
  session_id : string;
  laps : list LapData;
  best_lap_time : Q
}.

(** A lap that [valid_laps] keeps: valid, and neither an out-lap nor an
    in-lap. *)
Definition counts (lap : LapData) : bool :=
  is_valid lap && negb (is_outlap lap) && negb (is_inlap lap).

(** [SessionData.valid_laps] *)
Definition valid_laps (session : SessionData) : list LapData :=
  filter counts (laps session).

(** [min(l, key=k)]: the first element with the least key. *)
Definition min_by {A : Type} (k : A -> Q) (l : list A) : option A :=
  match l with
  | [] => None
  | x :: t =>
      Some (fold_left (fun best y => if py.Qltb (k y) (k best) then y else best)
                      t x)
  end.

(** [SessionData.best_valid_lap] *)
Definition best_valid_lap (session : SessionData) : option LapData :=
  min_by lap_time (valid_laps session).

(** [sum(l) / len(l) if l else 0] *)
Definition mean_or_zero (l : list Q) : Q :=
  match l with
  | [] => 0
  | _ => py.sum l / py.len l
  end.

Definition phase_is (ph : CornerPhase) (o : option CornerPhase) : bool :=
  match o with
  | Some p => CornerPhase_beq p ph
  | None => false
  end.

Section Statistics.
(** [math.sqrt] on the numbers that are not negative. *)
Variable sqrt : Q -> Q.

(** [math.sqrt(x)]: a [ValueError] below zero. *)
Definition math_sqrt (x : Q) : py.result Q :=
  if py.Qltb x 0 then py.Raise py.ValueError else py.Ok (sqrt x).

(** [_calculate_behavior_statistics]: aggregate behavior statistics. *)
Definition _calculate_behavior_statistics (session : SessionData)
    (corners : list CornerAnalysis) : py.result BehaviorStatistics :=
  let stats := BehaviorStatistics_default in
  match corners with
  | [] => py.Ok stats
  | _ =>
      (* Overall tendencies *)
      let understeer_severities :=
        map understeer_severity (filter understeer_detected corners) in
      let oversteer_severities :=
        map oversteer_severity (filter oversteer_detected corners) in
      let understeer_tendency := mean_or_zero understeer_severities in
      let oversteer_tendency := mean_or_zero oversteer_severities in
      (* Balance score: 0 = understeer, 50 = neutral, 100 = oversteer *)
      let balance_score :=
        if py.Qltb 0 (understeer_tendency + oversteer_tendency) then
          let balance_score :=
            50 + (oversteer_tendency - understeer_tendency) / 2 in
          py.max 0 (py.min 100 balance_score)
        else balance_score stats in
      (* By corner phase *)
      let entry_corners :=
        filter (fun c => phase_is TURN_IN (understeer_phase c)
                         || phase_is TURN_IN (oversteer_phase c)) corners in
      let mid_corners :=
        filter (fun c => (phase_is APEX (understeer_phase c)
                          || phase_is MID_CORNER (understeer_phase c))
                         || (phase_is APEX (oversteer_phase c)
                             || phase_is MID_CORNER (oversteer_phase c)))
               corners in
      let exit_corners :=
        filter (fun c => phase_is EXIT (understeer_phase c)
                         || phase_is EXIT (oversteer_phase c)) corners in
      (* By corner type *)
      let slow_corners :=
        filter (fun c => CornerType_beq (corner_type c) SLOW) corners in
      let medium_corners :=
        filter (fun c => CornerType_beq (corner_type c) MEDIUM) corners in
      let fast_corners :=
        filter (fun c => CornerType_beq (corner_type c) FAST
                         || CornerType_beq (corner_type c) VERY_FAST)
               corners in
      (* Traction *)
      let traction_severities :=
        map traction_loss_severity (filter traction_loss_detected corners) in
      (* Tire stress *)
      let front_temps :=
        filter (fun t => py.Qltb 0 t) (map tire_temp_front_avg corners) in
      let rear_temps :=
        filter (fun t => py.Qltb 0 t) (map tire_temp_rear_avg corners) in
      let '(front_tire_stress, rear_tire_stress, tire_balance) :=
        match front_temps, rear_temps with
        | _ :: _, _ :: _ =>
            let avg_front := py.sum front_temps / py.len front_temps in
            let avg_rear := py.sum rear_temps / py.len rear_temps in
            (* Higher temp = more stress. Normalize to 0-100 *)
            let front_tire_stress :=
              py.min 100 (py.max 0 ((avg_front - 70) * 2)) in
            let rear_tire_stress :=
              py.min 100 (py.max 0 ((avg_rear - 70) * 2)) in
            (front_tire_stress, rear_tire_stress,
             50 + (rear_tire_stress - front_tire_stress) / 2)
        | _, _ =>
            (front_tire_stress stats, rear_tire_stress stats,
             tire_balance stats)
        end in
      (* Consistency *)
      consistency <-
        (let lap_times := map lap_time (valid_laps session) in
         if (1 <? length lap_times)%nat then
           let mean_time := py.sum lap_times / py.len lap_times in
           let variance :=
             py.sum (map (fun t => (t - mean_time) * (t - mean_time))
                         lap_times)
             / py.len lap_times in
           std_dev <- math_sqrt variance ;;
           (* Lower std dev = more consistent *)
           py.Ok (py.max 0 (100 - std_dev * 10))
         else py.Ok (consistency stats)) ;;
      py.Ok
        {| understeer_tendency := understeer_tendency;
           oversteer_tendency := oversteer_tendency;
           balance_score := balance_score;
           entry_balance := _calculate_phase_balance entry_corners;
           mid_corner_balance := _calculate_phase_balance mid_corners;
           exit_balance := _calculate_phase_balance exit_corners;
           slow_corner_balance := _calculate_type_balance slow_corners;
           medium_corner_balance := _calculate_type_balance medium_corners;
           fast_corner_balance := _calculate_type_balance fast_corners;
           traction_on_throttle := mean_or_zero traction_severities;
           traction_off_throttle := traction_off_throttle stats;
           brake_stability := brake_stability stats;
           brake_efficiency := brake_efficiency stats;
           front_tire_stress := front_tire_stress;
           rear_tire_stress := rear_tire_stress;
           tire_balance := tire_balance;
           sample_size := length corners;
           consistency := consistency |}
  end.
End Statistics.

(** The analyzer object: its track corners. *)
Record TelemetryAnalyzer : Type := {
  track_corners : list CornerDefinition
}.

(** [TelemetryAnalyzer()] *)
Definition __init__ : TelemetryAnalyzer := {| track_corners := [] |}.

(** The point is in a corner: it steers or pulls lateral G. *)
Definition is_turning (point : Point) : bool :=
  py.Qltb CORNER_STEERING_THRESHOLD (Qabs (steering point))
  || py.Qltb CORNER_LATERAL_G_THRESHOLD (Qabs (g_lat point)).

(** The state of the loop of [_detect_track_corners]:
    [in_corner], [corner_start_idx], [corner_id] and [corners]. *)
Record Detection : Type := {
  in_corner : bool;
  corner_start_idx : nat;
  next_corner_id : nat;
  found : list CornerDefinition
}.

(** The body of that loop for the point [points[i]]. *)
Definition detect_step (points : list Point) (st : Detection)
    (ip : nat * Point) : py.result Detection :=
  let '(i, point) := ip in
  if is_turning point && negb (in_corner st) then
    (* Corner entry *)
    py.Ok {| in_corner := true; corner_start_idx := i;
             next_corner_id := next_corner_id st; found := found st |}
  else if negb (is_turning point) && in_corner st then
    (* Corner exit *)
    here <- py.or_raise py.IndexError (nth_error points i) ;;
    start <- py.or_raise py.IndexError
               (nth_error points (corner_start_idx st)) ;;
    (* Only count if long enough *)
    let duration := timestamp here - timestamp start in
    if Qleb MIN_CORNER_DURATION duration then
      (* Find apex (minimum speed point) *)
      let corner_points :=
        firstn (i - corner_start_idx st) (skipn (corner_start_idx st) points) in
      apex <- py.or_raise py.ValueError
                (min_by (fun p : Point => speed p) corner_points) ;;
      (* Determine direction *)
      avg_steering <-
        (match corner_points with
         | [] => py.Raise py.ZeroDivisionError
         | _ =>
             py.Ok (py.sum (map (fun p : Point => steering p) corner_points)
                    / py.len corner_points)
         end) ;;
      let direction := if py.Qltb avg_steering 0 then LEFT else RIGHT in
      (* Determine type *)
      let min_speed := speed apex in
      let corner_type := _classify_corner_speed min_speed in
      let corner :=
        {| def_corner_id := next_corner_id st;
           def_name := next_corner_id st;
           def_start_distance := distance start;
           def_apex_distance := distance apex;
           def_end_distance := distance here;
           def_direction := direction;
           def_corner_type := corner_type |} in
      py.Ok {| in_corner := false;
               corner_start_idx := corner_start_idx st;
               next_corner_id := S (next_corner_id st);
               found := found st ++ [corner] |}
    else
      py.Ok {| in_corner := false;
               corner_start_idx := corner_start_idx st;
               next_corner_id := next_corner_id st;
               found := found st |}
  else py.Ok st.

(** [for x in l: st = step(st, x)], stopping at the first exception. *)
Fixpoint loop {S A : Type} (step : S -> A -> py.result S) (l : list A)
    (st : S) : py.result S :=
  match l with
  | [] => py.Ok st
  | x :: t => st <- step st x ;; loop step t st
  end.

(** [enumerate(l)] *)
Definition enumerate {A : Type} (l : list A) : list (nat * A) :=
  combine (seq 0 (length l)) l.

(** [_detect_track_corners]: detect corners from a reference lap. *)
Definition _detect_track_corners (self : TelemetryAnalyzer)
    (reference_lap : option LapData) : py.result TelemetryAnalyzer :=
  match reference_lap with
  | None => py.Ok self
  | Some reference_lap =>
      match data_points reference_lap with
      | [] => py.Ok self
      | points =>
          st <- loop (detect_step points) (enumerate points)
                  {| in_corner := false; corner_start_idx := 0;
                     next_corner_id := 1; found := [] |} ;;
          py.Ok {| track_corners := found st |}
      end
  end.

Definition with_data_points (lap : LapData) (points : list Point) : LapData :=
  {| lap_number := lap_number lap;
     lap_time := lap_time lap;
     is_valid := is_valid lap;
     is_outlap := is_outlap lap;
     is_inlap := is_inlap lap;
     understeer_percentage := understeer_percentage lap;
     oversteer_percentage := oversteer_percentage lap;
     traction_loss_percentage := traction_loss_percentage lap;
     brake_lock_percentage := brake_lock_percentage lap;
     corners := corners lap;
     data_points := points |}.

Definition with_corners (lap : LapData) (l : list CornerAnalysis) : LapData :=
  {| lap_number := lap_number lap;
     lap_time := lap_time lap;
     is_valid := is_valid lap;
     is_outlap := is_outlap lap;
     is_inlap := is_inlap lap;
     understeer_percentage := understeer_percentage lap;
     oversteer_percentage := oversteer_percentage lap;
     traction_loss_percentage := traction_loss_percentage lap;
     brake_lock_percentage := brake_lock_percentage lap;
     corners := l;
     data_points := data_points lap |}.

(** [analyze_lap]: analyze a single lap; the lap afterwards (its [corners]
    are the analyses returned). *)
Definition analyze_lap (self : TelemetryAnalyzer) (lap : LapData)
    : py.result LapData :=
  (* Detect phases *)
  points <- _detect_corner_phases (data_points lap) ;;
  let lap := with_data_points lap points in
  (* Analyze corners *)
  corners <- _analyze_lap_corners (track_corners self) lap ;;
  let lap := with_corners lap corners in
  (* Calculate behavior *)
  py.Ok (_calculate_lap_behavior lap).

(** The loop of [analyze_session] over the laps of the session: a lap
    that [valid_laps] keeps is analysed in place, the others stay as they
    are; the second component is [all_corner_analyses]. *)
Fixpoint analyze_laps (self : TelemetryAnalyzer) (laps : list LapData)
    : py.result (list LapData * list CornerAnalysis) :=
  match laps with
  | [] => py.Ok ([], [])
  | lap :: rest =>
      if counts lap then
        lap <- analyze_lap self lap ;;
        ' (rest, all_corner_analyses) <- analyze_laps self rest ;;
        py.Ok (lap :: rest, corners lap ++ all_corner_analyses)
      else
        ' (rest, all_corner_analyses) <- analyze_laps self rest ;;
        py.Ok (lap :: rest, all_corner_analyses)
  end.

Section Session.
Variable sqrt : Q -> Q.

(** [analyze_session]: analyze complete session and return behavior
    statistics, with the analyzer and the session as they are afterwards. *)
Definition analyze_session (self : TelemetryAnalyzer) (session : SessionData)
    : py.result (TelemetryAnalyzer * SessionData * BehaviorStatistics) :=
  (* First, detect corners if not already defined *)
  self <-
    (match track_corners self, valid_laps session with
     | [], _ :: _ => _detect_track_corners self (best_valid_lap session)
     | _, _ => py.Ok self
     end) ;;
  (* Analyze each lap *)
  ' (laps, all_corner_analyses) <- analyze_laps self (laps session) ;;
  let session :=
    {| session_id := session_id session;
       laps := laps;
       best_lap_time := best_lap_time session |} in
  (* Aggregate statistics *)
  stats <- _calculate_behavior_statistics sqrt session all_corner_analyses ;;
  py.Ok (self, session, stats).
End Session.

End telemetry_corners.

(* ================================================================== *)
(** * agp_core/setup/setup_correlator.py on binary64 numbers: the reports *)
(* ================================================================== *)

(** [get_optimal_setup_suggestions], [_calculate_behavior_correlation] and
    [get_behavior_correlations] as CPython runs them, on the correlator of
    module [binary64].  That correlator keeps of a session its parameters
    and its best lap time, so the statistics that [add_session] stores in
    [s.behavior] are handed to [get_behavior_correlations] as the list
    [[s.behavior for s in self.sessions]]. *)
Module binary64_reports.

Import PrimFloat binary64.
Local Open Scope string_scope.
Local Open Scope list_scope.
Local Open Scope float_scope.
Local Set Warnings "-inexact-float".

(** The correlator after a sequence of [add_session] calls, each given as
    the parameters of the setup and the best lap time of the session. *)
Definition after_sessions (calls : list (list (string * float) * float))
    : SetupCorrelator :=
  fold_left (fun self call => add_session self (fst call) (snd call))
    calls __init__.

(** One value of the dict that [get_optimal_setup_suggestions] returns. *)
Record Suggestion : Type := {
  sg_current_value : float;
  sg_suggested_direction : string;
  sg_suggested_change : float;
  sg_confidence : float;
  lap_time_impact : float
}.

(** The loop of [get_optimal_setup_suggestions] over the correlations. *)
Definition suggest (suggestions : list (string * Suggestion))
    (corr : SetupCorrelation) : list (string * Suggestion) :=
  if PrimFloat.ltb (confidence corr) 50 then suggestions
  (* Not confident enough *)
  else
    py.dict_set String.eqb suggestions (corr_parameter_name corr)
      {| sg_current_value := parameter_value corr;
         sg_suggested_direction := suggested_direction corr;
         sg_suggested_change := suggested_change corr;
         sg_confidence := confidence corr;
         lap_time_impact := lap_time_correlation corr |}.

(** The fields of the statistics of a session that the correlator reads. *)
Record BehaviorStatistics : Type := {
  understeer_tendency : float;
  oversteer_tendency : float;
  traction_on_throttle : float
}.

(** The dict [results] of [get_behavior_correlations] while the loop runs:
    one list per key. *)
Record Results : Type := {
  understeer : list SetupCorrelation;
  oversteer : list SetupCorrelation;
  traction : list SetupCorrelation;
  tire_wear : list SetupCorrelation
}.

Definition append_opt (l : list SetupCorrelation)
    (corr : option SetupCorrelation) : list SetupCorrelation :=
  match corr with
  | Some c => l ++ [c]
  | None => l
  end.

(** [correlations.sort(key=lambda c: c.confidence, reverse=True)] *)
Definition sort_by_confidence (l : list SetupCorrelation)
    : list SetupCorrelation :=
  py.sorted (fun y x => PrimFloat.ltb (confidence x) (confidence y)) l.

Section Reports.
Variable log2 : float -> float.

(** [get_optimal_setup_suggestions]: suggestions for optimal setup based on
    correlations, with the correlator as [analyze_correlations] leaves
    it. *)
Definition get_optimal_setup_suggestions (self : SetupCorrelator)
    : py.result (SetupCorrelator * list (string * Suggestion)) :=
  ' (self, correlations) <- analyze_correlations log2 self ;;
  py.Ok (self, fold_left suggest correlations []).

(** [_calculate_behavior_correlation]: correlation between parameter and
    behavior metric. *)
Definition _calculate_behavior_correlation (param_name : string)
    (param_values behavior_values : list float)
    : py.result (option SetupCorrelation) :=
  if negb (length param_values =? length behavior_values)%nat
     || (length param_values <? 2)%nat then py.Ok None
  else
    let n := of_nat (length param_values) in
    let sum_x := sum param_values in
    let sum_y := sum behavior_values in
    let sum_xy :=
      sum (map (fun xy => fst xy * snd xy)
             (combine param_values behavior_values)) in
    let sum_x2 := sum (map (fun x => x * x) param_values) in
    let sum_y2 := sum (map (fun y => y * y) behavior_values) in
    let numerator := n * sum_xy - sum_x * sum_y in
    denominator <-
      sqrt ((n * sum_x2 - sum_x * sum_x) * (n * sum_y2 - sum_y * sum_y)) ;;
    if PrimFloat.eqb denominator 0 then py.Ok None
    else
      let correlation := numerator / denominator in
      let confidence :=
        min 100 (PrimFloat.abs correlation * 100 * log2 (n + 1)) in
      if PrimFloat.ltb confidence 30 then py.Ok None (* Too low confidence *)
      else
        current_value <- py.or_raise py.IndexError (py.last_opt param_values) ;;
        py.Ok (Some {| corr_parameter_name := param_name;
                       parameter_value := current_value;
                       lap_time_correlation := 0;
                       balance_correlation := correlation;
                       tire_wear_correlation := 0;
                       confidence := confidence;
                       sample_count := length param_values;
                       suggested_direction :=
                         if PrimFloat.ltb correlation 0 then "increase"
                         else "decrease";
                       suggested_change := 0 |}).

(** [[metric(s.behavior) for s in self.sessions if s.behavior]] *)
Definition behavior_values (metric : BehaviorStatistics -> float)
    (behaviors : list (option BehaviorStatistics)) : list float :=
  py.filter_map (option_map metric) behaviors.

(** One of the three blocks of the loop body: the correlation of the
    parameter with one metric, if there is one. *)
Definition behavior_block (behaviors : list (option BehaviorStatistics))
    (metric : BehaviorStatistics -> float) (param_name : string)
    (param_range : ParameterRange) : py.result (option SetupCorrelation) :=
  let metric_values := behavior_values metric behaviors in
  match metric_values with
  | [] => py.Ok None
  | _ :: _ =>
      _calculate_behavior_correlation param_name (values param_range)
        metric_values
  end.

(** The loop of [get_behavior_correlations] over
    [parameter_ranges.items()]. *)
Fixpoint behavior_loop (behaviors : list (option BehaviorStatistics))
    (items : list (string * ParameterRange)) (results : Results)
    : py.result Results :=
  match items with
  | [] => py.Ok results
  | (param_name, param_range) :: rest =>
      (* Understeer correlation *)
      corr_u <- behavior_block behaviors understeer_tendency param_name
                  param_range ;;
      (* Oversteer correlation *)
      corr_o <- behavior_block behaviors oversteer_tendency param_name
                  param_range ;;
      (* Traction correlation *)
      corr_t <- behavior_block behaviors traction_on_throttle param_name
                  param_range ;;
      behavior_loop behaviors rest
        {| understeer := append_opt (understeer results) corr_u;
           oversteer := append_opt (oversteer results) corr_o;
           traction := append_opt (traction results) corr_t;
           tire_wear := tire_wear results |}
  end.

(** [get_behavior_correlations]: the dict with behavior categories and
    their correlations, each list sorted by confidence; the empty dict with
    fewer than two sessions.  [behaviors] is
    [[s.behavior for s in self.sessions]]. *)
Definition get_behavior_correlations (self : SetupCorrelator)
    (behaviors : list (option BehaviorStatistics))
    : py.result (list (string * list SetupCorrelation)) :=
  if (length (sessions self) <? 2)%nat then py.Ok []
  else
    results <- behavior_loop behaviors (parameter_ranges self)
                 {| understeer := []; oversteer := []; traction := [];
                    tire_wear := [] |} ;;
    py.Ok [("understeer", sort_by_confidence (understeer results));
           ("oversteer", sort_by_confidence (oversteer results));
           ("traction", sort_by_confidence (traction results));
           ("tire_wear", sort_by_confidence (tire_wear results))].
End Reports.

End binary64_reports.

(* ================================================================== *)
(** * Properties of the Python built-ins *)
(* ================================================================== *)

Section PyFacts.
Local Open Scope Q_scope.

Lemma Qltb_lt (x y : Q) : py.Qltb x y = true <-> x < y.
Proof.
  unfold py.Qltb. rewrite negb_true_iff.
  split; intro H.
  - apply Qnot_le_lt. intro Hle. apply Qle_bool_iff in Hle. congruence.
  - destruct (Qle_bool y x) eqn:E; trivial.
    apply Qle_bool_iff in E. exfalso. apply (Qlt_not_le _ _ H E).
Qed.

Lemma Qltb_ge (x y : Q) : py.Qltb x y = false <-> y <= x.
Proof.
  unfold py.Qltb. rewrite negb_false_iff. apply Qle_bool_iff.
Qed.

Lemma Qltb_compat (x x' y y' : Q) :
  x == x' -> y == y' -> py.Qltb x y = py.Qltb x' y'.
Proof.
  intros Hx Hy. unfold py.Qltb. now rewrite Hx, Hy.
Qed.

Lemma min_le_first (a b : Q) : py.min a b <= a.
Proof.
  unfold py.min. destruct (py.Qltb b a) eqn:E.
  - apply Qltb_lt in E. now apply Qlt_le_weak.
  - apply Qle_refl.
Qed.

Lemma max_ge_first (a b : Q) : a <= py.max a b.
Proof.
  unfold py.max. destruct (py.Qltb a b) eqn:E.
  - apply Qltb_lt in E. now apply Qlt_le_weak.
  - apply Qle_refl.
Qed.

Lemma max_ge_second (a b : Q) : b <= py.max a b.
Proof.
  unfold py.max. destruct (py.Qltb a b) eqn:E.
  - apply Qle_refl.
  - now apply Qltb_ge in E.
Qed.


(** [int] is monotone. *)
Lemma int_le (x y : Q) : x <= y -> (py.int x <= py.int y)%Z.
Proof.
  intros H. unfold py.int, Qle in *.
  assert (Hpos : forall p : positive, (0 < Z.pos p)%Z) by (intros; lia).
  pose proof (Hpos (Qden x)) as Hdx. pose proof (Hpos (Qden y)) as Hdy.
  rewrite <- (Z.quot_mul_cancel_r (Qnum x) (Z.pos (Qden x)) (Z.pos (Qden y)))
    by lia.
  rewrite <- (Z.quot_mul_cancel_r (Qnum y) (Z.pos (Qden y)) (Z.pos (Qden x)))
    by lia.
  rewrite (Z.mul_comm (Z.pos (Qden y)) (Z.pos (Qden x))).
  apply Z.quot_le_mono; nia.
Qed.
End PyFacts.

Section SortedFacts.
Context {A : Type} (before : A -> A -> bool).

Lemma insert_perm (x : A) (l : list A) :
  Permutation (py.insert before x l) (x :: l).
Proof.
  induction l as [| y t IH]; simpl.
  - apply Permutation_refl.
  - destruct (before y x).
    + apply Permutation_trans with (y :: x :: t).
      * now apply perm_skip.
      * apply perm_swap.
    + apply Permutation_refl.
Qed.

Lemma sorted_perm (l : list A) : Permutation (py.sorted before l) l.
Proof.
  induction l as [| x t IH]; simpl.
  - apply perm_nil.
  - apply Permutation_trans with (x :: py.sorted before t).
    + apply insert_perm.
    + now apply perm_skip.
Qed.

Lemma sorted_In (l : list A) (x : A) : In x (py.sorted before l) <-> In x l.
Proof.
  split; apply Permutation_in;
    [apply sorted_perm | apply Permutation_sym, sorted_perm].
Qed.

Lemma sorted_length (l : list A) : length (py.sorted before l) = length l.
Proof. apply Permutation_length, sorted_perm. Qed.



(** The result is sorted for any transitive order [R] that [before]
    decides. *)
Variable R : A -> A -> Prop.
Hypothesis R_trans : forall a b c, R a b -> R b c -> R a c.
Hypothesis before_true : forall y x, before y x = true -> R y x.
Hypothesis before_false : forall y x, before y x = false -> R x y.

Lemma insert_sorted (x : A) (l : list A) :
  StronglySorted R l -> StronglySorted R (py.insert before x l).
Proof.
  induction 1 as [| y t Ht IH Hy]; simpl.
  - constructor; [constructor | constructor].
  - destruct (before y x) eqn:E.
    + constructor; trivial.
      apply Forall_forall. intros z Hz.
      apply (Permutation_in _ (insert_perm x t)) in Hz.
      destruct Hz as [<- | Hz].
      * now apply before_true.
      * rewrite Forall_forall in Hy. now apply Hy.
    + constructor.
      * now constructor.
      * constructor.
        -- now apply before_false.
        -- rewrite Forall_forall in *. intros z Hz.
           apply R_trans with y; [now apply before_false | now apply Hy].
Qed.

Lemma sorted_sorted (l : list A) : StronglySorted R (py.sorted before l).
Proof.
  induction l as [| x t IH]; simpl.
  - constructor.
  - now apply insert_sorted.
Qed.
End SortedFacts.

Section DictFacts.
Context {K V : Type} (eqb : K -> K -> bool).
Hypothesis eqb_eq : forall a b, eqb a b = true <-> a = b.

Lemma eqb_refl (a : K) : eqb a a = true.
Proof. now apply eqb_eq. Qed.

Lemma eqb_neq (a b : K) : a <> b -> eqb a b = false.
Proof.
  intros H. destruct (eqb a b) eqn:E; trivial.
  apply eqb_eq in E. contradiction.
Qed.

Lemma dict_get_In (d : list (K * V)) (k : K) (v : V) :
  py.dict_get eqb d k = Some v -> In (k, v) d.
Proof.
  induction d as [| [k' v'] t IH]; simpl; [discriminate |].
  destruct (eqb k k') eqn:E.
  - intros [= ->]. apply eqb_eq in E. subst. now left.
  - intros H. right. now apply IH.
Qed.

Lemma dict_get_none (d : list (K * V)) (k : K) :
  py.dict_get eqb d k = None <-> ~ In k (py.keys d).
Proof.
  induction d as [| [k' v'] t IH]; simpl.
  - tauto.
  - destruct (eqb k k') eqn:E.
    + apply eqb_eq in E. subst. split; [discriminate | intros H; tauto].
    + rewrite IH. split.
      * intros H [-> | H']; [| tauto]. rewrite eqb_refl in E. discriminate.
      * tauto.
Qed.

Lemma dict_get_set_same (d : list (K * V)) (k : K) (v : V) :
  py.dict_get eqb (py.dict_set eqb d k v) k = Some v.
Proof.
  induction d as [| [k' v'] t IH]; simpl.
  - now rewrite eqb_refl.
  - destruct (eqb k k') eqn:E; simpl; rewrite E; trivial.
Qed.

Lemma dict_get_set_other (d : list (K * V)) (k k0 : K) (v : V) :
  k0 <> k ->
  py.dict_get eqb (py.dict_set eqb d k v) k0 = py.dict_get eqb d k0.
Proof.
  intros Hne. induction d as [| [k' v'] t IH]; simpl.
  - now rewrite eqb_neq.
  - destruct (eqb k k') eqn:E; simpl.
    + apply eqb_eq in E. subst k'. now rewrite eqb_neq.
    + now rewrite IH.
Qed.

(** Every entry after [d[k] = v] is an old entry or the new one. *)
Lemma dict_set_In (d : list (K * V)) (k : K) (v : V) (e : K * V) :
  In e (py.dict_set eqb d k v) -> In e d \/ e = (k, v).
Proof.
  induction d as [| [k' v'] t IH]; simpl.
  - intros [<- | []]. now right.
  - destruct (eqb k k') eqn:E; simpl.
    + apply eqb_eq in E. subst k'. intros [<- | H]; [now right | left; now right].
    + intros [<- | H]; [left; now left |].
      destruct (IH H) as [H' | H']; [left; now right | now right].
Qed.

Lemma dict_set_keys (d : list (K * V)) (k : K) (v : V) :
  py.keys (py.dict_set eqb d k v)
  = if py.dict_mem eqb d k then py.keys d else py.keys d ++ [k].
Proof.
  unfold py.dict_mem.
  induction d as [| [k' v'] t IH]; simpl; trivial.
  destruct (eqb k k') eqn:E; simpl; trivial.
  rewrite IH. now destruct (py.dict_get eqb t k).
Qed.

Lemma dict_set_NoDup (d : list (K * V)) (k : K) (v : V) :
  NoDup (py.keys d) -> NoDup (py.keys (py.dict_set eqb d k v)).
Proof.
  intros H. rewrite dict_set_keys. unfold py.dict_mem.
  destruct (py.dict_get eqb d k) eqn:E; trivial.
  apply dict_get_none in E.
  apply (Permutation_NoDup (l := k :: py.keys d)).
  - apply Permutation_cons_append.
  - now constructor.
Qed.

(** With unique keys, an entry of the dict is what [get] returns. *)
Lemma In_dict_get (d : list (K * V)) (k : K) (v : V) :
  NoDup (py.keys d) -> In (k, v) d -> py.dict_get eqb d k = Some v.
Proof.
  induction d as [| [k' v'] t IH]; simpl; [tauto |].
  intros Hnd [[= -> ->] | H].
  - now rewrite eqb_refl.
  - inversion Hnd as [| ? ? Hk Ht]; subst.
    destruct (eqb k k') eqn:E.
    + apply eqb_eq in E. subst. exfalso. apply Hk.
      change k' with (fst (k', v)). now apply in_map.
    + now apply IH.
Qed.
End DictFacts.

(* ================================================================== *)
(** * Vehicle category inference *)
(* ================================================================== *)

Section VehicleCategory.
Import setup_analyzer.
Local Open Scope string_scope.
Local Open Scope list_scope.
Local Open Scope Q_scope.

(** The combined front and rear downforce of a telemetry frame. *)
Definition combined_downforce (data : TelemetryData) : Q :=
  td_front_downforce data + td_rear_downforce data.

(** C7.  On a frame with positive speed the category is decided by strict
    comparisons of the combined downforce: above 15000 it is the top tier
    ("LMH"); above 8000 and not above 15000 it is the mid tier ("LMP2"),
    so a combined downforce of exactly 15000 gives the mid tier; otherwise
    it is the base tier ("GT3"). *)
Theorem detect_vehicle_category_strict
    (self : SetupAnalyzer) (data : TelemetryData) :
  0 < td_speed_kmh data ->
  let category := vehicle_category (_detect_vehicle_category self data) in
  (15000 < combined_downforce data -> category = "LMH")
  /\ (8000 < combined_downforce data -> combined_downforce data <= 15000 ->
      category = "LMP2")
  /\ (combined_downforce data == 15000 -> category = "LMP2")
  /\ (combined_downforce data <= 8000 -> category = "GT3").
Proof.
  intros Hspeed category. subst category.
  unfold _detect_vehicle_category, combined_downforce.
  apply Qltb_lt in Hspeed. rewrite Hspeed.
  set (total := td_front_downforce data + td_rear_downforce data).
  destruct (py.Qltb 15000 total) eqn:Htop;
    [apply Qltb_lt in Htop | apply Qltb_ge in Htop];
    (destruct (py.Qltb 8000 total) eqn:Hmid;
     [apply Qltb_lt in Hmid | apply Qltb_ge in Hmid]);
    simpl; repeat split; intros; trivial; exfalso; lra.
Qed.

(** A frame at 200 km/h with 7000 + 8000 of downforce. *)
Definition frame_15000 : TelemetryData :=
  {| td_speed_kmh := 200; td_throttle := 1; td_brake := 0;
     td_steering := 0; td_front_downforce := 7000;
     td_rear_downforce := 8000 |}.

Lemma detect_vehicle_category_strict_witness :
  vehicle_category (_detect_vehicle_category __init__ frame_15000) = "LMP2".
Proof.
  apply (detect_vehicle_category_strict __init__ frame_15000).
  - reflexivity.
  - reflexivity.
Defined.

(** Without speed the category is left as it was. *)
Lemma detect_vehicle_category_standing
    (self : SetupAnalyzer) (data : TelemetryData) :
  td_speed_kmh data <= 0 -> _detect_vehicle_category self data = self.
Proof.
  intros H. unfold _detect_vehicle_category.
  apply Qltb_ge in H. now rewrite H.
Qed.
End VehicleCategory.

(* ================================================================== *)
(** * Corner-level traction loss *)
(* ================================================================== *)

Section TractionLoss.
Import telemetry_analyzer.
Local Open Scope Q_scope.

(** The per-sample severity of a qualifying point. *)
Definition sample_severity (point : TelemetryPoint) : Q :=
  py.min 100 (rear_slip_ratio point * 200).

(** The loop counts the qualifying points and keeps the largest of their
    severities (and of the value it starts from). *)
Lemma traction_loop (points : list TelemetryPoint) (count : nat) (sev : Q) :
  fold_left traction_step points (count, sev)
  = ((count + length (filter qualifies points))%nat,
     fold_left py.max (map sample_severity (filter qualifies points)) sev).
Proof.
  revert count sev.
  induction points as [| p t IH]; intros count sev; simpl.
  - now rewrite Nat.add_0_r.
  - assert (Hq : qualifies p
                 = py.Qltb 50 (throttle p)
                   && py.Qltb TRACTION_SLIP_RATIO_THRESHOLD
                        (rear_slip_ratio p)) by reflexivity.
    rewrite Hq. clear Hq.
    destruct (py.Qltb 50 (throttle p)); simpl.
    + destruct (py.Qltb TRACTION_SLIP_RATIO_THRESHOLD (rear_slip_ratio p));
        simpl; rewrite IH; trivial.
      now rewrite Nat.add_succ_r.
    + now rewrite IH.
Qed.

(** What the code computes: the corner is flagged if and only if MORE
    than three of its points qualify, and the corner severity is the
    largest per-sample severity of the qualifying points (0 without
    one). *)
Lemma detect_traction_loss_spec (points : list TelemetryPoint) :
  _detect_traction_loss points
  = ((3 <? length (filter qualifies points))%nat,
     fold_left py.max (map sample_severity (filter qualifies points)) 0).
Proof.
  unfold _detect_traction_loss.
  destruct points as [| p t]; trivial.
  now rewrite traction_loop.
Qed.

Lemma detect_traction_loss_flag (points : list TelemetryPoint) :
  fst (_detect_traction_loss points) = true
  <-> (4 <= length (filter qualifies points))%nat.
Proof.
  rewrite detect_traction_loss_spec. simpl. apply Nat.ltb_lt.
Qed.

(** A point at 60% throttle whose rear wheels slip by 0.2. *)
Definition spinning_point : TelemetryPoint :=
  {| timestamp := 0; distance := 0; speed := 90;
     throttle := 60; brake := 0; steering := 5; g_lat := 0; g_long := 0.3;
     slip_angle_fl := 0; slip_angle_fr := 0;
     slip_angle_rl := 0; slip_angle_rr := 0;
     slip_ratio_fl := 0; slip_ratio_fr := 0;
     slip_ratio_rl := 0.2; slip_ratio_rr := 0.2 |}.

(** C8, the code at three qualifying points.  The claim (and the code's
    comment, "At least 3 samples") flags a corner with three qualifying
    samples; the code tests [traction_loss_count > 3] and does not flag
    it, while it reports the severity min(100, 0.2 x 200) = 40 of the
    three samples. *)
Theorem detect_traction_loss_three_samples :
  let points := [spinning_point; spinning_point; spinning_point] in
  length (filter qualifies points) = 3%nat
  /\ fst (_detect_traction_loss points) = false
  /\ snd (_detect_traction_loss points) == 40.
Proof.
  repeat split.
Qed.

(** A fourth qualifying point is what makes the code flag the corner. *)
Example detect_traction_loss_four_samples :
  fst (_detect_traction_loss
         [spinning_point; spinning_point; spinning_point; spinning_point])
  = true.
Proof. reflexivity. Qed.
End TractionLoss.

(* ================================================================== *)
(** * The recommendation list: cap, uniqueness, priority and confidence *)
(* ================================================================== *)

Section RecommendationList.
Import setup_analyzer.
Local Open Scope string_scope.
Local Open Scope list_scope.
Local Open Scope Q_scope.

Lemma seen_In (p : string) (seen : list string) :
  existsb (String.eqb p) seen = true <-> In p seen.
Proof.
  rewrite existsb_exists. split.
  - intros [x [Hx E]]. apply String.eqb_eq in E. now subst.
  - intros H. exists p. split; trivial. apply String.eqb_refl.
Qed.

Lemma unique_recs_In (recs : list Recommendation) :
  forall (seen : list string) (rec : Recommendation),
    In rec (unique_recs seen recs) ->
    In rec recs /\ ~ In (parameter rec) seen.
Proof.
  induction recs as [| r t IH]; simpl; intros seen rec H; [contradiction |].
  destruct (existsb (String.eqb (parameter r)) seen) eqn:E.
  - destruct (IH _ _ H) as [H1 H2]. auto.
  - destruct H as [<- | H].
    + split; [now left |]. intro Hin. apply seen_In in Hin. congruence.
    + destruct (IH _ _ H) as [H1 H2]. split; [now right |].
      intro Hin. apply H2. now right.
Qed.

Lemma unique_recs_NoDup (recs : list Recommendation) :
  forall seen : list string, NoDup (map parameter (unique_recs seen recs)).
Proof.
  induction recs as [| r t IH]; simpl; intros seen; [constructor |].
  destruct (existsb (String.eqb (parameter r)) seen); [apply IH |].
  simpl. constructor; [| apply IH].
  intros Hin. apply in_map_iff in Hin. destruct Hin as [r' [Hp Hr']].
  apply unique_recs_In in Hr'. destruct Hr' as [_ Hseen].
  apply Hseen. rewrite Hp. now left.
Qed.

(** In a list sorted by descending priority, the occurrence the
    de-duplication keeps has the highest priority of its parameter. *)
Lemma unique_recs_highest (recs : list Recommendation) :
  StronglySorted (fun a b => (priority b <= priority a)%Z) recs ->
  forall (seen : list string) (rec rec' : Recommendation),
    In rec (unique_recs seen recs) -> In rec' recs ->
    parameter rec' = parameter rec ->
    (priority rec' <= priority rec)%Z.
Proof.
  induction 1 as [| r t Ht IH Hr]; simpl; intros seen rec rec' Hin Hin' Hp;
    [contradiction |].
  destruct (existsb (String.eqb (parameter r)) seen) eqn:E.
  - destruct Hin' as [<- | Hin']; [| now apply (IH seen rec rec')].
    exfalso. apply unique_recs_In in Hin. destruct Hin as [_ Hseen].
    apply Hseen. rewrite <- Hp. now apply seen_In.
  - destruct Hin as [<- | Hin].
    + destruct Hin' as [<- | Hin']; [lia |].
      rewrite Forall_forall in Hr. now apply Hr.
    + destruct Hin' as [<- | Hin'];
        [| now apply (IH (parameter r :: seen) rec rec')].
      exfalso. apply unique_recs_In in Hin. destruct Hin as [_ Hseen].
      apply Hseen. rewrite Hp. now left.
Qed.

Lemma sorted_by_priority_sorted (recs : list Recommendation) :
  StronglySorted (fun a b => (priority b <= priority a)%Z)
    (sorted_by_priority recs).
Proof.
  unfold sorted_by_priority. apply sorted_sorted.
  - intros a b c Hab Hbc. lia.
  - intros y x H. apply Z.ltb_lt in H. lia.
  - intros y x H. apply Z.ltb_ge in H. lia.
Qed.

Lemma firstn_In (A : Type) (n : nat) (l : list A) (x : A) :
  In x (firstn n l) -> In x l.
Proof.
  revert l. induction n as [| n IH]; intros [| y t]; simpl; try tauto.
  intros [-> | H]; [now left | right; now apply IH].
Qed.

Lemma firstn_NoDup (A : Type) (n : nat) (l : list A) :
  NoDup l -> NoDup (firstn n l).
Proof.
  revert l. induction n as [| n IH]; intros [| y t] H; simpl;
    try constructor.
  - inversion H; subst. intro Hin. apply firstn_In in Hin. contradiction.
  - inversion H; subst. now apply IH.
Qed.

(** What [generate_recommendations] returns was produced by the loops over
    the problems of the last analysis. *)
Lemma generate_recommendations_In (self : SetupAnalyzer)
    (analysis : LapAnalysis) (rec : Recommendation) :
  py.last_opt (lap_analyses self) = Some analysis ->
  In rec (generate_recommendations self) ->
  In rec (collect_recommendations self analysis).
Proof.
  unfold generate_recommendations. intros -> Hin.
  apply firstn_In in Hin. apply unique_recs_In in Hin.
  destruct Hin as [Hin _].
  unfold sorted_by_priority in Hin. now apply sorted_In in Hin.
Qed.

(** C3.  Whatever the analyzer holds (lap history, problems, setup,
    parameter table), the list [generate_recommendations] returns has at
    most 5 elements, no two of them with the same parameter name, each one
    is a recommendation the loops produced, and no produced recommendation
    for the same parameter has a higher priority than the one kept. *)
Theorem generate_recommendations_capped_unique (self : SetupAnalyzer) :
  (length (generate_recommendations self) <= 5)%nat
  /\ NoDup (map parameter (generate_recommendations self))
  /\ forall analysis rec,
       py.last_opt (lap_analyses self) = Some analysis ->
       In rec (generate_recommendations self) ->
       In rec (collect_recommendations self analysis)
       /\ forall rec',
            In rec' (collect_recommendations self analysis) ->
            parameter rec' = parameter rec ->
            (priority rec' <= priority rec)%Z.
Proof.
  unfold generate_recommendations.
  destruct (py.last_opt (lap_analyses self)) as [analysis |].
  - repeat split.
    + apply firstn_le_length.
    + rewrite <- firstn_map. apply firstn_NoDup, unique_recs_NoDup.
    + injection H as <-. apply firstn_In in H0.
      apply unique_recs_In in H0. destruct H0 as [H0 _].
      unfold sorted_by_priority in H0. now apply sorted_In in H0.
    + intros rec' Hin' Hp. injection H as <-. apply firstn_In in H0.
      apply (unique_recs_highest _ (sorted_by_priority_sorted _) _ _ _ H0);
        trivial.
      unfold sorted_by_priority. now apply sorted_In.
  - repeat split; simpl; try lia; try constructor; try discriminate;
      contradiction.
Qed.
End RecommendationList.

(* ================================================================== *)
(** * Laps used as concrete inputs *)
(* ================================================================== *)

Section Scenarios.
Import setup_analyzer.
Local Open Scope string_scope.
Local Open Scope list_scope.
Local Open Scope Q_scope.

(** A sample in the entry phase: the two front wheels slip by [front], the
    two rear wheels by [rear]; grip is the same on both axles and tyres,
    brakes and ride heights are inside every optimal range. *)
Definition entry_sample (front rear : Q) : Sample :=
  {| timestamp := 0; phase := ENTRY; speed := 120;
     throttle := 0; brake := 0.5; steering := 0.1;
     g_lat := 1; g_long := - 1;
     tire_temp := wheels 85 85 85 85;
     tire_temp_inner := wheels 86 86 86 86;
     tire_temp_outer := wheels 84 84 84 84;
     tire_pressure := wheels 175 175 175 175;
     tire_wear := wheels 1 1 1 1;
     grip := wheels 1 1 1 1;
     tire_load := wheels 4000 4000 4000 4000;
     slip_ratio := wheels front front rear rear;
     brake_temp := wheels 400 400 400 400;
     ride_height := wheels 50 50 50 50;
     susp_deflection := wheels 0 0 0 0;
     front_downforce := 2000; rear_downforce := 3000; rake := 0;
     camber := wheels 0 0 0 0; toe := wheels 0 0 0 0 |}.

(** A freshly created analyzer in lap 1 holding [lap] as the samples of the
    current lap. *)
Definition analyzer_with_lap (lap : list Sample) : SetupAnalyzer :=
  {| samples := lap;
     current_lap_samples := lap;
     current_lap := 1;
     lap_analyses := [];
     current_setup := [];
     vehicle_name := "";
     vehicle_category := "GT3";
     parameters := _init_parameters;
     optimal_ranges := _init_optimal_ranges |}.

(** 150 entry samples, the front slipping 0.02 more than the rear. *)
Definition understeer_lap : list Sample := repeat (entry_sample 0.03 0.01) 150.

(** 100 entry samples, 56 of them understeering. *)
Definition partial_understeer_lap : list Sample :=
  repeat (entry_sample 0.03 0.01) 56 ++ repeat (entry_sample 0.01 0.01) 44.

(** An analysis that holds nothing but a problems map. *)
Definition analysis_of (problems : list (Problem * Q)) : LapAnalysis :=
  {| lap_number := 1; lap_time := 0; sample_count := 100;
     behavior := []; problems := problems;
     tire_temps_avg := zero_wheels; tire_temps_max := zero_wheels;
     tire_pressure_avg := zero_wheels; tire_wear_start := zero_wheels;
     tire_wear_end := zero_wheels; tire_balance := zero_wheels;
     brake_temps_max := zero_wheels; avg_rake := 0;
     max_roll_front := 0; max_roll_rear := 0; bottoming_events := 0;
     wheelspin_pct := 0; lockup_pct := 0; avg_rear_slip := 0;
     stability_score := 1; high_speed_corrections := 0 |}.

(** A freshly created analyzer whose last analysed lap is [analysis]. *)
Definition analyzer_with_analysis (analysis : LapAnalysis) : SetupAnalyzer :=
  {| samples := [];
     current_lap_samples := [];
     current_lap := 2;
     lap_analyses := [analysis];
     current_setup := [];
     vehicle_name := "";
     vehicle_category := "GT3";
     parameters := _init_parameters;
     optimal_ranges := _init_optimal_ranges |}.
End Scenarios.

Section PriorityAndConfidence.
Import setup_analyzer.
Local Open Scope string_scope.
Local Open Scope list_scope.
Local Open Scope Q_scope.

(** [rec] is a recommendation the inner loop can build for some problem of
    the analysis, of severity at least 0.2, and some solution
    [(param_name, score, direction)] that [_find_solutions] returns for it
    under some accumulator of applied effects.  This is enough to bound
    priorities and confidences; which accumulator the loops have when they
    reach the problem is said further down ([built_at]). *)
Definition emitted_for (self : SetupAnalyzer) (analysis : LapAnalysis)
    (rec : Recommendation) (problem : Problem) (severity : Q)
    (param : SetupParameter) (score : Q) : Prop :=
  exists applied_effects param_name direction,
    In (problem, severity) (problems analysis)
    /\ 0.2 <= severity
    /\ In (param_name, score, direction)
          (_find_solutions self problem applied_effects)
    /\ py.dict_get String.eqb (parameters self) param_name = Some param
    /\ rec = build_recommendation self analysis problem severity
               param_name param score direction.

Definition emitted (self : SetupAnalyzer) (analysis : LapAnalysis)
    (rec : Recommendation) : Prop :=
  exists problem severity param score,
    emitted_for self analysis rec problem severity param score.

Lemma apply_solution_emitted (self : SetupAnalyzer) (analysis : LapAnalysis)
    (problem : Problem) (severity : Q) (applied_effects : list (Problem * Q))
    (sols : list (string * Q * string)) :
  In (problem, severity) (problems analysis) ->
  0.2 <= severity ->
  (forall sol, In sol sols ->
     In sol (_find_solutions self problem applied_effects)) ->
  forall acc,
    Forall (emitted self analysis) (fst acc) ->
    Forall (emitted self analysis)
      (fst (fold_left (apply_solution self analysis problem severity)
              sols acc)).
Proof.
  intros Hin Hsev. induction sols as [| sol t IH]; intros Hsols acc Hacc;
    cbn [fold_left]; trivial.
  apply IH.
  - intros s Hs. apply Hsols. now right.
  - destruct acc as [recs applied]. destruct sol as [[param_name score] dir].
    unfold apply_solution.
    destruct (py.dict_get String.eqb (parameters self) param_name)
      as [param |] eqn:E; trivial.
    simpl. apply Forall_app. split; trivial.
    constructor; [| constructor].
    exists problem, severity, param, score, applied_effects, param_name, dir.
    repeat split; trivial.
    apply Hsols. now left.
Qed.

Lemma address_problem_emitted (self : SetupAnalyzer) (analysis : LapAnalysis)
    (l : list (Problem * Q)) :
  (forall ps, In ps l -> In ps (problems analysis)) ->
  forall acc,
    Forall (emitted self analysis) (fst acc) ->
    Forall (emitted self analysis)
      (fst (fold_left (address_problem self analysis) l acc)).
Proof.
  induction l as [| [problem severity] t IH]; intros Hl acc Hacc;
    cbn [fold_left]; trivial.
  apply IH.
  - intros ps Hps. apply Hl. now right.
  - unfold address_problem.
    destruct (py.Qltb severity 0.2) eqn:E; trivial.
    apply Qltb_ge in E.
    apply apply_solution_emitted with (applied_effects := snd acc); trivial.
    + apply Hl. now left.
    + intros sol. apply firstn_In.
Qed.

Lemma collect_recommendations_emitted (self : SetupAnalyzer)
    (analysis : LapAnalysis) :
  Forall (emitted self analysis) (collect_recommendations self analysis).
Proof.
  unfold collect_recommendations. apply address_problem_emitted.
  - intros ps Hps. apply firstn_In in Hps.
    unfold sorted_problems in Hps. now apply sorted_In in Hps.
  - constructor.
Qed.

(** The analyzer after the lap of 100 entry samples, 56 understeering. *)
Definition after_partial_understeer_lap : option SetupAnalyzer :=
  _analyze_lap (analyzer_with_lap partial_understeer_lap).


(** C4 as stated fails: after the lap of 100 entry samples of which 56
    understeer, UNDERSTEER_ENTRY has severity 0.56, the first
    recommendation addresses it, and its priority is 5 = int(5.6) while
    round(5.6) = 6. *)
Lemma priority_is_truncated_not_rounded :
  exists self analysis s rec rest,
    after_partial_understeer_lap = Some self
    /\ py.last_opt (lap_analyses self) = Some analysis
    /\ problems analysis = [(UNDERSTEER_ENTRY, s)]
    /\ s == 0.56
    /\ generate_recommendations self = rec :: rest
    /\ addresses rec = [UNDERSTEER_ENTRY]
    /\ priority rec = 5%Z
    /\ py.round (s * 10) = 6%Z
    /\ priority rec <> py.round (s * 10).
Proof.
  destruct after_partial_understeer_lap as [self |] eqn:Hself;
    [| vm_compute in Hself; discriminate].
  vm_compute in Hself. injection Hself as <-.
  do 5 eexists. repeat split; try reflexivity. discriminate.
Qed.
End PriorityAndConfidence.

(* ================================================================== *)
(** * The conflict penalty *)
(* ================================================================== *)

Section ConflictPenalty.
Import setup_analyzer.
Local Open Scope string_scope.
Local Open Scope list_scope.
Local Open Scope Q_scope.

Lemma filter_map_In (A B : Type) (f : A -> option B) (l : list A) (y : B) :
  In y (py.filter_map f l) <-> exists x, In x l /\ f x = Some y.
Proof.
  induction l as [| a t IH]; simpl.
  - split; [contradiction | intros [x [[] _]]].
  - destruct (f a) as [b |] eqn:E; simpl; rewrite IH; split.
    + intros [<- | [x [Hx Hf]]]; [exists a; auto | exists x; auto].
    + intros [x [[<- | Hx] Hf]]; [left; congruence | right; exists x; auto].
    + intros [x [Hx Hf]]. exists x; auto.
    + intros [x [[<- | Hx] Hf]]; [congruence | exists x; auto].
Qed.

(** The number of effects of the parameter that conflict with the
    accumulator: the problem is in it, with a value of the opposite sign. *)
Definition conflict_count (applied_effects : list (Problem * Q))
    (param : SetupParameter) : nat :=
  length (filter (conflicts applied_effects) (effects param)).

Lemma conflict_penalty_empty (param : SetupParameter) (score : Q) :
  conflict_penalty [] param score = score.
Proof.
  unfold conflict_penalty.
  induction (effects param) as [| [p v] t IH]; simpl; trivial.
Qed.

Lemma half_power_succ (k : nat) :
  0.5 ^ Z.of_nat (S k) == 0.5 * 0.5 ^ Z.of_nat k.
Proof.
  rewrite Nat2Z.inj_succ, <- Z.add_1_l.
  rewrite Qpower_plus by (intro H; discriminate H).
  reflexivity.
Qed.

Lemma penalty_loop (applied_effects effs : list (Problem * Q)) :
  forall s s' : Q,
    s == s' ->
    fold_left
      (fun score e =>
         if conflicts applied_effects e then score * 0.5 else score)
      effs s
    == s' * 0.5 ^ Z.of_nat (length (filter (conflicts applied_effects) effs)).
Proof.
  induction effs as [| e t IH]; intros s s' Hs; simpl.
  - rewrite Hs. ring.
  - destruct (conflicts applied_effects e).
    + rewrite (IH (s * 0.5) (s' * 0.5)) by (now rewrite Hs).
      cbn [length]. rewrite half_power_succ. ring.
    + now apply IH.
Qed.

(** The penalty halves the score once per conflicting effect. *)
Lemma conflict_penalty_power (applied_effects : list (Problem * Q))
    (param : SetupParameter) (score : Q) :
  conflict_penalty applied_effects param score
  == score * 0.5 ^ Z.of_nat (conflict_count applied_effects param).
Proof.
  unfold conflict_penalty, conflict_count. now apply penalty_loop.
Qed.

(** A solution of [_find_solutions] carries the penalized score of its
    parameter. *)
Lemma find_solutions_score (self : SetupAnalyzer) (problem : Problem)
    (applied_effects : list (Problem * Q))
    (param_name : string) (score : Q) (direction : string) :
  In (param_name, score, direction)
     (_find_solutions self problem applied_effects) ->
  exists param,
    In (param_name, param) (parameters self)
    /\ penalized_score problem applied_effects param = Some score
    /\ 0.1 < score.
Proof.
  unfold _find_solutions. intros H.
  apply sorted_In in H. apply filter_map_In in H.
  destruct H as [[n param] [Hin Hsol]].
  unfold solution_for in Hsol.
  destruct (penalized_score problem applied_effects param) as [s |] eqn:E;
    [| discriminate].
  destruct (py.Qltb 0.1 s) eqn:Hs; [| discriminate].
  injection Hsol as -> -> _.
  exists param. repeat split; trivial. now apply Qltb_lt.
Qed.

(** What the penalty loop computes.  The score [_find_solutions] gives a
    parameter under an accumulator of applied effects is the score it gives
    under the empty accumulator, halved once for every effect of the
    parameter whose problem is in the accumulator with a value of the
    opposite sign to the effect itself (the direction the parameter would
    now be moved in plays no part).  With exactly one such effect the score
    is exactly half of the isolated one. *)
Lemma conflict_penalty_halves_per_conflict
    (self : SetupAnalyzer) (problem : Problem)
    (applied_effects : list (Problem * Q))
    (param_name : string) (score : Q) (direction : string) :
  In (param_name, score, direction)
     (_find_solutions self problem applied_effects) ->
  exists param isolated,
    In (param_name, param) (parameters self)
    /\ penalized_score problem [] param = Some isolated
    /\ score
       == isolated * 0.5 ^ Z.of_nat (conflict_count applied_effects param)
    /\ (conflict_count applied_effects param = 1%nat ->
        score == isolated * 0.5).
Proof.
  intros H. apply find_solutions_score in H.
  destruct H as [param [Hin [Hscore _]]].
  exists param,
    (Qabs (py.dict_get_default Problem_beq (effects param) problem 0)).
  unfold penalized_score in *.
  destruct (Qeq_bool (py.dict_get_default Problem_beq (effects param) problem 0)
              0); [discriminate |].
  injection Hscore as <-.
  rewrite conflict_penalty_empty.
  repeat split; trivial.
  - apply conflict_penalty_power.
  - intros Hone. rewrite conflict_penalty_power, Hone. reflexivity.
Qed.

(** The lap in which OVERSTEER_EXIT (1.0) and UNDERSTEER_MID (0.9) are the
    two problems. *)
Definition exit_then_mid : LapAnalysis :=
  analysis_of [(OVERSTEER_EXIT, 1); (UNDERSTEER_MID, 0.9)].

(** The accumulator after the first of them is processed. *)
Definition applied_after_exit : list (Problem * Q) :=
  snd (address_problem (analyzer_with_analysis exit_then_mid) exit_then_mid
         ([], []) (OVERSTEER_EXIT, 1)).

(** The front camber after the rear anti-roll bar and the rear spring were
    increased: one of its effects conflicts, its score is halved. *)
Lemma conflict_penalty_halves_per_conflict_witness :
  exists param isolated,
    In ("front_camber", param) (parameters __init__)
    /\ penalized_score UNDERSTEER_MID [] param = Some isolated
    /\ (125 # 1000)
       == isolated * 0.5 ^ Z.of_nat (conflict_count applied_after_exit param)
    /\ (conflict_count applied_after_exit param = 1%nat ->
        (125 # 1000) == isolated * 0.5).
Proof.
  apply (conflict_penalty_halves_per_conflict __init__ UNDERSTEER_MID
           applied_after_exit "front_camber" (125 # 1000) "increase").
  vm_compute. right. left. reflexivity.
Defined.

Definition rear_arb_param : SetupParameter :=
  py.dict_get_default String.eqb _init_parameters "rear_arb"
    (mk_param "" "" "" "" []).
End ConflictPenalty.

(* ================================================================== *)
(** * Priority and confidence of a recommendation *)
(* ================================================================== *)

Section PostPenaltyScore.
Import setup_analyzer.
Local Open Scope string_scope.
Local Open Scope list_scope.
Local Open Scope Q_scope.

(** The pair [(recommendations, applied_effects)] of
    [generate_recommendations] when its outer loop has made [i] turns. *)
Definition loops_after (self : SetupAnalyzer) (analysis : LapAnalysis)
    (i : nat) : list Recommendation * list (Problem * Q) :=
  fold_left (address_problem self analysis)
    (firstn i (firstn 5 (sorted_problems analysis))) ([], []).

(** [applied_effects] when turn [i] of the outer loop starts (turns are
    counted from 0): what the turns before have accumulated. *)
Definition applied_before (self : SetupAnalyzer) (analysis : LapAnalysis)
    (i : nat) : list (Problem * Q) :=
  snd (loops_after self analysis i).

(** [rec] is the recommendation that the inner loop builds in turn [i] of
    the outer loop, which is for [problem] of severity [severity], from a
    solution [(param_name, score, direction)] that is one of the first two
    [_find_solutions] returns under the effects applied in the turns
    before.  [score] is the score after the conflict penalty: the size of
    the effect of the parameter on the problem, halved once for every effect
    of the parameter that conflicts with those applied effects. *)
Definition built_at (self : SetupAnalyzer) (analysis : LapAnalysis)
    (rec : Recommendation) (i : nat) (problem : Problem) (severity : Q)
    (param : SetupParameter) (score : Q) : Prop :=
  exists param_name direction entry,
    nth_error (firstn 5 (sorted_problems analysis)) i
    = Some (problem, severity)
    /\ In (problem, severity) (problems analysis)
    /\ 0.2 <= severity
    /\ In (param_name, score, direction)
          (firstn 2
             (_find_solutions self problem
                (applied_before self analysis i)))
    /\ In (param_name, entry) (parameters self)
    /\ score
       == Qabs (py.dict_get_default Problem_beq (effects entry) problem 0)
          * 0.5 ^ Z.of_nat
                    (conflict_count (applied_before self analysis i) entry)
    /\ py.dict_get String.eqb (parameters self) param_name = Some param
    /\ rec = build_recommendation self analysis problem severity
               param_name param score direction.

(** What the inner loop appends. *)
Lemma apply_solution_built (self : SetupAnalyzer) (analysis : LapAnalysis)
    (problem : Problem) (severity : Q) (rec : Recommendation)
    (sols : list (string * Q * string)) :
  forall acc,
    In rec
      (fst (fold_left (apply_solution self analysis problem severity)
              sols acc)) ->
    In rec (fst acc)
    \/ exists param_name score direction param,
         In (param_name, score, direction) sols
         /\ py.dict_get String.eqb (parameters self) param_name = Some param
         /\ rec = build_recommendation self analysis problem severity
                    param_name param score direction.
Proof.
  induction sols as [| sol t IH]; intros acc H; cbn [fold_left] in H.
  - now left.
  - destruct (IH _ H) as [Hacc | [n [s [d [p [Hin Hrest]]]]]].
    + destruct acc as [recs applied]. destruct sol as [[n s] d].
      unfold apply_solution in Hacc.
      destruct (py.dict_get String.eqb (parameters self) n) as [p |] eqn:E.
      * cbn [fst] in Hacc. apply in_app_or in Hacc.
        destruct Hacc as [Hacc | [<- | []]]; [now left | right].
        exists n, s, d, p. split; [now left | auto].
      * now left.
    + right. exists n, s, d, p. split; [now right | exact Hrest].
Qed.

(** What the outer loop appends, turn by turn. *)
Lemma address_problems_built (self : SetupAnalyzer) (analysis : LapAnalysis)
    (rec : Recommendation) (init : list Recommendation * list (Problem * Q))
    (l : list (Problem * Q)) :
  In rec (fst (fold_left (address_problem self analysis) l init)) ->
  In rec (fst init)
  \/ exists i problem severity param_name score direction param,
       nth_error l i = Some (problem, severity)
       /\ 0.2 <= severity
       /\ In (param_name, score, direction)
            (firstn 2
               (_find_solutions self problem
                  (snd (fold_left (address_problem self analysis)
                          (firstn i l) init))))
       /\ py.dict_get String.eqb (parameters self) param_name = Some param
       /\ rec = build_recommendation self analysis problem severity
                  param_name param score direction.
Proof.
  induction l as [| [problem severity] l IH] using rev_ind; cbn [fold_left].
  - now left.
  - rewrite fold_left_app. cbn [fold_left]. intros H.
    assert (Hold : In rec (fst (fold_left (address_problem self analysis)
                             l init)) ->
                   In rec (fst init)
                   \/ exists i problem0 severity0 param_name score direction
                        param,
                        nth_error (l ++ [(problem, severity)]) i
                        = Some (problem0, severity0)
                        /\ 0.2 <= severity0
                        /\ In (param_name, score, direction)
                             (firstn 2
                                (_find_solutions self problem0
                                   (snd (fold_left
                                           (address_problem self analysis)
                                           (firstn i
                                              (l ++ [(problem, severity)]))
                                           init))))
                        /\ py.dict_get String.eqb (parameters self) param_name
                           = Some param
                        /\ rec = build_recommendation self analysis problem0
                                   severity0 param_name param score
                                   direction).
    { intros Hin. destruct (IH Hin)
        as [Hi | [i [p0 [s0 [n [s [d [p [Hnth Hrest]]]]]]]]]; [now left |].
      right. exists i, p0, s0, n, s, d, p.
      assert (Hi : (i < length l)%nat)
        by (apply nth_error_Some; rewrite Hnth; discriminate).
      rewrite nth_error_app1 by exact Hi.
      rewrite firstn_app.
      replace (i - length l)%nat with 0%nat by lia.
      cbn [firstn]. rewrite app_nil_r. split; [exact Hnth | exact Hrest]. }
    unfold address_problem at 1 in H.
    destruct (py.Qltb severity 0.2) eqn:Hsev; [now apply Hold |].
    apply apply_solution_built in H.
    destruct H as [H | [n [s [d [p [Hin [Hget Hrec]]]]]]]; [now apply Hold |].
    right. exists (length l), problem, severity, n, s, d, p.
    rewrite nth_error_app2 by lia. rewrite Nat.sub_diag. cbn [nth_error].
    rewrite firstn_app, firstn_all, Nat.sub_diag. cbn [firstn].
    rewrite app_nil_r.
    split; [reflexivity |]. split; [now apply Qltb_ge |].
    split; [exact Hin |]. split; [exact Hget | exact Hrec].
Qed.

(** C4, as the code has it.  Every recommendation that
    [generate_recommendations] returns was built in some turn of the outer
    loop, for a problem of the last analysis of severity [s] (at least 0.2)
    and a parameter whose post-penalty score is [k]: the score that
    [_find_solutions] gave it under the effects that the turns before had
    applied, which is the size of its effect on the problem halved once per
    conflict with those effects.  Its priority is [int(s x 10)], the
    truncation of [s x 10] (not its rounding), and its confidence is
    [min(1, k x s)]. *)
Theorem recommendation_priority_confidence
    (self : SetupAnalyzer) (analysis : LapAnalysis) (rec : Recommendation) :
  py.last_opt (lap_analyses self) = Some analysis ->
  In rec (generate_recommendations self) ->
  exists i problem s param k,
    built_at self analysis rec i problem s param k
    /\ priority rec = py.int (s * 10)
    /\ confidence rec = py.min 1 (k * s).
Proof.
  intros Hlast Hin.
  pose proof (generate_recommendations_In self analysis rec Hlast Hin)
    as Hcol.
  unfold collect_recommendations in Hcol.
  apply address_problems_built in Hcol.
  destruct Hcol as [[] | [i [problem [s [n [k [d [p Hbuilt]]]]]]]].
  destruct Hbuilt as [Hnth [Hsev [Hsol [Hget Hrec]]]].
  exists i, problem, s, p, k. split; [| rewrite Hrec; split; reflexivity].
  pose proof (firstn_In _ _ _ _ Hsol) as Hsol'.
  apply find_solutions_score in Hsol'.
  destruct Hsol' as [entry [Hentry [Hscore _]]].
  exists n, d, entry. split; [exact Hnth |]. split.
  { apply nth_error_In in Hnth. apply firstn_In in Hnth.
    unfold sorted_problems in Hnth. now apply sorted_In in Hnth. }
  split; [exact Hsev |]. split; [exact Hsol |]. split; [exact Hentry |].
  split; [| split; [exact Hget | exact Hrec]].
  unfold penalized_score in Hscore.
  destruct (Qeq_bool
              (py.dict_get_default Problem_beq (effects entry) problem 0) 0);
    [discriminate Hscore |].
  injection Hscore as <-. apply conflict_penalty_power.
Qed.

(** The dict lookups of the "Track effects" loop: after it, the accumulated
    value of a problem is what it was plus the effects of the parameter on
    that problem, signed by the direction. *)
Definition signed_effect (param : SetupParameter) (direction : string)
    (problem : Problem) : Q :=
  py.sum
    (map (fun e => snd e * mult_of direction)
       (filter (fun e => Problem_beq problem (fst e)) (effects param))).

Lemma sum_from (l : list Q) (a : Q) : fold_left Qplus l a == a + py.sum l.
Proof.
  unfold py.sum. revert a.
  induction l as [| x t IH]; intros a; cbn [fold_left]; [ring |].
  rewrite (IH (a + x)), (IH (0 + x)). ring.
Qed.

Lemma Problem_beq_eq (a b : Problem) : Problem_beq a b = true <-> a = b.
Proof.
  split; [apply internal_Problem_dec_bl | apply internal_Problem_dec_lb].
Qed.

(** The accumulator after the "Track effects" loop for one applied
    solution. *)
Lemma track_effects_get (param : SetupParameter) (direction : string)
    (problem : Problem) (applied_effects : list (Problem * Q)) :
  py.dict_get_default Problem_beq
    (track_effects param direction applied_effects) problem 0
  == py.dict_get_default Problem_beq applied_effects problem 0
     + signed_effect param direction problem.
Proof.
  unfold track_effects, signed_effect. revert applied_effects.
  induction (effects param) as [| [k v] t IH]; intros acc;
    cbn [fold_left filter map fst].
  - unfold py.sum. cbn [fold_left]. ring.
  - rewrite IH. unfold py.dict_get_default at 1.
    destruct (Problem_beq problem k) eqn:E.
    + apply Problem_beq_eq in E. subst k.
      rewrite (dict_get_set_same Problem_beq Problem_beq_eq).
      cbn [map snd]. unfold py.sum at 2. cbn [fold_left].
      rewrite sum_from. unfold py.sum. cbn [fold_left]. ring.
    + rewrite (dict_get_set_other Problem_beq Problem_beq_eq).
      * reflexivity.
      * intros ->. rewrite (eqb_refl Problem_beq Problem_beq_eq) in E.
        discriminate E.
Qed.

(** How the applied effects grow: nothing is applied when the first turn
    starts, and a turn adds the effects of the solutions it applies. *)
Lemma applied_before_step (self : SetupAnalyzer) (analysis : LapAnalysis)
    (i : nat) (problem : Problem) (severity : Q) :
  nth_error (firstn 5 (sorted_problems analysis)) i
  = Some (problem, severity) ->
  applied_before self analysis 0 = []
  /\ applied_before self analysis (S i)
     = if py.Qltb severity 0.2 then applied_before self analysis i
       else
         fold_left
           (fun applied (sol : string * Q * string) =>
              let '(param_name, _, direction) := sol in
              match py.dict_get String.eqb (parameters self) param_name with
              | Some param => track_effects param direction applied
              | None => applied
              end)
           (firstn 2
              (_find_solutions self problem
                 (applied_before self analysis i)))
           (applied_before self analysis i).
Proof.
  intros Hnth. split; [reflexivity |].
  unfold applied_before, loops_after.
  set (l := firstn 5 (sorted_problems analysis)) in *.
  assert (Hsplit : firstn (S i) l = firstn i l ++ [(problem, severity)]).
  { clearbody l. revert i Hnth.
    induction l as [| x t IH]; intros [| i] H; try discriminate H.
    - cbn in H. injection H as ->. reflexivity.
    - cbn [nth_error] in H. cbn [firstn app]. now rewrite <- (IH i H). }
  rewrite Hsplit, fold_left_app. cbn [fold_left].
  unfold address_problem at 1.
  destruct (py.Qltb severity 0.2); [reflexivity |].
  generalize (fold_left (address_problem self analysis) (firstn i l) ([], [])).
  intros acc.
  generalize (firstn 2 (_find_solutions self problem (snd acc))).
  intros sols. revert acc.
  induction sols as [| [[n s] d] t IH]; intros acc; cbn [fold_left];
    [reflexivity |].
  rewrite IH. f_equal. destruct acc as [recs applied].
  unfold apply_solution.
  destruct (py.dict_get String.eqb (parameters self) n); reflexivity.
Qed.
End PostPenaltyScore.

(* ================================================================== *)
(** * The conflict penalty in a run of the two loops *)
(* ================================================================== *)

Section ConflictPenaltyRun.
Import setup_analyzer.
Local Open Scope string_scope.
Local Open Scope list_scope.
Local Open Scope Q_scope.

Definition front_camber_param : SetupParameter :=
  py.dict_get_default String.eqb _init_parameters "front_camber"
    (mk_param "" "" "" "" []).

(** The recommendation that the second turn builds from the front camber
    when OVERSTEER_EXIT (1.0) and UNDERSTEER_MID (0.9) are the two problems:
    the score 0.25 of the camber has been halved to 0.125. *)
Definition front_camber_for_mid : Recommendation :=
  build_recommendation (analyzer_with_analysis exit_then_mid) exit_then_mid
    UNDERSTEER_MID 0.9 "front_camber" front_camber_param (125 # 1000)
    "increase".

Lemma recommendation_priority_confidence_witness :
  exists i problem s param k,
    built_at (analyzer_with_analysis exit_then_mid) exit_then_mid
      front_camber_for_mid i problem s param k
    /\ priority front_camber_for_mid = py.int (s * 10)
    /\ confidence front_camber_for_mid = py.min 1 (k * s).
Proof.
  apply (recommendation_priority_confidence
           (analyzer_with_analysis exit_then_mid) exit_then_mid
           front_camber_for_mid).
  - reflexivity.
  - vm_compute. right. right. left. reflexivity.
Defined.

(** C2.  The code does not halve the score of a parameter that it now moves
    against its own earlier move.  With OVERSTEER_EXIT (1.0) and
    UNDERSTEER_MID (0.9) as the two problems, the first turn of
    [generate_recommendations] takes the rear anti-roll bar as the top
    solution, to increase, and that leaves +0.25 for UNDERSTEER_MID in
    [applied_effects].  In the second turn the top solution is the rear
    anti-roll bar again, to decrease: under this direction its effect on
    UNDERSTEER_MID is -0.25, against the +0.25 applied.  The penalty loop
    compares the raw effect +0.25 with the +0.25 applied, finds no conflict,
    and the score stays at the isolated 0.25 instead of half of it; the
    recommendation to decrease is built with confidence 0.25 x 0.9. *)
Theorem opposite_direction_not_halved :
  let self := analyzer_with_analysis exit_then_mid in
  exists r1 r2 r3 r4 s1 s2 rest1 rest2 isolated applied,
    firstn 5 (sorted_problems exit_then_mid)
    = [(OVERSTEER_EXIT, 1); (UNDERSTEER_MID, 0.9)]
    /\ _find_solutions self OVERSTEER_EXIT (applied_before self exit_then_mid 0)
       = ("rear_arb", s1, "increase") :: rest1
    /\ applied_before self exit_then_mid 1 = applied_after_exit
    /\ py.dict_get Problem_beq applied_after_exit UNDERSTEER_MID
       = Some applied
    /\ 0 < applied
    /\ signed_effect rear_arb_param "decrease" UNDERSTEER_MID < 0
    /\ _find_solutions self UNDERSTEER_MID (applied_before self exit_then_mid 1)
       = ("rear_arb", s2, "decrease") :: rest2
    /\ conflict_count applied_after_exit rear_arb_param = 0%nat
    /\ penalized_score UNDERSTEER_MID [] rear_arb_param = Some isolated
    /\ s2 == isolated
    /\ ~ s2 == isolated * 0.5
    /\ collect_recommendations self exit_then_mid = [r1; r2; r3; r4]
    /\ (parameter r1, direction r1, addresses r1)
       = ("Barre Anti-Roulis AR", "increase", [OVERSTEER_EXIT])
    /\ (parameter r3, direction r3, addresses r3)
       = ("Barre Anti-Roulis AR", "decrease", [UNDERSTEER_MID])
    /\ confidence r3 == isolated * 0.9.
Proof.
  cbv zeta. do 10 eexists.
  repeat (split; [vm_compute; reflexivity |]).
  split; [vm_compute; discriminate |].
  repeat (split; [vm_compute; reflexivity |]).
  vm_compute; reflexivity.
Qed.
End ConflictPenaltyRun.

(* ================================================================== *)
(** * Severities of a lap stay within [0, 1] from above *)
(* ================================================================== *)

Section SeverityBound.
Import setup_analyzer.
Local Open Scope string_scope.
Local Open Scope list_scope.
Local Open Scope Q_scope.

Lemma of_nat_le (a b : nat) : (a <= b)%nat -> py.of_nat a <= py.of_nat b.
Proof.
  intros H. unfold py.of_nat, Qle. simpl. lia.
Qed.

Lemma ratio_le_1 (a b : nat) :
  (a <= b)%nat -> (0 < b)%nat -> py.of_nat a / py.of_nat b <= 1.
Proof.
  intros Hab Hb. apply Qle_shift_div_r.
  - unfold py.of_nat, Qlt. simpl. lia.
  - rewrite Qmult_1_l. now apply of_nat_le.
Qed.

(** The three counters of [_analyze_behavior] share out the samples. *)
Lemma count_behavior_total (l : list Sample) :
  forall u o n u' o' n' : nat,
    fold_left count_behavior l (u, o, n) = (u', o', n') ->
    (u' + o' + n' = u + o + n + length l)%nat.
Proof.
  induction l as [| s t IH]; intros u o n u' o' n' H; cbn [fold_left] in H.
  - injection H as <- <- <-. simpl. lia.
  - unfold count_behavior at 2 in H.
    destruct (_ || _) in H; [| destruct (_ || _) in H];
      apply IH in H; simpl; lia.
Qed.

Lemma phase_behavior_bounded (samples : list Sample) (ph : CornerPhase) :
  understeer (phase_behavior samples ph) <= 1
  /\ oversteer (phase_behavior samples ph) <= 1.
Proof.
  unfold phase_behavior.
  set (phase_samples := filter _ samples).
  destruct (length phase_samples <? 10)%nat eqn:Hlen.
  - simpl. split; discriminate.
  - apply Nat.ltb_ge in Hlen.
    destruct (fold_left count_behavior phase_samples (0, 0, 0)%nat)
      as [[u o] n] eqn:Hfold.
    apply count_behavior_total in Hfold. simpl.
    split; apply ratio_le_1; lia.
Qed.

Lemma analyze_behavior_eq (samples : list Sample) :
  _analyze_behavior samples
  = [(ENTRY, phase_behavior samples ENTRY);
     (MID, phase_behavior samples MID);
     (EXIT, phase_behavior samples EXIT)].
Proof. reflexivity. Qed.

Lemma behavior_get_bounded (samples : list Sample) (ph : CornerPhase) :
  behavior_get (_analyze_behavior samples) ph understeer <= 1
  /\ behavior_get (_analyze_behavior samples) ph oversteer <= 1.
Proof.
  rewrite analyze_behavior_eq.
  destruct ph; unfold behavior_get; cbn [py.dict_get CornerPhase_beq];
    try apply phase_behavior_bounded; split; discriminate.
Qed.

Lemma stability_score_nonneg (samples : list Sample) :
  0 <= _calc_stability_score samples.
Proof.
  unfold _calc_stability_score.
  destruct (length (high_speed_samples samples) <? 20)%nat.
  - discriminate.
  - apply max_ge_first.
Qed.

Definition bounded (problems : list (Problem * Q)) : Prop :=
  Forall (fun e => snd e <= 1) problems.

Lemma assign_if_bounded (c : bool) (problems : list (Problem * Q))
    (k : Problem) (v : Q) :
  v <= 1 -> bounded problems -> bounded (assign_if c problems k v).
Proof.
  intros Hv Hp. unfold assign_if. destruct c; trivial.
  apply Forall_forall. intros e He.
  apply (dict_set_In Problem_beq) in He.
  - destruct He as [He | ->]; trivial.
    unfold bounded in Hp. rewrite Forall_forall in Hp. now apply Hp.
  - intros a b. split.
    + apply internal_Problem_dec_bl.
    + apply internal_Problem_dec_lb.
Qed.

(** Every severity [_detect_problems] records for a lap is at most 1. *)
Lemma detect_problems_bounded (ranges : Ranges) (samples : list Sample) :
  bounded (detect_problems_in ranges samples (_analyze_behavior samples)).
Proof.
  unfold detect_problems_in. cbv zeta.
  repeat (apply assign_if_bounded;
          [ first [ apply min_le_first
                  | apply behavior_get_bounded
                  | idtac ] | ]).
  - pose proof (stability_score_nonneg samples). lra.
  - constructor.
Qed.
End SeverityBound.

(* ================================================================== *)
(** * The understeer-on-entry scenario *)
(* ================================================================== *)

Section UndersteerScenario.
Import setup_analyzer.
Local Open Scope string_scope.
Local Open Scope list_scope.
Local Open Scope Q_scope.

(** The local variables of the loop body of [_analyze_behavior]. *)
Definition front_grip (s : Sample) : Q := (w0 (grip s) + w1 (grip s)) / 2.
Definition rear_grip (s : Sample) : Q := (w2 (grip s) + w3 (grip s)) / 2.
Definition front_slip (s : Sample) : Q :=
  (Qabs (w0 (slip_ratio s)) + Qabs (w1 (slip_ratio s))) / 2.
Definition rear_slip (s : Sample) : Q :=
  (Qabs (w2 (slip_ratio s)) + Qabs (w3 (slip_ratio s))) / 2.








Lemma last_opt_app (A : Type) (l : list A) (a : A) :
  py.last_opt (l ++ [a]) = Some a.
Proof.
  unfold py.last_opt. destruct l as [| x t]; cbn [app]; trivial.
  f_equal. apply last_last.
Qed.

Lemma last_opt_pop (A : Type) (l : list A) (a : A) :
  py.last_opt
    (if (20 <? length (l ++ [a]))%nat then tl (l ++ [a]) else l ++ [a])
  = Some a.
Proof.
  destruct (20 <? length (l ++ [a]))%nat eqn:E.
  - destruct l as [| x t].
    + simpl in E. discriminate.
    + cbn [app tl]. apply last_opt_app.
  - apply last_opt_app.
Qed.

(** The analysis [_analyze_lap] appends is the last one afterwards. *)
Lemma analyze_lap_last (self : SetupAnalyzer) (ranges : Ranges) :
  (100 <= length (current_lap_samples self))%nat ->
  lookup_ranges self = Some ranges ->
  exists self' analysis,
    _analyze_lap self = Some self'
    /\ py.last_opt (lap_analyses self') = Some analysis
    /\ parameters self' = parameters self
    /\ problems analysis
       = detect_problems_in ranges (current_lap_samples self)
           (_analyze_behavior (current_lap_samples self)).
Proof.
  intros Hlen Hranges. unfold _analyze_lap, _detect_problems.
  apply Nat.ltb_ge in Hlen. rewrite Hlen, Hranges.
  eexists. eexists. split; [reflexivity |].
  cbn [lap_analyses with_lap_analyses parameters].
  split; [apply last_opt_pop |]. split; reflexivity.
Qed.
End UndersteerScenario.

Section TopRecommendation.
Import setup_analyzer.
Local Open Scope string_scope.
Local Open Scope list_scope.
Local Open Scope Q_scope.






End TopRecommendation.

Section UndersteerScenarioRun.
Import setup_analyzer.
Local Open Scope string_scope.
Local Open Scope list_scope.
Local Open Scope Q_scope.


End UndersteerScenarioRun.

(* ================================================================== *)
(** * The rule engine: rear lock-up and power oversteer are critical *)
(* ================================================================== *)

Section DangerousRules.
Import entities rules.
Local Open Scope string_scope.
Local Open Scope list_scope.

(** The engine returns the diagnostics its rules return, reordered and
    otherwise untouched. *)
Lemma engine_evaluate_In (engine : RuleEngine) (context : RuleContext)
    (diag : Diagnostic) :
  In diag (engine_evaluate engine context)
  <-> exists rule,
        In rule (engine_rules engine) /\ evaluate rule context = Some diag.
Proof.
  unfold engine_evaluate. rewrite sorted_In. apply filter_map_In.
Qed.

(** The two rules of the fixed override, each with its keywords. *)
Definition dangerous_rules : list (Rule * list string) :=
  [(RearLockupRule, RearLockupRule_keywords);
   (PowerOversteerRule, PowerOversteerRule_keywords)].

(** The feedback matches a keyword: a case-insensitive substring test. *)
Definition feedback_matches (context : RuleContext) (keywords : list string)
    : bool :=
  any_in (py.lower (driver_feedback context)) keywords.

(** C9.  Whenever the driver feedback matches a keyword of the rear
    lock-up rule or of the power-oversteer rule, that rule produces a
    diagnostic and its severity is CRITICAL, whatever the setup and the rest
    of the context; and an engine in which the rule is registered (the
    default engine is one) returns that very diagnostic from [evaluate],
    severity included. *)
Theorem dangerous_rules_are_critical
    (rule : Rule) (keywords : list string) (context : RuleContext) :
  In (rule, keywords) dangerous_rules ->
  feedback_matches context keywords = true ->
  In rule (engine_rules create_default_engine)
  /\ exists diag,
       evaluate rule context = Some diag
       /\ severity diag = CRITICAL
       /\ forall engine,
            In rule (engine_rules engine) ->
            In diag (engine_evaluate engine context).
Proof.
  unfold feedback_matches.
  intros [[= <- <-] | [[= <- <-] | []]] Hmatch.
  - split.
    { cbv [create_default_engine register_rules engine_rules app].
      do 8 right. now left. }
    cbn [evaluate RearLockupRule]. unfold RearLockupRule_evaluate.
    rewrite Hmatch.
    eexists. split; [reflexivity |]. split; [reflexivity |].
    intros engine Hin.
    apply engine_evaluate_In. exists RearLockupRule. split; trivial.
    cbn [evaluate RearLockupRule]. unfold RearLockupRule_evaluate.
    now rewrite Hmatch.
  - split.
    { cbv [create_default_engine register_rules engine_rules app].
      do 6 right. now left. }
    cbn [evaluate PowerOversteerRule]. unfold PowerOversteerRule_evaluate.
    rewrite Hmatch.
    eexists. split; [reflexivity |]. split; [reflexivity |].
    intros engine Hin.
    apply engine_evaluate_In. exists PowerOversteerRule. split; trivial.
    cbn [evaluate PowerOversteerRule]. unfold PowerOversteerRule_evaluate.
    now rewrite Hmatch.
Qed.

(** A context with nothing but the driver's words, in capitals. *)
Definition bare_setup : Setup :=
  {| name := "baseline"; suspension := None; differential := None;
     aero := None; brakes := None; tire_compound := "Medium";
     fuel_load := 0%R; traction_control := 2 |}.

Definition shouted_feedback : RuleContext :=
  {| setup := bare_setup;
     driver_feedback := "REAR LOCKUP into turn 1, then Snap Oversteer";
     track_id := ""; conditions := "dry" |}.

Lemma dangerous_rules_are_critical_witness :
  In PowerOversteerRule (engine_rules create_default_engine)
  /\ exists diag,
       evaluate PowerOversteerRule shouted_feedback = Some diag
       /\ severity diag = CRITICAL
       /\ forall engine,
            In PowerOversteerRule (engine_rules engine) ->
            In diag (engine_evaluate engine shouted_feedback).
Proof.
  apply (dangerous_rules_are_critical PowerOversteerRule
           PowerOversteerRule_keywords shouted_feedback).
  - right. left. reflexivity.
  - vm_compute. reflexivity.
Defined.

(** On the same feedback the rear lock-up rule fires too, and the engine
    puts the two critical diagnostics first. *)
Example shouted_feedback_titles :
  map (fun d => (title d, severity d))
      (engine_evaluate create_default_engine shouted_feedback)
  = [("Power Oversteer", CRITICAL); ("Rear Wheel Lockup", CRITICAL)].
Proof. vm_compute. reflexivity. Qed.
End DangerousRules.

(* ================================================================== *)
(** * Sums, minima and the Pearson terms over the reals *)
(* ================================================================== *)

Section RealSeries.
Local Open Scope list_scope.
Local Open Scope R_scope.

Lemma sum_r_acc (l : list R) (a : R) :
  fold_left Rplus l a = a + py.sum_r l.
Proof.
  unfold py.sum_r. revert a.
  induction l as [| x t IH]; intros a; cbn [fold_left].
  - ring.
  - rewrite (IH (a + x)), (IH (0 + x)). ring.
Qed.

Lemma sum_r_cons (x : R) (l : list R) : py.sum_r (x :: l) = x + py.sum_r l.
Proof.
  unfold py.sum_r at 1. cbn [fold_left]. rewrite sum_r_acc. ring.
Qed.

Lemma sum_r_nil : py.sum_r [] = 0.
Proof. reflexivity. Qed.

Lemma sum_squares_nonneg (f : R -> R) (l : list R) :
  0 <= py.sum_r (map (fun x => f x ^ 2) l).
Proof.
  induction l as [| x t IH]; cbn [map].
  - rewrite sum_r_nil. lra.
  - rewrite sum_r_cons. pose proof (pow2_ge_0 (f x)). lra.
Qed.

(** [n * sum(x ** 2 for x in l) - sum(l) ** 2] with [n = len(l)]: a factor
    of the radicand of the Pearson denominator; it is [n] squared times the
    variance of [l]. *)
Definition spread (l : list R) : R :=
  INR (length l) * py.sum_r (map (fun x => x ^ 2) l) - py.sum_r l ^ 2.

Lemma sum_shifted_squares (c : R) (l : list R) :
  py.sum_r (map (fun x => (x - c) ^ 2) l)
  = py.sum_r (map (fun x => x ^ 2) l) - 2 * c * py.sum_r l
    + INR (length l) * c ^ 2.
Proof.
  induction l as [| x t IH].
  - cbn [map length INR]. rewrite !sum_r_nil. ring.
  - cbn [map]. rewrite !sum_r_cons, IH.
    change (length (x :: t)) with (S (length t)). rewrite S_INR. ring.
Qed.

(** The spread is never negative, so the square root of the product of two
    spreads is defined. *)
Lemma spread_nonneg (l : list R) : 0 <= spread l.
Proof.
  unfold spread. induction l as [| x t IH].
  - cbn [map length INR]. rewrite !sum_r_nil. lra.
  - cbn [map]. rewrite !sum_r_cons.
    change (length (x :: t)) with (S (length t)). rewrite S_INR.
    pose proof (sum_squares_nonneg (fun y => y - x) t) as Hsq.
    cbv beta in Hsq. rewrite sum_shifted_squares in Hsq.
    nra.
Qed.

(** A series whose values are all the same has no spread. *)
Lemma constant_series_spread (c : R) (l : list R) :
  (forall x, In x l -> x = c) -> spread l = 0.
Proof.
  intros H. unfold spread.
  assert (Hs : py.sum_r l = INR (length l) * c
               /\ py.sum_r (map (fun x => x ^ 2) l) = INR (length l) * c ^ 2).
  { induction l as [| x t IH].
    - cbn [map length INR]. rewrite !sum_r_nil. split; ring.
    - cbn [map]. rewrite !sum_r_cons.
      change (length (x :: t)) with (S (length t)). rewrite S_INR.
      rewrite (H x (or_introl eq_refl)).
      destruct IH as [-> ->]; [intros y Hy; apply H; now right |].
      split; ring. }
  destruct Hs as [-> ->]. ring.
Qed.

Lemma min_r_fold_In (l : list R) (x : R) :
  In (fold_left py.min_r l x) (x :: l).
Proof.
  revert x. induction l as [| y t IH]; intros x; cbn [fold_left].
  - now left.
  - destruct (IH (py.min_r x y)) as [H | H].
    + rewrite <- H. unfold py.min_r.
      destruct (Rlt_dec y x); [right; now left | now left].
    + right. now right.
Qed.

Lemma min_list_r_In (l : list R) (m : R) :
  py.min_list_r l = Some m -> In m l.
Proof.
  destruct l as [| x t]; cbn [py.min_list_r]; [discriminate |].
  intros [= <-]. apply min_r_fold_In.
Qed.

Lemma index_r_In (l : list R) (x : R) :
  In x l -> exists i, py.index_r l x = Some i /\ (i < length l)%nat.
Proof.
  induction l as [| y t IH]; cbn [In py.index_r length]; [contradiction |].
  intros H. destruct (Req_dec_T y x) as [E | E].
  - exists 0%nat. split; [reflexivity | lia].
  - destruct H as [H | H]; [contradiction |].
    destruct (IH H) as [i [-> Hi]]. exists (S i). split; [reflexivity | lia].
Qed.

Lemma min_list_r_app (l : list R) (m v : R) :
  py.min_list_r l = Some m ->
  py.min_list_r (l ++ [v]) = Some (py.min_r m v).
Proof.
  destruct l as [| x t]; cbn [py.min_list_r app]; [discriminate |].
  intros [= <-]. now rewrite fold_left_app.
Qed.

Lemma max_list_r_app (l : list R) (m v : R) :
  py.max_list_r l = Some m ->
  py.max_list_r (l ++ [v]) = Some (py.max_r m v).
Proof.
  destruct l as [| x t]; cbn [py.max_list_r app]; [discriminate |].
  intros [= <-]. now rewrite fold_left_app.
Qed.

Lemma min_r_same (v : R) : py.min_r v v = v.
Proof. unfold py.min_r. now destruct (Rlt_dec v v). Qed.

Lemma max_r_same (v : R) : py.max_r v v = v.
Proof. unfold py.max_r. now destruct (Rlt_dec v v). Qed.
End RealSeries.

(* ================================================================== *)
(** * The correlator's parameter ranges *)
(* ================================================================== *)

Section ParameterRanges.
Import entities setup_correlator.
Local Open Scope string_scope.
Local Open Scope list_scope.
Local Open Scope R_scope.

(** The invariant of one entry of [parameter_ranges]. *)
Definition range_ok (rng : ParameterRange) : Prop :=
  py.min_list_r (values rng) = Some (min_value rng)
  /\ py.max_list_r (values rng) = Some (max_value rng)
  /\ length (values rng) = length (lap_times rng).

(** The range [_update_parameter_ranges] creates for a new name, and the
    range after the four assignments that record a value. *)
Definition fresh_range (name : string) (value : R) : ParameterRange :=
  {| parameter_name := name; min_value := value; max_value := value;
     optimal_value := None; values := []; lap_times := [] |}.

Definition recorded (range_obj : ParameterRange) (value best_lap_time : R)
    : ParameterRange :=
  {| parameter_name := parameter_name range_obj;
     min_value := py.min_r (min_value range_obj) value;
     max_value := py.max_r (max_value range_obj) value;
     optimal_value := optimal_value range_obj;
     values := values range_obj ++ [value];
     lap_times := lap_times range_obj ++ [best_lap_time] |}.

(** What one turn of the loop of [_update_parameter_ranges] does to the
    dict, read through [get]. *)
Lemma update_range_get (best_lap_time : R)
    (ranges : list (string * ParameterRange)) (n : string) (v : R)
    (name : string) :
  py.dict_get String.eqb (update_range best_lap_time ranges (n, v)) name
  = if String.eqb name n then
      Some (recorded
              (match py.dict_get String.eqb ranges n with
               | Some r => r
               | None => fresh_range n v
               end) v best_lap_time)
    else py.dict_get String.eqb ranges name.
Proof.
  unfold update_range, py.dict_mem.
  destruct (py.dict_get String.eqb ranges n) as [r |] eqn:E.
  - rewrite E. destruct (String.eqb name n) eqn:En.
    + apply String.eqb_eq in En. subst.
      apply (dict_get_set_same String.eqb String.eqb_eq).
    + apply (dict_get_set_other String.eqb String.eqb_eq).
      intros ->. rewrite String.eqb_refl in En. discriminate.
  - rewrite (dict_get_set_same String.eqb String.eqb_eq).
    destruct (String.eqb name n) eqn:En.
    + apply String.eqb_eq in En. subst.
      apply (dict_get_set_same String.eqb String.eqb_eq).
    + assert (Hne : name <> n)
        by (intros ->; rewrite String.eqb_refl in En; discriminate).
      now rewrite !(dict_get_set_other String.eqb String.eqb_eq) by trivial.
Qed.

Lemma update_range_NoDup (best_lap_time : R)
    (ranges : list (string * ParameterRange)) (item : string * R) :
  NoDup (py.keys ranges) ->
  NoDup (py.keys (update_range best_lap_time ranges item)).
Proof.
  intros H. destruct item as [n v]. unfold update_range.
  set (ranges1 := if py.dict_mem String.eqb ranges n then ranges else _).
  assert (H1 : NoDup (py.keys ranges1)).
  { subst ranges1. destruct (py.dict_mem String.eqb ranges n); trivial.
    now apply (dict_set_NoDup String.eqb String.eqb_eq). }
  destruct (py.dict_get String.eqb ranges1 n); trivial.
  now apply (dict_set_NoDup String.eqb String.eqb_eq).
Qed.

Lemma recorded_ok (r : ParameterRange) (v t : R) :
  range_ok r -> range_ok (recorded r v t).
Proof.
  intros [Hmin [Hmax Hlen]]. unfold range_ok, recorded.
  cbn [values lap_times min_value max_value].
  repeat split.
  - now apply min_list_r_app.
  - now apply max_list_r_app.
  - rewrite !length_app. cbn [length]. lia.
Qed.

Lemma recorded_fresh_ok (n : string) (v t : R) :
  range_ok (recorded (fresh_range n v) v t).
Proof.
  unfold range_ok, recorded, fresh_range.
  cbn [values lap_times min_value max_value app py.min_list_r py.max_list_r
       fold_left length].
  now rewrite min_r_same, max_r_same.
Qed.

(** The number of values recorded under [name]. *)
Definition recorded_count (ranges : list (string * ParameterRange))
    (name : string) : nat :=
  match py.dict_get String.eqb ranges name with
  | Some r => length (values r)
  | None => 0
  end.

Definition all_ok (ranges : list (string * ParameterRange)) : Prop :=
  forall name rng, py.dict_get String.eqb ranges name = Some rng -> range_ok rng.

Lemma update_range_ok (best_lap_time : R)
    (ranges : list (string * ParameterRange)) (item : string * R) :
  all_ok ranges -> all_ok (update_range best_lap_time ranges item).
Proof.
  intros H name rng. destruct item as [n v]. rewrite update_range_get.
  destruct (String.eqb name n).
  - intros [= <-].
    destruct (py.dict_get String.eqb ranges n) as [r |] eqn:E.
    + apply recorded_ok. now apply (H n).
    + apply recorded_fresh_ok.
  - apply H.
Qed.

Lemma update_range_count (best_lap_time : R)
    (ranges : list (string * ParameterRange)) (item : string * R)
    (name : string) :
  recorded_count (update_range best_lap_time ranges item) name
  = (recorded_count ranges name
     + if String.eqb name (fst item) then 1 else 0)%nat.
Proof.
  destruct item as [n v]. unfold recorded_count. rewrite update_range_get.
  cbn [fst]. destruct (String.eqb name n) eqn:En.
  - apply String.eqb_eq in En. subst.
    destruct (py.dict_get String.eqb ranges n);
      cbn [recorded values fresh_range]; rewrite length_app; cbn [length]; lia.
  - lia.
Qed.

(** How often [name] is a key of the items. *)
Definition occurrences (name : string) (items : list (string * R)) : nat :=
  length (filter (fun item => String.eqb name (fst item)) items).

Lemma update_ranges_fold (best_lap_time : R) (items : list (string * R)) :
  forall ranges : list (string * ParameterRange),
    NoDup (py.keys ranges) -> all_ok ranges ->
    let ranges' := fold_left (update_range best_lap_time) items ranges in
    NoDup (py.keys ranges') /\ all_ok ranges'
    /\ forall name,
         recorded_count ranges' name
         = (recorded_count ranges name + occurrences name items)%nat.
Proof.
  induction items as [| item t IH]; intros ranges Hnd Hok; cbv zeta;
    cbn [fold_left].
  - split; [trivial | split; [trivial |]].
    intros name. unfold occurrences. cbn. lia.
  - destruct (IH (update_range best_lap_time ranges item)) as [H1 [H2 H3]].
    + now apply update_range_NoDup.
    + now apply update_range_ok.
    + split; [trivial | split; [trivial |]]. intros name.
      rewrite H3, update_range_count. unfold occurrences. cbn [filter].
      destruct (String.eqb name (fst item)); cbn [length]; lia.
Qed.
End ParameterRanges.

Section CorrelatorSessions.
Import entities setup_correlator.
Local Open Scope string_scope.
Local Open Scope list_scope.
Local Open Scope R_scope.

Variables SessionData BehaviorStatistics TelemetryAnalyzer : Type.
Variable session_best_lap_time : SessionData -> R.
Variable analyze_session :
  TelemetryAnalyzer -> SessionData -> TelemetryAnalyzer * BehaviorStatistics.

Lemma extract_keys_NoDup (setup : Setup) :
  NoDup (py.keys (_extract_setup_parameters setup)).
Proof.
  unfold _extract_setup_parameters. cbv zeta.
  destruct (aero setup); destruct (brakes setup);
    destruct (differential setup); destruct (suspension setup);
    cbn [fold_left];
    repeat apply (dict_set_NoDup String.eqb String.eqb_eq);
    constructor.
Qed.

Lemma occurrences_NoDup (name : string) (items : list (string * R)) :
  NoDup (py.keys items) ->
  occurrences name items
  = if py.dict_mem String.eqb items name then 1%nat else 0%nat.
Proof.
  unfold occurrences, py.dict_mem.
  induction items as [| [k v] t IH]; intros H; cbn [filter py.dict_get fst];
    trivial.
  inversion H as [| ? ? Hk Ht]; subst.
  destruct (String.eqb name k) eqn:E; cbn [length].
  - apply String.eqb_eq in E. subst k. rewrite (IH Ht).
    apply (dict_get_none String.eqb String.eqb_eq) in Hk. now rewrite Hk.
  - now apply IH.
Qed.

(** The number of the calls whose setup has the parameter [name]. *)
Definition appearances (name : string) (calls : list (SessionData * Setup))
    : nat :=
  length
    (filter
       (fun call =>
          py.dict_mem String.eqb (_extract_setup_parameters (snd call)) name)
       calls).

Lemma add_session_ranges
    (self : SetupCorrelator SessionData BehaviorStatistics TelemetryAnalyzer)
    (session : SessionData) (setup : Setup) :
  parameter_ranges
    (add_session session_best_lap_time analyze_session self session setup)
  = _update_parameter_ranges (parameter_ranges self) setup
      (session_best_lap_time session)
  /\ length (sessions (add_session session_best_lap_time analyze_session
                         self session setup))
     = S (length (sessions self)).
Proof.
  unfold add_session. destruct (analyze_session (analyzer self) session).
  cbn [parameter_ranges sessions]. split; trivial.
  rewrite length_app. cbn [length]. lia.
Qed.

Lemma sessions_fold (calls : list (SessionData * Setup)) :
  forall self : SetupCorrelator SessionData BehaviorStatistics
                  TelemetryAnalyzer,
    NoDup (py.keys (parameter_ranges self)) ->
    all_ok (parameter_ranges self) ->
    let self' :=
      fold_left
        (fun self call =>
           add_session session_best_lap_time analyze_session self
             (fst call) (snd call))
        calls self in
    NoDup (py.keys (parameter_ranges self'))
    /\ all_ok (parameter_ranges self')
    /\ length (sessions self') = (length (sessions self) + length calls)%nat
    /\ forall name,
         recorded_count (parameter_ranges self') name
         = (recorded_count (parameter_ranges self) name
            + appearances name calls)%nat.
Proof.
  induction calls as [| [session setup] t IH]; intros self Hnd Hok; cbv zeta;
    cbn [fold_left fst snd].
  - split; [trivial | split; [trivial | split; [cbn; lia |]]].
    intros name. cbn. lia.
  - destruct (add_session_ranges self session setup) as [Hr Hs].
    destruct (update_ranges_fold (session_best_lap_time session)
                (_extract_setup_parameters setup) (parameter_ranges self)
                Hnd Hok) as [H1 [H2 H3]].
    fold (_update_parameter_ranges (parameter_ranges self) setup
            (session_best_lap_time session)) in H1, H2, H3.
    rewrite <- Hr in H1, H2, H3.
    destruct (IH _ H1 H2) as [H4 [H5 [H6 H7]]].
    split; [trivial | split; [trivial | split]].
    + rewrite H6, Hs. cbn [length]. lia.
    + intros name. rewrite H7, H3.
      rewrite (occurrences_NoDup _ _ (extract_keys_NoDup setup)).
      unfold appearances. cbn [filter snd].
      destruct (py.dict_mem String.eqb (_extract_setup_parameters setup) name);
        cbn [length]; lia.
Qed.

(** The state of a correlator after any sequence of [add_session] calls. *)
Lemma after_sessions_invariant (a : TelemetryAnalyzer)
    (calls : list (SessionData * Setup)) :
  let self := after_sessions session_best_lap_time analyze_session a calls in
  NoDup (py.keys (parameter_ranges self))
  /\ all_ok (parameter_ranges self)
  /\ length (sessions self) = length calls
  /\ forall name,
       recorded_count (parameter_ranges self) name = appearances name calls.
Proof.
  unfold after_sessions.
  destruct (sessions_fold calls (__init__ a)) as [H1 [H2 [H3 H4]]].
  - constructor.
  - intros name rng H. discriminate H.
  - cbv zeta. split; [trivial | split; [trivial | split]].
    + exact H3.
    + intros name. apply H4.
Qed.

(** C10.  After every sequence of [add_session] calls, every entry of
    [parameter_ranges] has [min_value] the minimum of its [values]
    (which is not empty), [max_value] their maximum, and as many [values] as
    [lap_times]: one of each per call whose setup had the parameter. *)
Theorem parameter_ranges_invariant (a : TelemetryAnalyzer)
    (calls : list (SessionData * Setup))
    (name : string) (rng : ParameterRange) :
  In (name, rng)
     (parameter_ranges
        (after_sessions session_best_lap_time analyze_session a calls)) ->
  py.min_list_r (values rng) = Some (min_value rng)
  /\ py.max_list_r (values rng) = Some (max_value rng)
  /\ length (values rng) = length (lap_times rng)
  /\ length (values rng) = appearances name calls.
Proof.
  intros Hin.
  destruct (after_sessions_invariant a calls) as [Hnd [Hok [_ Hcount]]].
  apply (In_dict_get String.eqb String.eqb_eq) in Hin; trivial.
  destruct (Hok name rng Hin) as [Hmin [Hmax Hlen]].
  repeat split; trivial.
  rewrite <- Hcount. unfold recorded_count. now rewrite Hin.
Qed.
End CorrelatorSessions.

Section CorrelatorRun.
Import entities setup_correlator.
Local Open Scope string_scope.
Local Open Scope list_scope.
Local Open Scope R_scope.

(** A setup with nothing but brakes at the given front bias. *)
Definition brakes_only (front_bias : R) : Setup :=
  {| name := "brakes"; suspension := None; differential := None;
     aero := None;
     brakes := Some {| bias := front_bias; brake_pressure := 100 |};
     tire_compound := "Medium"; fuel_load := 0; traction_control := 0 |}.

(** Sessions reduced to their best lap time, under an analyzer without
    state that returns no statistics. *)
Definition no_statistics (a : unit) (session : R) : unit * unit := (a, tt).

Definition two_sessions : list (R * Setup) :=
  [(90.5, brakes_only 55); (90.1, brakes_only 57)].

Definition brake_bias_range : ParameterRange :=
  recorded (recorded (fresh_range "brake_bias" 55) 55 90.5) 57 90.1.

Lemma parameter_ranges_invariant_witness :
  py.min_list_r (values brake_bias_range) = Some (min_value brake_bias_range)
  /\ py.max_list_r (values brake_bias_range)
     = Some (max_value brake_bias_range)
  /\ length (values brake_bias_range) = length (lap_times brake_bias_range)
  /\ length (values brake_bias_range)
     = appearances R "brake_bias" two_sessions.
Proof.
  apply (parameter_ranges_invariant R unit unit (fun t => t) no_statistics
           tt two_sessions "brake_bias" brake_bias_range).
  left. reflexivity.
Defined.
End CorrelatorRun.

(* ================================================================== *)
(** * The Pearson correlation of a parameter *)
(* ================================================================== *)

Section PearsonCorrelation.
Import entities setup_correlator.
Local Open Scope string_scope.
Local Open Scope list_scope.
Local Open Scope R_scope.

(** [n * sum_xy - sum_x * sum_y] *)
Definition pearson_numerator (xs ys : list R) : R :=
  INR (length xs)
  * py.sum_r (map (fun xy => fst xy * snd xy) (combine xs ys))
  - py.sum_r xs * py.sum_r ys.

(** The denominator, for series of the same length. *)
Definition pearson_denominator (xs ys : list R) : R :=
  sqrt (spread xs * spread ys).

Definition pearson (xs ys : list R) : R :=
  pearson_numerator xs ys / pearson_denominator xs ys.

(** [min(100, abs(r) * 100 * log2(n + 1))] *)
Definition pearson_confidence (r : R) (n : nat) : R :=
  py.min_r 100 (Rabs r * 100 * py.log2 (INR n + 1)).

(** What [_calculate_parameter_correlation] returns on a range with as many
    lap times as values, at least two: it never raises; with a zero
    denominator it returns [None]; otherwise the correlation whose
    coefficient is the Pearson coefficient and whose confidence is
    [min(100, |r| x 100 x log2(n + 1))]. *)
Lemma calculate_parameter_correlation_spec (param_name : string)
    (rng : ParameterRange) :
  length (values rng) = length (lap_times rng) ->
  (2 <= length (values rng))%nat ->
  (pearson_denominator (values rng) (lap_times rng) = 0 ->
   _calculate_parameter_correlation param_name rng = py.Ok (rng, None))
  /\ (pearson_denominator (values rng) (lap_times rng) <> 0 ->
      exists best c,
        _calculate_parameter_correlation param_name rng
        = py.Ok (with_optimal_value rng best, Some c)
        /\ corr_parameter_name c = param_name
        /\ lap_time_correlation c = pearson (values rng) (lap_times rng)
        /\ confidence c
           = pearson_confidence (pearson (values rng) (lap_times rng))
               (length (values rng))
        /\ sample_count c = length (values rng)).
Proof.
  intros Hlen Hn.
  unfold _calculate_parameter_correlation.
  assert (Hn' : (length (values rng) <? 2)%nat = false)
    by now apply Nat.ltb_ge.
  rewrite Hn'.
  assert (Hrad : (INR (length (values rng))
                  * py.sum_r (map (fun x => x ^ 2) (values rng))
                  - py.sum_r (values rng) ^ 2)
                 * (INR (length (values rng))
                    * py.sum_r (map (fun y => y ^ 2) (lap_times rng))
                    - py.sum_r (lap_times rng) ^ 2)
                 = spread (values rng) * spread (lap_times rng)).
  { unfold spread. now rewrite <- Hlen. }
  rewrite Hrad. unfold py.sqrt.
  destruct (Rlt_dec (spread (values rng) * spread (lap_times rng)) 0)
    as [Hneg | _].
  { exfalso.
    pose proof (spread_nonneg (values rng)).
    pose proof (spread_nonneg (lap_times rng)). nra. }
  cbn [py.bind].
  fold (pearson_denominator (values rng) (lap_times rng)).
  destruct (Req_dec_T (pearson_denominator (values rng) (lap_times rng)) 0)
    as [Hz | Hnz].
  { split; [trivial | contradiction]. }
  split; [contradiction |]. intros _.
  destruct (py.last_opt (values rng)) as [current |] eqn:Hlast.
  2:{ destruct (values rng); [cbn in Hn; lia | discriminate]. }
  destruct (py.min_list_r (lap_times rng)) as [fastest |] eqn:Hmin.
  2:{ destruct (lap_times rng); [cbn in Hlen; lia | discriminate]. }
  destruct (index_r_In _ _ (min_list_r_In _ _ Hmin)) as [i [Hi Hlt]].
  destruct (nth_error (values rng) i) as [best |] eqn:Hnth.
  2:{ apply nth_error_None in Hnth. lia. }
  cbn [py.bind py.or_raise]. rewrite Hi. cbn [py.bind py.or_raise].
  rewrite Hnth. cbn [py.bind py.or_raise].
  fold (pearson_numerator (values rng) (lap_times rng)).
  fold (pearson (values rng) (lap_times rng)).
  destruct (Rlt_dec (Rabs (pearson (values rng) (lap_times rng))) 0.3);
    [| destruct (Rlt_dec (pearson (values rng) (lap_times rng)) 0)];
    eexists; eexists; (split; [reflexivity |]); repeat split.
Qed.

(** The loop of [analyze_correlations] over ranges that all have as many
    lap times as values: it does not raise, and every correlation it
    collects comes from an entry with a non-zero denominator. *)
Lemma correlate_items_spec (items : list (string * ParameterRange)) :
  (forall name rng, In (name, rng) items ->
     length (values rng) = length (lap_times rng)) ->
  exists items' correlations,
    correlate_items items = py.Ok (items', correlations)
    /\ forall c, In c correlations ->
         exists rng,
           In (corr_parameter_name c, rng) items
           /\ pearson_denominator (values rng) (lap_times rng) <> 0
           /\ lap_time_correlation c = pearson (values rng) (lap_times rng)
           /\ confidence c
              = pearson_confidence (pearson (values rng) (lap_times rng))
                  (length (values rng)).
Proof.
  induction items as [| [name rng] t IH]; intros Hlen; cbn [correlate_items].
  - exists [], []. split; [reflexivity | intros c []].
  - destruct IH as [items' [cs [Hrest Hcs]]].
    { intros n r Hin. apply (Hlen n r). now right. }
    assert (Hcs' : forall c, In c cs ->
              exists rng0,
                In (corr_parameter_name c, rng0) ((name, rng) :: t)
                /\ pearson_denominator (values rng0) (lap_times rng0) <> 0
                /\ lap_time_correlation c
                   = pearson (values rng0) (lap_times rng0)
                /\ confidence c
                   = pearson_confidence
                       (pearson (values rng0) (lap_times rng0))
                       (length (values rng0))).
    { intros c Hc. destruct (Hcs c Hc) as [rng0 [Hin H]].
      exists rng0. split; [now right | trivial]. }
    destruct (length (values rng) <? 2)%nat eqn:Hn.
    + rewrite Hrest. cbn [py.bind]. eexists. eexists.
      split; [reflexivity | trivial].
    + apply Nat.ltb_ge in Hn.
      destruct (calculate_parameter_correlation_spec name rng
                  (Hlen name rng (or_introl eq_refl)) Hn) as [Hzero Hnon].
      destruct (Req_dec_T (pearson_denominator (values rng) (lap_times rng)) 0)
        as [Hz | Hnz].
      * rewrite (Hzero Hz). cbn [py.bind]. rewrite Hrest. cbn [py.bind].
        eexists. eexists. split; [reflexivity | trivial].
      * destruct (Hnon Hnz) as [best [c [Hcalc [Hname [Hr [Hconf _]]]]]].
        rewrite Hcalc. cbn [py.bind]. rewrite Hrest. cbn [py.bind].
        eexists. eexists. split; [reflexivity |].
        intros c' [<- | Hc']; [| now apply Hcs'].
        exists rng. rewrite Hname. split; [now left | auto].
Qed.
End PearsonCorrelation.

Section AnalyzeCorrelations.
Import entities setup_correlator.
Local Open Scope string_scope.
Local Open Scope list_scope.
Local Open Scope R_scope.

Variables SessionData BehaviorStatistics TelemetryAnalyzer : Type.
Variable session_best_lap_time : SessionData -> R.
Variable analyze_session :
  TelemetryAnalyzer -> SessionData -> TelemetryAnalyzer * BehaviorStatistics.

Lemma zero_spread_denominator (xs ys : list R) :
  spread xs = 0 \/ spread ys = 0 -> pearson_denominator xs ys = 0.
Proof.
  unfold pearson_denominator.
  intros [-> | ->]; [rewrite Rmult_0_l | rewrite Rmult_0_r]; apply sqrt_0.
Qed.

(** In exact arithmetic the zero guard suffices.  On a correlator built by any
    sequence of [add_session] calls, over the reals, [analyze_correlations]
    returns and does not raise; with fewer than two sessions the list is
    empty; and a parameter whose value series or lap-time series has no
    spread (zero variance, so a zero Pearson denominator) has no correlation
    in the list.  The guard [denominator == 0] is what the code relies on;
    the last section shows what rounding makes of it. *)
Lemma analyze_correlations_exact (a : TelemetryAnalyzer)
    (calls : list (SessionData * Setup)) :
  exists self' correlations,
    analyze_correlations
      (after_sessions session_best_lap_time analyze_session a calls)
    = py.Ok (self', correlations)
    /\ ((length calls < 2)%nat -> correlations = [])
    /\ forall name rng,
         In (name, rng)
            (parameter_ranges
               (after_sessions session_best_lap_time analyze_session a calls))
         ->
         spread (values rng) = 0 \/ spread (lap_times rng) = 0 ->
         forall c, In c correlations -> corr_parameter_name c <> name.
Proof.
  destruct (after_sessions_invariant SessionData BehaviorStatistics
              TelemetryAnalyzer session_best_lap_time analyze_session a calls)
    as [Hnd [Hok [Hlen _]]].
  set (self := after_sessions session_best_lap_time analyze_session a calls)
    in *.
  unfold analyze_correlations. rewrite Hlen.
  destruct (length calls <? 2)%nat eqn:Hcalls.
  - exists self, []. split; [reflexivity |]. split; [trivial |].
    intros name rng _ _ c [].
  - apply Nat.ltb_ge in Hcalls.
    destruct (correlate_items_spec (parameter_ranges self))
      as [items' [cs [Hrun Hcs]]].
    { intros name rng Hin.
      apply (In_dict_get String.eqb String.eqb_eq) in Hin; trivial.
      now destruct (Hok name rng Hin) as [_ [_ H]]. }
    rewrite Hrun. cbn [py.bind]. eexists. eexists.
    split; [reflexivity |]. split; [intros H; lia |].
    intros name rng Hin Hzero c Hc Hname.
    unfold sort_by_confidence in Hc. apply sorted_In in Hc.
    destruct (Hcs c Hc) as [rng0 [Hin0 [Hnz _]]].
    rewrite Hname in Hin0.
    apply (In_dict_get String.eqb String.eqb_eq) in Hin; trivial.
    apply (In_dict_get String.eqb String.eqb_eq) in Hin0; trivial.
    assert (rng0 = rng) by congruence. subst rng0.
    apply Hnz. now apply zero_spread_denominator.
Qed.
End AnalyzeCorrelations.

Section PearsonSeries.
Import entities setup_correlator.
Local Open Scope string_scope.
Local Open Scope list_scope.
Local Open Scope R_scope.

(** The synthetic series: value = i and outcome = 100 - i for i = 1..10. *)
Definition series_values : list R := [1; 2; 3; 4; 5; 6; 7; 8; 9; 10].
Definition series_outcomes : list R := map (fun i => 100 - i) series_values.

Lemma series_spreads :
  spread series_values = 825 /\ spread series_outcomes = 825
  /\ pearson_numerator series_values series_outcomes = - 825.
Proof.
  unfold spread, pearson_numerator, series_outcomes, series_values, py.sum_r.
  cbn [map combine fold_left length fst snd]. simpl INR.
  repeat split; lra.
Qed.

Lemma series_pearson : pearson series_values series_outcomes = - 1.
Proof.
  unfold pearson, pearson_denominator.
  destruct series_spreads as [-> [-> ->]].
  rewrite sqrt_square by lra. field.
Qed.

Lemma log2_11 : 1 <= py.log2 (INR 10 + 1).
Proof.
  unfold py.log2. simpl INR.
  assert (H2 : 0 < ln 2) by (rewrite <- ln_1; apply ln_increasing; lra).
  apply (Rmult_le_reg_r (ln 2)); trivial.
  unfold Rdiv. rewrite Rmult_assoc, Rinv_l, Rmult_1_l, Rmult_1_r by lra.
  apply Rlt_le, ln_increasing; lra.
Qed.

(** C5.  For the series value = i, outcome = 100 - i (i = 1..10), whatever
    the other fields of the range, the correlator returns a correlation
    whose coefficient is exactly -1 and whose confidence
    [min(100, |r| x 100 x log2(n + 1))] is exactly 100. *)
Theorem pearson_perfect_negative (param_name : string) (lo hi : R)
    (optimal : option R) :
  exists rng' c,
    _calculate_parameter_correlation param_name
      {| parameter_name := param_name; min_value := lo; max_value := hi;
         optimal_value := optimal;
         values := series_values; lap_times := series_outcomes |}
    = py.Ok (rng', Some c)
    /\ lap_time_correlation c = - 1
    /\ confidence c = 100
    /\ sample_count c = 10%nat.
Proof.
  set (rng := Build_ParameterRange _ _ _ _ _ _).
  destruct (calculate_parameter_correlation_spec param_name rng)
    as [_ Hnon]; [reflexivity | cbn; lia |].
  destruct Hnon as [best [c [Hcalc [_ [Hr [Hconf Hcount]]]]]].
  { cbn [values lap_times rng]. unfold pearson_denominator.
    destruct series_spreads as [-> [-> _]].
    rewrite sqrt_square by lra. lra. }
  exists (with_optimal_value rng best), c.
  cbn [values lap_times rng] in Hr, Hconf, Hcount.
  rewrite series_pearson in Hr, Hconf.
  repeat split; trivial.
  rewrite Hconf. unfold pearson_confidence, py.min_r.
  change (length series_values) with 10%nat.
  pose proof log2_11 as Hlog.
  assert (Habs : Rabs (- 1) = 1)
    by (unfold Rabs; destruct (Rcase_abs (- 1)); lra).
  rewrite Habs.
  destruct (Rlt_dec (1 * 100 * py.log2 (INR 10 + 1)) 100); [nra | trivial].
Qed.
End PearsonSeries.

Section AnalyzeCorrelationsRun.
Import entities setup_correlator.
Local Open Scope string_scope.
Local Open Scope list_scope.
Local Open Scope R_scope.

(** The brake pressure is 100 in both of the two sessions. *)
Definition brake_pressure_range : ParameterRange :=
  recorded (recorded (fresh_range "brake_pressure" 100) 100 90.5) 100 90.1.

(** On the two sessions that differ in brake bias only, the analysis
    returns, and the constant brake pressure has no correlation in it. *)
Lemma analyze_correlations_exact_run :
  exists self' correlations,
    analyze_correlations
      (after_sessions (fun t : R => t) no_statistics tt two_sessions)
    = py.Ok (self', correlations)
    /\ forall c, In c correlations -> corr_parameter_name c <> "brake_pressure".
Proof.
  destruct (analyze_correlations_exact R unit unit (fun t => t)
              no_statistics tt two_sessions) as [self' [cs [Hrun [_ Hzero]]]].
  exists self', cs. split; [exact Hrun |].
  apply (Hzero "brake_pressure" brake_pressure_range).
  - right. left. reflexivity.
  - left. apply (constant_series_spread 100).
    intros x [<- | [<- | []]]; reflexivity.
Qed.
End AnalyzeCorrelationsRun.

(* ================================================================== *)
(** * The correlator on binary64 numbers: rounding and the zero guard *)
(* ================================================================== *)

Section RoundingAndTheGuard.
Import PrimFloat.
Import binary64.
Local Set Warnings "-inexact-float".
Local Open Scope string_scope.
Local Open Scope list_scope.
Local Open Scope float_scope.

(** The floats that the literals 56.7 and 57.3 denote. *)
Definition bias_56_7 : float := 0x1.c59999999999ap+5.
Definition bias_57_3 : float := 0x1.ca66666666666p+5.

(** Three sessions, with best laps of 90, 91 and 92 seconds, on setups
    that only have brakes: the same front bias and a pressure of 100 each
    time. *)
Definition three_sessions (front_bias : float) : SetupCorrelator :=
  let params := [("brake_bias", front_bias); ("brake_pressure", 100)] in
  add_session (add_session (add_session __init__ params 90) params 91)
    params 92.

(** [n * sum_x2 - sum_x ** 2] as the code computes it. *)
Definition spread_binary64 (l : list float) : float :=
  of_nat (length l) * sum (map (fun x => x * x) l) - sum l * sum l.

(** The series of a bias that never changes has no variance, but its
    computed spread is not zero: it is negative for 56.7 and positive for
    57.3, while the lap times 90, 91, 92 have the spread 6. *)
Lemma constant_series_spread_binary64 :
  spread_binary64 [bias_56_7; bias_56_7; bias_56_7]
  = -0x1p-38
  /\ spread_binary64 [bias_57_3; bias_57_3; bias_57_3] = 0x1p-38
  /\ spread_binary64 [90; 91; 92] = 6.
Proof. repeat split; vm_compute; reflexivity. Qed.

(** C6, the code on three sessions with a constant brake bias of 56.7.
    The series of the bias has zero variance, so the claim has the
    parameter left out and [analyze_correlations] return; the code computes
    the radicand of the denominator as (-2^-38) x 6 < 0 and [math.sqrt]
    raises [ValueError], whatever [math.log2] is. *)
Theorem constant_series_raises (log2 : float -> float) :
  analyze_correlations log2 (three_sessions bias_56_7)
  = py.Raise py.ValueError.
Proof. vm_compute. reflexivity. Qed.

(** With a constant bias of 57.3 the computed spread is positive, the
    denominator is not zero, and the parameter is not left out: the list
    returned holds one correlation, the one of "brake_bias" (the pressure,
    constant at 100, has a computed spread of exactly 0 and is left
    out). *)
Lemma constant_series_not_omitted (log2 : float -> float) :
  exists self' c,
    analyze_correlations log2 (three_sessions bias_57_3)
    = py.Ok (self', [c])
    /\ corr_parameter_name c = "brake_bias"
    /\ sample_count c = 3%nat.
Proof.
  do 2 eexists. split; [vm_compute; reflexivity |]. split; reflexivity.
Qed.

(** In binary64 too the series value = i, outcome = 100 - i has the
    coefficient -1 exactly: every intermediate value is an integer. *)
Example pearson_perfect_negative_binary64 (log2 : float -> float) :
  exists rng' c,
    _calculate_parameter_correlation log2 "value"
      {| parameter_name := "value"; min_value := 1; max_value := 10;
         optimal_value := None;
         values := [1; 2; 3; 4; 5; 6; 7; 8; 9; 10];
         lap_times := [99; 98; 97; 96; 95; 94; 93; 92; 91; 90] |}
    = py.Ok (rng', Some c)
    /\ lap_time_correlation c = -1.
Proof.
  do 2 eexists. split; [vm_compute; reflexivity | reflexivity].
Qed.
End RoundingAndTheGuard.

(* ================================================================== *)
(** * The recommendations of the analyzer: order, ranges and solutions *)
(* ================================================================== *)

Section RecommendationOrder.
Import setup_analyzer.
Local Open Scope string_scope.
Local Open Scope list_scope.
Local Open Scope Q_scope.

Lemma unique_recs_sorted (recs : list Recommendation) :
  StronglySorted (fun a b => (priority b <= priority a)%Z) recs ->
  forall seen : list string,
    StronglySorted (fun a b => (priority b <= priority a)%Z)
      (unique_recs seen recs).
Proof.
  induction 1 as [| r t Ht IH Hr]; intros seen; simpl; [constructor |].
  destruct (existsb (String.eqb (parameter r)) seen); [apply IH |].
  constructor; [apply IH |].
  apply Forall_forall. intros x Hx.
  apply unique_recs_In in Hx. destruct Hx as [Hx _].
  rewrite Forall_forall in Hr. now apply Hr.
Qed.

Lemma firstn_sorted (A : Type) (R : A -> A -> Prop) (n : nat) (l : list A) :
  StronglySorted R l -> StronglySorted R (firstn n l).
Proof.
  intros H. revert n. induction H as [| x t Ht IH Hx]; intros [| n]; simpl;
    try constructor.
  - apply IH.
  - apply Forall_forall. intros y Hy. apply firstn_In in Hy.
    rewrite Forall_forall in Hx. now apply Hx.
Qed.

(** X1.  The list [generate_recommendations] returns is in descending
    order of priority, and it is empty as long as no lap has been
    analysed. *)
Theorem generate_recommendations_descending (self : SetupAnalyzer) :
  StronglySorted (fun a b => (priority b <= priority a)%Z)
    (generate_recommendations self)
  /\ (lap_analyses self = [] -> generate_recommendations self = []).
Proof.
  unfold generate_recommendations. split.
  - destruct (py.last_opt (lap_analyses self)) as [analysis |];
      [| constructor].
    apply firstn_sorted, unique_recs_sorted, sorted_by_priority_sorted.
  - intros ->. reflexivity.
Qed.

Lemma conflict_penalty_le (applied_effects : list (Problem * Q))
    (param : SetupParameter) (score : Q) :
  0 <= score ->
  0 <= conflict_penalty applied_effects param score
  /\ conflict_penalty applied_effects param score <= score.
Proof.
  unfold conflict_penalty. revert score.
  induction (effects param) as [| e t IH]; intros score Hs; cbn [fold_left].
  - split; [trivial | apply Qle_refl].
  - destruct (conflicts applied_effects e).
    + destruct (IH (score * 0.5)) as [H1 H2]; [lra |]. split; lra.
    + now apply IH.
Qed.

(** X2.  [_find_solutions] returns its solutions in descending order of
    score.  Each one names a parameter of the table that has an effect other
    than 0 on the problem; its score is above 0.1 and at most the size of
    that effect; and its direction is "increase" when the effect is negative
    and "decrease" when it is positive. *)
Theorem find_solutions_descending_and_helpful (self : SetupAnalyzer)
    (problem : Problem) (applied_effects : list (Problem * Q)) :
  StronglySorted (fun a b => score_of b <= score_of a)
    (_find_solutions self problem applied_effects)
  /\ forall param_name score direction,
       In (param_name, score, direction)
          (_find_solutions self problem applied_effects) ->
       exists param effect,
         In (param_name, param) (parameters self)
         /\ py.dict_get Problem_beq (effects param) problem = Some effect
         /\ ~ effect == 0
         /\ 0.1 < score
         /\ score <= Qabs effect
         /\ (effect < 0 -> direction = "increase")
         /\ (0 < effect -> direction = "decrease").
Proof.
  split.
  - unfold _find_solutions. apply sorted_sorted.
    + intros a b c Hab Hbc. lra.
    + intros y x H. apply Qltb_lt in H. lra.
    + intros y x H. now apply Qltb_ge in H.
  - intros param_name score direction H.
    unfold _find_solutions in H.
    apply sorted_In in H. apply filter_map_In in H.
    destruct H as [[n param] [Hin Hsol]].
    unfold solution_for, penalized_score, py.dict_get_default in Hsol.
    destruct (py.dict_get Problem_beq (effects param) problem)
      as [effect |] eqn:Heff; [| discriminate Hsol].
    destruct (Qeq_bool effect 0) eqn:Hz; [discriminate Hsol |].
    destruct (py.Qltb 0.1 (conflict_penalty applied_effects param
                             (Qabs effect))) eqn:Hs; [| discriminate Hsol].
    injection Hsol as -> <- <-.
    exists param, effect.
    split; [trivial |]. split; [trivial |].
    split; [intros Heq; apply Qeq_bool_neq in Hz; contradiction |].
    split; [now apply Qltb_lt |].
    split; [apply conflict_penalty_le, Qabs_nonneg |].
    split; intros Hsign.
    + apply Qltb_lt in Hsign. now rewrite Hsign.
    + assert (Hge : py.Qltb effect 0 = false) by (apply Qltb_ge; lra).
      now rewrite Hge.
Qed.
End RecommendationOrder.

Section AnalyzedLap.
Import setup_analyzer.
Local Open Scope string_scope.
Local Open Scope list_scope.
Local Open Scope Q_scope.

Lemma analyze_lap_ranges (self self' : SetupAnalyzer) :
  _analyze_lap self = Some self' ->
  (100 <= length (current_lap_samples self))%nat ->
  exists ranges, lookup_ranges self = Some ranges.
Proof.
  unfold _analyze_lap, _detect_problems. intros H Hlen.
  apply Nat.ltb_ge in Hlen. rewrite Hlen in H.
  destruct (lookup_ranges self) as [ranges |]; [| discriminate H].
  now exists ranges.
Qed.

Lemma bounded_In (problems : list (Problem * Q)) (p : Problem) (s : Q) :
  bounded problems -> In (p, s) problems -> s <= 1.
Proof.
  unfold bounded. rewrite Forall_forall. intros H Hin. exact (H _ Hin).
Qed.

(** X3.  After [_analyze_lap] has analysed a lap (100 samples or more),
    every recommendation of [generate_recommendations] has a priority
    between 2 and 10 and a confidence above 0.02 and at most 1, whatever the
    samples, the parameter table and the loaded setup are. *)
Theorem analyzed_lap_priority_and_confidence
    (self self' : SetupAnalyzer) (rec : Recommendation) :
  (100 <= length (current_lap_samples self))%nat ->
  _analyze_lap self = Some self' ->
  In rec (generate_recommendations self') ->
  (2 <= priority rec <= 10)%Z
  /\ 0.02 < confidence rec /\ confidence rec <= 1.
Proof.
  intros Hlen Hlap Hin.
  destruct (analyze_lap_ranges self self' Hlap Hlen) as [ranges Hranges].
  destruct (analyze_lap_last self ranges Hlen Hranges)
    as [self'' [analysis [Hlap' [Hlast [_ Hprobs]]]]].
  rewrite Hlap in Hlap'. injection Hlap' as <-.
  pose proof (generate_recommendations_In self' analysis rec Hlast Hin)
    as Hcol.
  pose proof (collect_recommendations_emitted self' analysis) as Hall.
  rewrite Forall_forall in Hall.
  destruct (Hall rec Hcol)
    as [problem [s [param [k [applied [param_name [dir
         [Hp [Hs [Hsol [_ ->]]]]]]]]]]].
  assert (Hs1 : s <= 1).
  { apply (bounded_In (problems analysis) problem); trivial.
    rewrite Hprobs. apply detect_problems_bounded. }
  apply find_solutions_score in Hsol.
  destruct Hsol as [_ [_ [_ Hk]]].
  cbn [build_recommendation priority confidence].
  split; [split |].
  - apply Z.le_trans with (py.int 2); [apply Z.le_refl |].
    apply int_le. lra.
  - apply Z.le_trans with (py.int 10); [| apply Z.le_refl].
    apply int_le. lra.
  - split; [| apply min_le_first].
    unfold py.min. destruct (py.Qltb (k * s) 1); [nra | lra].
Qed.

(** What [_analyze_lap] does to the lap history. *)
Lemma analyze_lap_appends (self self' : SetupAnalyzer) :
  (length (lap_analyses self) <= 20)%nat ->
  _analyze_lap self = Some self' ->
  (length (lap_analyses self') <= 20)%nat
  /\ current_lap_samples self' = current_lap_samples self
  /\ ((length (current_lap_samples self) < 100)%nat -> self' = self)
  /\ ((100 <= length (current_lap_samples self))%nat ->
      exists analysis,
        lap_analyses self'
        = (if (length (lap_analyses self) =? 20)%nat
           then tl (lap_analyses self) else lap_analyses self)
          ++ [analysis]
        /\ lap_number analysis = current_lap self
        /\ sample_count analysis = length (current_lap_samples self)).
Proof.
  intros Hcap H. unfold _analyze_lap in H.
  destruct (length (current_lap_samples self) <? 100)%nat eqn:Hlen.
  - injection H as <-. apply Nat.ltb_lt in Hlen.
    repeat split; trivial. intros Hge. lia.
  - apply Nat.ltb_ge in Hlen.
    destruct (_detect_problems self (current_lap_samples self)
                (_analyze_behavior (current_lap_samples self)))
      as [problems |]; [| discriminate H].
    injection H as <-. cbn [lap_analyses current_lap_samples with_lap_analyses].
    set (analysis := Build_LapAnalysis _ _ _ _ _ _ _ _ _ _ _ _ _ _ _ _ _ _ _ _ _).
    rewrite length_app. cbn [length].
    destruct (lap_analyses self) as [| a0 rest] eqn:Hhist.
    + cbn [length app Nat.add Nat.ltb Nat.leb Nat.eqb tl].
      split; [lia |]. split; [trivial |]. split; [lia |].
      intros _. exists analysis. repeat split.
    + cbn [length] in *.
      destruct (20 <? S (length rest) + 1)%nat eqn:Hfull.
      * apply Nat.ltb_lt in Hfull.
        assert (Hrest : length rest = 19%nat) by lia.
        cbn [app tl]. rewrite length_app. cbn [length].
        split; [lia |]. split; [trivial |]. split; [lia |].
        intros _. exists analysis. rewrite Hrest. repeat split.
      * apply Nat.ltb_ge in Hfull.
        rewrite length_app. cbn [length].
        split; [lia |]. split; [trivial |]. split; [lia |].
        intros _. exists analysis.
        assert (Hne : (S (length rest) =? 20)%nat = false)
          by (apply Nat.eqb_neq; lia).
        rewrite Hne. repeat split.
Qed.

(** X4.  [_analyze_lap] keeps the lap history at 20 analyses at most.
    With fewer than 100 samples in the current lap it changes nothing.
    Otherwise it appends one analysis, which carries the number of the
    current lap and the number of its samples, and drops the oldest
    analysis when there were 20 already; the samples of the current lap stay
    where they are. *)
Theorem analyze_lap_history (self self' : SetupAnalyzer) :
  (length (lap_analyses self) <= 20)%nat ->
  _analyze_lap self = Some self' ->
  (length (lap_analyses self') <= 20)%nat
  /\ current_lap_samples self' = current_lap_samples self
  /\ ((length (current_lap_samples self) < 100)%nat -> self' = self)
  /\ ((100 <= length (current_lap_samples self))%nat ->
      exists analysis,
        lap_analyses self'
        = (if (length (lap_analyses self) =? 20)%nat
           then tl (lap_analyses self) else lap_analyses self)
          ++ [analysis]
        /\ lap_number analysis = current_lap self
        /\ sample_count analysis = length (current_lap_samples self)).
Proof. exact (analyze_lap_appends self self'). Qed.
End AnalyzedLap.

Section SolutionsDetails.
Import setup_analyzer.
Local Open Scope string_scope.
Local Open Scope list_scope.
Local Open Scope Q_scope.

Lemma side_effects_loop (direction : string) (analysis : LapAnalysis)
    (effs : list (Problem * Q)) :
  forall (acc : list string) (msg : string),
    In msg
      (fold_left
         (fun side_effects (e : Problem * Q) =>
            let '(problem, effect) := e in
            let actual_effect := effect * mult_of direction in
            if py.Qltb 0.1 actual_effect then
              match py.dict_get Problem_beq (problems analysis) problem with
              | Some severity =>
                  if py.Qltb 0.3 severity then
                    side_effects
                    ++ [("Peut aggraver: " ++ Problem_value problem)%string]
                  else side_effects
              | None => side_effects
              end
            else side_effects)
         effs acc) ->
    In msg acc
    \/ exists problem effect severity,
         In (problem, effect) effs
         /\ py.dict_get Problem_beq (problems analysis) problem
            = Some severity
         /\ 0.3 < severity
         /\ 0.1 < effect * mult_of direction
         /\ msg = ("Peut aggraver: " ++ Problem_value problem)%string.
Proof.
  induction effs as [| [problem effect] t IH]; intros acc msg H;
    cbn [fold_left] in H; [now left |].
  apply IH in H. destruct H as [H | [p [e [s [Hin H]]]]].
  - destruct (py.Qltb 0.1 (effect * mult_of direction)) eqn:Heff;
      [| now left].
    destruct (py.dict_get Problem_beq (problems analysis) problem)
      as [severity |] eqn:Hsev; [| now left].
    destruct (py.Qltb 0.3 severity) eqn:H03; [| now left].
    apply in_app_or in H. destruct H as [H | [<- | []]]; [now left |].
    right. exists problem, effect, severity.
    apply Qltb_lt in Heff, H03. repeat split; trivial. now left.
  - right. exists p, e, s. split; [now right | trivial].
Qed.

(** X5.  Every side effect [_check_side_effects] reports is about a
    problem that the lap analysis holds with a severity above 0.3 and that
    the parameter, moved in the given direction, makes worse by more than
    0.1; for a lap without problems it reports none. *)
Theorem side_effects_are_present_problems (param : SetupParameter)
    (direction : string) (analysis : LapAnalysis) :
  (forall msg,
     In msg (_check_side_effects param direction analysis) ->
     exists problem effect severity,
       In (problem, effect) (effects param)
       /\ py.dict_get Problem_beq (problems analysis) problem = Some severity
       /\ 0.3 < severity
       /\ 0.1 < effect * mult_of direction
       /\ msg = ("Peut aggraver: " ++ Problem_value problem)%string)
  /\ (problems analysis = [] ->
      _check_side_effects param direction analysis = []).
Proof.
  assert (Hall : forall msg,
    In msg (_check_side_effects param direction analysis) ->
    exists problem effect severity,
      In (problem, effect) (effects param)
      /\ py.dict_get Problem_beq (problems analysis) problem = Some severity
      /\ 0.3 < severity
      /\ 0.1 < effect * mult_of direction
      /\ msg = ("Peut aggraver: " ++ Problem_value problem)%string).
  { intros msg H. unfold _check_side_effects in H. cbv zeta in H.
    apply side_effects_loop in H. destruct H as [[] | H]. exact H. }
  split; [exact Hall |].
  intros Hnone.
  destruct (_check_side_effects param direction analysis) as [| msg t] eqn:E;
    trivial.
  destruct (Hall msg) as [p [e [s [_ [Hget _]]]]]; [now left |].
  rewrite Hnone in Hget. discriminate Hget.
Qed.

Lemma adjustment_positive (param_name : string) :
  0 < py.dict_get_default String.eqb adjustments param_name 1.
Proof.
  unfold py.dict_get_default, adjustments. cbn [py.dict_get].
  repeat match goal with
         | |- context [String.eqb param_name ?k] =>
             destruct (String.eqb param_name k); [reflexivity |]
         end.
  reflexivity.
Qed.

(** X6.  When the loaded setup holds the current value of the parameter,
    [_suggest_value] proposes a new value below it for the direction
    "decrease" and above it for any other direction; when it does not, the
    suggestion is one of the two fixed texts. *)
Theorem suggest_value_follows_direction (param_name direction : string) :
  (forall current : Q,
     exists new_val,
       _suggest_value param_name direction (Some current)
       = Arrow current new_val
       /\ (direction = "decrease" -> new_val < current)
       /\ (direction <> "decrease" -> current < new_val))
  /\ _suggest_value param_name direction None
     = Text (if String.eqb direction "increase" then "+1-2 clicks/points"
             else "-1-2 clicks/points").
Proof.
  split.
  - intros current. unfold _suggest_value.
    pose proof (adjustment_positive param_name) as Hadj.
    eexists. split; [reflexivity |].
    destruct (String.eqb direction "decrease") eqn:E.
    + apply String.eqb_eq in E. split; [intros _; lra | congruence].
    + apply String.eqb_neq in E. split; [congruence | intros _; lra].
  - unfold _suggest_value. destruct (String.eqb direction "increase");
      reflexivity.
Qed.
End SolutionsDetails.

Section BehaviorShares.
Import setup_analyzer.
Local Open Scope string_scope.
Local Open Scope list_scope.
Local Open Scope Q_scope.

Lemma of_nat_nonneg (n : nat) : 0 <= py.of_nat n.
Proof. unfold py.of_nat, Qle. simpl. lia. Qed.

Lemma of_nat_pos (n : nat) : (0 < n)%nat -> 0 < py.of_nat n.
Proof. intros H. unfold py.of_nat, Qlt. simpl. lia. Qed.

Lemma of_nat_add (a b : nat) :
  py.of_nat (a + b) == py.of_nat a + py.of_nat b.
Proof.
  unfold py.of_nat. rewrite Nat2Z.inj_add, inject_Z_plus. reflexivity.
Qed.

Lemma ratio_nonneg (a b : nat) : 0 <= py.of_nat a / py.of_nat b.
Proof.
  destruct b as [| b].
  - unfold Qdiv. change (/ py.of_nat 0) with 0. lra.
  - apply Qle_shift_div_l; [apply of_nat_pos; lia |].
    pose proof (of_nat_nonneg a). lra.
Qed.

(** The three shares of a phase lie between 0 and 1 and add up to 1. *)
Lemma phase_behavior_shares (samples : list Sample) (ph : CornerPhase) :
  0 <= understeer (phase_behavior samples ph) <= 1
  /\ 0 <= oversteer (phase_behavior samples ph) <= 1
  /\ 0 <= neutral (phase_behavior samples ph) <= 1
  /\ understeer (phase_behavior samples ph)
     + oversteer (phase_behavior samples ph)
     + neutral (phase_behavior samples ph) == 1
  /\ ((length (filter (fun s => CornerPhase_beq (phase s) ph) samples)
       < 10)%nat ->
      phase_behavior samples ph
      = {| understeer := 0; oversteer := 0; neutral := 1 |}).
Proof.
  unfold phase_behavior.
  set (phase_samples := filter _ samples).
  destruct (length phase_samples <? 10)%nat eqn:Hlen.
  - cbn [understeer oversteer neutral].
    repeat split; try lra; try discriminate.
  - apply Nat.ltb_ge in Hlen.
    destruct (fold_left count_behavior phase_samples (0, 0, 0)%nat)
      as [[u o] n] eqn:Hfold.
    apply count_behavior_total in Hfold.
    cbn [understeer oversteer neutral].
    change (py.len phase_samples) with (py.of_nat (length phase_samples)).
    assert (Hpos : 0 < py.of_nat (length phase_samples))
      by (apply of_nat_pos; lia).
    repeat split;
      try (apply ratio_nonneg); try (apply ratio_le_1; lia).
    + assert (Hsum : py.of_nat u + py.of_nat o + py.of_nat n
                     == py.of_nat (length phase_samples)).
      { rewrite <- !of_nat_add. replace (u + o + n)%nat
          with (length phase_samples) by lia. reflexivity. }
      field_simplify_eq; [| lra]. lra.
    + intros Hlt. lia.
Qed.

(** X7.  For each of the phases entry, mid and exit, [_analyze_behavior]
    gives three shares (understeer, oversteer, neutral) that lie between 0
    and 1 and add up to 1 (in exact arithmetic); a phase with fewer than 10
    samples in the lap is reported as fully neutral. *)
Theorem analyze_behavior_shares (samples : list Sample) (ph : CornerPhase) :
  In ph [ENTRY; MID; EXIT] ->
  exists b,
    py.dict_get CornerPhase_beq (_analyze_behavior samples) ph = Some b
    /\ 0 <= understeer b <= 1
    /\ 0 <= oversteer b <= 1
    /\ 0 <= neutral b <= 1
    /\ understeer b + oversteer b + neutral b == 1
    /\ ((length (filter (fun s => CornerPhase_beq (phase s) ph) samples)
         < 10)%nat ->
        b = {| understeer := 0; oversteer := 0; neutral := 1 |}).
Proof.
  intros Hph. exists (phase_behavior samples ph). split.
  { rewrite analyze_behavior_eq.
    destruct Hph as [<- | [<- | [<- | []]]]; reflexivity. }
  apply phase_behavior_shares.
Qed.

(** X8.  [_classify_phase] reads the steering angle through its absolute
    value only.  A sample steered by more than 0.08 is put in a corner phase
    (entry, exit or mid); a sample steered by less than 0.03 is put in none
    of them (braking, acceleration or straight). *)
Theorem classify_phase_by_steering (data : TelemetryData) :
  (forall data',
     td_brake data' = td_brake data ->
     td_throttle data' = td_throttle data ->
     Qabs (td_steering data') == Qabs (td_steering data) ->
     _classify_phase data' = _classify_phase data)
  /\ (0.08 < Qabs (td_steering data) ->
      In (_classify_phase data) [ENTRY; EXIT; MID])
  /\ (Qabs (td_steering data) < 0.03 ->
      In (_classify_phase data) [BRAKING; ACCELERATION; STRAIGHT]).
Proof.
  split; [| split].
  - intros data' Hb Ht Hs. unfold _classify_phase. cbv zeta.
    rewrite Hb, Ht.
    rewrite !(Qltb_compat _ _ _ _ (Qeq_refl _) Hs).
    rewrite !(Qltb_compat _ _ _ _ Hs (Qeq_refl _)).
    reflexivity.
  - intros H. unfold _classify_phase. cbv zeta.
    assert (H1 : py.Qltb (Qabs (td_steering data)) 0.05 = false)
      by (apply Qltb_ge; lra).
    assert (H2 : py.Qltb 0.03 (Qabs (td_steering data)) = true)
      by (apply Qltb_lt; lra).
    assert (H3 : py.Qltb (Qabs (td_steering data)) 0.03 = false)
      by (apply Qltb_ge; lra).
    assert (H4 : py.Qltb 0.08 (Qabs (td_steering data)) = true)
      by (apply Qltb_lt; lra).
    rewrite H1, H2, H3, H4. rewrite !andb_false_r, !andb_true_r.
    destruct (py.Qltb 0.15 (td_brake data)); [simpl; tauto |].
    destruct (py.Qltb 0.7 (td_throttle data)); simpl; tauto.
  - intros H. unfold _classify_phase. cbv zeta.
    assert (H2 : py.Qltb 0.03 (Qabs (td_steering data)) = false)
      by (apply Qltb_ge; lra).
    assert (H4 : py.Qltb 0.08 (Qabs (td_steering data)) = false)
      by (apply Qltb_ge; lra).
    rewrite H2, H4. rewrite !andb_false_r.
    destruct (py.Qltb 0.8 (td_brake data)
              && py.Qltb (Qabs (td_steering data)) 0.05); [simpl; tauto |].
    destruct (py.Qltb 0.9 (td_throttle data)
              && py.Qltb (Qabs (td_steering data)) 0.03); simpl; tauto.
Qed.
End BehaviorShares.

(* ================================================================== *)
(** * The sample feed of the analyzer *)
(* ================================================================== *)

Section SampleFeed.
Import setup_analyzer setup_analyzer_feed.
Local Open Scope string_scope.
Local Open Scope list_scope.
Local Open Scope Q_scope.

Lemma deque_append_length (A : Type) (maxlen : nat) (d : list A) (x : A) :
  (0 < maxlen)%nat -> (length d <= maxlen)%nat ->
  (length (deque_append maxlen d x) <= maxlen)%nat.
Proof.
  intros Hpos Hlen. unfold deque_append.
  destruct (maxlen <=? length d)%nat eqn:E.
  - apply Nat.leb_le in E. rewrite length_app. cbn [length].
    destruct d as [| y t]; cbn [tl length] in *; lia.
  - apply Nat.leb_gt in E. rewrite length_app. cbn [length]. lia.
Qed.

Lemma deque_append_last (A : Type) (maxlen : nat) (d : list A) (x : A) :
  py.last_opt (deque_append maxlen d x) = Some x.
Proof.
  unfold deque_append. destruct (maxlen <=? length d)%nat; apply last_opt_app.
Qed.

Lemma detect_vehicle_category_fields (self : SetupAnalyzer)
    (data : TelemetryData) :
  samples (_detect_vehicle_category self data) = samples self
  /\ current_lap_samples (_detect_vehicle_category self data)
     = current_lap_samples self
  /\ current_lap (_detect_vehicle_category self data) = current_lap self
  /\ lap_analyses (_detect_vehicle_category self data) = lap_analyses self
  /\ vehicle_name (_detect_vehicle_category self data) = vehicle_name self
  /\ parameters (_detect_vehicle_category self data) = parameters self
  /\ optimal_ranges (_detect_vehicle_category self data)
     = optimal_ranges self.
Proof.
  unfold _detect_vehicle_category.
  destruct (py.Qltb 0 (td_speed_kmh data)); [| tauto].
  destruct (py.Qltb 15000 _); [cbn; tauto |].
  destruct (py.Qltb 8000 _); cbn; tauto.
Qed.

Lemma analyze_lap_fields (self self' : SetupAnalyzer) :
  _analyze_lap self = Some self' ->
  samples self' = samples self
  /\ current_lap self' = current_lap self
  /\ vehicle_name self' = vehicle_name self
  /\ vehicle_category self' = vehicle_category self
  /\ parameters self' = parameters self
  /\ optimal_ranges self' = optimal_ranges self.
Proof.
  unfold _analyze_lap. intros H.
  destruct (length (current_lap_samples self) <? 100)%nat.
  - injection H as <-. tauto.
  - destruct (_detect_problems self _ _); [| discriminate H].
    injection H as <-. cbn. tauto.
Qed.

(** X9.  [add_sample] on a telemetry frame: the frame's sample becomes
    the newest element of the 5000-sample buffer, which never grows beyond
    5000; while the lap number stays the same the sample joins the samples
    of the current lap and no lap is analysed; when the lap number changes
    the samples of the current lap are emptied (the sample that announced
    the change is not kept for the new lap) and the new number is taken
    over.  A missing frame changes nothing. *)
Theorem add_sample_buffers (self self' : SetupAnalyzer) (now : Q)
    (t : Telemetry) :
  add_sample self now (Some t) = Some self' ->
  py.last_opt (samples self') = Some (sample_of now t)
  /\ ((length (samples self) <= 5000)%nat ->
      (length (samples self') <= 5000)%nat)
  /\ vehicle_name self' = t_vehicle_name t
  /\ (t_lap_number t = current_lap self ->
      current_lap_samples self'
      = current_lap_samples self ++ [sample_of now t]
      /\ lap_analyses self' = lap_analyses self
      /\ current_lap self' = current_lap self)
  /\ (t_lap_number t <> current_lap self ->
      current_lap_samples self' = []
      /\ current_lap self' = t_lap_number t)
  /\ add_sample self now None = Some self.
Proof.
  unfold add_sample. cbn [current_lap current_lap_samples].
  intros H.
  destruct (t_lap_number t =? current_lap self)%Z eqn:Hlap; cbn [negb] in H.
  - injection H as <-. apply Z.eqb_eq in Hlap.
    match goal with
    | |- context [_detect_vehicle_category ?s ?d] =>
        destruct (detect_vehicle_category_fields s d)
          as [-> [-> [-> [-> [-> _]]]]]
    end.
    cbn. split; [apply deque_append_last |].
    split; [apply deque_append_length; lia |].
    split; [trivial |]. split; [tauto |]. split; [congruence | trivial].
  - apply Z.eqb_neq in Hlap.
    match type of H with
    | match (match ?a with _ => _ end) with _ => _ end = _ =>
        destruct a as [s1 |] eqn:Hs1; [| discriminate H]
    end.
    injection H as <-.
    match goal with
    | |- context [_detect_vehicle_category ?s ?d] =>
        destruct (detect_vehicle_category_fields s d)
          as [-> [-> [-> [-> [-> _]]]]]
    end.
    cbn.
    assert (Hsamples : samples s1
                       = deque_append 5000 (samples self) (sample_of now t)).
    { destruct ((0 <? current_lap self)%Z && _) in Hs1.
      - apply analyze_lap_fields in Hs1. now destruct Hs1 as [-> _].
      - now injection Hs1 as <-. }
    rewrite Hsamples.
    split; [apply deque_append_last |].
    split; [apply deque_append_length; lia |].
    split; [trivial |]. split; [congruence |]. split; [tauto | trivial].
Qed.
End SampleFeed.

Section FeedInvariant.
Import setup_analyzer setup_analyzer_feed.
Local Open Scope string_scope.
Local Open Scope list_scope.
Local Open Scope Q_scope.

Lemma sum_acc_nonneg (l : list Q) :
  Forall (fun x => 0 <= x) l ->
  forall acc, 0 <= acc -> 0 <= fold_left Qplus l acc.
Proof.
  induction 1 as [| x t Hx _ IH]; intros acc Hacc; cbn [fold_left]; trivial.
  apply IH. lra.
Qed.

Lemma sum_nonneg (l : list Q) : Forall (fun x => 0 <= x) l -> 0 <= py.sum l.
Proof. intros H. unfold py.sum. apply sum_acc_nonneg; [trivial | lra]. Qed.

Lemma share_bounds (A : Type) (f : A -> bool) (l : list A) :
  0 <= py.of_nat (length (filter f l)) / py.len l
  /\ (l <> [] -> py.of_nat (length (filter f l)) / py.len l <= 1).
Proof.
  split; [apply ratio_nonneg |].
  intros Hne. apply ratio_le_1; [apply filter_length_le |].
  destruct l; [congruence | simpl; lia].
Qed.

(** The share of exit samples with wheelspin and the share of braking
    samples with a locked wheel lie between 0 and 1. *)
Lemma wheelspin_lockup_shares (samples : list Sample) :
  0 <= _calc_wheelspin_pct samples <= 1
  /\ 0 <= _calc_lockup_pct samples <= 1.
Proof.
  unfold _calc_wheelspin_pct, _calc_lockup_pct. split.
  - destruct (filter (fun s => CornerPhase_beq (phase s) EXIT) samples)
      as [| x t] eqn:E; [lra |].
    rewrite <- E.
    match goal with
    | |- context [py.of_nat (length (filter ?f ?l)) / py.len ?l] =>
        destruct (share_bounds _ f l) as [H0 H1]
    end.
    split; [exact H0 | apply H1; rewrite E; discriminate].
  - destruct (filter (fun s => CornerPhase_beq (phase s) BRAKING
                               || CornerPhase_beq (phase s) ENTRY) samples)
      as [| x t] eqn:E; [lra |].
    rewrite <- E.
    match goal with
    | |- context [py.of_nat (length (filter ?f ?l)) / py.len ?l] =>
        destruct (share_bounds _ f l) as [H0 H1]
    end.
    split; [exact H0 | apply H1; rewrite E; discriminate].
Qed.

Lemma stability_score_le_1 (samples : list Sample) :
  Forall (fun s => 0 <= steering s) samples ->
  _calc_stability_score samples <= 1.
Proof.
  intros Hsteer. unfold _calc_stability_score.
  destruct (length (high_speed_samples samples) <? 20)%nat eqn:Hlen;
    [lra |].
  apply Nat.ltb_ge in Hlen.
  set (hs := high_speed_samples samples) in *.
  assert (Hsum : 0 <= py.sum (map steering hs)).
  { apply sum_nonneg. apply Forall_forall. intros x Hx.
    apply in_map_iff in Hx. destruct Hx as [s [<- Hs]].
    unfold hs, high_speed_samples in Hs. apply filter_In in Hs.
    rewrite Forall_forall in Hsteer. apply Hsteer. tauto. }
  assert (Hc : 0 <= py.sum (map steering hs) / py.len hs).
  { apply Qle_shift_div_l; [apply of_nat_pos; lia | lra]. }
  unfold py.max. destruct (py.Qltb 0 _); lra.
Qed.

Lemma assign_if_all (P : Q -> Prop) (c : bool)
    (problems : list (Problem * Q)) (k : Problem) (v : Q) :
  (c = true -> P v) ->
  Forall (fun e => P (snd e)) problems ->
  Forall (fun e => P (snd e)) (assign_if c problems k v).
Proof.
  intros Hv Hp. unfold assign_if. destruct c; trivial.
  apply Forall_forall. intros e He.
  apply (dict_set_In Problem_beq) in He.
  - destruct He as [He | ->]; [| now apply Hv].
    rewrite Forall_forall in Hp. now apply Hp.
  - intros a b. split.
    + apply internal_Problem_dec_bl.
    + apply internal_Problem_dec_lb.
Qed.

Lemma min_1_pos (x : Q) : 0 < x -> 0 < py.min 1 x.
Proof. intros H. unfold py.min. destruct (py.Qltb x 1); lra. Qed.

(** Every severity [_detect_problems] records is above 0. *)
Lemma detect_problems_positive (ranges : Ranges) (samples : list Sample)
    (behavior : list (CornerPhase * Behavior)) :
  Forall (fun e => 0 < snd e) (detect_problems_in ranges samples behavior).
Proof.
  unfold detect_problems_in. cbv zeta.
  repeat (apply (assign_if_all (fun v => 0 < v));
          [ let H := fresh "H" in
            intros H; apply Qltb_lt in H;
            first [ apply min_1_pos; lra
                  | apply min_1_pos; apply Qlt_shift_div_l; lra
                  | lra ] | ]).
  constructor.
Qed.
(** What every analysis in the history of a fed analyzer satisfies. *)
Definition sound_analysis (a : LapAnalysis) : Prop :=
  (100 < sample_count a)%nat
  /\ 0 <= stability_score a <= 1
  /\ 0 <= wheelspin_pct a <= 1
  /\ 0 <= lockup_pct a <= 1
  /\ Forall (fun e => 0 < snd e <= 1) (problems a).

(** What [add_sample] keeps true of an analyzer. *)
Definition fed (self : SetupAnalyzer) : Prop :=
  optimal_ranges self = _init_optimal_ranges
  /\ (length (samples self) <= 5000)%nat
  /\ (length (lap_analyses self) <= 20)%nat
  /\ Forall (fun s => 0 <= steering s) (current_lap_samples self)
  /\ Forall sound_analysis (lap_analyses self).

Lemma lookup_init_ranges (self : SetupAnalyzer) :
  optimal_ranges self = _init_optimal_ranges ->
  exists ranges, lookup_ranges self = Some ranges.
Proof.
  intros H. unfold lookup_ranges. rewrite H. eexists. reflexivity.
Qed.

Lemma Forall_tl (A : Type) (P : A -> Prop) (l : list A) :
  Forall P l -> Forall P (tl l).
Proof. intros H. destruct H; [constructor | trivial]. Qed.

Lemma analyze_lap_fed (self : SetupAnalyzer) :
  fed self ->
  (100 < length (current_lap_samples self))%nat ->
  exists self', _analyze_lap self = Some self' /\ fed self'.
Proof.
  intros [Hranges [Hbuf [Hhist [Hsteer Hsound]]]] Hlen.
  destruct (lookup_init_ranges self Hranges) as [ranges Hlookup].
  destruct (analyze_lap_last self ranges)
    as [self' [analysis [Hlap [Hlast [_ Hprobs]]]]]; [lia | trivial |].
  exists self'. split; [trivial |].
  destruct (analyze_lap_appends self self' Hhist Hlap)
    as [Hcap [Hcur [_ Hnew]]].
  destruct Hnew as [analysis' [Hhist' [_ Hcount]]]; [lia |].
  destruct (analyze_lap_fields self self' Hlap)
    as [Hs [_ [_ [_ [_ Hr]]]]].
  assert (Hsame : analysis' = analysis).
  { rewrite Hhist' in Hlast.
    rewrite last_opt_app in Hlast. now injection Hlast. }
  subst analysis'.
  assert (Hfields : stability_score analysis
                    = _calc_stability_score (current_lap_samples self)
                    /\ wheelspin_pct analysis
                       = _calc_wheelspin_pct (current_lap_samples self)
                    /\ lockup_pct analysis
                       = _calc_lockup_pct (current_lap_samples self)).
  { unfold _analyze_lap, _detect_problems in Hlap. rewrite Hlookup in Hlap.
    destruct (length (current_lap_samples self) <? 100)%nat eqn:E.
    - apply Nat.ltb_lt in E. lia.
    - injection Hlap as <-. cbn [lap_analyses with_lap_analyses] in Hlast.
      destruct (20 <? _)%nat in Hlast.
      + destruct (lap_analyses self) as [| a0 rest]; cbn [app tl] in Hlast.
        * cbn in Hlast. discriminate Hlast.
        * rewrite last_opt_app in Hlast. injection Hlast as <-. cbn. tauto.
      + rewrite last_opt_app in Hlast. injection Hlast as <-. cbn. tauto. }
  destruct Hfields as [Hst [Hws Hlk]].
  repeat split.
  - congruence.
  - congruence.
  - exact Hcap.
  - now rewrite Hcur.
  - rewrite Hhist'. apply Forall_app. split.
    + destruct (length (lap_analyses self) =? 20)%nat; trivial.
      now apply Forall_tl.
    + constructor; [| constructor].
      unfold sound_analysis. rewrite Hcount, Hst, Hws, Hlk, Hprobs.
      split; [lia |].
      split; [split; [apply stability_score_nonneg
                     | now apply stability_score_le_1] |].
      split; [apply wheelspin_lockup_shares |].
      split; [apply wheelspin_lockup_shares |].
      pose proof (detect_problems_positive ranges (current_lap_samples self)
                    (_analyze_behavior (current_lap_samples self))) as Hpos.
      pose proof (detect_problems_bounded ranges (current_lap_samples self))
        as Hle.
      unfold bounded in Hle. rewrite Forall_forall in *.
      intros e He. split; [now apply Hpos | now apply Hle].
Qed.

Lemma add_sample_fed (self : SetupAnalyzer) (now : Q) (t : Telemetry) :
  fed self ->
  exists self', add_sample self now (Some t) = Some self' /\ fed self'.
Proof.
  intros Hfed. unfold add_sample.
  set (s0 := Build_SetupAnalyzer _ _ _ _ _ _ _ _ _).
  assert (Hfed0 : fed s0).
  { destruct Hfed as [Hranges [Hbuf [Hhist [Hsteer Hsound]]]].
    unfold fed, s0. cbn. repeat split; trivial.
    - apply deque_append_length; [lia | trivial].
    - apply Forall_app. split; trivial.
      constructor; [| constructor]. cbn. apply Qabs_nonneg. }
  assert (Hfinish : forall s1 : SetupAnalyzer,
            optimal_ranges s1 = _init_optimal_ranges ->
            (length (samples s1) <= 5000)%nat ->
            (length (lap_analyses s1) <= 20)%nat ->
            Forall (fun s => 0 <= steering s) (current_lap_samples s1) ->
            Forall sound_analysis (lap_analyses s1) ->
            fed (_detect_vehicle_category
                   {| samples := samples s1;
                      current_lap_samples := current_lap_samples s1;
                      current_lap := current_lap s1;
                      lap_analyses := lap_analyses s1;
                      current_setup := current_setup s1;
                      vehicle_name := t_vehicle_name t;
                      vehicle_category := vehicle_category s1;
                      parameters := parameters s1;
                      optimal_ranges := optimal_ranges s1 |}
                   (telemetry_view t))).
  { intros s1 H1 H2 H3 H4 H5. unfold fed.
    match goal with
    | |- context [_detect_vehicle_category ?s ?d] =>
        destruct (detect_vehicle_category_fields s d)
          as [-> [-> [_ [-> [_ [_ ->]]]]]]
    end.
    cbn. tauto. }
  destruct (negb (t_lap_number t =? current_lap s0)%Z).
  - destruct ((0 <? current_lap s0)%Z
              && (100 <? length (current_lap_samples s0))%nat) eqn:Hgo.
    + apply andb_prop in Hgo. destruct Hgo as [_ Hlen].
      apply Nat.ltb_lt in Hlen.
      destruct (analyze_lap_fed s0 Hfed0 Hlen) as [s1 [-> Hfed1]].
      eexists. split; [reflexivity |].
      destruct Hfed1 as [H1 [H2 [H3 [_ H5]]]].
      apply (Hfinish
               {| samples := samples s1;
                  current_lap_samples := [];
                  current_lap := t_lap_number t;
                  lap_analyses := lap_analyses s1;
                  current_setup := current_setup s1;
                  vehicle_name := vehicle_name s1;
                  vehicle_category := vehicle_category s1;
                  parameters := parameters s1;
                  optimal_ranges := optimal_ranges s1 |}); trivial.
    + eexists. split; [reflexivity |].
      destruct Hfed0 as [H1 [H2 [H3 [_ H5]]]].
      apply (Hfinish
               {| samples := samples s0;
                  current_lap_samples := [];
                  current_lap := t_lap_number t;
                  lap_analyses := lap_analyses s0;
                  current_setup := current_setup s0;
                  vehicle_name := vehicle_name s0;
                  vehicle_category := vehicle_category s0;
                  parameters := parameters s0;
                  optimal_ranges := optimal_ranges s0 |}); trivial.
  - eexists. split; [reflexivity |].
    destruct Hfed0 as [H1 [H2 [H3 [H4 H5]]]].
    now apply (Hfinish s0).
Qed.

(** X10.  Feeding a freshly created analyzer any stream of telemetry
    frames never raises, and in the analyzer it leaves the sample buffer
    holds at most 5000 samples, the history at most 20 lap analyses, and
    every analysis of the history covers more than 100 samples, has a
    stability score, a wheelspin share and a lock-up share between 0 and 1,
    and records only severities above 0 and at most 1. *)
Theorem feed_keeps_analyzer_sound (stream : list (Q * Telemetry)) :
  exists self',
    feed __init__ stream = Some self'
    /\ (length (samples self') <= 5000)%nat
    /\ (length (lap_analyses self') <= 20)%nat
    /\ Forall sound_analysis (lap_analyses self').
Proof.
  assert (Hgen : forall self, fed self ->
            exists self', feed self stream = Some self' /\ fed self').
  { induction stream as [| [now t] rest IH]; intros self Hfed.
    - exists self. split; [reflexivity | trivial].
    - cbn [feed].
      destruct (add_sample_fed self now t Hfed) as [s1 [-> Hfed1]].
      now apply IH. }
  destruct (Hgen __init__) as [self' [Hfeed Hfed]].
  { unfold fed. cbn. repeat split; try lia; constructor. }
  exists self'. unfold fed in Hfed. tauto.
Qed.
End FeedInvariant.

Section Summary.
Import setup_analyzer setup_analyzer_feed.
Local Open Scope string_scope.
Local Open Scope list_scope.
Local Open Scope Q_scope.

Lemma analyze_lap_behavior (self self' : SetupAnalyzer) :
  (100 <= length (current_lap_samples self))%nat ->
  _analyze_lap self = Some self' ->
  exists analysis,
    py.last_opt (lap_analyses self') = Some analysis
    /\ behavior analysis = _analyze_behavior (current_lap_samples self)
    /\ sample_count analysis = length (current_lap_samples self)
    /\ lap_number analysis = current_lap self
    /\ wheelspin_pct analysis
       = _calc_wheelspin_pct (current_lap_samples self).
Proof.
  intros Hlen Hlap. unfold _analyze_lap in Hlap.
  apply Nat.ltb_ge in Hlen. rewrite Hlen in Hlap.
  destruct (_detect_problems self _ _) as [problems |]; [| discriminate Hlap].
  injection Hlap as <-. cbn [lap_analyses with_lap_analyses].
  eexists. split.
  - destruct (20 <? _)%nat eqn:Hfull.
    + destruct (lap_analyses self) as [| a0 rest]; cbn [app tl].
      * cbn in Hfull. discriminate Hfull.
      * apply last_opt_app.
    + apply last_opt_app.
  - cbn. tauto.
Qed.

(** X11.  After [_analyze_lap] has analysed a lap, [get_summary] is the
    "ready" dict: it names that lap and its number of samples, and its
    understeer and oversteer percentages lie between 0 and 100 and together
    do not exceed 100 (in exact arithmetic).  With no analysed lap it is the
    "collecting" dict with the size of the sample buffer. *)
Theorem summary_of_analysed_lap (self self' : SetupAnalyzer) :
  (100 <= length (current_lap_samples self))%nat ->
  _analyze_lap self = Some self' ->
  (exists s,
     get_summary self' = ready s
     /\ sm_lap_number s = current_lap self
     /\ sm_samples s = length (current_lap_samples self)
     /\ 0 <= understeer_pct s <= 100
     /\ 0 <= oversteer_pct s <= 100
     /\ understeer_pct s + oversteer_pct s <= 100
     /\ 0 <= traction_loss_pct s <= 100)
  /\ get_summary (with_lap_analyses self [])
     = collecting "En attente de donnees..." (length (samples self)).
Proof.
  intros Hlen Hlap. split; [| reflexivity].
  destruct (analyze_lap_behavior self self' Hlen Hlap)
    as [analysis [Hlast [Hbeh [Hcount [Hnum Hws]]]]].
  unfold get_summary. rewrite Hlast, Hbeh.
  rewrite analyze_behavior_eq.
  cbn [behavior_sums fold_left py.dict_get CornerPhase_beq].
  eexists. split; [reflexivity |].
  cbn [sm_lap_number sm_samples understeer_pct oversteer_pct
       traction_loss_pct].
  destruct (phase_behavior_shares (current_lap_samples self) ENTRY)
    as [[U1 _] [[O1 _] [[N1 _] [S1 _]]]].
  destruct (phase_behavior_shares (current_lap_samples self) MID)
    as [[U2 _] [[O2 _] [[N2 _] [S2 _]]]].
  destruct (phase_behavior_shares (current_lap_samples self) EXIT)
    as [[U3 _] [[O3 _] [[N3 _] [S3 _]]]].
  destruct (wheelspin_lockup_shares (current_lap_samples self))
    as [[W0 W1] _].
  rewrite Hws.
  set (e := phase_behavior (current_lap_samples self) ENTRY) in *.
  set (m := phase_behavior (current_lap_samples self) MID) in *.
  set (x := phase_behavior (current_lap_samples self) EXIT) in *.
  split; [trivial |]. split; [trivial |].
  assert (Hdiv : forall a : Q, a / 3 * 100 == a * (100 # 3))
    by (intros a; field).
  rewrite !Hdiv.
  repeat split; lra.
Qed.
End Summary.

(* ================================================================== *)
(** * The analyzer run on concrete laps and frames *)
(* ================================================================== *)

Section AnalyzerRuns.
Import setup_analyzer setup_analyzer_feed.
Local Open Scope string_scope.
Local Open Scope list_scope.
Local Open Scope Q_scope.

(** The analyzer after [_analyze_lap] on the lap of 150 understeering entry
    samples. *)
Definition analyzed_understeer_lap : SetupAnalyzer :=
  match _analyze_lap (analyzer_with_lap understeer_lap) with
  | Some self' => self'
  | None => analyzer_with_lap understeer_lap
  end.

(** Its first recommendation. *)
Definition understeer_lap_recommendation : Recommendation :=
  nth 0 (generate_recommendations analyzed_understeer_lap)
    {| parameter := ""; direction := ""; value := Text "";
       reason := Corrige "" 0; priority := 0; addresses := [];
       side_effects := []; confidence := 0 |}.

Lemma analyzed_lap_priority_and_confidence_witness :
  (2 <= priority understeer_lap_recommendation <= 10)%Z
  /\ 0.02 < confidence understeer_lap_recommendation
  /\ confidence understeer_lap_recommendation <= 1.
Proof.
  apply (analyzed_lap_priority_and_confidence
           (analyzer_with_lap understeer_lap) analyzed_understeer_lap
           understeer_lap_recommendation).
  - apply Nat.leb_le. reflexivity.
  - vm_compute. reflexivity.
  - vm_compute. left. reflexivity.
Defined.

Lemma analyze_lap_history_witness :
  (length (lap_analyses analyzed_understeer_lap) <= 20)%nat
  /\ current_lap_samples analyzed_understeer_lap = understeer_lap.
Proof.
  destruct (analyze_lap_history (analyzer_with_lap understeer_lap)
              analyzed_understeer_lap) as [H1 [H2 _]].
  - apply Nat.leb_le. reflexivity.
  - vm_compute. reflexivity.
  - split; [exact H1 | exact H2].
Defined.

Lemma analyze_behavior_shares_witness :
  exists b,
    py.dict_get CornerPhase_beq (_analyze_behavior understeer_lap) MID
    = Some b
    /\ 0 <= understeer b <= 1
    /\ 0 <= oversteer b <= 1
    /\ 0 <= neutral b <= 1
    /\ understeer b + oversteer b + neutral b == 1
    /\ ((length (filter (fun s => CornerPhase_beq (phase s) MID)
                   understeer_lap) < 10)%nat ->
        b = {| understeer := 0; oversteer := 0; neutral := 1 |}).
Proof.
  apply (analyze_behavior_shares understeer_lap MID).
  right. left. reflexivity.
Defined.

(** A wheel and a frame of a car at 216 km/h in lap 1, steering left. *)
Definition rolling_wheel : WheelData :=
  {| suspension_deflection := 0.02; wd_ride_height := 50;
     rotation := - 190; wd_camber := - 3; wd_tire_load := 4000;
     temp_inner := 88; temp_outer := 84; wd_toe := 0 |}.

Definition fast_frame : Telemetry :=
  {| t_vehicle_name := "Oreca 07"; t_speed := 60; t_speed_kmh := 216;
     t_g_long := 0; t_g_lat := 1.5; t_throttle := 0.5; t_brake := 0;
     t_steering := - 0.2; t_lap_number := 1; t_rake := 12;
     t_front_downforce := 4000; t_rear_downforce := 5000;
     wheel_0 := rolling_wheel; wheel_1 := rolling_wheel;
     wheel_2 := rolling_wheel; wheel_3 := rolling_wheel;
     t_tire_temp := wheels 86 86 86 86;
     t_tire_pressure := wheels 172 172 172 172;
     t_tire_wear := wheels 1 1 1 1;
     t_brake_temp := wheels 450 450 450 450;
     t_grip := wheels 1 1 1 1 |}.

(** The analyzer after that frame, the first it is given. *)
Definition after_fast_frame : SetupAnalyzer :=
  match add_sample __init__ 0 (Some fast_frame) with
  | Some self' => self'
  | None => __init__
  end.

Lemma add_sample_buffers_witness :
  py.last_opt (samples after_fast_frame) = Some (sample_of 0 fast_frame)
  /\ current_lap_samples after_fast_frame = []
  /\ current_lap after_fast_frame = 1%Z
  /\ vehicle_name after_fast_frame = "Oreca 07".
Proof.
  destruct (add_sample_buffers __init__ after_fast_frame 0 fast_frame)
    as [H1 [_ [H3 [_ [H5 _]]]]].
  - vm_compute. reflexivity.
  - destruct H5 as [H5 H6]; [discriminate |].
    split; [exact H1 |]. split; [exact H5 |]. split; [exact H6 | exact H3].
Defined.

Lemma summary_of_analysed_lap_witness :
  exists s,
    get_summary analyzed_understeer_lap = ready s
    /\ sm_lap_number s = 1%Z
    /\ sm_samples s = 150%nat
    /\ 0 <= understeer_pct s <= 100
    /\ 0 <= oversteer_pct s <= 100
    /\ understeer_pct s + oversteer_pct s <= 100
    /\ 0 <= traction_loss_pct s <= 100.
Proof.
  destruct (summary_of_analysed_lap (analyzer_with_lap understeer_lap)
              analyzed_understeer_lap) as [H _].
  - apply Nat.leb_le. reflexivity.
  - vm_compute. reflexivity.
  - exact H.
Defined.

(** The same lap seen through the summary: understeer in one of the three
    phases is a third of the whole. *)
Example summary_of_understeer_lap :
  exists s,
    get_summary analyzed_understeer_lap = ready s
    /\ understeer_pct s == 100 # 3
    /\ oversteer_pct s == 0
    /\ map fst (sm_problems s) = ["understeer_entry"]
    /\ sm_category s = "GT3".
Proof.
  eexists. split; [vm_compute; reflexivity |].
  repeat split; reflexivity.
Qed.
End AnalyzerRuns.

(* ================================================================== *)
(** * The corner analysis of the telemetry analyzer *)
(* ================================================================== *)

Section CornerSpeedAndPhases.
Import telemetry_analyzer telemetry_corners.
Local Open Scope string_scope.
Local Open Scope list_scope.
Local Open Scope Q_scope.

(** The corner types by rising speed. *)
Definition speed_rank (t : CornerType) : nat :=
  match t with
  | SLOW => 0
  | MEDIUM => 1
  | FAST => 2
  | VERY_FAST => 3
  | CHICANE => 4
  | HAIRPIN => 5
  end.

(** X12.  [_classify_corner_speed] is monotone: a higher minimum speed
    never gives a slower type.  The limits 80, 140 and 200 km/h belong to
    the faster type, and the types "chicane" and "hairpin" are never
    given. *)
Theorem classify_corner_speed_monotone (speed speed' : Q) :
  (speed <= speed' ->
   (speed_rank (_classify_corner_speed speed)
    <= speed_rank (_classify_corner_speed speed'))%nat)
  /\ _classify_corner_speed 80 = MEDIUM
  /\ _classify_corner_speed 140 = FAST
  /\ _classify_corner_speed 200 = VERY_FAST
  /\ _classify_corner_speed speed <> CHICANE
  /\ _classify_corner_speed speed <> HAIRPIN.
Proof.
  split; [| repeat split; try reflexivity;
            unfold _classify_corner_speed;
            repeat (destruct (py.Qltb _ _)); discriminate].
  intros Hle.
  unfold _classify_corner_speed, SLOW_CORNER_SPEED, MEDIUM_CORNER_SPEED,
    FAST_CORNER_SPEED.
  destruct (py.Qltb speed 80) eqn:A; destruct (py.Qltb speed 140) eqn:B;
    destruct (py.Qltb speed 200) eqn:C;
    destruct (py.Qltb speed' 80) eqn:A'; destruct (py.Qltb speed' 140) eqn:B';
    destruct (py.Qltb speed' 200) eqn:C'; cbn [speed_rank]; try lia;
    repeat match goal with
           | H : py.Qltb _ _ = true |- _ => apply Qltb_lt in H
           | H : py.Qltb _ _ = false |- _ => apply Qltb_ge in H
           end; lra.
Qed.

Lemma determine_phase_returns (p : Point) (all_points : list Point)
    (idx : nat) :
  (idx = 0%nat \/ (idx - 1 < length all_points)%nat) ->
  exists ph,
    _determine_phase p all_points idx = py.Ok ph
    /\ (idx = 0%nat -> ph <> TURN_IN).
Proof.
  intros Hidx. unfold _determine_phase. cbv zeta.
  destruct (py.Qltb 50 (brake p) && _);
    [eexists; split; [reflexivity | discriminate] |].
  destruct (py.Qltb 10 (brake p) && _ && _);
    [eexists; split; [reflexivity | discriminate] |].
  assert (Hrest : forall turn_in : bool,
    exists ph,
      (if turn_in then py.Ok TURN_IN
       else if py.Qltb 0.8 (Qabs (g_lat p)) && py.Qltb (throttle p) 50
               && py.Qltb (brake p) 10 then py.Ok APEX
       else if py.Qltb 0.5 (Qabs (g_lat p)) && py.Qltb 15 (Qabs (steering p))
       then py.Ok MID_CORNER
       else if py.Qltb 30 (throttle p) && py.Qltb 10 (Qabs (steering p))
               && py.Qltb 0 (g_long p) then py.Ok EXIT
       else if py.Qltb 80 (throttle p) && py.Qltb (Qabs (steering p)) 10
       then py.Ok ACCELERATION
       else if py.Qltb 0 (brake p) && py.Qltb (brake p) 50
               && py.Qltb (Qabs (steering p)) 10 then py.Ok APPROACH
       else py.Ok APPROACH) = py.Ok ph
      /\ (turn_in = false -> ph <> TURN_IN)).
  { intros [|]; [eexists; split; [reflexivity | discriminate] |].
    repeat (match goal with
            | |- context [if ?c then _ else _] => destruct c
            end;
            [eexists; split; [reflexivity | discriminate] |]).
    eexists; split; [reflexivity | discriminate]. }
  destruct (py.Qltb 20 (Qabs (steering p)) && _ && _).
  - destruct (0 <? idx)%nat eqn:Hpos.
    + apply Nat.ltb_lt in Hpos.
      destruct (nth_error all_points (idx - 1)) as [prev |] eqn:Hprev.
      * cbn [py.or_raise py.bind].
        destruct (Hrest (py.Qltb 2 (Qabs (steering p)
                                    - Qabs (steering prev))))
          as [ph [Hph _]].
        exists ph. split; [exact Hph | lia].
      * apply nth_error_None in Hprev. lia.
    + cbn [py.bind]. destruct (Hrest false) as [ph [Hph Hne]].
      exists ph. split; [exact Hph | auto].
  - cbn [py.bind]. destruct (Hrest false) as [ph [Hph Hne]].
    exists ph. split; [exact Hph | auto].
Qed.

Lemma assign_phases_returns (todo : list Point) :
  forall done : list Point,
    Forall (fun p => corner_phase p <> None) done ->
    exists points,
      assign_phases done todo = py.Ok points
      /\ map point points = map point (done ++ todo)
      /\ Forall (fun p => corner_phase p <> None) points
      /\ (done = [] ->
          match points with
          | first :: _ => corner_phase first <> Some TURN_IN
          | [] => True
          end)
      /\ firstn (length done) points = done.
Proof.
  induction todo as [| p rest IH]; intros done Hdone.
  - exists done. cbn [assign_phases]. rewrite app_nil_r.
    repeat split; trivial.
    + intros ->. exact I.
    + apply firstn_all.
  - cbn [assign_phases].
    destruct (determine_phase_returns p (done ++ p :: rest) (length done))
      as [ph [Hph Hfirst]].
    { destruct done as [| d0 dt]; [now left | right].
      rewrite length_app. cbn [length]. lia. }
    rewrite Hph. cbn [py.bind].
    destruct (IH (done ++ [with_corner_phase p ph])) as [points [H1 [H2 [H3 [_ H5]]]]].
    { apply Forall_app. split; trivial.
      constructor; [discriminate | constructor]. }
    exists points. split; [exact H1 |].
    split.
    { rewrite H2, <- app_assoc. rewrite !map_app. reflexivity. }
    split; [exact H3 |].
    split.
    + intros ->. cbn [app length] in *.
      destruct points as [| first t]; [exact I |].
      cbn [firstn] in H5. injection H5 as ->. cbn [corner_phase with_corner_phase].
      intros [= Heq]. now apply Hfirst.
    + rewrite length_app in H5. cbn [length] in H5.
      assert (Hpre : firstn (length done) (firstn (length done + 1) points)
                     = firstn (length done) (done ++ [with_corner_phase p ph]))
        by now rewrite H5.
      rewrite firstn_firstn in Hpre.
      replace (Nat.min (length done) (length done + 1)) with (length done)
        in Hpre by lia.
      rewrite Hpre. rewrite firstn_app, firstn_all, Nat.sub_diag.
      cbn [firstn]. apply app_nil_r.
Qed.

(** X13.  [_detect_corner_phases] never raises.  It gives every point of
    the lap a phase and leaves the rest of the points as it is, and the
    first point of a lap is never classified as "turn-in". *)
Theorem detect_corner_phases_total (data_points : list Point) :
  exists points,
    _detect_corner_phases data_points = py.Ok points
    /\ map point points = map point data_points
    /\ Forall (fun p => corner_phase p <> None) points
    /\ match points with
       | first :: _ => corner_phase first <> Some TURN_IN
       | [] => True
       end.
Proof.
  destruct (assign_phases_returns data_points []) as [points [H1 [H2 [H3 [H4 _]]]]];
    [constructor |].
  exists points. repeat split; trivial. now apply H4.
Qed.
End CornerSpeedAndPhases.

Section SteerDetection.
Import telemetry_analyzer telemetry_corners.
Local Open Scope string_scope.
Local Open Scope list_scope.
Local Open Scope Q_scope.

(** What the loops of the two detections keep true of
    [(count, max_severity, worst_phase)]. *)
Definition worst_ok (acc : Worst) : Prop :=
  let '(count, max_severity, worst_phase) := acc in
  0 <= max_severity <= 100
  /\ ((0 < count)%nat -> 0 < max_severity)
  /\ (worst_phase <> None -> 0 < max_severity).

Lemma record_severity_ok (acc : Worst) (severity : Q)
    (phase : option CornerPhase) :
  0 < severity <= 100 -> worst_ok acc ->
  worst_ok (record_severity acc severity phase).
Proof.
  destruct acc as [[count m] w]. intros Hs [Hm [Hc Hw]].
  unfold record_severity.
  destruct (py.Qltb m severity) eqn:E; unfold worst_ok.
  - repeat split; try lra; intros _; lra.
  - apply Qltb_ge in E.
    assert (Hpos : 0 < m) by lra.
    repeat split; try lra; intros _; lra.
Qed.

Lemma min_100_range (x : Q) : 0 < x -> 0 < py.min 100 x <= 100.
Proof.
  intros H. unfold py.min. destruct (py.Qltb x 100) eqn:E.
  - apply Qltb_lt in E. lra.
  - lra.
Qed.

Lemma understeer_slip_step_ok (acc : Worst) (p : Point) :
  worst_ok acc -> worst_ok (understeer_slip_step acc p).
Proof.
  intros H. unfold understeer_slip_step, UNDERSTEER_SLIP_THRESHOLD.
  cbv zeta. destruct (py.Qltb 8 _) eqn:E; trivial.
  apply Qltb_lt in E.
  apply record_severity_ok; trivial. apply min_100_range. lra.
Qed.

Lemma saturation_step_ok (acc : Worst) (p : Point) :
  worst_ok acc -> worst_ok (saturation_step acc p).
Proof.
  intros H. unfold saturation_step. cbv zeta.
  destruct (py.Qltb 60 (Qabs (steering p)) && _) eqn:E; trivial.
  apply andb_prop in E. destruct E as [E _]. apply Qltb_lt in E.
  destruct (py.Qltb (Qabs (g_lat p)) _) eqn:G; trivial.
  apply Qltb_lt in G.
  apply record_severity_ok; trivial.
  set (e := Qabs (steering p) / 60) in *.
  assert (He : 1 < e).
  { unfold e. apply Qlt_shift_div_l; lra. }
  pose proof (Qabs_nonneg (g_lat p)) as Hg.
  assert (Hr0 : 0 <= Qabs (g_lat p) / e).
  { apply Qle_shift_div_l; lra. }
  assert (Hr1 : Qabs (g_lat p) / e < 0.7).
  { apply Qlt_shift_div_r; lra. }
  lra.
Qed.

Lemma oversteer_slip_step_ok (acc : Worst) (p : Point) :
  worst_ok acc -> worst_ok (oversteer_slip_step acc p).
Proof.
  intros H. unfold oversteer_slip_step, OVERSTEER_SLIP_THRESHOLD.
  cbv zeta. destruct (py.Qltb 8 _) eqn:E; trivial.
  apply Qltb_lt in E.
  apply record_severity_ok; trivial. apply min_100_range. lra.
Qed.

Lemma counter_steer_step_ok (acc : Worst) (pair : Point * Point) :
  worst_ok acc -> worst_ok (counter_steer_step acc pair).
Proof.
  intros H. destruct pair as [prev curr]. unfold counter_steer_step.
  destruct (py.Qltb (steering prev * steering curr) 0 && _) eqn:E; trivial.
  apply andb_prop in E. destruct E as [E _]. apply Qltb_lt in E.
  apply record_severity_ok; trivial. apply min_100_range.
  destruct (Qlt_le_dec 0 (Qabs (steering curr - steering prev)))
    as [Hpos | Hle]; trivial.
  exfalso. apply Qabs_Qle_condition in Hle.
  assert (Heq : steering curr == steering prev) by lra.
  rewrite Heq in E. nra.
Qed.

Lemma fold_worst_ok (A : Type) (step : Worst -> A -> Worst) (l : list A) :
  (forall acc x, worst_ok acc -> worst_ok (step acc x)) ->
  forall acc, worst_ok acc -> worst_ok (fold_left step l acc).
Proof.
  intros Hstep. induction l as [| x t IH]; intros acc Hacc; cbn [fold_left];
    trivial.
  apply IH, Hstep, Hacc.
Qed.

Lemma worst_ok_start : worst_ok (0%nat, 0, None).
Proof.
  unfold worst_ok. repeat split; try lra; try lia. congruence.
Qed.

Lemma detected_positive (n : Q) (count : nat) (f : Q) :
  0 <= n -> 0 <= f ->
  py.Qltb (n * f) (py.of_nat count) = true -> (0 < count)%nat.
Proof.
  intros Hn Hf H. apply Qltb_lt in H.
  destruct count as [| c]; [| lia].
  change (py.of_nat 0) with 0 in H. nra.
Qed.

Lemma len_nonneg (A : Type) (l : list A) : 0 <= py.len l.
Proof. unfold py.len, Qle. simpl. lia. Qed.

(** The outcome of [_detect_understeer]. *)
Lemma detect_understeer_ok (points : list Point) :
  let '(detected, severity, phase) := _detect_understeer points in
  0 <= severity <= 100
  /\ (detected = true -> 0 < severity)
  /\ (phase <> None -> 0 < severity).
Proof.
  unfold _detect_understeer.
  destruct points as [| p0 rest]; [repeat split; try lra; congruence |].
  set (points := p0 :: rest).
  pose proof (fold_worst_ok _ saturation_step points saturation_step_ok _
                (fold_worst_ok _ understeer_slip_step points
                   understeer_slip_step_ok _ worst_ok_start)) as H.
  destruct (fold_left saturation_step points _) as [[count m] w].
  destruct H as [Hm [Hc Hw]].
  repeat split; try tauto.
  intros Hd. apply Hc.
  apply (detected_positive (py.len points) count 0.1); trivial;
    [apply len_nonneg | lra].
Qed.

(** The outcome of [_detect_oversteer]. *)
Lemma detect_oversteer_ok (points : list Point) :
  let '(detected, severity, phase) := _detect_oversteer points in
  0 <= severity <= 100
  /\ (detected = true -> 0 < severity)
  /\ (phase <> None -> 0 < severity).
Proof.
  unfold _detect_oversteer.
  destruct points as [| p0 rest]; [repeat split; try lra; congruence |].
  set (points := p0 :: rest).
  pose proof (fold_worst_ok _ counter_steer_step (consecutive points)
                counter_steer_step_ok _
                (fold_worst_ok _ oversteer_slip_step points
                   oversteer_slip_step_ok _ worst_ok_start)) as H.
  destruct (fold_left counter_steer_step (consecutive points) _)
    as [[count m] w].
  destruct H as [Hm [Hc Hw]].
  repeat split; try tauto.
  intros Hd. apply Hc.
  apply (detected_positive (py.len points) count 0.05); trivial;
    [apply len_nonneg | lra].
Qed.

(** X14.  [_detect_understeer] and [_detect_oversteer] return a severity
    between 0 and 100; when they flag the corner, or name a worst phase,
    the severity is above 0; and for no points at all they return
    (False, 0, None). *)
Theorem steer_detection_severity (points : list Point) :
  (let '(detected, severity, phase) := _detect_understeer points in
   0 <= severity <= 100
   /\ (detected = true -> 0 < severity)
   /\ (phase <> None -> 0 < severity))
  /\ (let '(detected, severity, phase) := _detect_oversteer points in
      0 <= severity <= 100
      /\ (detected = true -> 0 < severity)
      /\ (phase <> None -> 0 < severity))
  /\ _detect_understeer [] = (false, 0, None)
  /\ _detect_oversteer [] = (false, 0, None).
Proof.
  split; [apply detect_understeer_ok |].
  split; [apply detect_oversteer_ok |].
  split; reflexivity.
Qed.

Lemma traction_fold_range (l : list Q) :
  Forall (fun x => 0 <= x <= 100) l ->
  forall acc, 0 <= acc <= 100 -> 0 <= fold_left py.max l acc <= 100.
Proof.
  induction 1 as [| x t Hx _ IH]; intros acc Hacc; cbn [fold_left]; trivial.
  apply IH. unfold py.max. destruct (py.Qltb acc x); lra.
Qed.

Lemma traction_fold_ge (l : list Q) :
  forall acc x, In x l \/ x <= acc -> x <= fold_left py.max l acc.
Proof.
  induction l as [| y t IH]; intros acc x H; cbn [fold_left].
  - destruct H as [[] | H]; trivial.
  - apply IH. destruct H as [[<- | H] | H]; [right | now left | right].
    + apply max_ge_second.
    + pose proof (max_ge_first acc y). lra.
Qed.

Lemma sample_severity_range (p : TelemetryPoint) :
  qualifies p = true -> 30 < sample_severity p <= 100.
Proof.
  unfold qualifies, sample_severity, TRACTION_SLIP_RATIO_THRESHOLD.
  intros H. apply andb_prop in H. destruct H as [_ H]. apply Qltb_lt in H.
  unfold py.min. destruct (py.Qltb _ 100) eqn:E.
  - apply Qltb_lt in E. lra.
  - lra.
Qed.

(** The outcome of [_detect_traction_loss]. *)
Lemma detect_traction_loss_ok (points : list TelemetryPoint) :
  (fst (_detect_traction_loss points) = true
   <-> (4 <= length (filter qualifies points))%nat)
  /\ 0 <= snd (_detect_traction_loss points) <= 100
  /\ (filter qualifies points <> [] ->
      30 < snd (_detect_traction_loss points))
  /\ (filter qualifies points = [] ->
      snd (_detect_traction_loss points) = 0).
Proof.
  split; [apply detect_traction_loss_flag |].
  rewrite detect_traction_loss_spec. cbn [snd].
  set (q := filter qualifies points).
  assert (Hq : Forall (fun p => qualifies p = true) q).
  { apply Forall_forall. intros p Hp. apply filter_In in Hp. tauto. }
  split; [| split].
  - apply traction_fold_range; [| lra].
    apply Forall_forall. intros x Hx. apply in_map_iff in Hx.
    destruct Hx as [p [<- Hp]]. rewrite Forall_forall in Hq.
    pose proof (sample_severity_range p (Hq p Hp)). lra.
  - intros Hne. destruct q as [| p0 t]; [congruence |].
    inversion Hq as [| ? ? Hp0 _]; subst.
    pose proof (sample_severity_range p0 Hp0) as Hs.
    apply Qlt_le_trans with (sample_severity p0); [lra |].
    apply traction_fold_ge. left. now left.
  - intros ->. reflexivity.
Qed.

(** X15.  [_detect_traction_loss] flags a corner exactly when more than
    three of its points qualify (four or more).  Its severity lies between
    0 and 100; it is above 30 as soon as one point qualifies, flagged or
    not, and 0 when none does. *)
Theorem traction_loss_flag_and_severity (points : list TelemetryPoint) :
  (fst (_detect_traction_loss points) = true
   <-> (4 <= length (filter qualifies points))%nat)
  /\ 0 <= snd (_detect_traction_loss points) <= 100
  /\ (filter qualifies points <> [] ->
      30 < snd (_detect_traction_loss points))
  /\ (filter qualifies points = [] ->
      snd (_detect_traction_loss points) = 0).
Proof. exact (detect_traction_loss_ok points). Qed.
End SteerDetection.

Section LapBehavior.
Import telemetry_analyzer telemetry_corners.
Local Open Scope string_scope.
Local Open Scope list_scope.
Local Open Scope Q_scope.

(** The four counters stay below the number of points seen, and no point
    counts both as understeer and as oversteer. *)
Lemma lap_behavior_counts (l : list Point) :
  forall u o t b u' o' t' b' n,
    (u + o <= n /\ t <= n /\ b <= n)%nat ->
    fold_left lap_behavior_step l (u, o, t, b) = (u', o', t', b') ->
    (u' + o' <= n + length l /\ t' <= n + length l
     /\ b' <= n + length l)%nat.
Proof.
  induction l as [| p rest IH]; intros u o t b u' o' t' b' n Hn H;
    cbn [fold_left] in H.
  - injection H as <- <- <- <-. cbn [length]. lia.
  - unfold lap_behavior_step at 2 in H. cbv zeta in H.
    unfold UNDERSTEER_SLIP_THRESHOLD, OVERSTEER_SLIP_THRESHOLD in H.
    cbn [length].
    replace (n + S (length rest))%nat with (S n + length rest)%nat by lia.
    destruct (py.Qltb 8 (front_slip p - rear_slip p)) eqn:Hu;
      destruct (py.Qltb 8 (rear_slip p - front_slip p)) eqn:Ho.
    + apply Qltb_lt in Hu, Ho. lra.
    + apply (IH _ _ _ _ _ _ _ _ (S n)) in H; trivial.
      destruct (_ && _); destruct (_ && _); lia.
    + apply (IH _ _ _ _ _ _ _ _ (S n)) in H; trivial.
      destruct (_ && _); destruct (_ && _); lia.
    + apply (IH _ _ _ _ _ _ _ _ (S n)) in H; trivial.
      destruct (_ && _); destruct (_ && _); lia.
Qed.

Lemma percentage_range (a n : nat) :
  (a <= n)%nat -> (0 < n)%nat ->
  0 <= py.of_nat a / py.of_nat n * 100 <= 100.
Proof.
  intros Ha Hn.
  pose proof (ratio_nonneg a n). pose proof (ratio_le_1 a n Ha Hn). lra.
Qed.

(** What [_calculate_lap_behavior] does to a lap. *)
Lemma lap_behavior_ok (lap : LapData) :
  (data_points lap = [] -> _calculate_lap_behavior lap = lap)
  /\ (data_points lap <> [] ->
      let lap' := _calculate_lap_behavior lap in
      0 <= understeer_percentage lap' <= 100
      /\ 0 <= oversteer_percentage lap' <= 100
      /\ 0 <= traction_loss_percentage lap' <= 100
      /\ 0 <= brake_lock_percentage lap' <= 100
      /\ understeer_percentage lap' + oversteer_percentage lap' <= 100)
  /\ data_points (_calculate_lap_behavior lap) = data_points lap
  /\ corners (_calculate_lap_behavior lap) = corners lap
  /\ lap_time (_calculate_lap_behavior lap) = lap_time lap.
Proof.
  unfold _calculate_lap_behavior.
  destruct (data_points lap) as [| p0 rest] eqn:Hpts.
  - split; [trivial |]. split; [intros H; congruence |].
    cbn. repeat split; trivial.
  - split; [discriminate |].
    destruct (fold_left lap_behavior_step (p0 :: rest) (0, 0, 0, 0)%nat)
      as [[[u o] t] b] eqn:Hfold.
    apply (lap_behavior_counts _ _ _ _ _ _ _ _ _ 0%nat) in Hfold; [| lia].
    cbn [Nat.add] in Hfold.
    split; [| cbn; repeat split].
    intros _. cbv zeta.
    cbn [understeer_percentage oversteer_percentage traction_loss_percentage
         brake_lock_percentage].
    change (py.len (p0 :: rest)) with (py.of_nat (length (p0 :: rest))).
    set (n := length (p0 :: rest)) in *.
    assert (Hn : (0 < n)%nat) by (unfold n; cbn [length]; lia).
    split; [apply percentage_range; lia |].
    split; [apply percentage_range; lia |].
    split; [apply percentage_range; lia |].
    split; [apply percentage_range; lia |].
    assert (Hsum : py.of_nat u / py.of_nat n * 100
                   + py.of_nat o / py.of_nat n * 100
                   == py.of_nat (u + o) / py.of_nat n * 100).
    { rewrite of_nat_add. field.
      pose proof (of_nat_pos n Hn). lra. }
    rewrite Hsum. apply percentage_range; lia.
Qed.

(** X16.  [_calculate_lap_behavior] leaves a lap without points as it is.
    For any other lap the four percentages (understeer, oversteer, traction
    loss, brake lock) lie between 0 and 100, understeer and oversteer
    together do not exceed 100 (in exact arithmetic), and the points, the
    corners and the lap time are unchanged. *)
Theorem lap_behavior_percentages (lap : LapData) :
  (data_points lap = [] -> _calculate_lap_behavior lap = lap)
  /\ (data_points lap <> [] ->
      let lap' := _calculate_lap_behavior lap in
      0 <= understeer_percentage lap' <= 100
      /\ 0 <= oversteer_percentage lap' <= 100
      /\ 0 <= traction_loss_percentage lap' <= 100
      /\ 0 <= brake_lock_percentage lap' <= 100
      /\ understeer_percentage lap' + oversteer_percentage lap' <= 100)
  /\ data_points (_calculate_lap_behavior lap) = data_points lap
  /\ corners (_calculate_lap_behavior lap) = corners lap
  /\ lap_time (_calculate_lap_behavior lap) = lap_time lap.
Proof. exact (lap_behavior_ok lap). Qed.
End LapBehavior.

Section SingleCorner.
Import telemetry_analyzer telemetry_corners.
Local Open Scope string_scope.
Local Open Scope list_scope.
Local Open Scope Q_scope.

Lemma fold_min_le (l : list Q) :
  forall acc x, In x l \/ acc <= x -> fold_left py.min l acc <= x.
Proof.
  induction l as [| y t IH]; intros acc x H; cbn [fold_left].
  - destruct H as [[] | H]; trivial.
  - apply IH. destruct H as [[<- | H] | H]; [right | now left | right].
    + unfold py.min. destruct (py.Qltb y acc) eqn:E; [lra |].
      now apply Qltb_ge in E.
    + pose proof (min_le_first acc y). lra.
Qed.

Lemma fold_min_In (l : list Q) :
  forall acc, fold_left py.min l acc = acc \/ In (fold_left py.min l acc) l.
Proof.
  induction l as [| y t IH]; intros acc; cbn [fold_left]; [now left |].
  destruct (IH (py.min acc y)) as [H | H]; [| right; now right].
  rewrite H. unfold py.min. destruct (py.Qltb y acc); [right |]; now left.
Qed.

Lemma min_list_le (l : list Q) (x : Q) : In x l -> min_list l <= x.
Proof.
  destruct l as [| y t]; [contradiction |]. cbn [min_list].
  intros [<- | H]; apply fold_min_le; [right; lra | now left].
Qed.

Lemma min_list_In (l : list Q) : l <> [] -> In (min_list l) l.
Proof.
  destruct l as [| y t]; [congruence |]. intros _. cbn [min_list].
  destruct (fold_min_In t y) as [-> | H]; [now left | now right].
Qed.

Lemma index_found (l : list Q) (x : Q) :
  In x l ->
  exists i y, index l x = Some i /\ nth_error l i = Some y /\ y == x.
Proof.
  induction l as [| z t IH]; [contradiction |]. intros Hin. cbn [index].
  destruct (Qeq_bool z x) eqn:E.
  - exists 0%nat, z. apply Qeq_bool_iff in E. repeat split; trivial.
  - destruct Hin as [<- | Hin].
    + rewrite Qeq_bool_refl in E. discriminate E.
    + destruct (IH Hin) as [i [y [Hi [Hn Hy]]]]. rewrite Hi.
      exists (S i), y. repeat split; trivial.
Qed.

Lemma last_opt_In (A : Type) (l : list A) (x : A) :
  py.last_opt l = Some x -> In x l.
Proof.
  intros H. destruct l as [| y t] eqn:E; [discriminate H |].
  destruct (@exists_last A (y :: t)) as [l' [a Hl]]; [discriminate |].
  rewrite Hl in *. rewrite last_opt_app in H. injection H as <-.
  apply in_or_app. right. now left.
Qed.

(** What [_analyze_single_corner] returns. *)
Lemma analyze_single_corner_ok (corner_def : CornerDefinition)
    (points : list Point) :
  exists a,
    _analyze_single_corner corner_def points = py.Ok a
    /\ corner_id a = def_corner_id corner_def
    /\ corner_type a = def_corner_type corner_def
    /\ apex_speed a == min_speed a
    /\ Forall (fun p : Point => min_speed a <= speed p) points
    /\ (points <> [] ->
        min_speed a <= entry_speed a /\ min_speed a <= exit_speed a)
    /\ 0 <= understeer_severity a <= 100
    /\ 0 <= oversteer_severity a <= 100
    /\ 0 <= traction_loss_severity a <= 100
    /\ time_loss a = 0.
Proof.
  unfold _analyze_single_corner. cbv zeta.
  pose proof (detect_understeer_ok points) as Hu.
  pose proof (detect_oversteer_ok points) as Ho.
  pose proof (detect_traction_loss_ok (map point points)) as [_ [Ht _]].
  destruct (_detect_understeer points) as [[ud us] up].
  destruct (_detect_oversteer points) as [[od os] op].
  destruct (_detect_traction_loss (map point points)) as [td ts].
  cbn [snd] in Ht.
  set (speeds := map (fun p : Point => speed p) points).
  assert (Hmin : forall p : Point, In p points -> min_list speeds <= speed p).
  { intros p Hp. apply min_list_le. unfold speeds.
    apply in_map_iff. now exists p. }
  destruct points as [| p0 rest].
  - cbn [py.bind map filter py.last_opt].
    eexists. split; [reflexivity |]. cbn.
    repeat split; try tauto; try lra; try constructor; try congruence.
  - remember (p0 :: rest) as points eqn:Hpts.
    assert (Hne : speeds <> []) by (unfold speeds; rewrite Hpts; discriminate).
    destruct (index_found speeds (min_list speeds) (min_list_In speeds Hne))
      as [i [y [Hi [Hn Hy]]]].
    assert (Hspeeds : speeds = speed p0 :: map (fun p : Point => speed p) rest)
      by (unfold speeds; now rewrite Hpts).
    assert (Hapex : exists p : Point,
              nth_error points i = Some p /\ speed p = y).
    { unfold speeds in Hn. rewrite nth_error_map in Hn.
      destruct (nth_error points i) as [p |]; [| discriminate Hn].
      exists p. split; trivial. now injection Hn. }
    destruct Hapex as [pa [Hpa Hsp]].
    replace (match speeds with
             | [] => py.Ok 0%nat
             | _ :: _ => py.or_raise py.ValueError (index speeds (min_list speeds))
             end) with (py.Ok (A := nat) i)
      by (rewrite Hi; rewrite Hspeeds at 1; reflexivity).
    cbn [py.bind].
    rewrite Hpa. cbn [option_map py.or_raise py.bind].
    match goal with
    | |- context [let '(_, _) := ?e in _] => destruct e as [bd tbd]
    end.
    eexists. split; [reflexivity |].
    cbn [corner_id corner_type apex_speed min_speed entry_speed exit_speed
         understeer_severity oversteer_severity traction_loss_severity
         time_loss].
    split; [reflexivity |]. split; [reflexivity |].
    split; [rewrite Hsp; exact Hy |].
    split; [apply Forall_forall; exact Hmin |].
    split.
    { intros _. split.
      - apply min_list_le. rewrite Hspeeds. now left.
      - destruct (py.last_opt speeds) as [x |] eqn:Hlast.
        + apply min_list_le. now apply last_opt_In.
        + rewrite Hspeeds in Hlast. discriminate Hlast. }
    repeat split; try tauto.
Qed.

(** X17.  [_analyze_single_corner] never raises.  The analysis carries
    the id and the type of the corner definition; its apex speed is its
    minimum speed, which no point of the corner undercuts and which is at
    most the entry and the exit speed; its three severities lie between 0
    and 100; and its time loss is 0, whatever the points are. *)
Theorem analyze_single_corner_total (corner_def : CornerDefinition)
    (points : list Point) :
  exists a,
    _analyze_single_corner corner_def points = py.Ok a
    /\ corner_id a = def_corner_id corner_def
    /\ corner_type a = def_corner_type corner_def
    /\ apex_speed a == min_speed a
    /\ Forall (fun p : Point => min_speed a <= speed p) points
    /\ (points <> [] ->
        min_speed a <= entry_speed a /\ min_speed a <= exit_speed a)
    /\ 0 <= understeer_severity a <= 100
    /\ 0 <= oversteer_severity a <= 100
    /\ 0 <= traction_loss_severity a <= 100
    /\ time_loss a = 0.
Proof. exact (analyze_single_corner_ok corner_def points). Qed.
End SingleCorner.

Section Balance.
Import telemetry_analyzer telemetry_corners.
Local Open Scope string_scope.
Local Open Scope list_scope.
Local Open Scope Q_scope.

Lemma sum_acc_range (l : list Q) :
  Forall (fun x => 0 <= x <= 100) l ->
  forall acc,
    acc <= fold_left Qplus l acc
    /\ fold_left Qplus l acc <= acc + 100 * py.of_nat (length l).
Proof.
  induction 1 as [| x t Hx _ IH]; intros acc; cbn [fold_left length].
  - change (py.of_nat 0) with 0. lra.
  - destruct (IH (acc + x)) as [H1 H2].
    assert (Hs : py.of_nat (S (length t)) == 1 + py.of_nat (length t)).
    { change (S (length t)) with (1 + length t)%nat. rewrite of_nat_add.
      reflexivity. }
    rewrite Hs. lra.
Qed.

Lemma sum_range (l : list Q) :
  Forall (fun x => 0 <= x <= 100) l ->
  0 <= py.sum l /\ py.sum l <= 100 * py.len l.
Proof.
  intros H. unfold py.sum. destruct (sum_acc_range l H 0) as [H1 H2].
  change (py.len l) with (py.of_nat (length l)). lra.
Qed.

Lemma mean_or_zero_range (l : list Q) :
  Forall (fun x => 0 <= x <= 100) l -> 0 <= mean_or_zero l <= 100.
Proof.
  intros H. unfold mean_or_zero.
  destruct l as [| x t] eqn:E; [lra |]. rewrite <- E in *.
  destruct (sum_range l H) as [H0 H1].
  assert (Hpos : 0 < py.len l).
  { change (py.len l) with (py.of_nat (length l)). apply of_nat_pos.
    rewrite E. cbn [length]. lia. }
  split.
  - apply Qle_shift_div_l; lra.
  - apply Qle_shift_div_r; lra.
Qed.

(** The severities of a corner analysis are percentages. *)
Definition severities_in_range (c : CornerAnalysis) : Prop :=
  0 <= understeer_severity c <= 100
  /\ 0 <= oversteer_severity c <= 100
  /\ 0 <= traction_loss_severity c <= 100.

Lemma Forall_map_range (f : CornerAnalysis -> Q) (l : list CornerAnalysis) :
  Forall (fun c => 0 <= f c <= 100) l ->
  Forall (fun x => 0 <= x <= 100) (map f l).
Proof.
  intros H. apply Forall_forall. intros x Hx. apply in_map_iff in Hx.
  destruct Hx as [c [<- Hc]]. rewrite Forall_forall in H. now apply H.
Qed.

Lemma Forall_filter (A : Type) (P : A -> Prop) (f : A -> bool) (l : list A) :
  Forall P l -> Forall P (filter f l).
Proof.
  intros H. apply Forall_forall. intros x Hx. apply filter_In in Hx.
  rewrite Forall_forall in H. apply H. tauto.
Qed.

(** The balance of a group of corners. *)
Lemma phase_balance_ok (corners : list CornerAnalysis) :
  Forall severities_in_range corners ->
  0 <= _calculate_phase_balance corners <= 100
  /\ (py.sum (map oversteer_severity corners) == 0 ->
      _calculate_phase_balance corners <= 50)
  /\ (py.sum (map understeer_severity corners) == 0 ->
      50 <= _calculate_phase_balance corners).
Proof.
  intros H. unfold _calculate_phase_balance.
  destruct corners as [| c0 rest] eqn:E; [repeat split; lra |].
  rewrite <- E in *.
  assert (Hu : Forall (fun x => 0 <= x <= 100) (map understeer_severity corners)).
  { apply Forall_map_range. revert H. apply Forall_impl.
    unfold severities_in_range. tauto. }
  assert (Ho : Forall (fun x => 0 <= x <= 100) (map oversteer_severity corners)).
  { apply Forall_map_range. revert H. apply Forall_impl.
    unfold severities_in_range. tauto. }
  destruct (sum_range _ Hu) as [U0 U1]. destruct (sum_range _ Ho) as [O0 O1].
  assert (Hlen : forall f : CornerAnalysis -> Q,
            py.len (map f corners) = py.len corners)
    by (intros f; unfold py.len; now rewrite length_map).
  rewrite Hlen in U1, O1.
  set (u := py.sum (map understeer_severity corners)) in *.
  set (o := py.sum (map oversteer_severity corners)) in *.
  destruct (Qeq_bool (u + o) 0); [repeat split; lra |].
  assert (Hpos : 0 < py.len corners * 2).
  { assert (0 < py.len corners); [| lra].
    change (py.len corners) with (py.of_nat (length corners)).
    apply of_nat_pos. rewrite E. cbn [length]. lia. }
  assert (Hlo : -50 <= (o - u) / (py.len corners * 2)).
  { apply Qle_shift_div_l; [trivial | lra]. }
  assert (Hhi : (o - u) / (py.len corners * 2) <= 50).
  { apply Qle_shift_div_r; [trivial | lra]. }
  split; [lra |]. split; intros Hz.
  - assert ((o - u) / (py.len corners * 2) <= 0); [| lra].
    apply Qle_shift_div_r; [trivial | lra].
  - assert (0 <= (o - u) / (py.len corners * 2)); [| lra].
    apply Qle_shift_div_l; [trivial | lra].
Qed.

(** X18.  For corners whose severities are percentages,
    [_calculate_phase_balance] returns a balance between 0 and 100: 50 for
    no corners or no severity at all, at most 50 when no corner oversteers
    and at least 50 when none understeers. *)
Theorem phase_balance_range (corners : list CornerAnalysis) :
  Forall severities_in_range corners ->
  0 <= _calculate_phase_balance corners <= 100
  /\ (py.sum (map oversteer_severity corners) == 0 ->
      _calculate_phase_balance corners <= 50)
  /\ (py.sum (map understeer_severity corners) == 0 ->
      50 <= _calculate_phase_balance corners)
  /\ _calculate_phase_balance [] = 50.
Proof.
  intros H. destruct (phase_balance_ok corners H) as [H1 [H2 H3]].
  repeat split; tauto.
Qed.
End Balance.

Section Statistics.
Import telemetry_analyzer telemetry_corners.
Local Open Scope string_scope.
Local Open Scope list_scope.
Local Open Scope Q_scope.

Lemma max_0_min_100 (x : Q) : 0 <= py.max 0 (py.min 100 x) <= 100.
Proof.
  unfold py.max, py.min.
  destruct (py.Qltb x 100) eqn:A.
  - apply Qltb_lt in A. destruct (py.Qltb 0 x) eqn:B.
    + apply Qltb_lt in B. lra.
    + lra.
  - destruct (py.Qltb 0 100); lra.
Qed.

Lemma min_100_max_0 (x : Q) : 0 <= py.min 100 (py.max 0 x) <= 100.
Proof.
  unfold py.max, py.min.
  destruct (py.Qltb 0 x) eqn:A.
  - apply Qltb_lt in A. destruct (py.Qltb x 100) eqn:B.
    + apply Qltb_lt in B. lra.
    + lra.
  - destruct (py.Qltb 0 100); lra.
Qed.

(** The scores of the statistics that are percentages. *)
Definition statistics_in_range (stats : BehaviorStatistics) : Prop :=
  0 <= understeer_tendency stats <= 100
  /\ 0 <= oversteer_tendency stats <= 100
  /\ 0 <= balance_score stats <= 100
  /\ 0 <= entry_balance stats <= 100
  /\ 0 <= mid_corner_balance stats <= 100
  /\ 0 <= exit_balance stats <= 100
  /\ 0 <= slow_corner_balance stats <= 100
  /\ 0 <= medium_corner_balance stats <= 100
  /\ 0 <= fast_corner_balance stats <= 100
  /\ 0 <= traction_on_throttle stats <= 100
  /\ 0 <= front_tire_stress stats <= 100
  /\ 0 <= rear_tire_stress stats <= 100
  /\ 0 <= tire_balance stats <= 100
  /\ 0 <= consistency stats.

Lemma variance_nonneg (l : list Q) (m : Q) :
  (1 < length l)%nat ->
  0 <= py.sum (map (fun t => (t - m) * (t - m)) l) / py.len l.
Proof.
  intros Hlen. apply Qle_shift_div_l.
  - change (py.len l) with (py.of_nat (length l)). apply of_nat_pos. lia.
  - rewrite Qmult_0_l. apply sum_nonneg. apply Forall_forall.
    intros x Hx. apply in_map_iff in Hx. destruct Hx as [t [<- _]].
    destruct (Qlt_le_dec (t - m) 0) as [Hneg | Hpos].
    + setoid_replace ((t - m) * (t - m)) with ((- (t - m)) * (- (t - m)))
        by ring.
      apply Qmult_le_0_compat; lra.
    + now apply Qmult_le_0_compat.
Qed.

Lemma severity_means (corners : list CornerAnalysis)
    (f : CornerAnalysis -> Q) (keep : CornerAnalysis -> bool) :
  Forall (fun c => 0 <= f c <= 100) corners ->
  0 <= mean_or_zero (map f (filter keep corners)) <= 100.
Proof.
  intros H. apply mean_or_zero_range, Forall_map_range, Forall_filter, H.
Qed.

(** What [_calculate_behavior_statistics] returns. *)
Lemma behavior_statistics_ok (sqrt : Q -> Q) (session : SessionData)
    (corners : list CornerAnalysis) :
  Forall severities_in_range corners ->
  exists stats,
    _calculate_behavior_statistics sqrt session corners = py.Ok stats
    /\ statistics_in_range stats
    /\ sample_size stats = length corners.
Proof.
  intros H. unfold _calculate_behavior_statistics. cbv zeta.
  destruct corners as [| c0 rest] eqn:E.
  { eexists. split; [reflexivity |]. split; [| reflexivity].
    unfold statistics_in_range. cbn. repeat split; lra. }
  rewrite <- E in *.
  assert (Hu : Forall (fun c => 0 <= understeer_severity c <= 100) corners)
    by (revert H; apply Forall_impl; unfold severities_in_range; tauto).
  assert (Ho : Forall (fun c => 0 <= oversteer_severity c <= 100) corners)
    by (revert H; apply Forall_impl; unfold severities_in_range; tauto).
  assert (Ht : Forall (fun c => 0 <= traction_loss_severity c <= 100) corners)
    by (revert H; apply Forall_impl; unfold severities_in_range; tauto).
  assert (Hbal : forall keep, 0 <= _calculate_phase_balance
                                     (filter keep corners) <= 100).
  { intros keep. apply phase_balance_ok. now apply Forall_filter. }
  pose proof (severity_means corners understeer_severity understeer_detected
                Hu) as Mu.
  pose proof (severity_means corners oversteer_severity oversteer_detected
                Ho) as Mo.
  pose proof (severity_means corners traction_loss_severity
                traction_loss_detected Ht) as Mt.
  set (mu := mean_or_zero (map understeer_severity _)) in *.
  set (mo := mean_or_zero (map oversteer_severity _)) in *.
  set (mt := mean_or_zero (map traction_loss_severity _)) in *.
  assert (Hcons : exists c,
    (let lap_times := map lap_time (valid_laps session) in
     if (1 <? length lap_times)%nat then
       let mean_time := py.sum lap_times / py.len lap_times in
       let variance :=
         py.sum (map (fun t => (t - mean_time) * (t - mean_time)) lap_times)
         / py.len lap_times in
       std_dev <- math_sqrt sqrt variance ;;
       py.Ok (py.max 0 (100 - std_dev * 10))
     else py.Ok (consistency BehaviorStatistics_default)) = py.Ok c
    /\ 0 <= c).
  { cbv zeta. destruct (1 <? _)%nat eqn:Hlen.
    - apply Nat.ltb_lt in Hlen. unfold math_sqrt.
      pose proof (variance_nonneg (map lap_time (valid_laps session))
                    (py.sum (map lap_time (valid_laps session))
                     / py.len (map lap_time (valid_laps session))) Hlen)
        as Hvar.
      apply Qltb_ge in Hvar. rewrite Hvar. cbn [py.bind].
      eexists. split; [reflexivity | apply max_ge_first].
    - eexists. split; [reflexivity |]. cbn. lra. }
  destruct Hcons as [c [Hceq Hc]]. cbv zeta in Hceq.
  assert (Hscore : 0 <= (if py.Qltb 0 (mu + mo)
                         then py.max 0 (py.min 100 (50 + (mo - mu) / 2))
                         else balance_score BehaviorStatistics_default)
                   <= 100).
  { destruct (py.Qltb 0 (mu + mo)); [apply max_0_min_100 | cbn; lra]. }
  destruct (filter _ (map tire_temp_front_avg corners)) as [| f0 ft];
    [| destruct (filter _ (map tire_temp_rear_avg corners)) as [| r0 rt]];
    cbv iota beta; rewrite Hceq; cbn [py.bind];
    (eexists; split; [reflexivity |]; split; [| reflexivity]);
    unfold statistics_in_range, _calculate_type_balance;
    cbn [understeer_tendency oversteer_tendency balance_score entry_balance
         mid_corner_balance exit_balance slow_corner_balance
         medium_corner_balance fast_corner_balance traction_on_throttle
         front_tire_stress rear_tire_stress tire_balance consistency
         BehaviorStatistics_default];
    (split; [exact Mu |]); (split; [exact Mo |]); (split; [exact Hscore |]);
    repeat (split; [apply Hbal |]);
    (split; [exact Mt |]).
  - repeat split; trivial; lra.
  - repeat split; trivial; lra.
  - match goal with
    | |- context [py.min 100 (py.max 0 ?a)] =>
        pose proof (min_100_max_0 a) as Hf;
        set (f := py.min 100 (py.max 0 a)) in *
    end.
    match goal with
    | |- context [py.min 100 (py.max 0 ?a)] =>
        pose proof (min_100_max_0 a) as Hr;
        set (r := py.min 100 (py.max 0 a)) in *
    end.
    clearbody f r.
    setoid_replace ((r - f) / 2) with ((r - f) * (1 # 2)) by field.
    repeat split; trivial; lra.
Qed.
End Statistics.

Section TrackCorners.
Import telemetry_analyzer telemetry_corners.
Local Open Scope string_scope.
Local Open Scope list_scope.
Local Open Scope Q_scope.

(** A corner definition as [_detect_track_corners] builds it. *)
Definition detected_corner (c : CornerDefinition) : Prop :=
  def_name c = def_corner_id c
  /\ def_corner_type c <> CHICANE
  /\ def_corner_type c <> HAIRPIN.

(** What the loop of [_detect_track_corners] keeps true of its state when
    it reaches the point of index [k]. *)
Definition detection_ok (k : nat) (st : Detection) : Prop :=
  (in_corner st = true -> (corner_start_idx st < k)%nat)
  /\ next_corner_id st = S (length (found st))
  /\ map def_corner_id (found st) = seq 1 (length (found st))
  /\ Forall detected_corner (found st).

Lemma classify_corner_speed_types (speed : Q) :
  _classify_corner_speed speed <> CHICANE
  /\ _classify_corner_speed speed <> HAIRPIN.
Proof.
  unfold _classify_corner_speed.
  repeat (destruct (py.Qltb _ _)); split; discriminate.
Qed.

Lemma detect_step_ok (pre : list Point) (p : Point) (rest : list Point)
    (st : Detection) :
  detection_ok (length pre) st ->
  exists st',
    detect_step (pre ++ p :: rest) st (length pre, p) = py.Ok st'
    /\ detection_ok (S (length pre)) st'
    /\ (is_turning p = false -> in_corner st = false ->
        st' = st).
Proof.
  intros [Hstart [Hid [Hids Hall]]]. unfold detect_step.
  destruct (is_turning p) eqn:Hturn; destruct (in_corner st) eqn:Hin;
    cbn [andb negb].
  - exists st. split; [reflexivity |]. split; [| congruence].
    unfold detection_ok. rewrite Hin. repeat split; trivial.
    intros _. specialize (Hstart eq_refl). lia.
  - eexists. split; [reflexivity |]. split; [| congruence].
    unfold detection_ok. cbn. repeat split; trivial. intros _. lia.
  - specialize (Hstart eq_refl).
    assert (Hhere : nth_error (pre ++ p :: rest) (length pre) = Some p).
    { rewrite nth_error_app2 by lia. now rewrite Nat.sub_diag. }
    rewrite Hhere. cbn [py.or_raise py.bind].
    destruct (nth_error (pre ++ p :: rest) (corner_start_idx st))
      as [start |] eqn:Hs.
    2: { apply nth_error_None in Hs. rewrite length_app in Hs. lia. }
    cbn [py.or_raise py.bind].
    destruct (Qleb MIN_CORNER_DURATION _).
    + set (corner_points := firstn _ _).
      assert (Hne : corner_points <> []).
      { intros Hnil. apply (f_equal (@length Point)) in Hnil.
        unfold corner_points in Hnil.
        rewrite length_firstn, length_skipn, length_app in Hnil.
        cbn [length] in Hnil. lia. }
      destruct corner_points as [| c0 ct] eqn:Hcp; [congruence |].
      cbn [min_by py.or_raise py.bind].
      eexists. split; [reflexivity |]. split; [| discriminate].
      unfold detection_ok. cbn [in_corner next_corner_id found].
      split; [discriminate |].
      rewrite length_app, map_app. cbn [length map def_corner_id].
      split; [lia |]. split.
      * rewrite Hids, Hid. rewrite Nat.add_1_r, seq_S. reflexivity.
      * apply Forall_app. split; trivial.
        constructor; [| constructor].
        unfold detected_corner. cbn [def_name def_corner_id def_corner_type].
        split; [reflexivity | apply classify_corner_speed_types].
    + eexists. split; [reflexivity |]. split; [| discriminate].
      unfold detection_ok. cbn. repeat split; trivial. discriminate.
  - exists st. split; [reflexivity |]. split; [| trivial].
    unfold detection_ok. rewrite Hin. repeat split; trivial. discriminate.
Qed.

Lemma detect_loop_ok (suf : list Point) :
  forall (pre : list Point) (st : Detection),
    detection_ok (length pre) st ->
    exists st',
      loop (detect_step (pre ++ suf))
        (combine (seq (length pre) (length suf)) suf) st = py.Ok st'
      /\ detection_ok (length pre + length suf) st'
      /\ (existsb is_turning suf = false -> in_corner st = false ->
          st' = st).
Proof.
  induction suf as [| p rest IH]; intros pre st Hst.
  - exists st. cbn [length seq combine loop]. rewrite Nat.add_0_r.
    split; [reflexivity |]. split; [exact Hst | trivial].
  - cbn [length seq combine loop].
    destruct (detect_step_ok pre p rest st Hst) as [st1 [Hstep [Hok1 Hsame1]]].
    rewrite Hstep. cbn [py.bind].
    destruct (IH (pre ++ [p]) st1) as [st' [Hloop [Hok' Hsame']]].
    { rewrite length_app. cbn [length]. now rewrite Nat.add_1_r. }
    rewrite <- app_assoc in Hloop. cbn [app] in Hloop.
    rewrite length_app in Hloop, Hok'. cbn [length] in Hloop, Hok'.
    rewrite Nat.add_1_r in Hloop.
    exists st'. split; [exact Hloop |]. split.
    + replace (length pre + S (length rest))%nat
        with (length pre + 1 + length rest)%nat by lia. exact Hok'.
    + intros Hnone Hin. cbn [existsb] in Hnone.
      apply orb_false_elim in Hnone. destruct Hnone as [Hp Hrest].
      assert (Hst1 : st1 = st) by now apply Hsame1.
      subst st1. now apply Hsame'.
Qed.

(** What [_detect_track_corners] returns. *)
Lemma detect_track_corners_ok (self : TelemetryAnalyzer)
    (reference_lap : option LapData) :
  exists self',
    _detect_track_corners self reference_lap = py.Ok self'
    /\ (forall lap,
          reference_lap = Some lap -> data_points lap <> [] ->
          map def_corner_id (track_corners self')
          = seq 1 (length (track_corners self'))
          /\ Forall detected_corner (track_corners self')
          /\ (existsb is_turning (data_points lap) = false ->
              track_corners self' = []))
    /\ ((reference_lap = None
         \/ exists lap, reference_lap = Some lap /\ data_points lap = []) ->
        self' = self).
Proof.
  unfold _detect_track_corners.
  destruct reference_lap as [lap |].
  2: { exists self. split; [reflexivity |]. split; [discriminate | trivial]. }
  destruct (data_points lap) as [| p0 rest] eqn:Hpts.
  { exists self. split; [reflexivity |]. split; [| trivial].
    intros lap' [= <-]. congruence. }
  destruct (detect_loop_ok (p0 :: rest) []
              {| in_corner := false; corner_start_idx := 0;
                 next_corner_id := 1; found := [] |})
    as [st' [Hloop [[_ [_ [Hids Hall]]] Hsame]]].
  { unfold detection_ok. cbn. repeat split; trivial; try discriminate;
      try constructor. }
  unfold enumerate. cbn [app length] in Hloop |- *.
  rewrite Hloop. cbn [py.bind].
  eexists. split; [reflexivity |]. cbn [track_corners]. split.
  - intros lap' [= <-] _. split; [exact Hids |]. split; [exact Hall |].
    rewrite Hpts. intros Hnone. now rewrite Hsame.
  - intros [Hn | [lap' [[= <-] Hempty]]]; congruence.
Qed.

(** X19.  [_detect_track_corners] never raises.  Without a reference lap,
    or with one that has no points, the track corners stay as they are.
    Otherwise the corners found are numbered 1, 2, 3, ... in their order on
    the lap, each is named after its number and has one of the four
    speed types, and a lap on which no point steers by more than 15 degrees
    or pulls more than 0.3 G has no corner. *)
Theorem detect_track_corners_total (self : TelemetryAnalyzer)
    (reference_lap : option LapData) :
  exists self',
    _detect_track_corners self reference_lap = py.Ok self'
    /\ (forall lap,
          reference_lap = Some lap -> data_points lap <> [] ->
          map def_corner_id (track_corners self')
          = seq 1 (length (track_corners self'))
          /\ Forall detected_corner (track_corners self')
          /\ (existsb is_turning (data_points lap) = false ->
              track_corners self' = []))
    /\ ((reference_lap = None
         \/ exists lap, reference_lap = Some lap /\ data_points lap = []) ->
        self' = self).
Proof. exact (detect_track_corners_ok self reference_lap). Qed.
End TrackCorners.

Section SessionAnalysis.
Import telemetry_analyzer telemetry_corners.
Local Open Scope string_scope.
Local Open Scope list_scope.
Local Open Scope Q_scope.

Lemma analyze_corners_ok (track_corners : list CornerDefinition)
    (data_points : list Point) :
  exists corners,
    analyze_corners track_corners data_points = py.Ok corners
    /\ Forall severities_in_range corners
    /\ (length corners <= length track_corners)%nat
    /\ forall c, In c corners ->
         exists d, In d track_corners /\ corner_id c = def_corner_id d.
Proof.
  induction track_corners as [| d rest IH]; cbn [analyze_corners].
  - exists []. repeat split; trivial. contradiction.
  - destruct IH as [corners [Hrest [Hall [Hlen Hids]]]].
    destruct (corner_points d data_points) as [| p0 pts].
    + exists corners. split; [exact Hrest |]. split; [exact Hall |].
      split; [cbn [length]; lia |].
      intros c Hc. destruct (Hids c Hc) as [d' [Hd' Hid]].
      exists d'. split; [now right | trivial].
    + destruct (analyze_single_corner_ok d (p0 :: pts))
        as [a [Ha [Hid [_ [_ [_ [_ [Hu [Ho [Ht _]]]]]]]]]].
      rewrite Ha, Hrest. cbn [py.bind].
      exists (a :: corners). split; [reflexivity |].
      split; [constructor; [unfold severities_in_range; tauto | exact Hall] |].
      split; [cbn [length]; lia |].
      intros c [<- | Hc].
      * exists d. split; [now left | trivial].
      * destruct (Hids c Hc) as [d' [Hd' Hid']].
        exists d'. split; [now right | trivial].
Qed.

Lemma analyze_lap_corners_ok (track_corners : list CornerDefinition)
    (lap : LapData) :
  exists corners,
    _analyze_lap_corners track_corners lap = py.Ok corners
    /\ Forall severities_in_range corners
    /\ (length corners <= length track_corners)%nat.
Proof.
  unfold _analyze_lap_corners.
  destruct track_corners as [| d rest];
    [exists []; repeat split; [constructor | cbn; lia] |].
  destruct (data_points lap) as [| p0 pts];
    [exists []; repeat split; [constructor | cbn; lia] |].
  destruct (analyze_corners_ok (d :: rest) (p0 :: pts))
    as [corners [H1 [H2 [H3 _]]]].
  exists corners. tauto.
Qed.

Lemma lap_behavior_keeps_flags (lap : LapData) :
  counts (_calculate_lap_behavior lap) = counts lap.
Proof.
  unfold _calculate_lap_behavior.
  destruct (data_points lap); [reflexivity |].
  destruct (fold_left lap_behavior_step _ _) as [[[u o] t] b]. reflexivity.
Qed.

Lemma analyze_lap_ok (self : TelemetryAnalyzer) (lap : LapData) :
  exists lap',
    analyze_lap self lap = py.Ok lap'
    /\ Forall severities_in_range (corners lap')
    /\ (length (corners lap') <= length (track_corners self))%nat
    /\ lap_time lap' = lap_time lap
    /\ counts lap' = counts lap
    /\ map point (data_points lap') = map point (data_points lap).
Proof.
  unfold analyze_lap.
  destruct (assign_phases_returns (data_points lap) [])
    as [points [Hpts [Hsame _]]]; [constructor |].
  unfold _detect_corner_phases. rewrite Hpts. cbn [py.bind].
  destruct (analyze_lap_corners_ok (track_corners self)
              (with_data_points lap points)) as [cs [Hc [Hall Hlen]]].
  rewrite Hc. cbn [py.bind].
  eexists. split; [reflexivity |].
  destruct (lap_behavior_ok
              (with_corners (with_data_points lap points) cs))
    as [_ [_ [Hd [Hcs Ht]]]].
  rewrite Hcs, Ht, Hd. cbn [corners lap_time data_points with_corners
                            with_data_points].
  split; [exact Hall |]. split; [exact Hlen |]. split; [reflexivity |].
  split; [| exact Hsame].
  rewrite lap_behavior_keeps_flags. reflexivity.
Qed.
Lemma analyze_laps_ok (self : TelemetryAnalyzer) (laps : list LapData) :
  exists laps' all_corner_analyses,
    analyze_laps self laps = py.Ok (laps', all_corner_analyses)
    /\ Forall severities_in_range all_corner_analyses
    /\ map lap_time laps' = map lap_time laps
    /\ map counts laps' = map counts laps
    /\ (length all_corner_analyses
        <= length (filter counts laps) * length (track_corners self))%nat.
Proof.
  induction laps as [| lap rest IH]; cbn [analyze_laps].
  - exists [], []. repeat split; trivial.
  - destruct IH as [rest' [all [Hrest [Hall [Htimes [Hcounts Hlen]]]]]].
    cbn [filter].
    destruct (counts lap) eqn:Hvalid.
    + destruct (analyze_lap_ok self lap)
        as [lap' [Hlap [Hsev [Hn [Ht [Hc _]]]]]].
      rewrite Hlap, Hrest. cbn [py.bind].
      exists (lap' :: rest'), (corners lap' ++ all).
      split; [reflexivity |].
      split; [apply Forall_app; tauto |].
      cbn [map]. rewrite Ht, Hc, Htimes, Hcounts, Hvalid.
      repeat split. rewrite length_app. cbn [length]. lia.
    + rewrite Hrest. cbn [py.bind].
      exists (lap :: rest'), all. split; [reflexivity |].
      split; [exact Hall |]. cbn [map]. rewrite Htimes, Hcounts.
      repeat split. exact Hlen.
Qed.

(** X20.  [analyze_session] never raises, whatever the analyzer holds and
    the session contains (and whatever [math.sqrt] returns on the numbers
    that are not negative).  The statistics it returns have their
    tendencies, balances and tyre stresses between 0 and 100, a consistency
    that is not negative, and as sample size at most one corner per track
    corner and counted lap; the session keeps its laps, their lap times and
    its best lap time; and an analyzer that already has track corners keeps
    them. *)
Theorem analyze_session_total (sqrt : Q -> Q) (self : TelemetryAnalyzer)
    (session : SessionData) :
  exists self' session' stats,
    analyze_session sqrt self session = py.Ok (self', session', stats)
    /\ statistics_in_range stats
    /\ (sample_size stats
        <= length (valid_laps session) * length (track_corners self'))%nat
    /\ map lap_time (laps session') = map lap_time (laps session)
    /\ best_lap_time session' = best_lap_time session
    /\ (track_corners self <> [] -> self' = self).
Proof.
  unfold analyze_session.
  assert (Hdetect : exists self',
    match track_corners self, valid_laps session with
    | [], _ :: _ => _detect_track_corners self (best_valid_lap session)
    | _, _ => py.Ok self
    end = py.Ok self'
    /\ (track_corners self <> [] -> self' = self)).
  { destruct (track_corners self) as [| d ds] eqn:Hd.
    - destruct (valid_laps session) as [| l ls].
      + exists self. split; [reflexivity | trivial].
      + destruct (detect_track_corners_ok self (best_valid_lap session))
          as [self' [Hs _]].
        exists self'. split; [exact Hs | congruence].
    - exists self. split; [reflexivity | trivial]. }
  destruct Hdetect as [self' [-> Hkeep]]. cbn [py.bind].
  destruct (analyze_laps_ok self' (laps session))
    as [laps' [all [-> [Hall [Htimes [_ Hlen]]]]]].
  cbn [py.bind].
  destruct (behavior_statistics_ok sqrt
              {| session_id := session_id session; laps := laps';
                 best_lap_time := best_lap_time session |} all Hall)
    as [stats [-> [Hrange Hsize]]].
  cbn [py.bind].
  exists self', {| session_id := session_id session; laps := laps';
                   best_lap_time := best_lap_time session |}, stats.
  split; [reflexivity |]. split; [exact Hrange |].
  split; [rewrite Hsize; exact Hlen |].
  split; [exact Htimes |]. split; [reflexivity | exact Hkeep].
Qed.
End SessionAnalysis.

Section CornerRuns.
Import telemetry_analyzer telemetry_corners.
Local Open Scope string_scope.
Local Open Scope list_scope.
Local Open Scope Q_scope.

(** The analysis of a slow left-hander in which the car understeers. *)
Definition pushing_corner : CornerAnalysis :=
  {| corner_id := 1; corner_name := 1; corner_type := SLOW;
     direction := LEFT;
     start_distance := 100; apex_distance := 150; end_distance := 200;
     entry_speed := 120; min_speed := 70; apex_speed := 70;
     exit_speed := 110;
     brake_point_distance := 100; brake_pressure_max := 80;
     brake_duration := 1.5; trail_brake_duration := 0.5;
     understeer_detected := true; understeer_severity := 40;
     understeer_phase := Some TURN_IN;
     oversteer_detected := false; oversteer_severity := 0;
     oversteer_phase := None;
     traction_loss_detected := false; traction_loss_severity := 0;
     tire_temp_front_avg := 92; tire_temp_rear_avg := 85;
     slip_angle_front_max := 14; slip_angle_rear_max := 4;
     time_through_corner := 4; theoretical_time := 0; time_loss := 0;
     max_lat_g := 1.4; max_brake_g := 1.1; max_accel_g := 0.4 |}.

Lemma phase_balance_range_witness :
  0 <= _calculate_phase_balance [pushing_corner] <= 100
  /\ (py.sum (map oversteer_severity [pushing_corner]) == 0 ->
      _calculate_phase_balance [pushing_corner] <= 50)
  /\ (py.sum (map understeer_severity [pushing_corner]) == 0 ->
      50 <= _calculate_phase_balance [pushing_corner])
  /\ _calculate_phase_balance [] = 50.
Proof.
  apply (phase_balance_range [pushing_corner]).
  constructor; [| constructor].
  unfold severities_in_range. cbn. repeat split; discriminate.
Defined.

(** That corner alone has the balance 30. *)
Example pushing_corner_balance :
  _calculate_phase_balance [pushing_corner] == 30.
Proof. reflexivity. Qed.
End CornerRuns.

(* ================================================================== *)
(** * The rule engine: order of the diagnostics and the default rules *)
(* ================================================================== *)

Section RuleEngineOrder.
Import entities rules.
Local Open Scope string_scope.
Local Open Scope list_scope.

(** The order of the sort keys [(severity_order, priority)]. *)
Definition key_le (a b : Diagnostic) : Prop :=
  (severity_order (severity a) < severity_order (severity b))%Z
  \/ (severity_order (severity a) = severity_order (severity b)
      /\ (priority a <= priority b)%Z).

(** X21.  [RuleEngine.evaluate] returns exactly the diagnostics that the
    registered rules produce, each as often as it is produced, in ascending
    order of (severity rank, priority): a critical diagnostic is never
    behind one of another severity. *)
Theorem rule_engine_evaluate_order (engine : RuleEngine)
    (context : RuleContext) :
  Permutation (engine_evaluate engine context)
    (py.filter_map (fun rule => evaluate rule context) (engine_rules engine))
  /\ StronglySorted key_le (engine_evaluate engine context)
  /\ (length (engine_evaluate engine context)
      <= length (engine_rules engine))%nat.
Proof.
  unfold engine_evaluate. split; [apply sorted_perm |]. split.
  - apply sorted_sorted.
    + intros a b c Hab Hbc. unfold key_le in *. lia.
    + intros y x H. unfold sort_key_ltb in H. unfold key_le.
      apply orb_prop in H. destruct H as [H | H].
      * apply Z.ltb_lt in H. now left.
      * apply andb_prop in H. destruct H as [H1 H2].
        apply Z.eqb_eq in H1. apply Z.ltb_lt in H2. right. lia.
    + intros y x H. unfold sort_key_ltb in H. unfold key_le.
      apply orb_false_elim in H. destruct H as [H1 H2].
      apply Z.ltb_ge in H1. apply andb_false_elim in H2.
      destruct H2 as [H2 | H2].
      * apply Z.eqb_neq in H2. left. lia.
      * apply Z.ltb_ge in H2.
        destruct (Z.eq_dec (severity_order (severity x))
                    (severity_order (severity y))) as [E | E];
          [right; lia | left; lia].
  - rewrite sorted_length.
    induction (engine_rules engine) as [| r t IH]; cbn [py.filter_map length];
      [lia |].
    destruct (evaluate r context); cbn [length]; lia.
Qed.
End RuleEngineOrder.

Section DefaultRules.
Import entities rules.
Local Open Scope string_scope.
Local Open Scope list_scope.
Local Open Scope R_scope.

Lemma add_recommendations_fields (recs : list ParameterRecommendation) :
  forall diag : Diagnostic,
    NoDup (affected_parameters diag) ->
    (forall p, In p (affected_parameters diag)
               <-> In p (map parameter (recommendations diag))) ->
    let diag' := fold_left add_recommendation recs diag in
    title diag' = title diag
    /\ severity diag' = severity diag
    /\ problem_type diag' = problem_type diag
    /\ confidence diag' = confidence diag
    /\ priority diag' = priority diag
    /\ recommendations diag' = recommendations diag ++ recs
    /\ NoDup (affected_parameters diag')
    /\ (forall p, In p (affected_parameters diag')
                  <-> In p (map parameter (recommendations diag'))).
Proof.
  induction recs as [| r t IH]; intros diag Hnd Hsame; cbn [fold_left].
  - cbv zeta. rewrite app_nil_r. repeat split; trivial; apply Hsame.
  - destruct (IH (add_recommendation diag r))
      as [H1 [H2 [H3 [H4 [H5 [H6 [H7 H8]]]]]]].
    + cbn [add_recommendation affected_parameters].
      destruct (existsb _ _) eqn:E; trivial.
      apply NoDup_app; [trivial | repeat constructor; intros [] |].
      intros p Hp [<- | []].
      assert (Hex : existsb (String.eqb (parameter r))
                      (affected_parameters diag) = true).
      { apply existsb_exists. exists (parameter r). split; trivial.
        apply String.eqb_refl. }
      congruence.
    + intros p. cbn [add_recommendation affected_parameters recommendations].
      rewrite map_app, in_app_iff. cbn [map In].
      destruct (existsb _ _) eqn:E.
      * rewrite Hsame. split; [tauto |]. intros [H | [<- | []]]; trivial.
        apply existsb_exists in E. destruct E as [q [Hq Heq]].
        apply String.eqb_eq in Heq. subst q. now apply Hsame.
      * rewrite in_app_iff. cbn [In]. rewrite Hsame. tauto.
    + cbv zeta. split; [exact H1 |]. split; [exact H2 |].
      split; [exact H3 |]. split; [exact H4 |]. split; [exact H5 |].
      split; [| split; [exact H7 | exact H8]].
      rewrite H6. cbn [add_recommendation recommendations].
      now rewrite <- app_assoc.
Qed.

(** What [create_diagnostic] builds for any rule class. *)
Lemma create_diagnostic_fields (self : RuleClass) (context : RuleContext) :
  let diag := create_diagnostic self context in
  title diag = rule_name self
  /\ severity diag = rule_severity self
  /\ problem_type diag = rule_problem_type self
  /\ confidence diag = 0.8
  /\ priority diag = 1%Z
  /\ recommendations diag = get_recommendations self context
  /\ NoDup (affected_parameters diag)
  /\ (forall p, In p (affected_parameters diag)
                <-> In p (map parameter (recommendations diag))).
Proof.
  unfold create_diagnostic.
  match goal with
  | |- context [fold_left add_recommendation ?recs ?d] =>
      destruct (add_recommendations_fields recs d)
        as [H1 [H2 [H3 [H4 [H5 [H6 [H7 H8]]]]]]]
  end.
  - constructor.
  - intros p. cbn. tauto.
  - cbv zeta in *. split; [exact H1 |]. split; [exact H2 |].
    split; [exact H3 |]. split; [exact H4 |]. split; [exact H5 |].
    split; [exact H6 |]. split; [exact H7 | exact H8].
Qed.

(** A recommendation as the default rules write them. *)
Definition sound_recommendation (r : ParameterRecommendation) : Prop :=
  0 < rec_confidence r <= 1
  /\ In (change_direction r) ["increase"; "decrease"; "increase negative"].

(** A diagnostic as the default rules produce them. *)
Definition sound_diagnostic (d : Diagnostic) : Prop :=
  (severity d = CRITICAL \/ severity d = WARNING)
  /\ confidence d = 0.8
  /\ priority d = 1%Z
  /\ problem_type d <> None
  /\ NoDup (affected_parameters d)
  /\ (forall p, In p (affected_parameters d)
                <-> In p (map parameter (recommendations d)))
  /\ Forall sound_recommendation (recommendations d).

Ltac sound_recs :=
  match goal with
  | |- Forall sound_recommendation (?f ?context) =>
      unfold f; cbv zeta;
      destruct (suspension (setup context));
      destruct (brakes (setup context));
      destruct (differential (setup context));
      destruct (aero (setup context));
      repeat match goal with
             | |- context [if ?c then _ else _] => destruct c
             end;
      cbn [app];
      repeat (apply Forall_cons; [split; cbn; [lra | tauto] |]);
      try apply Forall_nil
  end.

Lemma default_recommendations_sound (rule : Rule) (context : RuleContext) :
  In rule (engine_rules create_default_engine) ->
  Forall sound_recommendation (get_recommendations (class rule) context).
Proof.
  cbv [create_default_engine register_rules engine_rules app].
  intros [<- | [<- | [<- | [<- | [<- | [<- | [<- | [<- | [<- | [<- | []]]]]]]]]]];
    cbn [class get_recommendations
         UndersterrEntryRule UndersterrMidRule OversteerEntryRule
         OversteerMidRule OversteerExitRule WheelspinRule PowerOversteerRule
         FrontLockupRule RearLockupRule BrakingInstabilityRule
         UndersterrEntryRule_class UndersterrMidRule_class
         OversteerEntryRule_class OversteerMidRule_class
         OversteerExitRule_class WheelspinRule_class PowerOversteerRule_class
         FrontLockupRule_class RearLockupRule_class
         BrakingInstabilityRule_class];
    sound_recs.
Qed.

Ltac default_rule_cases H :=
  cbv [create_default_engine register_rules engine_rules app] in H;
  destruct H as [<- | [<- | [<- | [<- | [<- | [<- | [<- | [<- | [<- | [<- | []]]]]]]]]]];
  cbn [class evaluate get_recommendations
       UndersterrEntryRule UndersterrMidRule OversteerEntryRule
       OversteerMidRule OversteerExitRule WheelspinRule PowerOversteerRule
       FrontLockupRule RearLockupRule BrakingInstabilityRule] in *.

(** What a default rule returns when it fires. *)
Lemma default_rule_diagnostic (rule : Rule) (context : RuleContext)
    (d : Diagnostic) :
  In rule (engine_rules create_default_engine) ->
  evaluate rule context = Some d ->
  sound_diagnostic d
  /\ title d = rule_name (class rule)
  /\ problem_type d = rule_problem_type (class rule)
  /\ description d <> "".
Proof.
  intros Hin Hev.
  pose proof (default_recommendations_sound rule context Hin) as Hrecs.
  destruct (create_diagnostic_fields (class rule) context)
    as [H1 [H2 [H3 [H4 [H5 [H6 [H7 H8]]]]]]].
  rewrite <- H6 in Hrecs.
  default_rule_cases Hin;
    cbv [UndersterrEntryRule_evaluate UndersterrMidRule_evaluate
         OversteerEntryRule_evaluate OversteerMidRule_evaluate
         OversteerExitRule_evaluate WheelspinRule_evaluate
         PowerOversteerRule_evaluate FrontLockupRule_evaluate
         RearLockupRule_evaluate BrakingInstabilityRule_evaluate] in Hev;
    match type of Hev with
    | (if ?c then _ else _) = _ => destruct c; [| discriminate Hev]
    end;
    injection Hev as <-;
    unfold sound_diagnostic;
    cbn [set_description set_severity title description severity
         problem_type confidence priority recommendations
         affected_parameters];
    rewrite ?H2, ?H3;
    cbn [rule_severity rule_problem_type rule_name
         UndersterrEntryRule_class UndersterrMidRule_class
         OversteerEntryRule_class OversteerMidRule_class
         OversteerExitRule_class WheelspinRule_class PowerOversteerRule_class
         FrontLockupRule_class RearLockupRule_class
         BrakingInstabilityRule_class] in *;
    (split; [split; [auto | split; [exact H4 | split; [exact H5 |
       split; [discriminate | split; [exact H7 | split; [exact H8 |
       exact Hrecs]]]]]] |
     split; [exact H1 | split; [reflexivity | discriminate]]]).
Qed.

(** Without feedback no default rule fires. *)
Lemma default_rule_silent (rule : Rule) (context : RuleContext) :
  In rule (engine_rules create_default_engine) ->
  driver_feedback context = "" ->
  evaluate rule context = None.
Proof.
  intros Hin Hfb.
  default_rule_cases Hin;
    cbv [UndersterrEntryRule_evaluate UndersterrMidRule_evaluate
         OversteerEntryRule_evaluate OversteerMidRule_evaluate
         OversteerExitRule_evaluate WheelspinRule_evaluate
         PowerOversteerRule_evaluate FrontLockupRule_evaluate
         RearLockupRule_evaluate BrakingInstabilityRule_evaluate];
    rewrite Hfb; reflexivity.
Qed.

(** X22.  Whatever the setup and the driver feedback, every diagnostic of
    the default engine is a warning or critical, keeps the default
    confidence 0.8 and priority 1, carries a problem type and a description,
    lists each recommended parameter exactly once among its affected
    parameters, and its recommendations have a confidence in (0, 1] and one
    of the directions "increase", "decrease", "increase negative".  With an
    empty feedback the engine returns nothing. *)
Theorem default_engine_diagnostics (context : RuleContext) :
  Forall (fun d => sound_diagnostic d /\ description d <> "")
    (engine_evaluate create_default_engine context)
  /\ (driver_feedback context = "" ->
      engine_evaluate create_default_engine context = []).
Proof.
  split.
  - apply Forall_forall. intros d Hd.
    apply engine_evaluate_In in Hd. destruct Hd as [rule [Hin Hev]].
    destruct (default_rule_diagnostic rule context d Hin Hev)
      as [Hs [_ [_ Hdesc]]].
    now split.
  - intros Hfb.
    destruct (engine_evaluate create_default_engine context) as [| d t] eqn:E;
      trivial.
    assert (Hd : In d (engine_evaluate create_default_engine context))
      by (rewrite E; now left).
    apply engine_evaluate_In in Hd. destruct Hd as [rule [Hin Hev]].
    rewrite (default_rule_silent rule context Hin Hfb) in Hev.
    discriminate Hev.
Qed.

(** X23.  [evaluate_for_problem] returns only diagnostics that [evaluate]
    returns too, for any engine; with the default rules it returns at most
    one diagnostic, and that one has the problem type asked for. *)
Theorem evaluate_for_problem_selects (engine : RuleEngine)
    (context : RuleContext) (pt : ProblemType) :
  Forall (fun d => In d (engine_evaluate engine context))
    (evaluate_for_problem engine context pt)
  /\ Forall (fun d => problem_type d = Some pt)
       (evaluate_for_problem create_default_engine context pt)
  /\ (length (evaluate_for_problem create_default_engine context pt)
      <= 1)%nat.
Proof.
  split; [| split].
  - apply Forall_forall. intros d Hd.
    apply filter_map_In in Hd. destruct Hd as [rule [Hin Hev]].
    apply engine_evaluate_In. exists rule. split; trivial.
    destruct (rule_problem_type (class rule)) as [p |]; [| discriminate Hev].
    destruct (ProblemType_beq p pt); [trivial | discriminate Hev].
  - apply Forall_forall. intros d Hd.
    apply filter_map_In in Hd. destruct Hd as [rule [Hin Hev]].
    destruct (rule_problem_type (class rule)) as [p |] eqn:Hp;
      [| discriminate Hev].
    destruct (ProblemType_beq p pt) eqn:Hb; [| discriminate Hev].
    apply internal_ProblemType_dec_bl in Hb. subst p.
    destruct (default_rule_diagnostic rule context d Hin Hev)
      as [_ [_ [Hpt _]]].
    congruence.
  - unfold evaluate_for_problem.
    cbv [create_default_engine register_rules engine_rules app].
    destruct pt;
      cbn [py.filter_map class rule_problem_type ProblemType_beq
           UndersterrEntryRule UndersterrMidRule OversteerEntryRule
           OversteerMidRule OversteerExitRule WheelspinRule
           PowerOversteerRule FrontLockupRule RearLockupRule
           BrakingInstabilityRule
           UndersterrEntryRule_class UndersterrMidRule_class
           OversteerEntryRule_class OversteerMidRule_class
           OversteerExitRule_class WheelspinRule_class
           PowerOversteerRule_class FrontLockupRule_class
           RearLockupRule_class BrakingInstabilityRule_class];
      try match goal with
          | |- context [match ?e with Some _ => _ | None => _ end] =>
              destruct e
          end;
      cbn [length]; lia.
Qed.
End DefaultRules.

(* ================================================================== *)
(** * The order of binary64 numbers *)
(* ================================================================== *)

Section FloatOrder.
Import PrimFloat SpecFloat FloatOps FloatAxioms.

(** [<] on the specification of the floats is asymmetric, and on numbers
    (everything but NaN) its negation is transitive. *)
Lemma SFltb_asym (x y : spec_float) : SFltb x y = true -> SFltb y x = false.
Proof.
  unfold SFltb.
  destruct x as [sx | sx | | sx mx ex], y as [sy | sy | | sy my ey];
    cbn [SFcompare]; try destruct sx; try destruct sy;
    try discriminate; try reflexivity.
  - rewrite (Z.compare_antisym ey ex).
    destruct (ey ?= ex)%Z eqn:E; cbn [CompOpp]; try discriminate;
      try reflexivity.
    change (Pcompare mx my Eq) with (Pos.compare mx my).
    change (Pcompare my mx Eq) with (Pos.compare my mx).
    rewrite (Pos.compare_antisym my mx).
    destruct (my ?= mx)%positive; cbn [CompOpp]; try discriminate;
      reflexivity.
  - rewrite (Z.compare_antisym ey ex).
    destruct (ey ?= ex)%Z eqn:E; cbn [CompOpp]; try discriminate;
      try reflexivity.
    change (Pcompare mx my Eq) with (Pos.compare mx my).
    change (Pcompare my mx Eq) with (Pos.compare my mx).
    rewrite (Pos.compare_antisym my mx).
    destruct (my ?= mx)%positive; cbn [CompOpp]; try discriminate;
      reflexivity.
Qed.

Lemma SFltb_negtrans (x y z : spec_float) :
  y <> S754_nan ->
  SFltb x y = false -> SFltb y z = false -> SFltb x z = false.
Proof.
  unfold SFltb.
  destruct x as [sx | sx | | sx mx ex], y as [sy | sy | | sy my ey],
    z as [sz | sz | | sz mz ez];
    cbn [SFcompare]; try destruct sx; try destruct sy; try destruct sz;
    try discriminate; try reflexivity; try congruence;
    intros _;
    change (Pcompare mx my Eq) with (Pos.compare mx my);
    change (Pcompare my mz Eq) with (Pos.compare my mz);
    change (Pcompare mx mz Eq) with (Pos.compare mx mz);
    destruct (Z.compare_spec ex ey), (Z.compare_spec ey ez),
      (Z.compare_spec ex ez);
    try lia; try discriminate; try reflexivity; subst;
    destruct (Pos.compare_spec mx my), (Pos.compare_spec my mz),
      (Pos.compare_spec mx mz);
    cbn [CompOpp]; try lia; try discriminate; try reflexivity.
Qed.

(** A float that is a number: not NaN. *)
Definition number (x : PrimFloat.float) : Prop :=
  Prim2SF x <> S754_nan.

Lemma ltb_asym (x y : PrimFloat.float) :
  PrimFloat.ltb x y = true -> PrimFloat.ltb y x = false.
Proof. rewrite !ltb_spec. apply SFltb_asym. Qed.

Lemma ltb_negtrans (x y z : PrimFloat.float) :
  number y ->
  PrimFloat.ltb x y = false -> PrimFloat.ltb y z = false ->
  PrimFloat.ltb x z = false.
Proof. rewrite !ltb_spec. apply SFltb_negtrans. Qed.

Lemma ltb_number (x y : PrimFloat.float) :
  PrimFloat.ltb x y = true -> number x /\ number y.
Proof.
  rewrite ltb_spec. unfold number, SFltb.
  destruct (Prim2SF x), (Prim2SF y); cbn [SFcompare];
    try discriminate; intros _; split; discriminate.
Qed.

Lemma number_100 : number 100%float.
Proof. unfold number. vm_compute. discriminate. Qed.
End FloatOrder.

Section SortedOn.
Context {A : Type} (before : A -> A -> bool).
Variable R : A -> A -> Prop.
Variable P : A -> Prop.
Hypothesis R_trans : forall a b c, P b -> R a b -> R b c -> R a c.
Hypothesis before_true : forall y x, before y x = true -> R y x.
Hypothesis before_false : forall y x, before y x = false -> R x y.

(** The stable sort sorts for an order that is transitive through the
    elements of the list. *)
Lemma insert_sorted_on (x : A) (l : list A) :
  Forall P l ->
  StronglySorted R l -> StronglySorted R (py.insert before x l).
Proof.
  intros HP. induction 1 as [| y t Ht IH Hy]; simpl.
  - constructor; [constructor | constructor].
  - inversion HP as [| ? ? Py Pt]; subst.
    destruct (before y x) eqn:E.
    + constructor; [now apply IH |].
      apply Forall_forall. intros z Hz.
      apply (Permutation_in _ (insert_perm before x t)) in Hz.
      destruct Hz as [<- | Hz].
      * now apply before_true.
      * rewrite Forall_forall in Hy. now apply Hy.
    + constructor.
      * now constructor.
      * constructor.
        -- now apply before_false.
        -- rewrite Forall_forall in *. intros z Hz.
           apply R_trans with y; [exact Py | now apply before_false
                                 | now apply Hy].
Qed.

Lemma sorted_sorted_on (l : list A) :
  Forall P l -> StronglySorted R (py.sorted before l).
Proof.
  induction l as [| x t IH]; simpl; intros HP.
  - constructor.
  - inversion HP as [| ? ? Px Pt]; subst.
    apply insert_sorted_on; [| now apply IH].
    apply Forall_forall. intros z Hz.
    apply (proj1 (sorted_In before t z)) in Hz.
    rewrite Forall_forall in Pt. now apply Pt.
Qed.
End SortedOn.

(* ================================================================== *)
(** * The correlator on binary64 numbers: what it returns when it returns *)
(* ================================================================== *)

(** On binary64 numbers [analyze_correlations] can raise (the section on
    rounding and the guard above), so what follows is about the calls that
    return, whatever the numbers are: rounded or not, infinite or NaN. *)

Section Binary64Ranges.
Import PrimFloat binary64 binary64_reports.
Local Open Scope string_scope.
Local Open Scope list_scope.

(** The range [_update_parameter_ranges] creates for a new name, and the
    range after the four assignments that record a value. *)
Definition fresh_range64 (name : string) (value : float) : ParameterRange :=
  {| parameter_name := name; min_value := value; max_value := value;
     optimal_value := None; values := []; lap_times := [] |}.

Definition recorded64 (range_obj : ParameterRange)
    (value best_lap_time : float) : ParameterRange :=
  {| parameter_name := parameter_name range_obj;
     min_value := min (min_value range_obj) value;
     max_value := max (max_value range_obj) value;
     optimal_value := optimal_value range_obj;
     values := values range_obj ++ [value];
     lap_times := lap_times range_obj ++ [best_lap_time] |}.

Lemma update_range_get64 (best_lap_time : float)
    (ranges : list (string * ParameterRange)) (n : string) (v : float)
    (name : string) :
  py.dict_get String.eqb (update_range best_lap_time ranges (n, v)) name
  = if String.eqb name n then
      Some (recorded64
              (match py.dict_get String.eqb ranges n with
               | Some r => r
               | None => fresh_range64 n v
               end) v best_lap_time)
    else py.dict_get String.eqb ranges name.
Proof.
  unfold update_range, py.dict_mem.
  destruct (py.dict_get String.eqb ranges n) as [r |] eqn:E.
  - rewrite E. destruct (String.eqb name n) eqn:En.
    + apply String.eqb_eq in En. subst.
      apply (dict_get_set_same String.eqb String.eqb_eq).
    + apply (dict_get_set_other String.eqb String.eqb_eq).
      intros ->. rewrite String.eqb_refl in En. discriminate.
  - rewrite (dict_get_set_same String.eqb String.eqb_eq).
    destruct (String.eqb name n) eqn:En.
    + apply String.eqb_eq in En. subst.
      apply (dict_get_set_same String.eqb String.eqb_eq).
    + assert (Hne : name <> n)
        by (intros ->; rewrite String.eqb_refl in En; discriminate).
      now rewrite !(dict_get_set_other String.eqb String.eqb_eq) by trivial.
Qed.

Lemma update_range_NoDup64 (best_lap_time : float)
    (ranges : list (string * ParameterRange)) (item : string * float) :
  NoDup (py.keys ranges) ->
  NoDup (py.keys (update_range best_lap_time ranges item)).
Proof.
  intros H. destruct item as [n v]. unfold update_range.
  set (ranges1 := if py.dict_mem String.eqb ranges n then ranges else _).
  assert (H1 : NoDup (py.keys ranges1)).
  { subst ranges1. destruct (py.dict_mem String.eqb ranges n); trivial.
    now apply (dict_set_NoDup String.eqb String.eqb_eq). }
  destruct (py.dict_get String.eqb ranges1 n); trivial.
  now apply (dict_set_NoDup String.eqb String.eqb_eq).
Qed.

(** The invariant of the entries of [parameter_ranges]: as many lap times
    as values. *)
Definition paired (ranges : list (string * ParameterRange)) : Prop :=
  forall name rng,
    py.dict_get String.eqb ranges name = Some rng ->
    length (values rng) = length (lap_times rng).

(** The number of values recorded under [name]. *)
Definition recorded_count64 (ranges : list (string * ParameterRange))
    (name : string) : nat :=
  match py.dict_get String.eqb ranges name with
  | Some r => length (values r)
  | None => 0
  end.

Lemma update_range_paired (best_lap_time : float)
    (ranges : list (string * ParameterRange)) (item : string * float) :
  paired ranges -> paired (update_range best_lap_time ranges item).
Proof.
  intros H name rng. destruct item as [n v]. rewrite update_range_get64.
  destruct (String.eqb name n).
  - intros [= <-]. cbn [recorded64 values lap_times].
    rewrite !length_app. cbn [length].
    destruct (py.dict_get String.eqb ranges n) as [r |] eqn:E.
    + now rewrite (H n r E).
    + reflexivity.
  - apply H.
Qed.

Lemma update_range_count64 (best_lap_time : float)
    (ranges : list (string * ParameterRange)) (item : string * float)
    (name : string) :
  recorded_count64 (update_range best_lap_time ranges item) name
  = (recorded_count64 ranges name
     + if String.eqb name (fst item) then 1 else 0)%nat.
Proof.
  destruct item as [n v]. unfold recorded_count64. rewrite update_range_get64.
  cbn [fst]. destruct (String.eqb name n) eqn:En.
  - apply String.eqb_eq in En. subst.
    destruct (py.dict_get String.eqb ranges n);
      cbn [recorded64 values fresh_range64]; rewrite length_app;
      cbn [length]; lia.
  - lia.
Qed.

(** The number of the calls whose parameters have [name]. *)
Definition appearances64 (name : string)
    (calls : list (list (string * float) * float)) : nat :=
  length (filter (fun call => py.dict_mem String.eqb (fst call) name) calls).

Lemma appearances64_le (name : string)
    (calls : list (list (string * float) * float)) :
  (appearances64 name calls <= length calls)%nat.
Proof. unfold appearances64. apply filter_length_le. Qed.

Lemma update_ranges_fold64 (best_lap_time : float)
    (items : list (string * float)) :
  forall ranges : list (string * ParameterRange),
    NoDup (py.keys ranges) -> paired ranges ->
    let ranges' := fold_left (update_range best_lap_time) items ranges in
    NoDup (py.keys ranges') /\ paired ranges'
    /\ forall name,
         recorded_count64 ranges' name
         = (recorded_count64 ranges name
            + length (filter (fun item => String.eqb name (fst item)) items))%nat.
Proof.
  induction items as [| item t IH]; intros ranges Hnd Hok; cbv zeta;
    cbn [fold_left].
  - split; [trivial | split; [trivial |]].
    intros name. cbn. lia.
  - destruct (IH (update_range best_lap_time ranges item)) as [H1 [H2 H3]].
    + now apply update_range_NoDup64.
    + now apply update_range_paired.
    + split; [trivial | split; [trivial |]]. intros name.
      rewrite H3, update_range_count64. cbn [filter].
      destruct (String.eqb name (fst item)); cbn [length]; lia.
Qed.

Lemma key_count (name : string) (items : list (string * float)) :
  NoDup (py.keys items) ->
  length (filter (fun item => String.eqb name (fst item)) items)
  = if py.dict_mem String.eqb items name then 1%nat else 0%nat.
Proof.
  unfold py.dict_mem.
  induction items as [| [k v] t IH]; intros H; cbn [filter py.dict_get fst];
    trivial.
  inversion H as [| ? ? Hk Ht]; subst.
  destruct (String.eqb name k) eqn:E; cbn [length].
  - apply String.eqb_eq in E. subst k. rewrite (IH Ht).
    apply (dict_get_none String.eqb String.eqb_eq) in Hk. now rewrite Hk.
  - now apply IH.
Qed.

(** The state of the correlator after any sequence of [add_session] calls
    whose parameters are dicts (no key twice). *)
Lemma after_sessions_invariant64
    (calls : list (list (string * float) * float)) :
  Forall (fun call => NoDup (py.keys (fst call))) calls ->
  let self := after_sessions calls in
  NoDup (py.keys (parameter_ranges self))
  /\ paired (parameter_ranges self)
  /\ length (sessions self) = length calls
  /\ forall name,
       recorded_count64 (parameter_ranges self) name
       = appearances64 name calls.
Proof.
  intros Hcalls. unfold after_sessions.
  assert (Hgen : forall self : SetupCorrelator,
            NoDup (py.keys (parameter_ranges self)) ->
            paired (parameter_ranges self) ->
            let self' :=
              fold_left
                (fun self call => add_session self (fst call) (snd call))
                calls self in
            NoDup (py.keys (parameter_ranges self'))
            /\ paired (parameter_ranges self')
            /\ length (sessions self')
               = (length (sessions self) + length calls)%nat
            /\ forall name,
                 recorded_count64 (parameter_ranges self') name
                 = (recorded_count64 (parameter_ranges self) name
                    + appearances64 name calls)%nat).
  { induction Hcalls as [| [params t] rest Hd _ IH]; intros self Hnd Hok;
      cbv zeta; cbn [fold_left fst snd].
    - split; [trivial | split; [trivial | split; [cbn; lia |]]].
      intros name. cbn. lia.
    - destruct (update_ranges_fold64 t params (parameter_ranges self) Hnd Hok)
        as [H1 [H2 H3]].
      destruct (IH (add_session self params t) H1 H2) as [H4 [H5 [H6 H7]]].
      split; [trivial | split; [trivial | split]].
      + rewrite H6. cbn [add_session sessions]. rewrite length_app.
        cbn [length]. lia.
      + intros name. rewrite H7.
        cbn [add_session parameter_ranges]. unfold _update_parameter_ranges.
        rewrite H3, (key_count name params Hd).
        unfold appearances64. cbn [filter fst].
        destruct (py.dict_mem String.eqb params name); cbn [length]; lia. }
  destruct (Hgen __init__) as [H1 [H2 [H3 H4]]].
  - constructor.
  - intros name rng H. discriminate H.
  - cbv zeta. split; [trivial | split; [trivial | split]].
    + exact H3.
    + intros name. apply H4.
Qed.
End Binary64Ranges.

Section Binary64Correlations.
Import PrimFloat binary64 binary64_reports.
Local Open Scope string_scope.
Local Open Scope list_scope.
Local Open Scope float_scope.
Local Set Warnings "-inexact-float".

Variable log2 : float -> float.

(** A confidence is capped: it is 100 or a number below 100. *)
Definition capped (x : float) : Prop := x = 100 \/ PrimFloat.ltb x 100 = true.

Lemma min_100_capped (x : float) : capped (min 100 x).
Proof.
  unfold capped, min. destruct (PrimFloat.ltb x 100) eqn:E; auto.
Qed.

Lemma capped_number (x : float) : capped x -> number x.
Proof.
  intros [-> | H]; [apply number_100 | now apply ltb_number in H].
Qed.

(** A correlation as [_calculate_parameter_correlation] builds it from the
    range [rng]. *)
Definition correlation_of64 (rng : ParameterRange) (c : SetupCorrelation)
    : Prop :=
  (2 <= length (values rng))%nat
  /\ py.last_opt (values rng) = Some (parameter_value c)
  /\ sample_count c = length (values rng)
  /\ balance_correlation c = 0
  /\ tire_wear_correlation c = 0
  /\ confidence c
     = min 100 (abs (lap_time_correlation c) * 100
                * log2 (of_nat (length (values rng)) + 1))
  /\ ((PrimFloat.ltb (abs (lap_time_correlation c)) 0.3 = true
       /\ suggested_direction c = "optimal"
       /\ suggested_change c = 0)
      \/ (PrimFloat.ltb (abs (lap_time_correlation c)) 0.3 = false
          /\ PrimFloat.ltb (lap_time_correlation c) 0 = true
          /\ suggested_direction c = "increase"
          /\ suggested_change c
             = (max_value rng - parameter_value c) * 0.5)
      \/ (PrimFloat.ltb (abs (lap_time_correlation c)) 0.3 = false
          /\ PrimFloat.ltb (lap_time_correlation c) 0 = false
          /\ suggested_direction c = "decrease"
          /\ suggested_change c
             = (parameter_value c - min_value rng) * 0.5)).

(** The value that [_calculate_parameter_correlation] assigns to
    [optimal_value]: the one recorded with the best lap time, at the first
    position of that lap time. *)
Definition best_value_of64 (rng : ParameterRange) (best : float) : Prop :=
  exists i fastest,
    min_list (lap_times rng) = Some fastest
    /\ index (lap_times rng) fastest = Some i
    /\ nth_error (values rng) i = Some best.

(** What [_calculate_parameter_correlation] returns when it returns. *)
Lemma calculate_parameter_correlation_fields64 (param_name : string)
    (rng rng' : ParameterRange) (o : option SetupCorrelation) :
  _calculate_parameter_correlation log2 param_name rng = py.Ok (rng', o) ->
  (o = None /\ rng' = rng)
  \/ exists c best,
       o = Some c
       /\ rng' = with_optimal_value rng best
       /\ corr_parameter_name c = param_name
       /\ correlation_of64 rng c
       /\ best_value_of64 rng best.
Proof.
  unfold _calculate_parameter_correlation.
  destruct (length (values rng) <? 2)%nat eqn:Hn.
  { intros [= <- <-]. now left. }
  apply Nat.ltb_ge in Hn.
  match goal with
  | |- context [sqrt ?x] => destruct (sqrt x) as [denominator | e]
  end; cbn [py.bind]; [| discriminate].
  destruct (PrimFloat.eqb denominator 0).
  { intros [= <- <-]. now left. }
  destruct (py.last_opt (values rng)) as [current |] eqn:Hlast;
    cbn [py.bind py.or_raise]; [| discriminate].
  set (correlation := _ / denominator).
  destruct (PrimFloat.ltb (abs correlation) 0.3) eqn:Hsmall;
    [| destruct (PrimFloat.ltb correlation 0) eqn:Hneg];
    (destruct (min_list (lap_times rng)) as [fastest |] eqn:Hmin;
       cbn [py.bind py.or_raise]; [| discriminate]);
    (destruct (index (lap_times rng) fastest) as [i |] eqn:Hi;
       cbn [py.bind py.or_raise]; [| discriminate]);
    (destruct (nth_error (values rng) i) as [best |] eqn:Hnth;
       cbn [py.bind py.or_raise]; [| discriminate]);
    intros [= <- <-]; right;
    (assert (Hbest : best_value_of64 rng best)
       by (exists i, fastest; auto));
    eexists; eexists; (split; [reflexivity |]); (split; [reflexivity |]);
    (split; [reflexivity |]); (split; [| exact Hbest]);
    unfold correlation_of64;
    cbn [corr_parameter_name lap_time_correlation balance_correlation
         tire_wear_correlation parameter_value sample_count confidence
         suggested_direction suggested_change];
    fold correlation;
    (split; [exact Hn |]); (split; [exact Hlast |]);
    (split; [reflexivity |]); (split; [reflexivity |]);
    (split; [reflexivity |]); (split; [reflexivity |]).
  - left. auto.
  - right. left. auto.
  - right. right. auto.
Qed.

(** The ranges as [analyze_correlations] leaves them when it returns: each
    one is the range it was, with [optimal_value] assigned where a
    correlation was reported. *)
Definition range_after64 (cs : list SetupCorrelation)
    (item item' : string * ParameterRange) : Prop :=
  fst item' = fst item
  /\ (snd item' = snd item
      \/ exists best i fastest c,
           snd item' = with_optimal_value (snd item) best
           /\ min_list (lap_times (snd item)) = Some fastest
           /\ index (lap_times (snd item)) fastest = Some i
           /\ nth_error (values (snd item)) i = Some best
           /\ In c cs /\ corr_parameter_name c = fst item).

Lemma range_after64_more (cs cs' : list SetupCorrelation)
    (items items' : list (string * ParameterRange)) :
  (forall c, In c cs -> In c cs') ->
  Forall2 (range_after64 cs) items items' ->
  Forall2 (range_after64 cs') items items'.
Proof.
  intros Hsub H. induction H as [| x y l l' Hxy _ IH]; constructor; trivial.
  destruct Hxy as [Hk [Hsame | [best [i [f [c [H1 [H2 [H3 [H4 [H5 H6]]]]]]]]]]];
    (split; [exact Hk |]); [now left | right].
  exists best, i, f, c. auto 10.
Qed.

Lemma range_after64_refl (cs : list SetupCorrelation)
    (items : list (string * ParameterRange)) :
  Forall2 (range_after64 cs) items items.
Proof.
  induction items; constructor; trivial. split; [reflexivity | now left].
Qed.

(** The loop of [analyze_correlations], when it returns. *)
Lemma correlate_items_fields64 (items : list (string * ParameterRange)) :
  forall items' cs,
    correlate_items log2 items = py.Ok (items', cs) ->
    Forall2 (range_after64 cs) items items'
    /\ (forall c, In c cs ->
          exists rng, In (corr_parameter_name c, rng) items
                      /\ correlation_of64 rng c)
    /\ (NoDup (map fst items) -> NoDup (map corr_parameter_name cs))
    /\ (length cs <= length items)%nat.
Proof.
  induction items as [| [name rng] t IH]; intros items' cs;
    cbn [correlate_items].
  - intros [= <- <-]. split; [constructor |].
    split; [intros c [] |]. split; [constructor | cbn; lia].
  - assert (Hstep : forall rest' cs0,
              correlate_items log2 t = py.Ok (rest', cs0) ->
              Forall2 (range_after64 cs0) ((name, rng) :: t)
                ((name, rng) :: rest')
              /\ (forall c, In c cs0 ->
                    exists rng0,
                      In (corr_parameter_name c, rng0) ((name, rng) :: t)
                      /\ correlation_of64 rng0 c)
              /\ (NoDup (map fst ((name, rng) :: t)) ->
                  NoDup (map corr_parameter_name cs0))
              /\ (length cs0 <= length ((name, rng) :: t))%nat).
    { intros rest' cs0 Hrest.
      destruct (IH rest' cs0 Hrest) as [H1 [H2 [H3 H4]]].
      split; [constructor; [split; [reflexivity | now left] | exact H1] |].
      split; [| split].
      - intros c Hc. destruct (H2 c Hc) as [rng0 [Hin H]].
        exists rng0. split; [now right | exact H].
      - cbn [map]. intros H. apply NoDup_cons_iff in H. now apply H3.
      - cbn [length]. lia. }
    destruct (length (values rng) <? 2)%nat.
    + destruct (correlate_items log2 t) as [[rest' cs0] | e] eqn:Hrest;
        cbn [py.bind]; [| discriminate].
      intros [= <- <-]. now apply Hstep.
    + destruct (_calculate_parameter_correlation log2 name rng)
        as [[rng' o] | e] eqn:Hcalc; cbn [py.bind]; [| discriminate].
      destruct (correlate_items log2 t) as [[rest' cs0] | e] eqn:Hrest;
        cbn [py.bind]; [| discriminate].
      intros [= <- <-].
      destruct (Hstep rest' cs0 eq_refl) as [H1 [H2 [H3 H4]]].
      destruct (IH rest' cs0 eq_refl) as [H1' [H2' [_ H4']]].
      destruct (calculate_parameter_correlation_fields64 name rng rng' o Hcalc)
        as [[-> ->] | [c [best [-> [-> [Hname [Hc Hbest]]]]]]].
      * auto.
      * split; [| split; [| split]].
        -- constructor.
           ++ split; [reflexivity | right].
              destruct Hbest as [i [f [Hf [Hi Hnth]]]].
              exists best, i, f, c. cbn [fst snd].
              repeat split; trivial. now left.
           ++ apply (range_after64_more cs0); trivial.
              intros c' Hc'. now right.
        -- intros c' [<- | Hc']; [| now apply H2].
           exists rng. rewrite Hname. split; [now left | exact Hc].
        -- cbn [map fst]. intros H. apply NoDup_cons_iff in H.
           destruct H as [Hnotin Hnd].
           constructor; [| apply H3; cbn [map fst]; now constructor].
           rewrite Hname. intros Hin. apply Hnotin.
           apply in_map_iff in Hin. destruct Hin as [c' [Hc'name Hc'in]].
           destruct (H2' c' Hc'in) as [rng0 [Hin0 _]].
           apply in_map_iff. exists (corr_parameter_name c', rng0).
           split; [exact Hc'name | exact Hin0].
        -- cbn [length]. lia.
Qed.

(** The order that [correlations.sort(key=lambda c: c.confidence,
    reverse=True)] establishes: no correlation has a lower confidence than
    one that comes after it. *)
Definition by_confidence64 (c1 c2 : SetupCorrelation) : Prop :=
  PrimFloat.ltb (confidence c1) (confidence c2) = false.

Lemma sort_by_confidence64_sorted (l : list SetupCorrelation) :
  Forall (fun c => capped (confidence c)) l ->
  StronglySorted by_confidence64 (sort_by_confidence l).
Proof.
  intros H. unfold sort_by_confidence.
  apply sorted_sorted_on with (P := fun c => capped (confidence c));
    unfold by_confidence64; trivial.
  - intros a b c Hb Hab Hbc.
    apply ltb_negtrans with (confidence b); trivial.
    now apply capped_number.
  - intros y x Hyx. now apply ltb_asym.
Qed.

Lemma correlation_capped (rng : ParameterRange) (c : SetupCorrelation) :
  correlation_of64 rng c -> capped (confidence c).
Proof.
  intros [_ [_ [_ [_ [_ [-> _]]]]]]. apply min_100_capped.
Qed.

(** What [analyze_correlations] returns, when it returns, on a correlator
    built by any sequence of [add_session] calls. *)
Lemma analyze_correlations_fields64
    (calls : list (list (string * float) * float))
    (self' : SetupCorrelator) (cs : list SetupCorrelation) :
  Forall (fun call => NoDup (py.keys (fst call))) calls ->
  analyze_correlations log2 (after_sessions calls) = py.Ok (self', cs) ->
  sessions self' = sessions (after_sessions calls)
  /\ Forall2 (range_after64 cs) (parameter_ranges (after_sessions calls))
       (parameter_ranges self')
  /\ (forall c, In c cs ->
        exists rng,
          In (corr_parameter_name c, rng)
             (parameter_ranges (after_sessions calls))
          /\ correlation_of64 rng c
          /\ length (values rng)
             = appearances64 (corr_parameter_name c) calls)
  /\ NoDup (map corr_parameter_name cs)
  /\ StronglySorted by_confidence64 cs
  /\ (length cs <= length (parameter_ranges (after_sessions calls)))%nat
  /\ ((length calls < 2)%nat -> cs = [] /\ self' = after_sessions calls).
Proof.
  intros Hcalls.
  destruct (after_sessions_invariant64 calls Hcalls)
    as [Hnd [Hok [Hlen Hcount]]].
  set (self := after_sessions calls) in *.
  unfold analyze_correlations. rewrite Hlen.
  destruct (length calls <? 2)%nat eqn:Hfew.
  - intros [= <- <-]. split; [reflexivity |].
    split; [apply range_after64_refl |]. split; [intros c [] |].
    split; [constructor |]. split; [constructor |].
    split; [cbn [length]; lia | auto].
  - apply Nat.ltb_ge in Hfew.
    destruct (correlate_items log2 (parameter_ranges self))
      as [[ranges cs0] | e] eqn:Hrun; cbn [py.bind]; [| discriminate].
    intros [= <- <-]. cbn [sessions parameter_ranges].
    destruct (correlate_items_fields64 _ _ _ Hrun) as [H1 [H2 [H3 H4]]].
    fold (sort_by_confidence cs0).
    assert (Hin : forall c, In c (sort_by_confidence cs0) <-> In c cs0)
      by (intros c; unfold sort_by_confidence; apply sorted_In).
    split; [reflexivity |]. split.
    { apply (range_after64_more cs0); trivial. intros c. apply Hin. }
    split.
    { intros c Hc. apply Hin in Hc. destruct (H2 c Hc) as [rng [Hr Hc']].
      exists rng. split; [trivial |]. split; [trivial |].
      apply (In_dict_get String.eqb String.eqb_eq) in Hr; trivial.
      rewrite <- Hcount. unfold recorded_count64. now rewrite Hr. }
    split.
    { apply Permutation_NoDup with (map corr_parameter_name cs0).
      - apply Permutation_map, Permutation_sym.
        unfold sort_by_confidence. apply sorted_perm.
      - apply H3. exact Hnd. }
    split.
    { apply sort_by_confidence64_sorted. apply Forall_forall.
      intros c Hc. destruct (H2 c Hc) as [rng [_ Hc']].
      now apply correlation_capped with rng. }
    split.
    { unfold sort_by_confidence. rewrite sorted_length. exact H4. }
    intros Hlt. lia.
Qed.
End Binary64Correlations.

Section Binary64Returns.
Import PrimFloat binary64 binary64_reports.
Local Open Scope string_scope.
Local Open Scope list_scope.
Local Open Scope float_scope.
Local Set Warnings "-inexact-float".

Variable log2 : float -> float.

(** X24.  Whenever [analyze_correlations] returns on a correlator built by
    [add_session] calls (on binary64 numbers it can also raise), every
    correlation it returns has a sample count of at least two that is the
    number of the sessions whose setup had the parameter, a confidence that
    is 100 or a number below 100 (never NaN), zero balance and tire-wear
    coefficients, the most recent value of the parameter as its current
    value, and the direction "optimal" with no change, "increase" for a
    negative coefficient or "decrease"; with fewer than two sessions the
    call returns the empty list and leaves the correlator as it is. *)
Theorem returned_correlations_counts
    (calls : list (list (string * float) * float))
    (self' : SetupCorrelator) (cs : list SetupCorrelation) :
  Forall (fun call => NoDup (py.keys (fst call))) calls ->
  analyze_correlations log2 (after_sessions calls) = py.Ok (self', cs) ->
  Forall
    (fun c =>
       (2 <= sample_count c <= length calls)%nat
       /\ sample_count c = appearances64 (corr_parameter_name c) calls
       /\ capped (confidence c)
       /\ balance_correlation c = 0
       /\ tire_wear_correlation c = 0
       /\ (exists rng,
             In (corr_parameter_name c, rng)
                (parameter_ranges (after_sessions calls))
             /\ py.last_opt (values rng) = Some (parameter_value c))
       /\ ((suggested_direction c = "optimal" /\ suggested_change c = 0
            /\ PrimFloat.ltb (abs (lap_time_correlation c)) 0.3 = true)
           \/ (suggested_direction c = "increase"
               /\ PrimFloat.ltb (lap_time_correlation c) 0 = true)
           \/ (suggested_direction c = "decrease"
               /\ PrimFloat.ltb (lap_time_correlation c) 0 = false)))
    cs
  /\ ((length calls < 2)%nat ->
      analyze_correlations log2 (after_sessions calls)
      = py.Ok (after_sessions calls, [])).
Proof.
  intros Hcalls Hrun.
  destruct (analyze_correlations_fields64 log2 calls self' cs Hcalls Hrun)
    as [_ [_ [Hcs [_ [_ [_ Hfew]]]]]].
  split.
  - apply Forall_forall. intros c Hc.
    destruct (Hcs c Hc) as [rng [Hin [Hof Happ]]].
    pose proof (correlation_capped log2 rng c Hof) as Hcap.
    destruct Hof as [Hn [Hlast [Hcount [Hb [Ht [_ Hdir]]]]]].
    rewrite Hcount, <- Happ.
    split; [split; [exact Hn |] |].
    { rewrite Happ. apply appearances64_le. }
    split; [reflexivity |]. split; [exact Hcap |].
    split; [exact Hb |]. split; [exact Ht |].
    split; [exists rng; auto |].
    destruct Hdir as [[H1 [H2 H3]] | [[H1 [H2 [H3 H4]]] | [H1 [H2 [H3 H4]]]]];
      auto.
  - intros Hlt. destruct (Hfew Hlt) as [-> ->]. exact Hrun.
Qed.

(** X25.  Whenever [analyze_correlations] returns on a correlator built by
    [add_session] calls, the list is in descending order of confidence (no
    correlation has a lower confidence than one that comes after it), names
    each parameter at most once, names only recorded parameters, and is no
    longer than the dict of ranges. *)
Theorem returned_correlations_order
    (calls : list (list (string * float) * float))
    (self' : SetupCorrelator) (cs : list SetupCorrelation) :
  Forall (fun call => NoDup (py.keys (fst call))) calls ->
  analyze_correlations log2 (after_sessions calls) = py.Ok (self', cs) ->
  StronglySorted by_confidence64 cs
  /\ NoDup (map corr_parameter_name cs)
  /\ incl (map corr_parameter_name cs)
       (py.keys (parameter_ranges (after_sessions calls)))
  /\ (length cs <= length (parameter_ranges (after_sessions calls)))%nat.
Proof.
  intros Hcalls Hrun.
  destruct (analyze_correlations_fields64 log2 calls self' cs Hcalls Hrun)
    as [_ [_ [Hcs [Hnd [Hsorted [Hlen _]]]]]].
  split; [exact Hsorted |]. split; [exact Hnd |]. split; [| exact Hlen].
  intros name Hname. apply in_map_iff in Hname.
  destruct Hname as [c [<- Hc]].
  destruct (Hcs c Hc) as [rng [Hin _]].
  apply in_map_iff. exists (corr_parameter_name c, rng). auto.
Qed.

(** X26.  Whenever [analyze_correlations] returns, on any correlator, it
    has changed nothing of the correlator but the [optimal_value] of the
    ranges for which it reports a correlation: that is then the value
    recorded with the best lap time, at the first position of that lap time
    among the lap times of the range. *)
Theorem returned_optimal_values (self self' : SetupCorrelator)
    (cs : list SetupCorrelation) :
  analyze_correlations log2 self = py.Ok (self', cs) ->
  sessions self' = sessions self
  /\ Forall2 (range_after64 cs) (parameter_ranges self)
       (parameter_ranges self').
Proof.
  unfold analyze_correlations.
  destruct (length (sessions self) <? 2)%nat.
  - intros [= <- <-]. split; [reflexivity | apply range_after64_refl].
  - destruct (correlate_items log2 (parameter_ranges self))
      as [[ranges cs0] | e] eqn:Hrun; cbn [py.bind]; [| discriminate].
    intros [= <- <-]. cbn [sessions parameter_ranges].
    split; [reflexivity |].
    destruct (correlate_items_fields64 log2 _ _ _ Hrun) as [H1 _].
    apply (range_after64_more cs0); trivial.
    intros c Hc. now apply sorted_In.
Qed.

(** The entry of the suggestions dict for a correlation. *)
Definition suggestion_of64 (c : SetupCorrelation) : string * Suggestion :=
  (corr_parameter_name c,
   {| sg_current_value := parameter_value c;
      sg_suggested_direction := suggested_direction c;
      sg_suggested_change := suggested_change c;
      sg_confidence := confidence c;
      lap_time_impact := lap_time_correlation c |}).

(** [not (corr.confidence < 50)] *)
Definition confident64 (c : SetupCorrelation) : bool :=
  negb (PrimFloat.ltb (confidence c) 50).

Lemma dict_set_absent64 (V : Type) (d : list (string * V)) (k : string)
    (v : V) :
  ~ In k (py.keys d) -> py.dict_set String.eqb d k v = d ++ [(k, v)].
Proof.
  induction d as [| [k' v'] t IH]; cbn [py.dict_set py.keys map fst In app];
    intros H; trivial.
  destruct (String.eqb k k') eqn:E.
  - apply String.eqb_eq in E. subst k'. tauto.
  - rewrite IH; [reflexivity |]. unfold py.keys. tauto.
Qed.

(** Over correlations with distinct names the dict is filled in order,
    without overwriting. *)
Lemma suggest_fold64 (cs : list SetupCorrelation) :
  forall acc : list (string * Suggestion),
    NoDup (map corr_parameter_name cs) ->
    (forall c, In c cs -> ~ In (corr_parameter_name c) (py.keys acc)) ->
    fold_left suggest cs acc
    = acc ++ map suggestion_of64 (filter confident64 cs).
Proof.
  induction cs as [| c t IH]; intros acc Hnd Hfresh;
    cbn [fold_left filter map].
  - now rewrite app_nil_r.
  - cbn [map] in Hnd. apply NoDup_cons_iff in Hnd. destruct Hnd as [Hc Ht].
    unfold suggest at 2. unfold confident64 at 1.
    destruct (PrimFloat.ltb (confidence c) 50); cbn [negb].
    + apply IH; trivial. intros c' Hc'. apply Hfresh. now right.
    + rewrite dict_set_absent64 by (apply Hfresh; now left).
      rewrite IH; trivial.
      * cbn [map]. rewrite <- app_assoc. reflexivity.
      * intros c' Hc'. unfold py.keys. rewrite map_app, in_app_iff.
        cbn [map fst In]. intros [H | [H | []]].
        -- apply (Hfresh c'); [now right | exact H].
        -- apply Hc. rewrite H. now apply in_map.
Qed.

Lemma suggestion_keys_NoDup64 (cs : list SetupCorrelation) :
  NoDup (map corr_parameter_name cs) ->
  NoDup (py.keys (map suggestion_of64 (filter confident64 cs))).
Proof.
  unfold py.keys. rewrite map_map. cbn [suggestion_of64 fst].
  induction cs as [| c t IH]; cbn [filter map]; intros Hnd; [constructor |].
  apply NoDup_cons_iff in Hnd. destruct Hnd as [Hc Ht].
  destruct (confident64 c); cbn [map]; [| now apply IH].
  constructor; [| now apply IH].
  intros Hin. apply Hc. apply in_map_iff in Hin.
  destruct Hin as [c' [Hname Hc']]. apply filter_In in Hc'.
  apply in_map_iff. exists c'. tauto.
Qed.

(** X27.  Whenever [analyze_correlations] returns on a correlator built by
    [add_session] calls, [get_optimal_setup_suggestions] returns too, and
    its dict holds exactly the returned correlations whose confidence is
    not below 50, one entry per parameter, in the order of the list
    (descending confidence) and with the fields of the correlation; the
    confidence of an entry is 100 or a number from 50 to 100. *)
Theorem returned_setup_suggestions
    (calls : list (list (string * float) * float))
    (self' : SetupCorrelator) (cs : list SetupCorrelation) :
  Forall (fun call => NoDup (py.keys (fst call))) calls ->
  analyze_correlations log2 (after_sessions calls) = py.Ok (self', cs) ->
  get_optimal_setup_suggestions log2 (after_sessions calls)
  = py.Ok (self', map suggestion_of64 (filter confident64 cs))
  /\ NoDup (py.keys (map suggestion_of64 (filter confident64 cs)))
  /\ Forall
       (fun entry =>
          PrimFloat.ltb (sg_confidence (snd entry)) 50 = false
          /\ capped (sg_confidence (snd entry)))
       (map suggestion_of64 (filter confident64 cs)).
Proof.
  intros Hcalls Hrun.
  destruct (analyze_correlations_fields64 log2 calls self' cs Hcalls Hrun)
    as [_ [_ [Hcs [Hnd _]]]].
  split; [| split].
  - unfold get_optimal_setup_suggestions. rewrite Hrun. cbn [py.bind].
    rewrite suggest_fold64; [reflexivity | exact Hnd | intros c _ []].
  - now apply suggestion_keys_NoDup64.
  - apply Forall_forall. intros entry Hentry.
    apply in_map_iff in Hentry. destruct Hentry as [c [<- Hc]].
    apply filter_In in Hc. destruct Hc as [Hc Hconf].
    cbn [suggestion_of64 snd sg_confidence].
    destruct (Hcs c Hc) as [rng [_ [Hof _]]].
    split; [| now apply (correlation_capped log2 rng)].
    unfold confident64 in Hconf.
    now destruct (PrimFloat.ltb (confidence c) 50).
Qed.
End Binary64Returns.

Section Binary64Behavior.
Import PrimFloat binary64 binary64_reports.
Local Open Scope string_scope.
Local Open Scope list_scope.
Local Open Scope float_scope.
Local Set Warnings "-inexact-float".

Variable log2 : float -> float.

(** A correlation as [_calculate_behavior_correlation] builds it from the
    values [xs] of a parameter and the values [ys] of a metric. *)
Definition behavior_correlation_of64 (name : string) (xs ys : list float)
    (c : SetupCorrelation) : Prop :=
  length xs = length ys
  /\ (2 <= length xs)%nat
  /\ corr_parameter_name c = name
  /\ py.last_opt xs = Some (parameter_value c)
  /\ lap_time_correlation c = 0
  /\ tire_wear_correlation c = 0
  /\ capped (confidence c)
  /\ PrimFloat.ltb (confidence c) 30 = false
  /\ sample_count c = length xs
  /\ suggested_change c = 0
  /\ ((PrimFloat.ltb (balance_correlation c) 0 = true
       /\ suggested_direction c = "increase")
      \/ (PrimFloat.ltb (balance_correlation c) 0 = false
          /\ suggested_direction c = "decrease")).

(** What [_calculate_behavior_correlation] returns when it returns. *)
Lemma calculate_behavior_correlation_fields64 (name : string)
    (xs ys : list float) (c : SetupCorrelation) :
  _calculate_behavior_correlation log2 name xs ys = py.Ok (Some c) ->
  behavior_correlation_of64 name xs ys c.
Proof.
  unfold _calculate_behavior_correlation.
  destruct (length xs =? length ys)%nat eqn:Hlen; cbn [negb orb];
    [| discriminate].
  apply Nat.eqb_eq in Hlen.
  destruct (length xs <? 2)%nat eqn:Hn; [discriminate |].
  apply Nat.ltb_ge in Hn.
  match goal with
  | |- context [sqrt ?x] => destruct (sqrt x) as [denominator | e]
  end; cbn [py.bind]; [| discriminate].
  destruct (PrimFloat.eqb denominator 0); [discriminate |].
  set (correlation := _ / denominator).
  set (conf := min 100 _).
  destruct (PrimFloat.ltb conf 30) eqn:Hconf; [discriminate |].
  destruct (py.last_opt xs) as [current |] eqn:Hlast;
    cbn [py.bind py.or_raise]; [| discriminate].
  intros [= <-]. unfold behavior_correlation_of64.
  cbn [corr_parameter_name lap_time_correlation balance_correlation
       tire_wear_correlation parameter_value sample_count confidence
       suggested_direction suggested_change].
  split; [exact Hlen |]. split; [exact Hn |]. split; [reflexivity |].
  split; [exact Hlast |]. split; [reflexivity |]. split; [reflexivity |].
  split; [apply min_100_capped |]. split; [exact Hconf |].
  split; [reflexivity |]. split; [reflexivity |].
  destruct (PrimFloat.ltb correlation 0); [left | right]; auto.
Qed.

(** A correlation of one of the lists of [get_behavior_correlations]. *)
Definition behavior_entry64 (self : SetupCorrelator) (n : nat)
    (c : SetupCorrelation) : Prop :=
  exists rng ys,
    In (corr_parameter_name c, rng) (parameter_ranges self)
    /\ length ys = n
    /\ behavior_correlation_of64 (corr_parameter_name c) (values rng) ys c.

Lemma behavior_block_fields64 (self : SetupCorrelator)
    (stats : list BehaviorStatistics)
    (metric : BehaviorStatistics -> float) (name : string)
    (rng : ParameterRange) (c : SetupCorrelation) :
  In (name, rng) (parameter_ranges self) ->
  behavior_block log2 (map Some stats) metric name rng = py.Ok (Some c) ->
  behavior_entry64 self (length stats) c.
Proof.
  intros Hin. unfold behavior_block. cbv zeta.
  assert (Hvals : behavior_values metric (map Some stats) = map metric stats).
  { unfold behavior_values. induction stats as [| s t IH];
      cbn [map py.filter_map option_map]; [reflexivity | now rewrite IH]. }
  rewrite Hvals.
  destruct (map metric stats) as [| y ys] eqn:E; [discriminate |].
  intros H. apply calculate_behavior_correlation_fields64 in H.
  pose proof H as [_ [_ [Hname _]]].
  exists rng, (y :: ys). rewrite Hname. split; [exact Hin |].
  split; [rewrite <- E; apply length_map | exact H].
Qed.

Lemma append_opt_Forall64 (P : SetupCorrelation -> Prop)
    (l : list SetupCorrelation) (o : option SetupCorrelation) :
  Forall P l -> (forall c, o = Some c -> P c) -> Forall P (append_opt l o).
Proof.
  intros Hl Ho. destruct o as [c |]; cbn [append_opt]; trivial.
  apply Forall_app. split; trivial. constructor; [now apply Ho | constructor].
Qed.

(** The loop of [get_behavior_correlations], when it returns. *)
Lemma behavior_loop_fields64 (self : SetupCorrelator)
    (stats : list BehaviorStatistics)
    (items : list (string * ParameterRange)) :
  incl items (parameter_ranges self) ->
  forall results results' : Results,
    Forall (behavior_entry64 self (length stats)) (understeer results) ->
    Forall (behavior_entry64 self (length stats)) (oversteer results) ->
    Forall (behavior_entry64 self (length stats)) (traction results) ->
    behavior_loop log2 (map Some stats) items results = py.Ok results' ->
    Forall (behavior_entry64 self (length stats)) (understeer results')
    /\ Forall (behavior_entry64 self (length stats)) (oversteer results')
    /\ Forall (behavior_entry64 self (length stats)) (traction results')
    /\ tire_wear results' = tire_wear results.
Proof.
  induction items as [| [name rng] t IH]; intros Hincl results results'
    Hu Ho Ht; cbn [behavior_loop].
  - intros [= <-]. auto.
  - assert (Hin : In (name, rng) (parameter_ranges self))
      by (apply Hincl; now left).
    destruct (behavior_block log2 (map Some stats) understeer_tendency name
                rng) as [cu | e] eqn:Eu; cbn [py.bind]; [| discriminate].
    destruct (behavior_block log2 (map Some stats) oversteer_tendency name
                rng) as [co | e] eqn:Eo; cbn [py.bind]; [| discriminate].
    destruct (behavior_block log2 (map Some stats) traction_on_throttle name
                rng) as [ct | e] eqn:Et; cbn [py.bind]; [| discriminate].
    intros Hrun.
    apply IH in Hrun; cbn [understeer oversteer traction tire_wear] in *.
    + exact Hrun.
    + intros x Hx. apply Hincl. now right.
    + apply append_opt_Forall64; trivial. intros c ->.
      now apply (behavior_block_fields64 self stats understeer_tendency
                   name rng).
    + apply append_opt_Forall64; trivial. intros c ->.
      now apply (behavior_block_fields64 self stats oversteer_tendency
                   name rng).
    + apply append_opt_Forall64; trivial. intros c ->.
      now apply (behavior_block_fields64 self stats traction_on_throttle
                   name rng).
Qed.

(** What [get_behavior_correlations] says of a correlation, for [calls]
    sessions. *)
Definition behavior_reported (calls : list (list (string * float) * float))
    (c : SetupCorrelation) : Prop :=
  PrimFloat.ltb (confidence c) 30 = false
  /\ capped (confidence c)
  /\ ((PrimFloat.ltb (balance_correlation c) 0 = true
       /\ suggested_direction c = "increase")
      \/ (PrimFloat.ltb (balance_correlation c) 0 = false
          /\ suggested_direction c = "decrease"))
  /\ suggested_change c = 0
  /\ lap_time_correlation c = 0
  /\ sample_count c = length calls
  /\ appearances64 (corr_parameter_name c) calls = length calls.

(** X28.  Whenever [get_behavior_correlations] returns on a correlator
    built by [add_session] calls, each with its statistics: with fewer than
    two sessions the dict is empty; otherwise it has the four keys, the list
    of "tire_wear" is empty, the other lists are in descending order of
    confidence, and each of their correlations has a confidence that is not
    below 30 and is 100 or a number below 100, the direction "increase" for
    a negative balance coefficient and "decrease" otherwise, no suggested
    change, and belongs to a parameter that the setup of every session
    had. *)
Theorem returned_behavior_correlations
    (calls : list (list (string * float) * float))
    (stats : list BehaviorStatistics)
    (results : list (string * list SetupCorrelation)) :
  Forall (fun call => NoDup (py.keys (fst call))) calls ->
  length stats = length calls ->
  get_behavior_correlations log2 (after_sessions calls) (map Some stats)
  = py.Ok results ->
  ((length calls < 2)%nat -> results = [])
  /\ ((2 <= length calls)%nat ->
      exists u o t,
        results = [("understeer", u); ("oversteer", o); ("traction", t);
                   ("tire_wear", [])]
        /\ Forall (behavior_reported calls) u
        /\ Forall (behavior_reported calls) o
        /\ Forall (behavior_reported calls) t
        /\ StronglySorted by_confidence64 u
        /\ StronglySorted by_confidence64 o
        /\ StronglySorted by_confidence64 t).
Proof.
  intros Hcalls Hstats.
  destruct (after_sessions_invariant64 calls Hcalls)
    as [Hnd [Hok [Hlen Hcount]]].
  set (self := after_sessions calls) in *.
  unfold get_behavior_correlations. rewrite Hlen.
  destruct (length calls <? 2)%nat eqn:Hfew.
  { apply Nat.ltb_lt in Hfew. intros [= <-].
    split; [reflexivity | intros H; lia]. }
  apply Nat.ltb_ge in Hfew.
  destruct (behavior_loop log2 (map Some stats) (parameter_ranges self) _)
    as [res | e] eqn:Hloop; cbn [py.bind]; [| discriminate].
  intros [= <-]. split; [intros H; lia |]. intros _.
  destruct (behavior_loop_fields64 self stats (parameter_ranges self)
              (incl_refl _)
              {| understeer := []; oversteer := []; traction := [];
                 tire_wear := [] |} res
              (Forall_nil _) (Forall_nil _) (Forall_nil _) Hloop)
    as [Hu [Ho [Ht Hw]]].
  cbn [tire_wear] in Hw. rewrite Hw.
  exists (sort_by_confidence (understeer res)),
         (sort_by_confidence (oversteer res)),
         (sort_by_confidence (traction res)).
  split; [reflexivity |].
  assert (Hentry : forall c, behavior_entry64 self (length stats) c ->
            behavior_reported calls c /\ capped (confidence c)).
  { intros c [rng [ys [Hin [Hys H]]]].
    destruct H as [H1 [H2 [H3 [H4 [H5 [H6 [H7 [H8 [H9 [H10 H11]]]]]]]]]].
    apply (In_dict_get String.eqb String.eqb_eq) in Hin; trivial.
    assert (Hvals : length (values rng) = length calls) by lia.
    split; [| exact H7]. unfold behavior_reported.
    split; [exact H8 |]. split; [exact H7 |]. split; [exact H11 |].
    split; [exact H10 |]. split; [exact H5 |]. split; [lia |].
    rewrite <- Hcount. unfold recorded_count64. now rewrite Hin. }
  assert (Hall : forall l,
            Forall (behavior_entry64 self (length stats)) l ->
            Forall (behavior_reported calls) (sort_by_confidence l)
            /\ StronglySorted by_confidence64 (sort_by_confidence l)).
  { intros l Hl. rewrite Forall_forall in Hl. split.
    - apply Forall_forall. intros c Hc.
      unfold sort_by_confidence in Hc. apply sorted_In in Hc.
      now apply Hentry, Hl.
    - apply sort_by_confidence64_sorted. apply Forall_forall.
      intros c Hc. now apply Hentry, Hl. }
  destruct (Hall _ Hu) as [Hu1 Hu2]. destruct (Hall _ Ho) as [Ho1 Ho2].
  destruct (Hall _ Ht) as [Ht1 Ht2]. auto 10.
Qed.
End Binary64Behavior.

Section Binary64Runs.
Import PrimFloat binary64 binary64_reports.
Local Open Scope string_scope.
Local Open Scope list_scope.
Local Open Scope float_scope.
Local Set Warnings "-inexact-float".

(** [math.log2] at the two arguments of the runs below: [log2(4.0)] is 2.0
    and [log2(3.0)] is 1.584962500721156. *)
Definition log2_of_3_and_4 (x : float) : float :=
  if PrimFloat.eqb x 4 then 2 else 0x1.95c01a39fbd68p+0.

(** Three sessions: the brake bias goes up as the lap time goes down, the
    brake pressure stays, the rear wing goes up and down, and the front
    wing is in the last two setups only. *)
Definition three_calls : list (list (string * float) * float) :=
  [([("brake_bias", 55); ("brake_pressure", 100); ("rear_wing", 4)], 92);
   ([("brake_bias", 56); ("brake_pressure", 100); ("rear_wing", 6);
     ("front_wing", 3)], 91);
   ([("brake_bias", 57); ("brake_pressure", 100); ("rear_wing", 4);
     ("front_wing", 5)], 90)].

(** What [analyze_correlations] returns after them. *)
Definition three_calls_run : SetupCorrelator * list SetupCorrelation :=
  match analyze_correlations log2_of_3_and_4 (after_sessions three_calls) with
  | py.Ok r => r
  | py.Raise _ => (__init__, [])
  end.

(** The statistics of the three sessions. *)
Definition three_statistics : list BehaviorStatistics :=
  [{| understeer_tendency := 30; oversteer_tendency := 5;
      traction_on_throttle := 10 |};
   {| understeer_tendency := 20; oversteer_tendency := 5;
      traction_on_throttle := 12 |};
   {| understeer_tendency := 10; oversteer_tendency := 5;
      traction_on_throttle := 11 |}].

Definition three_calls_behavior : list (string * list SetupCorrelation) :=
  match get_behavior_correlations log2_of_3_and_4 (after_sessions three_calls)
          (map Some three_statistics) with
  | py.Ok r => r
  | py.Raise _ => []
  end.

Ltac no_key_twice :=
  repeat (apply Forall_cons;
          [repeat (apply NoDup_cons;
                   [cbn; intuition discriminate |]); apply NoDup_nil |]);
  apply Forall_nil.

Example three_calls_correlations :
  map (fun c => (corr_parameter_name c, sample_count c, confidence c,
                 suggested_direction c))
    (snd three_calls_run)
  = [("brake_bias", 3%nat, 100, "increase");
     ("front_wing", 2%nat, 100, "increase");
     ("rear_wing", 3%nat, 0, "optimal")].
Proof. vm_compute. reflexivity. Qed.

Lemma returned_correlations_counts_witness :
  Forall
    (fun c =>
       (2 <= sample_count c <= length three_calls)%nat
       /\ sample_count c = appearances64 (corr_parameter_name c) three_calls
       /\ capped (confidence c)
       /\ balance_correlation c = 0
       /\ tire_wear_correlation c = 0
       /\ (exists rng,
             In (corr_parameter_name c, rng)
                (parameter_ranges (after_sessions three_calls))
             /\ py.last_opt (values rng) = Some (parameter_value c))
       /\ ((suggested_direction c = "optimal" /\ suggested_change c = 0
            /\ PrimFloat.ltb (abs (lap_time_correlation c)) 0.3 = true)
           \/ (suggested_direction c = "increase"
               /\ PrimFloat.ltb (lap_time_correlation c) 0 = true)
           \/ (suggested_direction c = "decrease"
               /\ PrimFloat.ltb (lap_time_correlation c) 0 = false)))
    (snd three_calls_run)
  /\ ((length three_calls < 2)%nat ->
      analyze_correlations log2_of_3_and_4 (after_sessions three_calls)
      = py.Ok (after_sessions three_calls, [])).
Proof.
  apply (returned_correlations_counts log2_of_3_and_4 three_calls
           (fst three_calls_run) (snd three_calls_run)).
  - no_key_twice.
  - vm_compute. reflexivity.
Defined.

Lemma returned_correlations_order_witness :
  StronglySorted by_confidence64 (snd three_calls_run)
  /\ NoDup (map corr_parameter_name (snd three_calls_run))
  /\ incl (map corr_parameter_name (snd three_calls_run))
       (py.keys (parameter_ranges (after_sessions three_calls)))
  /\ (length (snd three_calls_run)
      <= length (parameter_ranges (after_sessions three_calls)))%nat.
Proof.
  apply (returned_correlations_order log2_of_3_and_4 three_calls
           (fst three_calls_run) (snd three_calls_run)).
  - no_key_twice.
  - vm_compute. reflexivity.
Defined.

Lemma returned_optimal_values_witness :
  sessions (fst three_calls_run) = sessions (after_sessions three_calls)
  /\ Forall2 (range_after64 (snd three_calls_run))
       (parameter_ranges (after_sessions three_calls))
       (parameter_ranges (fst three_calls_run)).
Proof.
  apply (returned_optimal_values log2_of_3_and_4 (after_sessions three_calls)
           (fst three_calls_run) (snd three_calls_run)).
  vm_compute. reflexivity.
Defined.

Example three_calls_optimal_values :
  map (fun item => (fst item, optimal_value (snd item)))
    (parameter_ranges (fst three_calls_run))
  = [("brake_bias", Some 57); ("brake_pressure", None);
     ("rear_wing", Some 4); ("front_wing", Some 5)].
Proof. vm_compute. reflexivity. Qed.

Lemma returned_setup_suggestions_witness :
  get_optimal_setup_suggestions log2_of_3_and_4 (after_sessions three_calls)
  = py.Ok (fst three_calls_run,
           map suggestion_of64 (filter confident64 (snd three_calls_run)))
  /\ NoDup (py.keys (map suggestion_of64
                       (filter confident64 (snd three_calls_run))))
  /\ Forall
       (fun entry =>
          PrimFloat.ltb (sg_confidence (snd entry)) 50 = false
          /\ capped (sg_confidence (snd entry)))
       (map suggestion_of64 (filter confident64 (snd three_calls_run))).
Proof.
  apply (returned_setup_suggestions log2_of_3_and_4 three_calls
           (fst three_calls_run) (snd three_calls_run)).
  - no_key_twice.
  - vm_compute. reflexivity.
Defined.

Example three_calls_suggestions :
  py.keys (map suggestion_of64 (filter confident64 (snd three_calls_run)))
  = ["brake_bias"; "front_wing"].
Proof. vm_compute. reflexivity. Qed.

Lemma returned_behavior_correlations_witness :
  ((length three_calls < 2)%nat -> three_calls_behavior = [])
  /\ ((2 <= length three_calls)%nat ->
      exists u o t,
        three_calls_behavior
        = [("understeer", u); ("oversteer", o); ("traction", t);
           ("tire_wear", [])]
        /\ Forall (behavior_reported three_calls) u
        /\ Forall (behavior_reported three_calls) o
        /\ Forall (behavior_reported three_calls) t
        /\ StronglySorted by_confidence64 u
        /\ StronglySorted by_confidence64 o
        /\ StronglySorted by_confidence64 t).
Proof.
  apply (returned_behavior_correlations log2_of_3_and_4 three_calls
           three_statistics three_calls_behavior).
  - no_key_twice.
  - reflexivity.
  - vm_compute. reflexivity.
Defined.

Example three_calls_behavior_names :
  map (fun entry => (fst entry, map corr_parameter_name (snd entry)))
    three_calls_behavior
  = [("understeer", ["brake_bias"]); ("oversteer", []);
     ("traction", ["brake_bias"; "rear_wing"]); ("tire_wear", [])].
Proof. vm_compute. reflexivity. Qed.
End Binary64Runs.
